(* ===== verification/_CoqProject ===== *)
-Q . S2P
Prelude.v
Headers.v
Kernel.v
Sim.v
Debug.v
Checksum.v
MicroStack.v
Optimizations.v
Security.v
ResponseSender.v
PacketProcessor.v
ControlInterface.v
Nanonet.v
System.v
ControlTool.v
PacketGenerator.v
