(* ===== verification/Prelude.v ===== *)
(** * NanoNet-ULL: a verification library for the NanoNet kernel module

    NanoNet is a Linux kernel module that answers trading messages inside a
    netfilter hook, with two user-space tools. This library translates its C
    code into Rocq functions and proves what the code does.

    ** The program and its model

    A packet enters [nanonet_hook] (src/nanonet.c). The hook parses the frame
    (src/micro_stack.c), validates it and tracks TCP connections
    (src/security.c), hands the payload to the trading logic
    (src/packet_processor.c), which answers through src/response_sender.c with
    a buffer from the pool of src/optimizations.c. The user drives the module
    through /dev/nanonet, /proc/nanonet (src/control_interface.c) and debugfs
    (src/debug.c), normally with tools/nanonet_control.c;
    tools/packet_generator.c makes test traffic.

    - [Prelude]: C integers as [Z] with their wrap-around, byte order,
      little-endian loads, printing, the shared lemmas and the tactics.
    - [Headers]: the structures of include/nanonet.h and of the .c files, their
      byte layout, the initial values of the globals.
    - [Kernel]: the kernel as an interface ([KernelEnv], [KernelLaws] for
      clock, rate limiter, allocator, devices, transmission, user copies and
      registration; [SkbOps], [SkbLaws] for socket buffers), the state
      [kstate] (the module's globals, what the kernel holds for it, the bytes it
      has written to user memory), and the
      state-and-crash monad [M] with the lemmas that run it. Reading
      outside a buffer, a NULL dereference, a use after free, a double free, an
      overrun of a socket buffer and a division by zero are crashes.
    - [Sim]: executable instances of these interfaces for the witnesses.
    - [Debug]: src/debug.c; the relations [logged] and [frame], which say what
      a call leaves alone.
    - [Checksum], [MicroStack]: src/micro_stack.c.
    - [Optimizations]: the second parser, the response pool and the raw send of
      src/optimizations.c.
    - [Security]: src/security.c. The hash table is a list of 1024 chains; a
      connection object carries its allocation address.
    - [ResponseSender]: src/response_sender.c.
    - [PacketProcessor]: src/packet_processor.c.
    - [ControlInterface]: src/control_interface.c.
    - [Nanonet]: src/nanonet.c: hook, load and unload.
    - [System]: the loaded module as a transition system over packets and
      ioctls, and the memory accesses of hook and reset interleaved.
    - [ControlTool], [PacketGenerator]: tools/. The control tool runs against
      the model of the module.

    ** What is proved

    - Safety of the whole: provided packets lie in their buffers ([in_bounds]:
      the packet is linear, IHL and, for UDP with a checksum, the UDP length stay
      inside) and the queueing discipline accepts frames ([XmitAccepts]), every
      reachable state satisfies the invariant of pool, connection table and
      registrations, and no event crashes the module ([System.reachable_safe],
      [Nanonet.hook_correct]). Both provisos are needed: [MicroStack.parse_ihl_overread] and
      [ResponseSender.send_response_double_free] show what happens without.
    - Function: the exact frame a response puts on the wire and its checksum,
      the order made from a message, the UDP filter, the effect of every ioctl
      down to the bytes copied to and from the user, the round trip of a
      configuration through set and get, the decision of the configuration check,
      what the parser returns, the tool's [stats] command.
    - Refinement and equivalence: connection tracking is a finite map keyed by
      the four-tuple; the checksum loop is RFC 1071 on even lengths; the two
      parsers agree.
    - Errors: load and pool initialisation are all or nothing at every failing
      step (with the one gap that debugfs reporting an [ERR_PTR] goes unnoticed);
      refused sends change nothing.
    - Accounting: the processed counter counts stolen packets, the active
      counter counts table entries, the average time is between minimum and
      maximum.
    - Divergences the model makes precise: correct packets are rejected by the
      checksum comparison, the Ethernet offset does not fit the hook point, the
      byte order of the length test, the 255 usable pool buffers, the references
      and objects left after unload, the race of a reset with the hook, the
      size mismatch that keeps the tool from configuring the module, the
      generator's prices that trigger no order.

    ** Bounds and conventions

    - The byte order is little-endian (the module is built with -march=native
      for x86-64) and structures have the x86-64 layout. A [bool] of the
      configuration is its byte, any non-zero value being true; the structure's
      padding is not modelled (written as zero).
    - Loops are structural: over the 256 pool slots, the 1024 buckets, a chain,
      the words of a buffer. Fuel appears in [fold_carry] (2 rounds: the
      first brings any 32-bit sum below 2^17, the second below 2^16; proved in
      [Checksum]) and in the decimal and hexadecimal
      printers (20 digits cover 2^64, 16 hexadecimal digits cover 2^64).
    - The kernel answers everything the module cannot predict from an abstract
      world; theorems hold for all answers unless a class ([XmitAccepts],
      [Cooperative]) states a restriction. [copy_from_user] may fault part-way
      and then zero-fills, as documented.
    - In src/micro_stack.c line 85 the code writes [udp_hdr->check] for a pointer
      to a pointer; the model reads [( *udp_hdr)->check], the only reading that
      compiles. src/debug.c uses [get_timestamp_ns], which is a static function of
      two other files; the model uses their common definition.

    ** What is not modelled

    Spinlocks and concurrency (operations are atomic, except for the accesses of
    the reset race); CPU affinity, the per-CPU ring buffer and statistics of
    src/optimizations.c lines 9-25 (never used by the module); prefetch hints;
    the ownership of the received packet after NF_STOLEN; standard error of the
    tools; the shell scripts, the documentation, the Python tests and the
    Makefile. *)

From stdpp Require Export base list gmap strings.
From Stdlib Require Export ZArith Lia.

Global Open Scope Z_scope.

(** ** Machine integers

    A C integer of width [w] is a [Z]; arithmetic is done in [Z] and the result
    is brought back to the width where the C expression does so. *)

Definition wrap (w x : Z) : Z := x mod 2 ^ w.

Abbreviation u8 := (wrap 8).
Abbreviation u16 := (wrap 16).
Abbreviation u32 := (wrap 32).
Abbreviation u64 := (wrap 64).

Definition swrap (w x : Z) : Z := (x + 2 ^ (w - 1)) mod 2 ^ w - 2 ^ (w - 1).

Abbreviation s32 := (swrap 32).
Abbreviation s64 := (swrap 64).

Definition in_width (w x : Z) : Prop := 0 <= x < 2 ^ w.

Abbreviation is_byte := (in_width 8).

(** Byte order: the host is little-endian (the build uses [-march=native] on
    x86), so [ntohs]/[htons] swap the two bytes of a 16-bit value and
    [ntohl]/[htonl] reverse the four bytes of a 32-bit value. *)

Definition bswap16 (x : Z) : Z :=
  Z.lor (Z.shiftl (Z.land x 0xff) 8) (Z.land (Z.shiftr x 8) 0xff).

Definition bswap32 (x : Z) : Z :=
  Z.lor (Z.lor (Z.shiftl (Z.land x 0xff) 24)
               (Z.shiftl (Z.land (Z.shiftr x 8) 0xff) 16))
        (Z.lor (Z.shiftl (Z.land (Z.shiftr x 16) 0xff) 8)
               (Z.land (Z.shiftr x 24) 0xff)).

Abbreviation ntohs := bswap16.
Abbreviation htons := bswap16.
Abbreviation ntohl := bswap32.
Abbreviation htonl := bswap32.

(** ** Byte buffers *)

Definition zlen {A} (l : list A) : Z := Z.of_nat (length l).

Fixpoint le_decode (bs : list Z) : Z :=
  match bs with
  | [] => 0
  | b :: rest => b + 256 * le_decode rest
  end.

Fixpoint le_encode (n : nat) (x : Z) : list Z :=
  match n with
  | O => []
  | S n' => x mod 256 :: le_encode n' (x / 256)
  end.

Definition be_encode (n : nat) (x : Z) : list Z := reverse (le_encode n x).

(** A read of [n] bytes at offset [off] of the buffer [m]; [None] is a read
    outside the buffer. *)
Definition load (n : nat) (m : list Z) (off : Z) : option Z :=
  if (0 <=? off) && (off + Z.of_nat n <=? zlen m)
  then Some (le_decode (take n (drop (Z.to_nat off) m)))
  else None.

Abbreviation load8 := (load 1).
Abbreviation load16 := (load 2).
Abbreviation load32 := (load 4).

(** [memcpy] out of a buffer: [n] bytes at offset [off]. *)
Definition load_bytes (n : Z) (m : list Z) (off : Z) : option (list Z) :=
  if (0 <=? off) && (0 <=? n) && (off + n <=? zlen m)
  then Some (take (Z.to_nat n) (drop (Z.to_nat off) m))
  else None.

#[global] Arguments wrap : simpl never.
#[global] Arguments swrap : simpl never.
#[global] Arguments load : simpl never.
#[global] Arguments bswap16 : simpl never.
#[global] Arguments bswap32 : simpl never.

(** ** C strings and formatted output

    A C string is the list of its bytes without the terminating NUL. *)

Definition str (s : string) : list Z :=
  (fun a => Z.of_N (Ascii.N_of_ascii a)) <$> String.list_ascii_of_string s.

Definition newline : list Z := [10].

(** [snprintf(dst, size, ...)] keeps at most [size - 1] bytes. *)
Definition snprintf (size : Z) (text : list Z) : list Z :=
  take (Z.to_nat (size - 1)) text.

(** Decimal digits. The fuel bounds the number of digits: 20 is enough for
    every unsigned 64-bit value. *)
Fixpoint dec_digits (fuel : nat) (n : Z) : list Z :=
  match fuel with
  | O => []
  | S f => if n <? 10 then [48 + n] else dec_digits f (n / 10) ++ [48 + n mod 10]
  end.

Definition fmt_u (n : Z) : list Z := dec_digits 20 n.
Definition fmt_d (n : Z) : list Z := if n <? 0 then 45 :: fmt_u (- n) else fmt_u n.

Fixpoint hex_digits (fuel : nat) (n : Z) : list Z :=
  match fuel with
  | O => []
  | S f =>
      let digit d := if d <? 10 then 48 + d else 87 + d in
      if n <? 16 then [digit n] else hex_digits f (n / 16) ++ [digit (n mod 16)]
  end.

Definition fmt_x (n : Z) : list Z := hex_digits 16 n.

(** ** Tactics and hint databases *)

Create HintDb nano.

(** Discharge a goal of linear arithmetic that mentions the machine-integer
    wrappers at literal widths. *)
Ltac width_lia :=
  unfold wrap, swrap, in_width in *;
  change (2 ^ 8) with 256 in *; change (2 ^ 16) with 65536 in *;
  change (2 ^ 32) with 4294967296 in *;
  change (2 ^ 64) with 18446744073709551616 in *;
  Z.div_mod_to_equations; lia.

(** Turn the boolean comparisons of the code into propositions. *)
Ltac breflect :=
  repeat match goal with
  | H : _ && _ = true |- _ => apply andb_true_iff in H as [? ?]
  | H : _ || _ = false |- _ => apply orb_false_iff in H as [? ?]
  | H : negb _ = true |- _ => apply negb_true_iff in H
  | H : negb _ = false |- _ => apply negb_false_iff in H
  | H : (_ =? _) = true |- _ => apply Z.eqb_eq in H
  | H : (_ =? _) = false |- _ => apply Z.eqb_neq in H
  | H : (_ <? _) = true |- _ => apply Z.ltb_lt in H
  | H : (_ <? _) = false |- _ => apply Z.ltb_ge in H
  | H : (_ <=? _) = true |- _ => apply Z.leb_le in H
  | H : (_ <=? _) = false |- _ => apply Z.leb_gt in H
  end.

(** ** Generic lemmas *)

(** Induction two elements at a time, for buffers read in 16-bit words. *)
Lemma list_pair_ind {A} (P : list A -> Prop) :
  P [] -> (forall a, P [a]) -> (forall a b l, P l -> P (a :: b :: l)) ->
  forall l, P l.
Proof.
  intros H0 H1 H2. fix IH 1. intros [|a [|b l]]; [done|done|]. apply H2, IH.
Qed.

Lemma even_to_nat n : 0 <= n -> Z.even n = Nat.even (Z.to_nat n).
Proof.
  intros Hn. apply eq_true_iff_eq. rewrite Z.even_spec, Nat.even_spec.
  split; intros [k E]; [exists (Z.to_nat k)|exists (Z.of_nat k)]; lia.
Qed.

Lemma wrap_range w x : 0 <= w -> 0 <= wrap w x < 2 ^ w.
Proof. intros Hw. unfold wrap. apply Z.mod_pos_bound. by apply Z.pow_pos_nonneg. Qed.

Lemma wrap_small w x : in_width w x -> wrap w x = x.
Proof. apply Z.mod_small. Qed.

Lemma swrap_small w x : 0 < w -> - 2 ^ (w - 1) <= x < 2 ^ (w - 1) -> swrap w x = x.
Proof.
  intros Hw Hx. unfold swrap. replace (2 ^ w) with (2 * 2 ^ (w - 1)).
  - rewrite Z.mod_small; lia.
  - rewrite <- Z.pow_succ_r by lia. f_equal. lia.
Qed.

Lemma swrap_add w x y : swrap w (swrap w x + y) = swrap w (x + y).
Proof.
  unfold swrap. f_equal.
  replace ((x + 2 ^ (w - 1)) mod 2 ^ w - 2 ^ (w - 1) + y + 2 ^ (w - 1))
    with ((x + 2 ^ (w - 1)) mod 2 ^ w + y) by lia.
  rewrite Zplus_mod_idemp_l. f_equal. lia.
Qed.

Lemma zlen_nonneg {A} (l : list A) : 0 <= zlen l.
Proof. unfold zlen. lia. Qed.

Lemma zlen_app {A} (l k : list A) : zlen (l ++ k) = zlen l + zlen k.
Proof. unfold zlen. rewrite length_app. lia. Qed.

Lemma zlen_cons {A} (x : A) (l : list A) : zlen (x :: l) = 1 + zlen l.
Proof. unfold zlen. simpl. lia. Qed.

Lemma le_encode_bytes n x : Forall is_byte (le_encode n x).
Proof.
  revert x. induction n as [|n IH]; intros x; simpl; constructor; auto.
  unfold in_width. change (2 ^ 8) with 256. apply Z.mod_pos_bound. lia.
Qed.

Lemma le_decode_encode n x : le_decode (le_encode n x) = x mod 256 ^ Z.of_nat n.
Proof.
  revert x. induction n as [|n IH]; intros x; simpl le_encode; simpl le_decode.
  - by rewrite Z.mod_1_r.
  - rewrite IH, Nat2Z.inj_succ, Z.pow_succ_r by lia.
    rewrite Z.rem_mul_r by (try apply Z.pow_pos_nonneg; lia). done.
Qed.

Lemma le_decode_range bs : Forall is_byte bs -> 0 <= le_decode bs < 256 ^ zlen bs.
Proof.
  induction 1 as [|b bs Hb _ IH]; [done|].
  rewrite zlen_cons, Z.pow_add_r by (pose proof (zlen_nonneg bs); lia).
  unfold in_width in Hb. change (2 ^ 8) with 256 in Hb. simpl. lia.
Qed.

Lemma le_encode_decode bs : Forall is_byte bs -> le_encode (length bs) (le_decode bs) = bs.
Proof.
  induction 1 as [|b bs Hb _ IH]; simpl; [done|].
  unfold in_width in Hb. change (2 ^ 8) with 256 in Hb.
  replace ((b + 256 * le_decode bs) mod 256) with b
    by (rewrite Z.mul_comm, Z.mod_add, Z.mod_small; lia).
  replace ((b + 256 * le_decode bs) / 256) with (le_decode bs)
    by (rewrite Z.mul_comm, Z.div_add, Z.div_small; lia).
  by rewrite IH.
Qed.

Lemma load_Some n m off :
  0 <= off -> off + Z.of_nat n <= zlen m ->
  load n m off = Some (le_decode (take n (drop (Z.to_nat off) m))).
Proof.
  intros H1 H2. unfold load.
  rewrite (proj2 (Z.leb_le _ _) H1), (proj2 (Z.leb_le _ _) H2). done.
Qed.

Lemma load_is_Some n m off :
  0 <= off -> off + Z.of_nat n <= zlen m -> exists v, load n m off = Some v.
Proof. intros. eexists. by apply load_Some. Qed.

Lemma load_inv n m off v :
  load n m off = Some v ->
  0 <= off /\ off + Z.of_nat n <= zlen m /\
  v = le_decode (take n (drop (Z.to_nat off) m)).
Proof.
  unfold load. destruct (_ && _) eqn:E; [|done]. intros [= <-]. breflect. auto.
Qed.

(** A read lies in the width of its type. *)
Lemma load_range n m off v :
  Forall is_byte m -> load n m off = Some v -> 0 <= v < 256 ^ Z.of_nat n.
Proof.
  intros Hm (H1 & H2 & ->)%load_inv.
  assert (length (take n (drop (Z.to_nat off) m)) = n) as Hlen.
  { rewrite length_take, length_drop. unfold zlen in *. lia. }
  pose proof (le_decode_range (take n (drop (Z.to_nat off) m))) as Hr.
  unfold zlen in Hr at 1. rewrite Hlen in Hr. by apply Hr, Forall_take, Forall_drop.
Qed.

(** Reads at literal offsets of an explicit buffer ignore what precedes it. *)
Lemma load_app_r n m1 m2 off :
  0 <= off -> load n (m1 ++ m2) (zlen m1 + off) = load n m2 off.
Proof.
  intros Hoff. unfold load. rewrite zlen_app.
  pose proof (zlen_nonneg m1).
  replace (0 <=? zlen m1 + off) with true by (symmetry; apply Z.leb_le; lia).
  replace (0 <=? off) with true by (symmetry; apply Z.leb_le; lia).
  replace (zlen m1 + off + Z.of_nat n <=? zlen m1 + zlen m2)
    with (off + Z.of_nat n <=? zlen m2)
    by (destruct (Z.leb_spec (off + Z.of_nat n) (zlen m2));
        symmetry; [apply Z.leb_le | apply Z.leb_gt]; lia).
  simpl. destruct (_ <=? _); [|done].
  replace (Z.to_nat (zlen m1 + off)) with (length m1 + Z.to_nat off)%nat
    by (unfold zlen; lia).
  by rewrite drop_app_add.
Qed.

Lemma load_app_l n m1 m2 off :
  off + Z.of_nat n <= zlen m1 -> load n (m1 ++ m2) off = load n m1 off.
Proof.
  intros Hoff. unfold load. rewrite zlen_app.
  replace (off + Z.of_nat n <=? zlen m1 + zlen m2) with true
    by (symmetry; apply Z.leb_le; pose proof (zlen_nonneg m2); lia).
  replace (off + Z.of_nat n <=? zlen m1) with true by (symmetry; by apply Z.leb_le).
  destruct (0 <=? off) eqn:E; [|done]. simpl. breflect. do 2 f_equal.
  unfold zlen in *. rewrite drop_app_le by lia. rewrite take_app_le; [done|].
  rewrite length_drop. lia.
Qed.

(** Disjoint bits: or-ing a multiple of [2 ^ n] with a smaller number adds. *)
Lemma lor_add_low n a b :
  0 <= n -> in_width n b -> Z.lor (a * 2 ^ n) b = a * 2 ^ n + b.
Proof.
  intros Hn Hb.
  assert (Z.land (a * 2 ^ n) b = 0) as Hland.
  { apply Z.bits_inj'. intros m Hm. rewrite Z.land_spec, Z.bits_0.
    destruct (Z.lt_ge_cases m n).
    - by rewrite Z.mul_pow2_bits_low.
    - rewrite <- (Z.mod_small b (2 ^ n)) by done.
      rewrite Z.mod_pow2_bits_high by lia. apply andb_false_r. }
  rewrite <- Z.lxor_lor, <- Z.add_nocarry_lxor by done. done.
Qed.

Lemma land_ff x : Z.land x 0xff = x mod 256.
Proof. change 0xff with (Z.ones 8). by rewrite Z.land_ones. Qed.

Lemma bswap16_value x :
  in_width 16 x -> bswap16 x = 256 * (x mod 256) + x / 256.
Proof.
  intros Hx. unfold bswap16.
  rewrite !land_ff, Z.shiftl_mul_pow2, Z.shiftr_div_pow2 by lia.
  rewrite lor_add_low by width_lia. width_lia.
Qed.

Lemma bswap16_range x : in_width 16 x -> in_width 16 (bswap16 x).
Proof. intros Hx. rewrite bswap16_value by done. width_lia. Qed.

Lemma bswap16_involutive x : in_width 16 x -> bswap16 (bswap16 x) = x.
Proof.
  intros Hx. pose proof (bswap16_range x Hx).
  rewrite bswap16_value by done. rewrite bswap16_value by done. width_lia.
Qed.
