(* ===== verification/Headers.v ===== *)
(** * The data types of NanoNet

    The structures of [include/nanonet.h] and the file-local structures of the
    [.c] files, with the byte layout the code relies on: packet headers are
    [__packed], so field offsets are the sums of the preceding field sizes; a
    [__be16]/[__be32] field is held as the host (little-endian) load of its
    bytes, exactly as the C code holds it before [ntohs]/[ntohl]. *)

From S2P Require Import Prelude.

(** ** Constants *)

Definition ETH_ALEN : Z := 6.
Definition ETH_P_IP : Z := 0x0800.
Definition IPPROTO_TCP : Z := 6.
Definition IPPROTO_UDP : Z := 17.
Definition IP_DF : Z := 0x4000.

Definition EPERM : Z := 1.
Definition EIO : Z := 5.
Definition ENOMEM : Z := 12.
Definition EFAULT : Z := 14.
Definition EBUSY : Z := 16.
Definition ENODEV : Z := 19.
Definition EINVAL : Z := 22.
Definition ENOTTY : Z := 25.
Definition EPROTONOSUPPORT : Z := 93.

Definition NF_ACCEPT : Z := 1.
Definition NF_STOLEN : Z := 2.
Definition NET_XMIT_SUCCESS : Z := 0.
Definition UINT64_MAX : Z := 18446744073709551615.

(** ** Packet headers *)

Record ull_ethhdr := {
  h_dest : list Z;
  h_source : list Z;
  h_proto : Z;
}.

Record ull_iphdr := {
  ip_version_ihl : Z;
  ip_tos : Z;
  ip_tot_len : Z;
  ip_id : Z;
  ip_frag_off : Z;
  ip_ttl : Z;
  ip_protocol : Z;
  ip_check : Z;
  ip_saddr : Z;
  ip_daddr : Z;
}.

(** The bit-field word of the TCP header, low bits first: [res1:4 doff:4 fin
    syn rst psh ack urg ece cwr]. *)
Record ull_tcphdr := {
  tcp_source : Z;
  tcp_dest : Z;
  tcp_seq : Z;
  tcp_ack_seq : Z;
  tcp_res1 : Z;
  tcp_doff : Z;
  tcp_fin : bool;
  tcp_syn : bool;
  tcp_rst : bool;
  tcp_psh : bool;
  tcp_ack : bool;
  tcp_urg : bool;
  tcp_ece : bool;
  tcp_cwr : bool;
  tcp_window : Z;
  tcp_check : Z;
  tcp_urg_ptr : Z;
}.

Record ull_udphdr := {
  udp_source : Z;
  udp_dest : Z;
  udp_len : Z;
  udp_check : Z;
}.

Definition sizeof_ethhdr : Z := 14.
Definition sizeof_iphdr : Z := 20.
Definition sizeof_tcphdr : Z := 20.
Definition sizeof_udphdr : Z := 8.

(** Byte images of the headers, field by field. *)

Definition enc_ethhdr (h : ull_ethhdr) : list Z :=
  h_dest h ++ h_source h ++ le_encode 2 (h_proto h).

Definition enc_iphdr (h : ull_iphdr) : list Z :=
  le_encode 1 (ip_version_ihl h) ++ le_encode 1 (ip_tos h) ++
  le_encode 2 (ip_tot_len h) ++ le_encode 2 (ip_id h) ++
  le_encode 2 (ip_frag_off h) ++ le_encode 1 (ip_ttl h) ++
  le_encode 1 (ip_protocol h) ++ le_encode 2 (ip_check h) ++
  le_encode 4 (ip_saddr h) ++ le_encode 4 (ip_daddr h).

Definition b2z (b : bool) : Z := if b then 1 else 0.

Definition tcp_flags_word (h : ull_tcphdr) : Z :=
  tcp_res1 h + 16 * tcp_doff h +
  256 * b2z (tcp_fin h) + 512 * b2z (tcp_syn h) + 1024 * b2z (tcp_rst h) +
  2048 * b2z (tcp_psh h) + 4096 * b2z (tcp_ack h) + 8192 * b2z (tcp_urg h) +
  16384 * b2z (tcp_ece h) + 32768 * b2z (tcp_cwr h).

Definition enc_tcphdr (h : ull_tcphdr) : list Z :=
  le_encode 2 (tcp_source h) ++ le_encode 2 (tcp_dest h) ++
  le_encode 4 (tcp_seq h) ++ le_encode 4 (tcp_ack_seq h) ++
  le_encode 2 (tcp_flags_word h) ++ le_encode 2 (tcp_window h) ++
  le_encode 2 (tcp_check h) ++ le_encode 2 (tcp_urg_ptr h).

Definition enc_udphdr (h : ull_udphdr) : list Z :=
  le_encode 2 (udp_source h) ++ le_encode 2 (udp_dest h) ++
  le_encode 2 (udp_len h) ++ le_encode 2 (udp_check h).

(** Field reads through a header pointer: [p] is the byte offset of the header
    in the buffer [m]. *)

Definition eth_h_proto (m : list Z) (p : Z) := load16 m (p + 12).

Definition iph_version_ihl (m : list Z) (p : Z) := load8 m p.
Definition iph_tot_len (m : list Z) (p : Z) := load16 m (p + 2).
Definition iph_protocol (m : list Z) (p : Z) := load8 m (p + 9).
Definition iph_check (m : list Z) (p : Z) := load16 m (p + 10).
Definition iph_saddr (m : list Z) (p : Z) := load32 m (p + 12).
Definition iph_daddr (m : list Z) (p : Z) := load32 m (p + 16).

Definition tcph_source (m : list Z) (p : Z) := load16 m p.
Definition tcph_dest (m : list Z) (p : Z) := load16 m (p + 2).
Definition tcph_seq (m : list Z) (p : Z) := load32 m (p + 4).
Definition tcph_ack_seq (m : list Z) (p : Z) := load32 m (p + 8).
Definition tcph_flags (m : list Z) (p : Z) := load16 m (p + 12).
Definition tcph_doff (m : list Z) (p : Z) : option Z :=
  v ← tcph_flags m p; Some (Z.land (Z.shiftr v 4) 15).
Definition tcph_syn (m : list Z) (p : Z) : option bool :=
  v ← tcph_flags m p; Some (Z.testbit v 9).
Definition tcph_ack (m : list Z) (p : Z) : option bool :=
  v ← tcph_flags m p; Some (Z.testbit v 12).

Definition udph_source (m : list Z) (p : Z) := load16 m p.
Definition udph_dest (m : list Z) (p : Z) := load16 m (p + 2).
Definition udph_len (m : list Z) (p : Z) := load16 m (p + 4).
Definition udph_check (m : list Z) (p : Z) := load16 m (p + 6).

(** ** Received socket buffers

    What the code uses of a received [struct sk_buff]: the bytes that can be
    read from [skb->data] up to the end of the linear buffer, [skb->len], and
    [skb->dev]. [skb->len] counts paged data too and is not tied to the length
    of the linear part. *)

Record sk_buff := {
  skb_data : list Z;
  skb_len : Z;
  skb_dev : option Z;
}.

(** ** Connections, configuration, statistics *)

(** [conn_addr] is the address of the [kmalloc]ed object, which is what its
    [hash_node] links. *)
Record ull_tcp_conn := {
  conn_addr : nat;
  conn_src_ip : Z;
  conn_dst_ip : Z;
  conn_src_port : Z;
  conn_dst_port : Z;
  conn_seq_num : Z;
  conn_ack_num : Z;
  conn_state : Z;
  conn_last_seen : Z;
}.

(** The two [bool] members are held as the byte in memory, which
    [copy_from_user] may set to any value; a byte other than zero reads as
    true. *)
Record ull_config := {
  cfg_enabled_byte : Z;
  cfg_target_ip : Z;
  cfg_target_port : Z;
  cfg_protocol : Z;
  cfg_response_ip : Z;
  cfg_response_port : Z;
  cfg_seq_num : Z;
  cfg_application_logic_type : Z;
  cfg_multicast_byte : Z;
  cfg_multicast_group : Z;
}.

Definition cfg_enabled (c : ull_config) : bool := negb (cfg_enabled_byte c =? 0).
Definition cfg_multicast (c : ull_config) : bool := negb (cfg_multicast_byte c =? 0).

Record ull_stats := {
  packets_processed : Z;
  packets_bypassed : Z;
  responses_sent : Z;
  errors : Z;
  last_process_time_ns : Z;
  min_process_time_ns : Z;
  max_process_time_ns : Z;
  avg_process_time_ns : Z;
  connections_active : Z;
  connections_dropped : Z;
}.

(** ** File-local structures *)

(** [struct ull_debug_stats] of [debug.c]; [last_error] is the C string held in
    the 256-byte array. *)
Record ull_debug_stats := {
  total_interrupts : Z;
  cache_misses : Z;
  memory_allocations : Z;
  queue_full_events : Z;
  checksum_errors : Z;
  last_error : list Z;
}.

(** [response_pool] of [optimizations.c]: slots hold buffer addresses, [None]
    is a NULL slot. *)
Record response_pool_t := {
  pool : list (option nat);
  pool_head : Z;
  pool_tail : Z;
}.

Definition RESPONSE_POOL_SIZE : Z := 256.
Definition POOL_SKB_SIZE : Z := 1500.
Definition CONN_HASH_SIZE : Z := 1024.

(** [struct market_data] and [struct trading_order] of [packet_processor.c]. *)
Record market_data := {
  md_symbol : list Z;
  md_price : Z;
  md_quantity : Z;
  md_timestamp : Z;
}.

Record trading_order := {
  ord_symbol : list Z;
  ord_price : Z;
  ord_quantity : Z;
  ord_side : Z;
  ord_timestamp : Z;
  ord_clOrdId : list Z;
}.

Definition sizeof_market_data : Z := 24.
Definition sizeof_trading_order : Z := 41.

Definition enc_market_data (d : market_data) : list Z :=
  md_symbol d ++ le_encode 4 (md_price d) ++ le_encode 4 (md_quantity d) ++
  le_encode 8 (md_timestamp d).

Definition enc_trading_order (o : trading_order) : list Z :=
  ord_symbol o ++ le_encode 4 (ord_price o) ++ le_encode 4 (ord_quantity o) ++
  le_encode 1 (ord_side o) ++ le_encode 8 (ord_timestamp o) ++ ord_clOrdId o.

(** ** Static initial values *)

Definition global_config_init : ull_config :=
  {| cfg_enabled_byte := 0; cfg_target_ip := 0; cfg_target_port := 0;
     cfg_protocol := IPPROTO_UDP; cfg_response_ip := 0; cfg_response_port := 0;
     cfg_seq_num := 0; cfg_application_logic_type := 0; cfg_multicast_byte := 0;
     cfg_multicast_group := 0 |}.

Definition global_stats_init : ull_stats :=
  {| packets_processed := 0; packets_bypassed := 0; responses_sent := 0; errors := 0;
     last_process_time_ns := 0; min_process_time_ns := UINT64_MAX;
     max_process_time_ns := 0; avg_process_time_ns := 0;
     connections_active := 0; connections_dropped := 0 |}.

(** Zero-initialised statics. *)
Definition response_pool_zero : response_pool_t :=
  Build_response_pool_t (replicate 256 None) 0 0.
Definition connection_hash_zero : list (list ull_tcp_conn) := replicate 1024 [].
Definition debug_stats_zero : ull_debug_stats := Build_ull_debug_stats 0 0 0 0 0 [].

(** ** Decidable equality *)

#[export] Instance ull_tcp_conn_eq_dec : EqDecision ull_tcp_conn.
Proof. solve_decision. Defined.
#[export] Instance ull_config_eq_dec : EqDecision ull_config.
Proof. solve_decision. Defined.
#[export] Instance ull_stats_eq_dec : EqDecision ull_stats.
Proof. solve_decision. Defined.

(** ** Encodings have their declared sizes *)

Lemma enc_iphdr_length h : zlen (enc_iphdr h) = sizeof_iphdr.
Proof. reflexivity. Qed.

Lemma enc_ethhdr_length h :
  zlen (h_dest h) = ETH_ALEN -> zlen (h_source h) = ETH_ALEN ->
  zlen (enc_ethhdr h) = sizeof_ethhdr.
Proof.
  intros H1 H2. unfold enc_ethhdr. rewrite !zlen_app, H1, H2. reflexivity.
Qed.

Lemma enc_trading_order_length o :
  zlen (ord_symbol o) = 8 -> zlen (ord_clOrdId o) = 16 ->
  zlen (enc_trading_order o) = sizeof_trading_order.
Proof.
  intros H1 H2. unfold enc_trading_order. rewrite !zlen_app, H1, H2. reflexivity.
Qed.
