(* ===== verification/Kernel.v ===== *)
(** * The module's state, the kernel it runs in, and the effect monad

    - [KernelEnv] is the interface to kernel code that is not part of the
      repository: everything the module asks of the kernel and whose answer it
      cannot predict (clock, rate limiter, allocator, device lookup,
      transmission, user memory, registration results, the [jhash] function).
    - [SkbOps] is the interface to the socket-buffer routines used to build a
      response, with the documented laws in [SkbLaws].
    - [kstate] is the module's global state together with what the kernel holds
      on its behalf (live buffers and objects, device references,
      registrations, transmitted frames, bytes written to user memory, log).
    - [M] is the state monad with crashes in which the stateful C functions are
      written. *)

From S2P Require Import Prelude Headers.

(** ** The kernel interface *)

(** The rate-limit states of [security.c] and [debug.c], and the one that
    [printk_ratelimited] declares at its call site. *)
Inductive ratelimit_state :=
  | nanonet_ratelimit | nanonet_error_ratelimit | printk_ratelimit_state.

(** What a pointer-returning kernel constructor may return. *)
Inductive kptr := PNull | PErr (e : Z) | PValid.

(** Objects the module registers with the kernel. *)
Inductive resource :=
  | RChrdev | RCdev | RClass | RDevice | RProc
  | RDebugDir | RDebugFile | RNetHook
  | RMcGroup (group ifindex : Z).

#[export] Instance resource_eq_dec : EqDecision resource.
Proof. solve_decision. Defined.

Class KernelEnv (W : Type) := {
  ktime_get_real_ts64 : W -> (Z * Z) * W;          (* tv_sec, tv_nsec *)
  read_jiffies : W -> Z * W;
  ratelimit_ok : ratelimit_state -> W -> bool * W;    (* __ratelimit *)
  kmalloc_ok : Z -> W -> bool * W;
  alloc_skb_ok : Z -> W -> bool * W;
  find_device : W -> option Z * W;                 (* dev_get_by_name "eth0" *)
  qdisc_xmit : list Z -> W -> Z * W;               (* dev_queue_xmit's result *)
  jhash_3words : Z -> Z -> Z -> Z -> Z;
  capable_net_admin : W -> bool;
  copy_from_user : Z -> Z -> W -> (list Z * Z) * W;   (* bytes, not copied *)
  copy_to_user : Z -> list Z -> W -> Z * W;           (* not copied *)
  register_int : resource -> W -> Z * W;           (* int-returning *)
  register_ptr : resource -> W -> kptr * W;        (* pointer-returning *)
  stale_bytes : Z -> W -> list Z;                  (* contents of new kmalloc memory *)
  NET_IP_ALIGN : Z;
}.

(** What the kernel documents: [NET_IP_ALIGN] is 0 or 2, depending on the
    architecture; memory returned by [kmalloc] holds some bytes;
    [copy_from_user] fills its destination (with zeroes past a fault);
    registrations return zero or a negative error number; [class_create] and
    [device_create] report failure as an [ERR_PTR], [proc_create] as NULL. *)
Class KernelLaws (W : Type) `{!KernelEnv W} : Prop := {
  net_ip_align_range : 0 <= NET_IP_ALIGN <= 2;
  stale_bytes_length n w : 0 <= n -> zlen (stale_bytes n w) = n;
  copy_from_user_fills a n w : 0 <= n ->
    let bytes := fst (fst (copy_from_user a n w)) in zlen bytes = n /\ Forall is_byte bytes;
  register_int_result r w : fst (register_int r w) <= 0;
  register_ptr_error r w e : fst (register_ptr r w) = PErr e -> e < 0;
  class_not_null w : fst (register_ptr RClass w) <> PNull;
  device_not_null w : fst (register_ptr RDevice w) <> PNull;
  proc_not_error w e : fst (register_ptr RProc w) <> PErr e;
}.

(** ** Socket buffers under construction *)

Class SkbOps (B : Type) := {
  skb_fresh : Z -> B;                   (* what alloc_skb(size) returns *)
  skb_bytes : B -> list Z;              (* the bytes from data to tail *)
  skb_tailroom : B -> Z;
  skb_reserve : Z -> B -> B;
  skb_put : Z -> B -> option B;         (* None: skb_over_panic *)
  skb_store : Z -> list Z -> B -> B;    (* store through a pointer into the data *)
}.

(** Replace the bytes of [l] starting at [off] by [bs]. *)
Definition splice (off : Z) (bs l : list Z) : list Z :=
  take (Z.to_nat off) l ++ bs ++ drop (Z.to_nat (off + zlen bs)) l.

Class SkbLaws (B : Type) `{!SkbOps B} : Prop := {
  fresh_bytes n : skb_bytes (skb_fresh n) = [];
  fresh_room n : n <= skb_tailroom (skb_fresh n);
  reserve_bytes n b :
    skb_bytes b = [] -> 0 <= n <= skb_tailroom b ->
    skb_bytes (skb_reserve n b) = [];
  reserve_room n b :
    skb_bytes b = [] -> 0 <= n <= skb_tailroom b ->
    skb_tailroom (skb_reserve n b) = skb_tailroom b - n;
  put_ok n b :
    0 <= n <= skb_tailroom b ->
    exists b' junk, skb_put n b = Some b' /\ zlen junk = n /\
      skb_bytes b' = skb_bytes b ++ junk /\
      skb_tailroom b' = skb_tailroom b - n;
  put_panic n b : skb_tailroom b < n -> skb_put n b = None;
  store_bytes off bs b :
    0 <= off -> off + zlen bs <= zlen (skb_bytes b) ->
    skb_bytes (skb_store off bs b) = splice off bs (skb_bytes b);
  store_room off bs b : skb_tailroom (skb_store off bs b) = skb_tailroom b;
}.

(** A live [struct sk_buff] of the module: its buffer and the two fields the
    code assigns. *)
Record skb_obj (B : Type) := {
  so_buf : B;
  so_dev : option Z;
  so_protocol : Z;
}.
Arguments so_buf {B} _.
Arguments so_dev {B} _.
Arguments so_protocol {B} _.
Arguments Build_skb_obj {B} _ _ _.

(** ** Crashes and state *)

Inductive crash :=
  | OobRead | NullDeref | SkbOverPanic | UseAfterFree | DivideError.

Inductive outcome (A : Type) := Done (a : A) | Crashed (c : crash).
Arguments Done {A} _.
Arguments Crashed {A} _.

(** One record of the [nanonet_packet_processed] trace event. *)
Record trace_entry := {
  te_src_ip : Z; te_src_port : Z; te_dst_ip : Z; te_dst_port : Z;
  te_process_time_ns : Z; te_result : Z;
}.

Record kstate (W B : Type) := {
  global_config : ull_config;
  global_stats : ull_stats;
  target_dev : option Z;
  connection_hash : list (list ull_tcp_conn);
  response_pool : response_pool_t;
  debug_stats : ull_debug_stats;
  skbs : gmap nat (skb_obj B);        (* live socket buffers *)
  next_skb : nat;
  klive : gset nat;                   (* live kmalloc objects *)
  next_obj : nat;
  dev_refs : Z;                       (* references held on eth0 *)
  registered : list resource;         (* most recent first *)
  wire : list (list Z * Z);           (* frames given to the qdisc, results *)
  trace_log : list trace_entry;
  klog : list (list Z);
  user_writes : list (Z * list Z);    (* bytes copied to user space, by address *)
  world : W;
}.
Arguments global_config {W B} _.
Arguments global_stats {W B} _.
Arguments target_dev {W B} _.
Arguments connection_hash {W B} _.
Arguments response_pool {W B} _.
Arguments debug_stats {W B} _.
Arguments skbs {W B} _.
Arguments next_skb {W B} _.
Arguments klive {W B} _.
Arguments next_obj {W B} _.
Arguments dev_refs {W B} _.
Arguments registered {W B} _.
Arguments wire {W B} _.
Arguments trace_log {W B} _.
Arguments klog {W B} _.
Arguments user_writes {W B} _.
Arguments world {W B} _.
Arguments Build_kstate {W B} _ _ _ _ _ _ _ _ _ _ _ _ _ _ _ _ _.

(** Field updates. *)
Section Setters.
Context {W B : Type}.
Implicit Types s : kstate W B.

Definition set_config (x : ull_config) s : kstate W B :=
  match s with Build_kstate _ b c d e f g h i j k l m n o p q =>
    Build_kstate x b c d e f g h i j k l m n o p q end.
Definition set_stats (x : ull_stats) s : kstate W B :=
  match s with Build_kstate a _ c d e f g h i j k l m n o p q =>
    Build_kstate a x c d e f g h i j k l m n o p q end.
Definition set_target_dev (x : option Z) s : kstate W B :=
  match s with Build_kstate a b _ d e f g h i j k l m n o p q =>
    Build_kstate a b x d e f g h i j k l m n o p q end.
Definition set_conns (x : list (list ull_tcp_conn)) s : kstate W B :=
  match s with Build_kstate a b c _ e f g h i j k l m n o p q =>
    Build_kstate a b c x e f g h i j k l m n o p q end.
Definition set_pool (x : response_pool_t) s : kstate W B :=
  match s with Build_kstate a b c d _ f g h i j k l m n o p q =>
    Build_kstate a b c d x f g h i j k l m n o p q end.
Definition set_debug (x : ull_debug_stats) s : kstate W B :=
  match s with Build_kstate a b c d e _ g h i j k l m n o p q =>
    Build_kstate a b c d e x g h i j k l m n o p q end.
Definition set_skbs (x : gmap nat (skb_obj B)) s : kstate W B :=
  match s with Build_kstate a b c d e f _ h i j k l m n o p q =>
    Build_kstate a b c d e f x h i j k l m n o p q end.
Definition set_next_skb (x : nat) s : kstate W B :=
  match s with Build_kstate a b c d e f g _ i j k l m n o p q =>
    Build_kstate a b c d e f g x i j k l m n o p q end.
Definition set_klive (x : gset nat) s : kstate W B :=
  match s with Build_kstate a b c d e f g h _ j k l m n o p q =>
    Build_kstate a b c d e f g h x j k l m n o p q end.
Definition set_next_obj (x : nat) s : kstate W B :=
  match s with Build_kstate a b c d e f g h i _ k l m n o p q =>
    Build_kstate a b c d e f g h i x k l m n o p q end.
Definition set_dev_refs (x : Z) s : kstate W B :=
  match s with Build_kstate a b c d e f g h i j _ l m n o p q =>
    Build_kstate a b c d e f g h i j x l m n o p q end.
Definition set_registered (x : list resource) s : kstate W B :=
  match s with Build_kstate a b c d e f g h i j k _ m n o p q =>
    Build_kstate a b c d e f g h i j k x m n o p q end.
Definition set_wire (x : list (list Z * Z)) s : kstate W B :=
  match s with Build_kstate a b c d e f g h i j k l _ n o p q =>
    Build_kstate a b c d e f g h i j k l x n o p q end.
Definition set_trace_log (x : list trace_entry) s : kstate W B :=
  match s with Build_kstate a b c d e f g h i j k l m _ o p q =>
    Build_kstate a b c d e f g h i j k l m x o p q end.
Definition set_klog (x : list (list Z)) s : kstate W B :=
  match s with Build_kstate a b c d e f g h i j k l m n _ p q =>
    Build_kstate a b c d e f g h i j k l m n x p q end.
Definition set_user_writes (x : list (Z * list Z)) s : kstate W B :=
  match s with Build_kstate a b c d e f g h i j k l m n o _ q =>
    Build_kstate a b c d e f g h i j k l m n o x q end.
Definition set_world (x : W) s : kstate W B :=
  match s with Build_kstate a b c d e f g h i j k l m n o p _ =>
    Build_kstate a b c d e f g h i j k l m n o p x end.
End Setters.

(** The state when the module's text has been loaded and nothing has run. *)
Definition loaded {W B} (w : W) : kstate W B :=
  Build_kstate global_config_init global_stats_init None connection_hash_zero
    response_pool_zero debug_stats_zero ∅ 0 ∅ 0 0 [] [] [] [] [] w.

(** ** The monad *)

Definition M (W B A : Type) : Type := kstate W B -> outcome (A * kstate W B).

#[export] Instance M_ret W B : MRet (M W B) := fun A a s => Done (a, s).
#[export] Instance M_bind W B : MBind (M W B) := fun A C k m s =>
  match m s with
  | Done (a, s') => k a s'
  | Crashed c => Crashed c
  end.

Section Primitives.
Context {W B : Type} `{!KernelEnv W, !SkbOps B}.
Local Abbreviation M := (M W B).

Definition crash_with {A} (c : crash) : M A := fun _ => Crashed c.
Definition gets {A} (f : kstate W B -> A) : M A := fun s => Done (f s, s).
Definition modify (f : kstate W B -> kstate W B) : M unit := fun s => Done (tt, f s).

(** A memory read: outside the buffer it is undefined behaviour. *)
Definition deref {A} (o : option A) : M A :=
  match o with Some a => mret a | None => crash_with OobRead end.

(** Dereference of a possibly-NULL pointer. *)
Definition non_null {A} (o : option A) : M A :=
  match o with Some a => mret a | None => crash_with NullDeref end.

(** Ask the kernel. *)
Definition ask {A} (f : W -> A * W) : M A := fun s =>
  let '(a, w) := f (world s) in Done (a, set_world w s).

Definition printk (msg : list Z) : M unit :=
  modify (fun s => set_klog (msg :: klog s) s).

(** [kmalloc]/[kfree]: a fresh live address or NULL; freeing an address that
    is not live is a double free. *)
Definition kmalloc (size : Z) : M (option nat) :=
  ok ← ask (kmalloc_ok size);
  if ok : bool then
    a ← gets next_obj;
    _ ← modify (fun s => set_next_obj (S a) (set_klive ({[a]} ∪ klive s) s));
    mret (Some a)
  else mret None.

Definition kfree (a : nat) : M unit :=
  live ← gets klive;
  if decide (a ∈ live) then modify (fun s => set_klive (klive s ∖ {[a]}) s)
  else crash_with UseAfterFree.

Definition alloc_skb (size : Z) : M (option nat) :=
  ok ← ask (alloc_skb_ok size);
  if ok : bool then
    p ← gets next_skb;
    _ ← modify (fun s => set_next_skb (S p)
          (set_skbs (<[p := Build_skb_obj (skb_fresh size) None 0]> (skbs s)) s));
    mret (Some p)
  else mret None.

Definition skb_get (p : nat) : M (skb_obj B) :=
  m ← gets skbs;
  match m !! p with
  | Some o => mret o
  | None => crash_with UseAfterFree
  end.

Definition skb_set (p : nat) (o : skb_obj B) : M unit :=
  modify (fun s => set_skbs (<[p := o]> (skbs s)) s).

Definition kfree_skb (p : nat) : M unit :=
  _ ← skb_get p;
  modify (fun s => set_skbs (delete p (skbs s)) s).

(** [dev_queue_xmit] consumes the buffer whatever it returns. *)
Definition dev_queue_xmit (p : nat) : M Z :=
  o ← skb_get p;
  _ ← modify (fun s => set_skbs (delete p (skbs s)) s);
  rc ← ask (qdisc_xmit (skb_bytes (so_buf o)));
  _ ← modify (fun s => set_wire ((skb_bytes (so_buf o), rc) :: wire s) s);
  mret rc.

(** [dev_get_by_name] takes a reference on the device it finds. *)
Definition dev_get_by_name : M (option Z) :=
  d ← ask find_device;
  match d with
  | Some i => _ ← modify (fun s => set_dev_refs (dev_refs s + 1) s); mret (Some i)
  | None => mret None
  end.

Definition dev_put : M unit := modify (fun s => set_dev_refs (dev_refs s - 1) s).

(** Registration with, and removal from, the kernel. *)
Definition acquire (r : resource) : M unit :=
  modify (fun s => set_registered (r :: registered s) s).
Definition release (r : resource) : M unit :=
  modify (fun s => set_registered (filter (fun x => x <> r) (registered s)) s).

(** [copy_to_user] returns the number of bytes it could not copy; the bytes
    before them are in user memory. *)
Definition copy_out (arg : Z) (bytes : list Z) : M Z :=
  missing ← ask (copy_to_user arg bytes);
  _ ← modify (fun s => set_user_writes
        ((arg, take (Z.to_nat (zlen bytes - missing)) bytes) :: user_writes s) s);
  mret missing.

Definition modify_stats (f : ull_stats -> ull_stats) : M unit :=
  modify (fun s => set_stats (f (global_stats s)) s).
End Primitives.

(** ** Statistics counters: [atomic64_t] is a signed 64-bit integer *)

Definition atomic64_inc (x : Z) : Z := s64 (x + 1).
Definition atomic64_dec (x : Z) : Z := s64 (x - 1).

Section Counters.
Implicit Types st : ull_stats.

Definition map_packets_processed (f : Z -> Z) st : ull_stats :=
  match st with Build_ull_stats a b c d e g h i j k => Build_ull_stats (f a) b c d e g h i j k end.
Definition map_packets_bypassed (f : Z -> Z) st : ull_stats :=
  match st with Build_ull_stats a b c d e g h i j k => Build_ull_stats a (f b) c d e g h i j k end.
Definition map_responses_sent (f : Z -> Z) st : ull_stats :=
  match st with Build_ull_stats a b c d e g h i j k => Build_ull_stats a b (f c) d e g h i j k end.
Definition map_errors (f : Z -> Z) st : ull_stats :=
  match st with Build_ull_stats a b c d e g h i j k => Build_ull_stats a b c (f d) e g h i j k end.
Definition map_connections_active (f : Z -> Z) st : ull_stats :=
  match st with Build_ull_stats a b c d e g h i j k => Build_ull_stats a b c d e g h i (f j) k end.
Definition map_connections_dropped (f : Z -> Z) st : ull_stats :=
  match st with Build_ull_stats a b c d e g h i j k => Build_ull_stats a b c d e g h i j (f k) end.
Definition set_process_times (last min max avg : Z) st : ull_stats :=
  match st with Build_ull_stats a b c d _ _ _ _ j k => Build_ull_stats a b c d last min max avg j k end.
End Counters.

(** ** Reasoning about runs

    Forwards, a sequence runs its first command and goes on from there;
    backwards, a run that returned splits at each semicolon. *)

Section Runs.
Context {W B : Type} `{!KernelEnv W, !SkbOps B}.
Implicit Types s : kstate W B.

(** A run of a sequence splits at the semicolon. *)
Lemma bind_Done {A C} (m : M W B A) (k : A -> M W B C) s c s'' :
  (x ← m; k x) s = Done (c, s'') ->
  exists a s', m s = Done (a, s') /\ k a s' = Done (c, s'').
Proof. unfold mbind, M_bind. destruct (m s) as [[a s']|]; [eauto|done]. Qed.

Lemma bind_run {A C} (m : M W B A) (k : A -> M W B C) s a s1 :
  m s = Done (a, s1) -> (x ← m; k x) s = k a s1.
Proof. unfold mbind, M_bind. by intros ->. Qed.

Lemma deref_bind {A C} (o : option A) (k : A -> M W B C) s a :
  o = Some a -> (x ← deref o; k x) s = k a s.
Proof. by intros ->. Qed.

Lemma gets_bind {A C} (f : kstate W B -> A) (k : A -> M W B C) s :
  (x ← gets f; k x) s = k (f s) s.
Proof. done. Qed.

Lemma modify_bind {C} (f : kstate W B -> kstate W B) (k : unit -> M W B C) s :
  (x ← modify f; k x) s = k tt (f s).
Proof. done. Qed.

Lemma ret_bind {A C} (a : A) (k : A -> M W B C) s : (x ← mret a; k x) s = k a s.
Proof. done. Qed.

Lemma bind_assoc {A C D} (m : M W B A) (k : A -> M W B C) (h : C -> M W B D) s :
  (y ← (x ← m; k x); h y) s = (x ← m; y ← k x; h y) s.
Proof. unfold mbind, M_bind. by destruct (m s) as [[]|]. Qed.

Lemma deref_Done {A} (o : option A) s a s' :
  deref o s = Done (a, s') -> o = Some a /\ s' = s.
Proof. unfold deref. destruct o; [|done]. by intros [= -> ->]. Qed.

Lemma non_null_Done {A} (o : option A) s a s' :
  non_null o s = Done (a, s') -> o = Some a /\ s' = s.
Proof. unfold non_null. destruct o; [|done]. by intros [= -> ->]. Qed.

Lemma ask_Done {A} (f : W -> A * W) s a s' :
  ask f s = Done (a, s') -> exists w, f (world s) = (a, w) /\ s' = set_world w s.
Proof. unfold ask. destruct (f (world s)) as [x w]. intros [= -> <-]. eauto. Qed.
End Runs.

Create Rewrite HintDb run.
#[export] Hint Rewrite @gets_bind @modify_bind @ret_bind @bind_assoc : run.

(** Run the state reads and writes at the head of a sequence. *)
Ltac run_simpl := autorewrite with run.

(** Split a hypothesis that says a sequence of statements ran to completion
    into one hypothesis per statement. *)
Ltac run_inv H :=
  lazymatch type of H with
  | mbind _ _ _ = Done _ =>
      let x := fresh "x" in let s1 := fresh "s" in
      let H1 := fresh "Hrun" in
      apply bind_Done in H as (x & s1 & H1 & H); run_inv H1; run_inv H
  | deref _ _ = Done _ =>
      let E := fresh "Hload" in apply deref_Done in H as [E ->]
  | non_null _ _ = Done _ =>
      let E := fresh "Hptr" in apply non_null_Done in H as [E ->]
  | gets _ _ = Done _ => injection H as <- <-
  | modify _ _ = Done _ => injection H as <- <-
  | mret _ _ = Done _ => injection H as <- <-
  | ask _ _ = Done _ =>
      let w := fresh "w" in let E := fresh "Hask" in
      apply ask_Done in H as (w & E & ->)
  | _ => idtac
  end.

(** ** Runs of the allocator *)

Section Allocator.
Context {W B : Type} `{!KernelEnv W}.
Implicit Types s : kstate W B.

Lemma ask_run {A} (f : W -> A * W) s :
  exists a w, ask f s = Done (a, set_world w s).
Proof. unfold ask. destruct (f (world s)) as [a w]. eauto. Qed.

Lemma ask_eq {A} (f : W -> A * W) s :
  ask f s = Done (fst (f (world s)), set_world (snd (f (world s))) s).
Proof. unfold ask. by destruct (f (world s)). Qed.

(** The kernel's answer decides. *)
Lemma kmalloc_eq size s :
  let '(ok, w) := kmalloc_ok size (world s) in
  kmalloc size s = Done (if ok then
    (Some (next_obj s),
      set_next_obj (S (next_obj s)) (set_klive ({[next_obj s]} ∪ klive s) (set_world w s)))
    else (None, set_world w s)).
Proof.
  unfold kmalloc, ask, mbind, M_bind. destruct (kmalloc_ok size (world s)) as [[] w]; by destruct s.
Qed.

Lemma kmalloc_run size s :
  exists w, kmalloc size s = Done (None, set_world w s) \/
    kmalloc size s = Done (Some (next_obj s),
      set_next_obj (S (next_obj s)) (set_klive ({[next_obj s]} ∪ klive s) (set_world w s))).
Proof.
  pose proof (kmalloc_eq size s) as H. destruct (kmalloc_ok size (world s)) as [[] w];
    exists w; [right|left]; done.
Qed.

Lemma kfree_run a s :
  a ∈ klive s -> kfree a s = Done (tt, set_klive (klive s ∖ {[a]}) s).
Proof. intros H. unfold kfree. run_simpl. by rewrite decide_True. Qed.

(** Every live object has an address below the next fresh one. *)
Definition kheap_ok s : Prop := forall a, a ∈ klive s -> (a < next_obj s)%nat.

(** Freeing the object just allocated restores the set of live objects. *)
Lemma kheap_fresh_free s : kheap_ok s -> ({[next_obj s]} ∪ klive s) ∖ {[next_obj s]} = klive s.
Proof.
  intros H. assert (next_obj s ∉ klive s) as Hni by (intros ?%H; lia). set_solver.
Qed.
End Allocator.
