(* ===== verification/Sim.v ===== *)
(** * An executable kernel

    A concrete instance of the kernel and socket-buffer interfaces, used to run
    the model on concrete inputs and to show that the hypotheses of the theorems
    can hold together. Every answer of the kernel is read from a record. *)

From S2P Require Import Prelude Headers Kernel.

Record sim := {
  sim_clock : Z;                (* nanoseconds; every reading advances it by 100 *)
  sim_jiffies : Z;
  sim_admit : bool;             (* the rate limiters' answer *)
  sim_kmalloc : bool;
  sim_alloc_skb : nat;          (* how many more allocations succeed *)
  sim_dev : option Z;
  sim_xmit_rc : Z;
  sim_admin : bool;
  sim_user : list Z;            (* the user buffer *)
  sim_fault : Z;                (* bytes a user copy fails to copy *)
  sim_refuse : option resource; (* the registration that fails, if any *)
}.

Definition sim_ok : sim :=
  Build_sim 1700000000000000000 5000 true true 1000 (Some 2) 0 true [] 0 None.

Definition sim_tick (w : sim) : sim :=
  match w with Build_sim a b c d e f g h i j k => Build_sim (a + 100) b c d e f g h i j k end.
Definition sim_use_skb (w : sim) : sim :=
  match w with Build_sim a b c d e f g h i j k => Build_sim a b c d (pred e) f g h i j k end.

#[export] Instance sim_kernel : KernelEnv sim := {
  ktime_get_real_ts64 w := ((sim_clock w / 1000000000, sim_clock w mod 1000000000), sim_tick w);
  read_jiffies w := (sim_jiffies w, w);
  ratelimit_ok _ w := (sim_admit w, w);
  kmalloc_ok _ w := (sim_kmalloc w, w);
  alloc_skb_ok _ w := (negb (Nat.eqb (sim_alloc_skb w) 0), sim_use_skb w);
  find_device w := (sim_dev w, w);
  qdisc_xmit _ w := (sim_xmit_rc w, w);
  jhash_3words a b c _ := (a + 31 * b + 961 * c) mod 2 ^ 32;
  capable_net_admin w := sim_admin w;
  copy_from_user _ n w :=
    ((resize (Z.to_nat n) 0
        (take (Z.to_nat (n - sim_fault w)) ((fun b => b mod 256) <$> sim_user w)),
      sim_fault w), w);
  copy_to_user _ _ w := (sim_fault w, w);
  register_int r w := (if decide (sim_refuse w = Some r) then - ENOMEM else 0, w);
  register_ptr r w :=
    (if decide (sim_refuse w = Some r)
     then if decide (r = RProc) then PNull else PErr (- ENOMEM)
     else PValid, w);
  stale_bytes n _ := replicate (Z.to_nat n) 0xAA;
  NET_IP_ALIGN := 2;
}.

Lemma resize_bytes n (l : list Z) : Forall is_byte l -> Forall is_byte (resize n 0 l).
Proof. intros H. apply Forall_resize; done. Qed.

#[export] Instance sim_laws : KernelLaws sim.
Proof.
  split; intros; cbn [register_int register_ptr copy_from_user stale_bytes sim_kernel fst] in *;
    repeat case_decide; simplify_eq; try done.
  - unfold zlen. rewrite length_replicate. lia.
  - subst bytes. cbn [fst]. split; [unfold zlen; rewrite length_resize; lia|].
    apply resize_bytes, Forall_take, Forall_fmap, Forall_true. intros. simpl.
    unfold in_width. change (2 ^ 8) with 256. apply Z.mod_pos_bound. lia.
Qed.

(** Two kernels whose answers never change: in the first everything succeeds,
    in the second the queueing discipline drops every frame (rc 1). *)
Definition fixed_kernel (T : Type) (a : sim) : KernelEnv T := {|
  ktime_get_real_ts64 w := (fst (ktime_get_real_ts64 a), w);
  read_jiffies w := (sim_jiffies a, w);
  ratelimit_ok r w := (sim_admit a, w);
  kmalloc_ok _ w := (sim_kmalloc a, w);
  alloc_skb_ok _ w := (negb (Nat.eqb (sim_alloc_skb a) 0), w);
  find_device w := (sim_dev a, w);
  qdisc_xmit _ w := (sim_xmit_rc a, w);
  jhash_3words := jhash_3words (KernelEnv := sim_kernel);
  capable_net_admin _ := sim_admin a;
  copy_from_user p n w := (fst (copy_from_user p n a), w);
  copy_to_user _ _ w := (sim_fault a, w);
  register_int r w := (fst (register_int r a), w);
  register_ptr r w := (fst (register_ptr r a), w);
  stale_bytes n _ := replicate (Z.to_nat n) 0xAA;
  NET_IP_ALIGN := 2;
|}.

Lemma fixed_laws T a : KernelLaws (KernelEnv0 := fixed_kernel T a) T.
Proof.
  split; intros; cbn [NET_IP_ALIGN register_int register_ptr copy_from_user stale_bytes
    fixed_kernel fst] in *.
  - lia.
  - by apply (stale_bytes_length (KernelEnv0 := sim_kernel) n a).
  - by apply (copy_from_user_fills (KernelEnv0 := sim_kernel) a0 n a).
  - apply (register_int_result (KernelEnv0 := sim_kernel)).
  - by eapply (register_ptr_error (KernelEnv0 := sim_kernel)).
  - apply (class_not_null (KernelEnv0 := sim_kernel)).
  - apply (device_not_null (KernelEnv0 := sim_kernel)).
  - apply (proc_not_error (KernelEnv0 := sim_kernel)).
Qed.

Inductive calm := Calm.
Inductive busy := Busy.

#[export] Instance calm_kernel : KernelEnv calm := fixed_kernel calm sim_ok.
#[export] Instance calm_laws : KernelLaws calm.
Proof. apply fixed_laws. Qed.

#[export] Instance busy_kernel : KernelEnv busy := fixed_kernel busy
  (Build_sim 1700000000000000000 5000 true true 1000 (Some 2) 1 true [] 0 None).
#[export] Instance busy_laws : KernelLaws busy.
Proof. apply fixed_laws. Qed.

(** A linear buffer: its data and the room left behind it. New bytes hold the
    value 0xAA, so that a read of uninitialised data would show. *)
Record lskb := { ls_bytes : list Z; ls_room : Z }.

#[export] Instance lskb_ops : SkbOps lskb := {
  skb_fresh n := Build_lskb [] (Z.max 0 n);
  skb_bytes := ls_bytes;
  skb_tailroom := ls_room;
  skb_reserve n b := Build_lskb (ls_bytes b) (ls_room b - n);
  skb_put n b :=
    if ls_room b <? n then None
    else Some (Build_lskb (ls_bytes b ++ replicate (Z.to_nat n) 0xAA) (ls_room b - n));
  skb_store off bs b := Build_lskb (splice off bs (ls_bytes b)) (ls_room b);
}.

#[export] Instance lskb_laws : SkbLaws lskb.
Proof.
  split; intros;
    cbn [skb_fresh skb_bytes skb_tailroom skb_reserve skb_put skb_store lskb_ops
         ls_room ls_bytes] in *; try done; try lia.
  - rewrite (proj2 (Z.ltb_ge _ _)) by lia. eexists _, (replicate (Z.to_nat n) 0xAA). split; [done|].
    cbn [ls_room ls_bytes]. unfold zlen. rewrite length_replicate. split; [lia|done].
  - by rewrite (proj2 (Z.ltb_lt _ _)).
Qed.

(** The module just loaded into this kernel. *)
Definition sim_loaded : kstate sim lskb := loaded sim_ok.

(** The result of a run that does not crash, and its final state. *)
Definition result_of {W B A} (o : outcome (A * kstate W B)) : option A :=
  match o with Done (a, _) => Some a | Crashed _ => None end.
Definition state_of {W B A} (o : outcome (A * kstate W B)) (d : kstate W B) : kstate W B :=
  match o with Done (_, s) => s | Crashed _ => d end.
