(* ===== verification/Debug.v ===== *)
(** * debug.c: error log, debugfs statistics, trace event

    [nanonet_log_error] is called from every other component. The relation
    [logged] says what a call may change - the clock and rate-limiter state of
    the kernel, the kernel log and [debug_stats.last_error] - so that the other
    components' theorems need not mention logging. *)

From S2P Require Import Prelude Headers Kernel.

Section Debug.
Context {W B : Type} `{!KernelEnv W}.
Local Abbreviation M := (M W B).

(** [ts.tv_sec * 1000000000LL + ts.tv_nsec], returned as [u64]. *)
Definition get_timestamp_ns : M Z :=
  '(sec, nsec) ← ask ktime_get_real_ts64;
  mret (u64 (s64 (sec * 1000000000 + nsec))).

Definition set_last_error (e : list Z) (d : ull_debug_stats) : ull_debug_stats :=
  match d with Build_ull_debug_stats a b c q x _ => Build_ull_debug_stats a b c q x e end.

(** [msg] is the text that [fmt] and its arguments render to; [vsnprintf]
    truncates it to the 256-byte buffer. *)
Definition nanonet_log_error (msg : list Z) : M unit :=
  ts ← get_timestamp_ns;
  ok ← ask (ratelimit_ok nanonet_error_ratelimit);
  if negb ok then mret tt else
  let buffer := snprintf 256 msg in
  let e := snprintf 256 (str "[" ++ fmt_u ts ++ str " ns] " ++ buffer) in
  _ ← modify (fun s => set_debug (set_last_error e (debug_stats s)) s);
  printk (str "NANONET: " ++ e ++ newline).

Definition nanonet_debug_stats_show (d : ull_debug_stats) : list Z :=
  str "NanoNet Debug Statistics" ++ newline ++
  str "============================" ++ newline ++
  str "Total Interrupts: " ++ fmt_u (total_interrupts d) ++ newline ++
  str "Cache Misses: " ++ fmt_u (cache_misses d) ++ newline ++
  str "Memory Allocations: " ++ fmt_u (memory_allocations d) ++ newline ++
  str "Queue Full Events: " ++ fmt_u (queue_full_events d) ++ newline ++
  str "Checksum Errors: " ++ fmt_u (checksum_errors d) ++ newline ++
  str "Last Error: " ++ last_error d ++ newline.

(** The pointer tests are on NULL; an [ERR_PTR] result passes them. *)
Definition debug_stats_file : M Z :=
  file ← ask (register_ptr RDebugFile);
  match file with
  | PNull =>
      _ ← release RDebugFile;
      _ ← release RDebugDir;
      _ ← printk (str "NANONET: Failed to create debugfs stats file" ++ newline);
      mret (- ENOMEM)
  | _ =>
      _ ← match file with PValid => acquire RDebugFile | _ => mret tt end;
      mret 0
  end.

Definition nanonet_debug_init : M Z :=
  dir ← ask (register_ptr RDebugDir);
  match dir with
  | PNull =>
      _ ← printk (str "NANONET: Failed to create debugfs directory" ++ newline);
      mret (- ENOMEM)
  | _ =>
      _ ← match dir with PValid => acquire RDebugDir | _ => mret tt end;
      debug_stats_file
  end.

(** [debugfs_remove_recursive(nanonet_debug_dir)]. *)
Definition nanonet_debug_cleanup : M unit :=
  _ ← release RDebugFile;
  release RDebugDir.

(** [TRACE_EVENT(nanonet_packet_processed, ...)]. *)
Definition trace_nanonet_packet_processed
    (src_ip src_port dst_ip dst_port process_time_ns result : Z) : M unit :=
  modify (fun s => set_trace_log
    (Build_trace_entry src_ip src_port dst_ip dst_port process_time_ns result
       :: trace_log s) s).
End Debug.

(** ** What logging may change *)

Definition debug_counters (d : ull_debug_stats) : Z * Z * Z * Z * Z :=
  (total_interrupts d, cache_misses d, memory_allocations d, queue_full_events d,
   checksum_errors d).

(** [last_error] fits the 256-byte array with its terminating NUL. *)
Definition last_error_fits (d : ull_debug_stats) : Prop := zlen (last_error d) <= 255.

Definition log_upd {W B} (d : ull_debug_stats) (k : list (list Z)) (w : W)
    (s : kstate W B) : kstate W B :=
  set_debug d (set_klog k (set_world w s)).

Definition logged {W B} (s s' : kstate W B) : Prop :=
  exists d k w,
    s' = log_upd d k w s /\
    debug_counters d = debug_counters (debug_stats s) /\
    (last_error_fits (debug_stats s) -> last_error_fits d).

(** ** Frames

    [frame mods s s']: going from [s] to [s'] changed at most the parts of the
    state named in [mods], the log and the kernel's own state; the debug record
    evolved as logging makes it evolve. *)

Inductive kfield :=
  | FConfig | FStats | FTarget | FConns | FPool | FSkbs | FKlive
  | FDevRefs | FRegistered | FWire | FTrace | FUser | FDebug.

Definition kept {W B} (f : kfield) (s s' : kstate W B) : Prop :=
  match f with
  | FConfig => global_config s' = global_config s
  | FStats => global_stats s' = global_stats s
  | FTarget => target_dev s' = target_dev s
  | FConns => connection_hash s' = connection_hash s
  | FPool => response_pool s' = response_pool s
  | FSkbs => skbs s' = skbs s /\ next_skb s' = next_skb s
  | FKlive => klive s' = klive s /\ next_obj s' = next_obj s
  | FDevRefs => dev_refs s' = dev_refs s
  | FRegistered => registered s' = registered s
  | FWire => wire s' = wire s
  | FTrace => trace_log s' = trace_log s
  | FUser => user_writes s' = user_writes s
  | FDebug => debug_counters (debug_stats s') = debug_counters (debug_stats s) /\
      (last_error_fits (debug_stats s) -> last_error_fits (debug_stats s'))
  end.

Definition frame {W B} (mods : list kfield) (s s' : kstate W B) : Prop :=
  forall f, f ∉ mods -> kept f s s'.

(** Prove a frame by looking at each field. *)
Ltac solve_frame :=
  intros [] Hnotin;
  first [ by exfalso; apply Hnotin; repeat constructor
        | exact eq_refl
        | exact (conj eq_refl eq_refl)
        | exact (conj eq_refl (fun H => H)) ].

(** Rewrite a field that a frame keeps. *)
Ltac keep Hf f :=
  let H := fresh in
  pose proof (Hf f ltac:(set_solver)) as H; cbn [kept] in H; rewrite H; clear H.

Section Frames.
Context {W B : Type}.
Implicit Types s : kstate W B.

#[export] Instance frame_preorder mods : PreOrder (frame (W := W) (B := B) mods).
Proof.
  split.
  - intros s f _. by destruct f.
  - intros s1 s2 s3 H1 H2 f Hf. specialize (H1 f Hf). specialize (H2 f Hf).
    destruct f; simpl in *; try (by etrans); destruct H1, H2; split; try (by etrans); auto.
Qed.

Lemma frame_weaken mods mods' s s' : mods ⊆ mods' -> frame mods s s' -> frame mods' s s'.
Proof. intros Hsub H f Hf. apply H. set_solver. Qed.

Lemma logged_frame mods s s' : logged s s' -> frame mods s s'.
Proof. intros (d & k & w & -> & Hc & Hf). destruct s. by intros [] _. Qed.
End Frames.

Section Logged.
Context {W B : Type} `{!KernelEnv W}.
Implicit Types s : kstate W B.

#[export] Instance logged_preorder : PreOrder (logged (W := W) (B := B)).
Proof.
  split.
  - intros s. exists (debug_stats s), (klog s), (world s). by destruct s.
  - intros s1 s2 s3 (d1 & k1 & w1 & -> & Hc1 & Hf1) (d2 & k2 & w2 & -> & Hc2 & Hf2).
    destruct s1. unfold log_upd in *. simpl in *. exists d2, k2, w2. split_and!; [done|by etrans|auto].
Qed.

Lemma logged_world w s : logged s (set_world w s).
Proof. exists (debug_stats s), (klog s), w. by destruct s. Qed.

Lemma logged_printk msg s s' : printk msg s = Done (tt, s') -> logged s s'.
Proof.
  intros [= <-]. exists (debug_stats s), (msg :: klog s), (world s). by destruct s.
Qed.

Lemma get_timestamp_run s :
  exists t s', get_timestamp_ns s = Done (t, s') /\ logged s s' /\ in_width 64 t.
Proof.
  unfold get_timestamp_ns, mbind, M_bind, ask.
  destruct (ktime_get_real_ts64 (world s)) as [[sec nsec] w].
  do 2 eexists. split; [done|]. split; [apply logged_world|]. by apply wrap_range.
Qed.

Lemma snprintf_length size text : 1 <= size -> zlen (snprintf size text) <= size - 1.
Proof. intros. unfold snprintf, zlen. rewrite length_take. lia. Qed.

Lemma log_error_run msg s :
  exists s', nanonet_log_error msg s = Done (tt, s') /\ logged s s'.
Proof.
  destruct (get_timestamp_run s) as (t & s1 & E & Hl & _).
  unfold nanonet_log_error. unfold mbind at 1, M_bind at 1. rewrite E.
  unfold mbind at 1, M_bind at 1, ask at 1.
  destruct (ratelimit_ok _ _) as [ok w]. destruct ok; simpl.
  - eexists. split; [done|]. etransitivity; [exact Hl|].
    eexists _, _, w. split; [by destruct s1|]. destruct s1 as [?????[]]; simpl.
    split; [done|]. intros _. unfold last_error_fits. simpl.
    change 255 with (256 - 1). by apply snprintf_length.
  - eexists. split; [done|]. etransitivity; [exact Hl|]. apply logged_world.
Qed.

(** Run a logging call in front of a continuation. *)
Lemma log_error_bind {A} msg (k : unit -> M W B A) s :
  exists s1, logged s s1 /\ (x ← nanonet_log_error msg; k x) s = k tt s1.
Proof.
  destruct (log_error_run msg s) as (s1 & E & Hl). exists s1. split; [done|].
  unfold mbind, M_bind. by rewrite E.
Qed.

(** An error branch: log and return. *)
Lemma log_and_return {A} msg (a : A) s :
  exists s', (_ ← nanonet_log_error msg; mret a) s = Done (a, s') /\ logged s s'.
Proof.
  destruct (log_error_run msg s) as (s' & E & Hl). exists s'.
  by rewrite (bind_run _ _ _ _ _ E).
Qed.

Lemma log_error_Done msg s u s' :
  nanonet_log_error msg s = Done (u, s') -> logged s s'.
Proof. destruct (log_error_run msg s) as (s1 & -> & Hl). by intros [= <- <-]. Qed.
End Logged.

#[export] Hint Resolve logged_world logged_printk log_error_Done : nano.
