(* ===== verification/Checksum.v ===== *)
(** * micro_stack.c: the internet checksum

    [nanonet_compute_checksum] and [validate_checksum] as written (16-bit
    little-endian loads, a 32-bit accumulator, the carry-folding loop), a
    reference definition of the RFC 1071 checksum on big-endian words with
    end-around carry, and the relation between the two. *)

From S2P Require Import Prelude Headers.

(** ** The code *)

(** [while (len > 1) { sum += *ptr++; len -= 2; }] from the pointer [m]; the
    result is the sum, the remaining length and the advanced pointer. [None]
    is a read past the end of the buffer. *)
Fixpoint sum_words (m : list Z) (len sum : Z) : option (Z * Z * list Z) :=
  if negb (1 <? len) then Some (sum, len, m) else
  match m with
  | b0 :: b1 :: rest => sum_words rest (len - 2) (u32 (sum + (b0 + 256 * b1)))
  | _ => None
  end.

(** [if (len == 1) sum += *(u8 * )ptr << 8;] *)
Definition sum_odd (m : list Z) (len sum : Z) : option Z :=
  if len =? 1 then
    match m with
    | b :: _ => Some (u32 (sum + Z.shiftl b 8))
    | [] => None
    end
  else Some sum.

(** [while (sum >> 16) sum = (sum & 0xFFFF) + (sum >> 16);]. Two rounds are
    enough for a 32-bit sum ([fold_carry_norm]); [None] is out of fuel. *)
Fixpoint fold_carry (fuel : nat) (sum : Z) : option Z :=
  if Z.shiftr sum 16 =? 0 then Some sum else
  match fuel with
  | O => None
  | S f => fold_carry f (u32 (Z.land sum 0xFFFF + Z.shiftr sum 16))
  end.

Definition nanonet_compute_checksum (data : list Z) (len : Z) : option Z :=
  '(sum, len, ptr) ← sum_words data len 0;
  sum ← sum_odd ptr len sum;
  sum ← fold_carry 2 sum;
  Some (u16 (Z.lnot sum)).

Definition validate_checksum (data : list Z) (len check : Z) : option Z :=
  calc_check ← nanonet_compute_checksum data len;
  Some (if calc_check =? check then 0 else - EINVAL).

(** ** The reference: RFC 1071 *)

Fixpoint be_words (bs : list Z) : list Z :=
  match bs with
  | a :: b :: rest => 256 * a + b :: be_words rest
  | [a] => [256 * a]
  | [] => []
  end.

(** One's complement addition: the carry out of bit 15 is added back. *)
Definition oc_add (x y : Z) : Z :=
  if 65536 <=? x + y then x + y - 65535 else x + y.

Definition rfc1071 (bs : list Z) : Z := 65535 - fold_left oc_add (be_words bs) 0.

(** ** Arithmetic of one's complement sums *)

(** The 16-bit one's complement representative of a sum. *)
Definition ones_norm (s : Z) : Z := if s =? 0 then 0 else (s - 1) mod 65535 + 1.

Fixpoint le_sum (bs : list Z) : Z :=
  match bs with
  | a :: b :: rest => (a + 256 * b) + le_sum rest
  | _ => 0
  end.

Definition be_sum (bs : list Z) : Z := foldr Z.add 0 (be_words bs).

Lemma ones_norm_range s : 0 <= s -> 0 <= ones_norm s <= 65535.
Proof.
  intros. unfold ones_norm. destruct (s =? 0); [lia|]. Z.div_mod_to_equations; lia.
Qed.

Lemma oc_add_norm x y :
  0 <= x -> 0 <= y <= 65535 -> oc_add (ones_norm x) y = ones_norm (x + y).
Proof.
  intros Hx Hy. unfold oc_add, ones_norm.
  destruct (Z.eqb_spec x 0), (Z.eqb_spec (x + y) 0);
    repeat match goal with |- context [?a <=? ?b] => destruct (Z.leb_spec a b) end;
    Z.div_mod_to_equations; lia.
Qed.

Lemma be_words_range bs :
  Forall is_byte bs -> Forall (fun w => 0 <= w <= 65535) (be_words bs).
Proof.
  induction bs as [|a|a b bs IH] using list_pair_ind; intros H; simpl;
    repeat match goal with H : Forall _ (_ :: _) |- _ => apply Forall_cons in H as [? H] end;
    repeat constructor; try width_lia. auto.
Qed.

Lemma fold_oc_add_norm ws x :
  0 <= x -> Forall (fun w => 0 <= w <= 65535) ws ->
  fold_left oc_add ws (ones_norm x) = ones_norm (x + foldr Z.add 0 ws).
Proof.
  revert x. induction ws as [|w ws IH]; intros x Hx Hws; simpl.
  - by rewrite Z.add_0_r.
  - apply Forall_cons in Hws as [Hw Hws].
    rewrite oc_add_norm by done. rewrite IH by (done || lia). f_equal. lia.
Qed.

(** The reference in closed form. *)
Lemma rfc1071_norm bs : Forall is_byte bs -> rfc1071 bs = 65535 - ones_norm (be_sum bs).
Proof.
  intros H. unfold rfc1071. change 0 with (ones_norm 0) at 1.
  rewrite fold_oc_add_norm by (done || by apply be_words_range). done.
Qed.

(** Little-endian and big-endian sums agree up to the factor 256, the value of
    a byte swap in one's complement arithmetic. *)
Lemma le_be_sum bs :
  Forall is_byte bs -> Nat.even (length bs) = true ->
  exists k, 0 <= k <= be_sum bs /\ 256 * le_sum bs = be_sum bs + 65535 * k /\
  0 <= le_sum bs /\ (be_sum bs = 0 <-> le_sum bs = 0).
Proof.
  unfold be_sum. induction bs as [|a|a b bs IH] using list_pair_ind; intros H He; simpl.
  - exists 0. lia.
  - done.
  - apply Forall_cons in H as [Ha H]. apply Forall_cons in H as [Hb H].
    destruct (IH H He) as (k & Hk & E & Hpos & Hz).
    exists (k + b). width_lia.
Qed.

Lemma be_sum_nonneg bs : Forall is_byte bs -> 0 <= be_sum bs.
Proof.
  intros H%be_words_range. unfold be_sum.
  induction H; simpl; lia.
Qed.

Lemma bswap16_ones_norm s t k :
  0 <= s -> 0 <= t -> 256 * s = t + 65535 * k -> (t = 0 <-> s = 0) ->
  bswap16 (ones_norm s) = ones_norm t.
Proof.
  intros Hs Ht E Hz. pose proof (ones_norm_range s Hs).
  rewrite bswap16_value by width_lia. unfold ones_norm in *.
  destruct (Z.eqb_spec s 0) as [->|]; [destruct (Z.eqb_spec t 0); [done|lia]|].
  destruct (Z.eqb_spec t 0); [lia|]. Z.div_mod_to_equations. lia.
Qed.

Lemma bswap16_complement x : in_width 16 x -> bswap16 (65535 - x) = 65535 - bswap16 x.
Proof. intros Hx. rewrite !bswap16_value by width_lia. width_lia. Qed.

(** ** The loops *)

Lemma fold_carry_done fuel s : in_width 16 s -> fold_carry fuel s = Some s.
Proof.
  intros Hs. destruct fuel; simpl; rewrite Z.shiftr_div_pow2 by lia;
    (destruct (Z.eqb_spec (s / 2 ^ 16) 0); [done|]; width_lia).
Qed.

Lemma fold_carry_step fuel s :
  in_width 32 s -> 65536 <= s ->
  fold_carry (S fuel) s = fold_carry fuel (s mod 65536 + s / 65536).
Proof.
  intros Hs Hge. simpl. change 65535 with (Z.ones 16).
  rewrite Z.land_ones, Z.shiftr_div_pow2 by lia.
  destruct (Z.eqb_spec (s / 2 ^ 16) 0); [width_lia|].
  f_equal. width_lia.
Qed.

(** Two rounds of carry folding normalise every 32-bit sum. *)
Lemma fold_carry_norm s fuel :
  in_width 32 s -> (2 <= fuel)%nat -> fold_carry fuel s = Some (ones_norm s).
Proof.
  intros Hs Hf. destruct fuel as [|[|f]]; try lia. unfold ones_norm.
  destruct (Z.lt_ge_cases s 65536).
  { rewrite fold_carry_done by width_lia. f_equal.
    destruct (Z.eqb_spec s 0); [done|]. width_lia. }
  rewrite fold_carry_step by done.
  set (s1 := s mod 65536 + s / 65536).
  assert (65535 < s1 -> s1 mod 65536 + s1 / 65536 = s1 - 65535) as E2
    by (subst s1; width_lia).
  destruct (Z.eqb_spec s 0); [lia|].
  destruct (Z.lt_ge_cases s1 65536).
  { rewrite fold_carry_done by (subst s1; width_lia). f_equal. subst s1. width_lia. }
  rewrite fold_carry_step by (subst s1; width_lia). rewrite E2 by lia.
  rewrite fold_carry_done by (subst s1; width_lia). f_equal. subst s1. width_lia.
Qed.

(** The summing loop in closed form, for [n] words and [r] odd bytes. *)
Lemma sum_words_closed n r m sum :
  Forall is_byte m -> r < 2 -> (2 * n <= length m)%nat ->
  0 <= sum -> sum + 65535 * Z.of_nat n < 2 ^ 32 ->
  0 <= r ->
  sum_words m (2 * Z.of_nat n + r) sum =
    Some (sum + le_sum (take (2 * n) m), r, drop (2 * n) m).
Proof.
  revert m sum. induction n as [|n IH]; intros m sum Hm Hr Hlen Hs Hb Hr0.
  - change (2 * Z.of_nat 0 + r) with r.
    destruct m; simpl; replace (1 <? r) with false by (symmetry; apply Z.ltb_ge; lia);
      simpl; by rewrite Z.add_0_r.
  - destruct m as [|b0 [|b1 m]]; simpl in Hlen; try lia.
    apply Forall_cons in Hm as [H0 Hm]. apply Forall_cons in Hm as [H1 Hm].
    replace (2 * S n)%nat with (S (S (2 * n))) by lia.
    simpl sum_words. replace (1 <? _) with true by (symmetry; apply Z.ltb_lt; lia).
    simpl negb. cbv iota.
    replace (2 * Z.of_nat (S n) + r - 2) with (2 * Z.of_nat n + r) by lia.
    assert (u32 (sum + (b0 + 256 * b1)) = sum + (b0 + 256 * b1)) as ->
      by (apply wrap_small; width_lia).
    rewrite IH; [|done|done|lia|width_lia|width_lia|done].
    simpl. do 3 f_equal. lia.
Qed.

Lemma sum_words_short m len sum :
  zlen m < len -> 1 < len ->
  sum_words m len sum = None \/ exists x, sum_words m len sum = Some (x, 1, []).
Proof.
  revert len sum. induction m as [|a|a b m IH] using list_pair_ind; intros len sum Hl H1;
    simpl; rewrite (proj2 (Z.ltb_lt _ _) H1); simpl; [by left|by left|].
  rewrite !zlen_cons in Hl.
  destruct (Z.lt_ge_cases 1 (len - 2)) as [Hlt|Hge].
  - apply IH; lia.
  - right. pose proof (zlen_nonneg m).
    assert (zlen m = 0) as Hm by lia. unfold zlen in Hm.
    destruct m; [|simpl in Hm; lia]. assert (len - 2 = 1) as -> by lia. simpl. eauto.
Qed.

(** Reading past the end of the buffer is the only way the computation fails. *)
Lemma checksum_oob m len :
  zlen m < len -> 0 <= len -> nanonet_compute_checksum m len = None.
Proof.
  intros Hl H0. unfold nanonet_compute_checksum.
  destruct (Z.lt_ge_cases 1 len) as [H1|H1].
  - destruct (sum_words_short m len 0 Hl H1) as [->|[x ->]]; done.
  - pose proof (zlen_nonneg m). assert (len = 1) as -> by lia.
    assert (zlen m = 0) as Hm by lia. unfold zlen in Hm.
    destruct m; [done|simpl in Hm; lia].
Qed.

(** ** Closed form of the computed checksum *)

(** The bytes whose RFC 1071 checksum the code computes: for an odd length it
    puts the last byte in the low half of the last (big-endian) word. *)
Definition checksummed (m : list Z) (len : Z) : list Z :=
  let n := Z.to_nat len in
  if Nat.even n then take n m
  else take (n - 1) m ++ [0; nth (n - 1) m 0].

Lemma checksummed_bytes m len : Forall is_byte m -> Forall is_byte (checksummed m len).
Proof.
  intros H. unfold checksummed. destruct (Nat.even _); [by apply Forall_take|].
  apply Forall_app. split; [by apply Forall_take|].
  apply Forall_cons. split; [done|]. apply Forall_singleton.
  destruct (nth_in_or_default (Z.to_nat len - 1) m 0) as [Hin| ->]; [|done].
  rewrite Forall_forall in H. apply H. by apply list_elem_of_In.
Qed.

Lemma le_sum_app a b : Nat.even (length a) = true -> le_sum (a ++ b) = le_sum a + le_sum b.
Proof.
  induction a as [|x|x y a IH] using list_pair_ind; intros He; simpl; [done|done|].
  rewrite IH by done. lia.
Qed.

Lemma le_sum_bound bs : Forall is_byte bs -> 0 <= le_sum bs /\ 2 * le_sum bs <= 65535 * zlen bs.
Proof.
  induction bs as [|x|x y bs IH] using list_pair_ind; intros H; [done|done|].
  apply Forall_cons in H as [Hx H]. apply Forall_cons in H as [Hy H].
  rewrite !zlen_cons. destruct (IH H). simpl. width_lia.
Qed.

Lemma sum_loops m len :
  Forall is_byte m -> 0 <= len <= 65535 -> len <= zlen m ->
  ('(sum, len, ptr) ← sum_words m len 0; sum_odd ptr len sum) =
    Some (le_sum (checksummed m len)).
Proof.
  intros Hm Hlen Hz. unfold zlen in Hz.
  set (n := Z.to_nat (len / 2)). set (r := len mod 2).
  assert (len = 2 * Z.of_nat n + r) as E by (subst n r; width_lia).
  assert (0 <= r < 2) as Hr by (subst r; width_lia).
  rewrite E at 1. rewrite sum_words_closed; [|done|lia|lia|lia| |lia].
  2:{ change (2 ^ 32) with 4294967296. lia. }
  cbn [mbind option_bind]. unfold checksummed, sum_odd.
  destruct (Z.eqb_spec r 1) as [Hr1|Hr1].
  - replace (Z.to_nat len) with (S (2 * n)) by lia.
    rewrite Nat.even_succ, Nat.odd_even, Nat.sub_succ, Nat.sub_0_r.
    destruct (drop (2 * n) m) as [|b rest] eqn:Ed.
    { apply (f_equal length) in Ed. rewrite length_drop in Ed. simpl in Ed. lia. }
    assert (nth (2 * n) m 0 = b) as ->.
    { rewrite <- (take_drop (2 * n) m), Ed, app_nth2; rewrite length_take; [|lia].
      by replace (2 * n - _)%nat with 0%nat by lia. }
    rewrite le_sum_app by (rewrite length_take, Nat.min_l by lia; by rewrite Nat.even_even).
    pose proof (le_sum_bound (take (2 * n) m) (Forall_take _ _ _ Hm)) as [H1 H2].
    unfold zlen in H2. rewrite length_take in H2.
    assert (is_byte b) as Hb.
    { apply (Forall_drop _ (2 * n)) in Hm. rewrite Ed in Hm. by apply Forall_cons in Hm as [? _]. }
    rewrite Z.shiftl_mul_pow2 by lia. f_equal. cbn [le_sum].
    rewrite wrap_small; width_lia.
  - replace (Z.to_nat len) with (2 * n)%nat by lia. by rewrite Nat.even_even.
Qed.

Lemma checksummed_even m len :
  0 <= len <= zlen m -> Nat.even (length (checksummed m len)) = true.
Proof.
  unfold checksummed, zlen. intros H. destruct (Nat.even (Z.to_nat len)) eqn:E.
  - rewrite length_take, Nat.min_l by lia. done.
  - rewrite length_app, length_take, Nat.min_l by lia. simpl.
    replace (Z.to_nat len - 1 + 2)%nat with (S (Z.to_nat len))
      by (destruct (Z.to_nat len); [done|lia]).
    rewrite Nat.even_succ. unfold Nat.odd. by rewrite E.
Qed.

Lemma checksummed_len m len : 0 <= len <= zlen m -> zlen (checksummed m len) <= len + 1.
Proof.
  unfold checksummed, zlen. intros H. destruct (Nat.even (Z.to_nat len)) eqn:E.
  - rewrite length_take. lia.
  - rewrite length_app, length_take. simpl. destruct (Z.to_nat len) eqn:E2; [done|]. lia.
Qed.

Lemma lnot_complement s : 0 <= s <= 65535 -> u16 (Z.lnot s) = 65535 - s.
Proof. intros H. unfold Z.lnot. width_lia. Qed.

(** The computed checksum is the RFC 1071 checksum, in network byte order, of
    the bytes [checksummed]. *)
Lemma compute_checksum_closed m len :
  Forall is_byte m -> 0 <= len <= 65535 -> len <= zlen m ->
  nanonet_compute_checksum m len = Some (htons (rfc1071 (checksummed m len))).
Proof.
  intros Hm Hlen Hz.
  assert (nanonet_compute_checksum m len =
    (sum ← ('(sum, len, ptr) ← sum_words m len 0; sum_odd ptr len sum);
     sum ← fold_carry 2 sum; Some (u16 (Z.lnot sum)))) as ->.
  { unfold nanonet_compute_checksum.
    by destruct (sum_words m len 0) as [[[? ?] ?]|]. }
  rewrite sum_loops by done. cbn [mbind option_bind].
  pose proof (checksummed_bytes m len Hm) as Hb.
  destruct (le_be_sum _ Hb (checksummed_even m len ltac:(lia))) as (k & Hk & E & Hp & Hzero).
  destruct (le_sum_bound _ Hb) as [_ Hup].
  pose proof (checksummed_len m len ltac:(lia)).
  rewrite fold_carry_norm by (lia || width_lia). cbn [mbind option_bind]. f_equal.
  pose proof (be_sum_nonneg _ Hb) as Hbe.
  pose proof (ones_norm_range _ Hp). pose proof (ones_norm_range _ Hbe).
  rewrite lnot_complement by done. rewrite rfc1071_norm by done.
  rewrite bswap16_complement by width_lia. f_equal.
  rewrite <- (bswap16_ones_norm _ _ k Hp Hbe E Hzero).
  by rewrite bswap16_involutive by width_lia.
Qed.

Lemma rfc1071_range bs : Forall is_byte bs -> in_width 16 (rfc1071 bs).
Proof.
  intros H. rewrite rfc1071_norm by done.
  pose proof (ones_norm_range _ (be_sum_nonneg _ H)). width_lia.
Qed.

Lemma checksummed_of_even m len :
  Nat.even (Z.to_nat len) = true -> checksummed m len = take (Z.to_nat len) m.
Proof. unfold checksummed. by intros ->. Qed.

Lemma be_words_app a b :
  Nat.even (length a) = true -> be_words (a ++ b) = be_words a ++ be_words b.
Proof.
  induction a as [|x|x y a IH] using list_pair_ind; intros He; simpl; [done|done|].
  by rewrite IH.
Qed.

Lemma be_sum_app a b :
  Nat.even (length a) = true -> be_sum (a ++ b) = be_sum a + be_sum b.
Proof.
  intros He. unfold be_sum. rewrite be_words_app by done.
  induction (be_words a) as [|w ws IH]; simpl; lia.
Qed.

Lemma be_sum_pair x y b : be_sum (x :: y :: b) = 256 * x + y + be_sum b.
Proof. done. Qed.

Lemma ones_norm_fill s : 0 <= s -> ones_norm (s + (65535 - ones_norm s)) = 65535.
Proof.
  intros Hs. pose proof (ones_norm_range s Hs). unfold ones_norm in *.
  destruct (Z.eqb_spec s 0) as [->|]; [done|].
  destruct (Z.eqb_spec (s + (65535 - ((s - 1) mod 65535 + 1))) 0);
    Z.div_mod_to_equations; lia.
Qed.

Lemma le_encode_htons v : in_width 16 v -> le_encode 2 (htons v) = [v / 256; v mod 256].
Proof.
  intros Hv. rewrite bswap16_value by done. cbn [le_encode].
  f_equal; [|f_equal]; width_lia.
Qed.

(** Storing the computed checksum in a zeroed field makes the RFC 1071 checksum
    of the whole range zero. *)
Lemma rfc1071_fill a b :
  Forall is_byte a -> Forall is_byte b -> Nat.even (length a) = true ->
  rfc1071 (a ++ le_encode 2 (htons (rfc1071 (a ++ 0 :: 0 :: b))) ++ b) = 0.
Proof.
  intros Ha Hb He.
  assert (Forall is_byte (a ++ 0 :: 0 :: b)) as H0.
  { apply Forall_app; split; [done|]. by repeat constructor. }
  pose proof (rfc1071_range _ H0) as Hr. rewrite le_encode_htons by done.
  rewrite rfc1071_norm.
  2:{ apply Forall_app; split; [done|]. repeat constructor; width_lia || done. }
  change ([?x; ?y] ++ b) with (x :: y :: b).
  rewrite rfc1071_norm in * by done. rewrite !be_sum_app, !be_sum_pair in * by done.
  pose proof (be_sum_nonneg _ Ha). pose proof (be_sum_nonneg _ Hb).
  replace (be_sum a + (256 * 0 + 0 + be_sum b)) with (be_sum a + be_sum b) by lia.
  replace (be_sum a + (256 * 0 + 0 + be_sum b)) with (be_sum a + be_sum b) in Hr by lia.
  set (s := be_sum a + be_sum b) in *.
  rewrite <- (ones_norm_fill s) at 1 by lia.
  set (v := 65535 - ones_norm s) in *.
  replace (be_sum a + _) with (s + v); [lia|].
  subst s. pose proof (Z.div_mod v 256). lia.
Qed.

(** ** Properties *)

(** For every buffer and every length the code passes (a header length or a
    16-bit UDP length), [nanonet_compute_checksum] terminates with a 16-bit
    value exactly when the buffer holds that many bytes; otherwise it reads past
    the end of the buffer. *)
Theorem checksum_terminates m len :
  Forall is_byte m -> 0 <= len <= 65535 ->
  match nanonet_compute_checksum m len with
  | Some c => in_width 16 c /\ len <= zlen m
  | None => zlen m < len
  end.
Proof.
  intros Hm Hlen. destruct (Z.lt_ge_cases (zlen m) len) as [Hl|Hl].
  - by rewrite checksum_oob by lia.
  - rewrite compute_checksum_closed by done. split; [|done].
    apply bswap16_range, rfc1071_range. by apply checksummed_bytes.
Qed.

Lemma checksum_terminates_witness :
  Forall is_byte [0x45; 0x00; 0x00; 0x1c] /\ (0 <= 4 <= 65535) /\
  match nanonet_compute_checksum [0x45; 0x00; 0x00; 0x1c] 4 with
  | Some c => in_width 16 c /\ 4 <= zlen [0x45; 0x00; 0x00; 0x1c]
  | None => zlen [0x45; 0x00; 0x00; 0x1c] < 4
  end.
Proof.
  assert (Forall is_byte [0x45; 0x00; 0x00; 0x1c]) as H by (repeat constructor; done).
  split; [exact H|]. split; [lia|]. apply (checksum_terminates _ 4 H). lia.
Defined.

(** C12: on an even number of bytes the little-endian loop with a 32-bit
    accumulator computes the RFC 1071 checksum, stored in network byte order. *)
Theorem checksum_even_is_rfc1071 m len :
  Forall is_byte m -> 0 <= len <= 65535 -> len <= zlen m -> Z.even len = true ->
  nanonet_compute_checksum m len = Some (htons (rfc1071 (take (Z.to_nat len) m))).
Proof.
  intros Hm Hlen Hz He. rewrite compute_checksum_closed by done.
  rewrite checksummed_of_even; [done|].
  rewrite <- even_to_nat by lia. done.
Qed.

Lemma checksum_even_is_rfc1071_witness :
  nanonet_compute_checksum [0x45; 0x00; 0x00; 0x1c] 4 =
    Some (htons (rfc1071 [0x45; 0x00; 0x00; 0x1c])).
Proof.
  apply (checksum_even_is_rfc1071 [0x45; 0x00; 0x00; 0x1c] 4);
    [repeat constructor; done|lia|done|done].
Defined.

Lemma ones_norm_byte_shift s b :
  0 <= s -> 0 < b < 256 -> ones_norm (s + 256 * b) <> ones_norm (s + b).
Proof.
  intros Hs Hb. unfold ones_norm.
  rewrite !(proj2 (Z.eqb_neq _ _)) by lia. Z.div_mod_to_equations. lia.
Qed.

(** C39: on an odd number of bytes whose last byte is not zero, the value
    computed is never the RFC 1071 checksum: the code adds the last byte shifted
    into the high half of the word, which on this byte order is the wrong
    half. *)
Theorem checksum_odd_not_rfc1071 m len b :
  Forall is_byte m -> 0 <= len <= 65535 -> len <= zlen m -> Z.even len = false ->
  m !! Z.to_nat (len - 1) = Some b -> b <> 0 ->
  nanonet_compute_checksum m len <> Some (htons (rfc1071 (take (Z.to_nat len) m))).
Proof.
  intros Hm Hlen Hz He Hb Hb0. rewrite compute_checksum_closed by done.
  assert (len <> 0) by (intros ->; done).
  assert (Forall is_byte (take (Z.to_nat len) m)) as Ht by by apply Forall_take.
  pose proof (checksummed_bytes m len Hm) as Hc.
  pose proof (rfc1071_range _ Ht). pose proof (rfc1071_range _ Hc).
  intros [= E%(f_equal bswap16)]. rewrite !bswap16_involutive in E by done.
  rewrite !rfc1071_norm in E by done.
  rewrite even_to_nat in He by lia. unfold checksummed in E. rewrite He in E.
  set (k := Z.to_nat (len - 1)) in *.
  replace (Z.to_nat len) with (S k) in * by lia.
  assert (Nat.even k = true) as Hk.
  { rewrite Nat.even_succ in He. unfold Nat.odd in He. by apply negb_false_iff in He. }
  assert (length (take k m) = k) as Hlk by (rewrite length_take; unfold zlen in *; lia).
  rewrite (take_S_r _ _ _ Hb) in E. replace (S k - 1)%nat with k in E by lia.
  rewrite (nth_lookup_Some _ _ _ _ Hb), !be_sum_app in E by (by rewrite Hlk).
  assert (0 < b < 256) as Hbb.
  { pose proof (Forall_lookup_1 _ _ _ _ Hm Hb) as Hbb. clear - Hb0 Hbb. width_lia. }
  pose proof (be_sum_nonneg _ (Forall_take _ k _ Hm)) as Hs.
  apply (ones_norm_byte_shift (be_sum (take k m)) b Hs Hbb).
  change (be_sum [0; b]) with (256 * 0 + b + 0) in E.
  change (be_sum [b]) with (256 * b + 0) in E.
  rewrite !Z.add_0_r in E. change (256 * 0 + b) with b in E. lia.
Qed.

Lemma checksum_odd_not_rfc1071_witness :
  nanonet_compute_checksum [0; 0; 1] 3 <> Some (htons (rfc1071 [0; 0; 1])).
Proof.
  apply (checksum_odd_not_rfc1071 [0; 0; 1] 3 1);
    [repeat constructor; done|lia|done|done|done|lia].
Defined.

(** A range whose stored checksum is correct sums to zero, so comparing the
    computed value with the stored one accepts it only if that is zero. *)
Lemma validate_checksum_of_valid m len check :
  Forall is_byte m -> 0 <= len <= 65535 -> len <= zlen m -> Z.even len = true ->
  rfc1071 (take (Z.to_nat len) m) = 0 ->
  validate_checksum m len check = Some (if 0 =? check then 0 else - EINVAL).
Proof.
  intros Hm Hlen Hz He Hv. unfold validate_checksum.
  rewrite compute_checksum_closed, checksummed_of_even, Hv by
    (done || rewrite <- even_to_nat by lia; done). done.
Qed.
