(* ===== verification/MicroStack.v ===== *)
(** * micro_stack.c: the packet parser

    [ull_parse_packet] over the readable bytes of a received buffer. Pointers
    are byte offsets from [skb->data]; the out-parameters are a record; a read
    outside the linear buffer makes the result [None]. *)

From S2P Require Import Prelude Headers Checksum.

(** The out-parameters of [ull_parse_packet]. *)
Record parse_out := {
  po_ip_hdr : option Z;
  po_tcp_hdr : option Z;
  po_udp_hdr : option Z;
  po_payload : option Z;
  po_payload_len : Z;
}.

Definition out_none : parse_out := Build_parse_out None None None None 0.

(** The common tail: payload pointer and length. The subtraction is in
    [size_t] and is converted to [int]; a negative length resets both. *)
Definition set_payload (skb : sk_buff) (out : parse_out)
    (transport_hdr ip_hdr_len transport_hdr_len : Z) : parse_out :=
  let payload := transport_hdr + transport_hdr_len in
  let payload_len :=
    s32 (u64 (skb_len skb - sizeof_ethhdr - ip_hdr_len - transport_hdr_len)) in
  if payload_len <? 0
  then Build_parse_out (po_ip_hdr out) (po_tcp_hdr out) (po_udp_hdr out) None 0
  else Build_parse_out (po_ip_hdr out) (po_tcp_hdr out) (po_udp_hdr out)
         (Some payload) payload_len.

Definition parse_tcp (skb : sk_buff) (ip ip_hdr_len transport_hdr : Z)
    : option (Z * parse_out) :=
  if skb_len skb <? sizeof_ethhdr + ip_hdr_len + sizeof_tcphdr
  then Some (- EINVAL, Build_parse_out (Some ip) None None None 0) else
  let out := Build_parse_out (Some ip) (Some transport_hdr) None None 0 in
  doff ← tcph_doff (skb_data skb) transport_hdr;
  let transport_hdr_len := doff * 4 in
  if transport_hdr_len <? sizeof_tcphdr then Some (- EINVAL, out) else
  Some (0, set_payload skb out transport_hdr ip_hdr_len transport_hdr_len).

(** The check is skipped when the checksum field is zero (no checksum). *)
Definition parse_udp (skb : sk_buff) (ip ip_hdr_len transport_hdr : Z)
    : option (Z * parse_out) :=
  if skb_len skb <? sizeof_ethhdr + ip_hdr_len + sizeof_udphdr
  then Some (- EINVAL, Build_parse_out (Some ip) None None None 0) else
  let out := Build_parse_out (Some ip) None (Some transport_hdr) None 0 in
  let transport_hdr_len := sizeof_udphdr in
  check ← udph_check (skb_data skb) transport_hdr;
  bad ← (if check =? 0 then Some false else
         len ← udph_len (skb_data skb) transport_hdr;
         v ← validate_checksum (drop (Z.to_nat transport_hdr) (skb_data skb)) (ntohs len) check;
         Some (v <? 0));
  if bad : bool then Some (- EINVAL, out) else
  Some (0, set_payload skb out transport_hdr ip_hdr_len transport_hdr_len).

Definition ull_parse_packet (skb : sk_buff) : option (Z * parse_out) :=
  if skb_len skb <? sizeof_ethhdr then Some (- EINVAL, out_none) else
  proto ← eth_h_proto (skb_data skb) 0;
  if negb (ntohs proto =? ETH_P_IP) then Some (- EPROTONOSUPPORT, out_none) else
  if skb_len skb <? sizeof_ethhdr + sizeof_iphdr then Some (- EINVAL, out_none) else
  let ip := sizeof_ethhdr in
  let out := Build_parse_out (Some ip) None None None 0 in
  version_ihl ← iph_version_ihl (skb_data skb) ip;
  if negb (Z.shiftr version_ihl 4 =? 4) then Some (- EPROTONOSUPPORT, out) else
  let ip_hdr_len := Z.land version_ihl 0x0F * 4 in
  if ip_hdr_len <? sizeof_iphdr then Some (- EINVAL, out) else
  check ← iph_check (skb_data skb) ip;
  v ← validate_checksum (drop (Z.to_nat ip) (skb_data skb)) ip_hdr_len check;
  if v <? 0 then Some (- EINVAL, out) else
  let transport_hdr := ip + ip_hdr_len in
  protocol ← iph_protocol (skb_data skb) ip;
  if protocol =? IPPROTO_TCP then parse_tcp skb ip ip_hdr_len transport_hdr
  else if protocol =? IPPROTO_UDP then parse_udp skb ip ip_hdr_len transport_hdr
  else Some (- EPROTONOSUPPORT, out).

(** ** Well-formed received buffers *)

(** The whole packet is in the linear buffer. *)
Definition linear (skb : sk_buff) : Prop :=
  Forall is_byte (skb_data skb) /\ 0 <= skb_len skb <= zlen (skb_data skb) /\
  skb_len skb < 2 ^ 31.

Lemma land_0f x : Z.land x 0x0F = x mod 16.
Proof. change 0x0F with (Z.ones 4). by rewrite Z.land_ones. Qed.

Lemma shiftr_4 x : Z.shiftr x 4 = x / 16.
Proof. by rewrite Z.shiftr_div_pow2. Qed.

Lemma zlen_drop {A} (l : list A) n : 0 <= n <= zlen l -> zlen (drop (Z.to_nat n) l) = zlen l - n.
Proof. unfold zlen. rewrite length_drop. lia. Qed.

Lemma doff_range m p d :
  Forall is_byte m -> tcph_doff m p = Some d -> 0 <= d <= 15.
Proof.
  intros Hm. unfold tcph_doff. destruct (tcph_flags m p) as [v|]; [|done].
  intros [= <-]. rewrite land_0f. width_lia.
Qed.

(** For the lengths that occur the [size_t] subtraction does not overflow. *)
Lemma payload_len_in_range len ihl thl :
  0 <= len < 2 ^ 31 -> 20 <= ihl <= 60 -> 0 <= thl <= 60 ->
  s32 (u64 (len - 14 - ihl - thl)) = len - 14 - ihl - thl.
Proof.
  intros Hl Hi Ht. change (2 ^ 31) with 2147483648 in Hl.
  unfold swrap. change (2 ^ (32 - 1)) with 2147483648. width_lia.
Qed.

Lemma set_payload_in_range skb out t ihl thl :
  0 <= skb_len skb < 2 ^ 31 -> 20 <= ihl <= 60 -> 0 <= thl <= 60 ->
  set_payload skb out t ihl thl =
    if skb_len skb - 14 - ihl - thl <? 0
    then Build_parse_out (po_ip_hdr out) (po_tcp_hdr out) (po_udp_hdr out) None 0
    else Build_parse_out (po_ip_hdr out) (po_tcp_hdr out) (po_udp_hdr out)
           (Some (t + thl)) (skb_len skb - 14 - ihl - thl).
Proof.
  intros Hl Hi Ht. unfold set_payload, sizeof_ethhdr. by rewrite payload_len_in_range.
Qed.

(** What a successful parse establishes. *)
Record parsed (skb : sk_buff) (out : parse_out) (ihl thl proto : Z) : Prop := {
  parsed_ethertype : exists p, eth_h_proto (skb_data skb) 0 = Some p /\ ntohs p = ETH_P_IP;
  parsed_version : iph_version_ihl (skb_data skb) 14 = Some (64 + ihl / 4);
  parsed_ihl : 20 <= ihl <= 60 /\ ihl mod 4 = 0;
  parsed_checksum : exists c, iph_check (skb_data skb) 14 = Some c /\
    validate_checksum (drop 14 (skb_data skb)) ihl c = Some 0;
  parsed_protocol : iph_protocol (skb_data skb) 14 = Some proto;
  parsed_ip : po_ip_hdr out = Some 14;
  parsed_transport :
    (proto = IPPROTO_TCP /\ po_tcp_hdr out = Some (14 + ihl) /\ po_udp_hdr out = None /\
     20 <= thl <= 60 /\ 14 + ihl + 20 <= skb_len skb /\
     exists d, tcph_doff (skb_data skb) (14 + ihl) = Some d /\ thl = d * 4) \/
    (proto = IPPROTO_UDP /\ po_tcp_hdr out = None /\ po_udp_hdr out = Some (14 + ihl) /\
     thl = 8 /\ 14 + ihl + 8 <= skb_len skb);
  parsed_payload :
    (po_payload out = None /\ po_payload_len out = 0 /\ skb_len skb < 14 + ihl + thl) \/
    (po_payload out = Some (14 + ihl + thl) /\ 0 <= po_payload_len out /\
     14 + ihl + thl + po_payload_len out = skb_len skb);
}.

Lemma validate_checksum_cases m len c v :
  validate_checksum m len c = Some v -> v = 0 \/ v = - EINVAL.
Proof.
  unfold validate_checksum. destruct (nanonet_compute_checksum m len); [|done].
  intros [= <-]. destruct (_ =? _); auto.
Qed.

(** Step through a parse that returned 0, one statement at a time, discarding
    the branches that return an error. *)
Ltac parse_steps H :=
  repeat (lazymatch type of H with
  | (if ?b then _ else _) = Some _ => let E := fresh "Hc" in destruct b eqn:E
  | (mbind _ ?o) = Some _ =>
      let E := fresh "Hr" in destruct o eqn:E; cbn [mbind option_bind] in H
  | None = Some _ => discriminate H
  | Some (- _, _) = Some (0, _) => discriminate H
  end).

Lemma parse_tcp_success skb ihl out :
  linear skb ->
  parse_tcp skb 14 ihl (14 + ihl) = Some (0, out) ->
  exists thl, 20 <= thl <= 60 /\ 14 + ihl + 20 <= skb_len skb /\
    (exists d, tcph_doff (skb_data skb) (14 + ihl) = Some d /\ thl = d * 4) /\
    out = set_payload skb (Build_parse_out (Some 14) (Some (14 + ihl)) None None 0)
            (14 + ihl) ihl thl.
Proof.
  intros (Hb & Hl & Hlt) H. unfold parse_tcp, sizeof_ethhdr, sizeof_tcphdr in H.
  parse_steps H. injection H as <-. breflect.
  pose proof (doff_range _ _ _ Hb Hr). exists (z * 4). split_and!; [lia|lia|lia|eauto|done].
Qed.

Lemma parse_udp_success skb ihl out :
  parse_udp skb 14 ihl (14 + ihl) = Some (0, out) ->
  14 + ihl + 8 <= skb_len skb /\
  out = set_payload skb (Build_parse_out (Some 14) None (Some (14 + ihl)) None 0)
          (14 + ihl) ihl 8.
Proof.
  intros H. unfold parse_udp, sizeof_ethhdr, sizeof_udphdr in H.
  destruct (skb_len skb <? _) eqn:Hc; [done|].
  destruct (udph_check _ _); [|done]. cbn [mbind option_bind] in H.
  destruct (if _ : bool then _ else _) as [[]|]; [done| |done].
  injection H as <-. breflect. split; [lia|done].
Qed.

Lemma parsed_payload_of skb out0 ihl thl :
  linear skb -> 20 <= ihl <= 60 -> 0 <= thl <= 60 ->
  let out := set_payload skb out0 (14 + ihl) ihl thl in
  (po_payload out = None /\ po_payload_len out = 0 /\ skb_len skb < 14 + ihl + thl) \/
  (po_payload out = Some (14 + ihl + thl) /\ 0 <= po_payload_len out /\
   14 + ihl + thl + po_payload_len out = skb_len skb).
Proof.
  intros (_ & Hl & Hlt) Hi Ht. rewrite set_payload_in_range by lia.
  cbv zeta. destruct (_ <? 0) eqn:E; breflect; simpl; [left|right]; split_and!; done || lia.
Qed.

Lemma set_payload_hdrs skb out0 t ihl thl :
  let out := set_payload skb out0 t ihl thl in
  po_ip_hdr out = po_ip_hdr out0 /\ po_tcp_hdr out = po_tcp_hdr out0 /\
  po_udp_hdr out = po_udp_hdr out0.
Proof. unfold set_payload. by destruct (_ <? 0). Qed.

Lemma parse_success skb out :
  linear skb -> ull_parse_packet skb = Some (0, out) ->
  exists ihl thl proto, parsed skb out ihl thl proto.
Proof.
  intros Hlin H. pose proof Hlin as (Hb & _). unfold ull_parse_packet in H.
  parse_steps H; unfold sizeof_ethhdr, sizeof_iphdr in *; breflect;
    rewrite land_0f, ?shiftr_4 in *;
    (assert (z2 = 0) by (destruct (validate_checksum_cases _ _ _ _ Hr2) as [->| ->]; done));
    subst; (assert (z0 = 64 + z0 mod 16 * 4 / 4) as Ev by (clear - Hc2; width_lia));
    (assert (20 <= z0 mod 16 * 4 <= 60 /\ (z0 mod 16 * 4) mod 4 = 0) as [Hi Hm4]
      by (clear - Hc3; width_lia)).
  - destruct (parse_tcp_success _ _ _ Hlin H) as (thl & Ht & Hlen & Hd & ->).
    exists (z0 mod 16 * 4), thl, IPPROTO_TCP.
    destruct (set_payload_hdrs skb (Build_parse_out (Some 14) (Some (14 + z0 mod 16 * 4)) None None 0)
      (14 + z0 mod 16 * 4) (z0 mod 16 * 4) thl) as (E1 & E2 & E3).
    split; [eauto|congruence|done|eauto|done|done| |apply parsed_payload_of; auto; lia].
    left. rewrite E2, E3. eauto 10.
  - destruct (parse_udp_success _ _ _ H) as (Hlen & ->).
    exists (z0 mod 16 * 4), 8, IPPROTO_UDP.
    destruct (set_payload_hdrs skb (Build_parse_out (Some 14) None (Some (14 + z0 mod 16 * 4)) None 0)
      (14 + z0 mod 16 * 4) (z0 mod 16 * 4) 8) as (E1 & E2 & E3).
    split; [eauto|congruence|done|eauto|done|done| |apply parsed_payload_of; auto; lia].
    right. rewrite E2, E3. auto.
Qed.

(** The transport header of a parsed packet lies in the packet. *)
Lemma parsed_transport_bounds skb out ihl thl proto :
  linear skb -> parsed skb out ihl thl proto ->
  14 + ihl + 8 <= zlen (skb_data skb) /\
  (forall t, po_tcp_hdr out = Some t -> t = 14 + ihl /\ t + 20 <= zlen (skb_data skb)) /\
  (forall u, po_udp_hdr out = Some u -> u = 14 + ihl /\ u + 8 <= zlen (skb_data skb)).
Proof.
  intros (_ & Hl & _) [].
  destruct parsed_transport0 as [(_ & Et & Eu & ?)|(_ & Et & Eu & ?)];
    rewrite Et, Eu; split_and!; try lia; intros ? [=]; lia.
Qed.

(** ** Properties *)

(** C7: when [ull_parse_packet] succeeds on a linear packet, the IP header is
    at offset 14 and has the length its IHL field says (20 to 60 bytes); the
    transport header named by the protocol field follows it, is the only one set
    and lies within the packet; and the payload is exactly what is left of the
    packet behind the transport header, whose length is the data offset of a
    TCP header and 8 for UDP. The payload pointer is NULL, with length zero,
    exactly when that header claims to end past the packet. *)
Theorem parse_success_in_bounds skb out :
  linear skb -> ull_parse_packet skb = Some (0, out) ->
  exists ihl thl,
    iph_version_ihl (skb_data skb) 14 = Some (4 * 16 + ihl / 4) /\
    20 <= ihl <= 60 /\ ihl mod 4 = 0 /\ po_ip_hdr out = Some 14 /\
    ((iph_protocol (skb_data skb) 14 = Some 6 /\
      po_tcp_hdr out = Some (14 + ihl) /\ po_udp_hdr out = None /\
      14 + ihl + 20 <= skb_len skb /\ 20 <= thl /\
      exists doff, tcph_doff (skb_data skb) (14 + ihl) = Some doff /\ thl = 4 * doff) \/
     (iph_protocol (skb_data skb) 14 = Some 17 /\
      po_tcp_hdr out = None /\ po_udp_hdr out = Some (14 + ihl) /\
      14 + ihl + 8 <= skb_len skb /\ thl = 8)) /\
    (po_payload out, po_payload_len out) =
      if decide (14 + ihl + thl <= skb_len skb)
      then (Some (14 + ihl + thl), skb_len skb - (14 + ihl + thl)) else (None, 0).
Proof.
  intros Hl H. destruct (parse_success _ _ Hl H) as (ihl & thl & proto & []).
  exists ihl, thl. split_and!; [done|lia|lia|lia|done| |].
  - destruct parsed_transport0 as [(-> & ? & ? & ? & ? & d & Hd & ->)|(-> & ? & ? & -> & ?)];
      [left|right]; split_and!; try done; try lia.
    exists d. split; [done|lia].
  - destruct parsed_payload0 as [(-> & -> & ?)|(-> & ? & ?)].
    + by rewrite decide_False by lia.
    + rewrite decide_True by lia. f_equal. lia.
Qed.

(** The IHL field does not claim more bytes than the buffer has. *)
Definition ip_hdr_in_buffer (skb : sk_buff) : Prop :=
  forall v, iph_version_ihl (skb_data skb) 14 = Some v ->
    14 + v mod 16 * 4 <= zlen (skb_data skb).

(** The length field of a UDP packet that has a checksum does not claim more
    bytes than the buffer has. Nothing is asked of other packets. *)
Definition udp_len_in_buffer (skb : sk_buff) : Prop :=
  forall v c l, iph_protocol (skb_data skb) 14 = Some IPPROTO_UDP ->
    iph_version_ihl (skb_data skb) 14 = Some v ->
    udph_check (skb_data skb) (14 + v mod 16 * 4) = Some c -> c <> 0 ->
    udph_len (skb_data skb) (14 + v mod 16 * 4) = Some l ->
    14 + v mod 16 * 4 + ntohs l <= zlen (skb_data skb).

Lemma validate_is_Some m len c :
  Forall is_byte m -> 0 <= len <= 65535 -> len <= zlen m ->
  exists v, validate_checksum m len c = Some v.
Proof.
  intros. unfold validate_checksum. rewrite compute_checksum_closed by done.
  cbn [mbind option_bind]. eauto.
Qed.

Lemma parse_udp_no_oob skb v :
  linear skb -> udp_len_in_buffer skb -> iph_protocol (skb_data skb) 14 = Some IPPROTO_UDP ->
  iph_version_ihl (skb_data skb) 14 = Some v -> 20 <= v mod 16 * 4 ->
  parse_udp skb 14 (v mod 16 * 4) (14 + v mod 16 * 4) <> None.
Proof.
  intros (Hb & Hl & _) Hu Hproto Hv Hi. unfold parse_udp, sizeof_ethhdr, sizeof_udphdr.
  destruct (_ <? _) eqn:Hc; [done|]. breflect.
  destruct (load_is_Some 2 (skb_data skb) (14 + v mod 16 * 4 + 6)) as [ck Hck]; [lia..|].
  destruct (load_is_Some 2 (skb_data skb) (14 + v mod 16 * 4 + 4)) as [l El]; [lia..|].
  unfold udph_check, udph_len. rewrite Hck, El. cbn [mbind option_bind].
  destruct (Z.eqb_spec ck 0) as [|Hnz]; cbn [mbind option_bind]; [done|].
  pose proof (load_range _ _ _ _ Hb El) as Hr.
  pose proof (bswap16_range l ltac:(width_lia)) as Hs. unfold in_width in Hs.
  change (2 ^ 16) with 65536 in Hs.
  destruct (validate_is_Some (drop (Z.to_nat (14 + v mod 16 * 4)) (skb_data skb)) (ntohs l) ck)
    as [r Hvr]; [by apply Forall_drop|lia| |].
  { rewrite zlen_drop by lia. specialize (Hu _ _ _ Hproto Hv Hck Hnz El). lia. }
  rewrite Hvr. cbn [mbind option_bind]. by destruct (r <? 0).
Qed.

Lemma parse_tcp_no_oob skb ihl :
  linear skb -> 20 <= ihl -> parse_tcp skb 14 ihl (14 + ihl) <> None.
Proof.
  intros (Hb & Hl & _) Hi. unfold parse_tcp, sizeof_ethhdr, sizeof_tcphdr.
  destruct (_ <? _) eqn:Hc; [done|]. breflect.
  destruct (load_is_Some 2 (skb_data skb) (14 + ihl + 12)) as [v Hv]; [lia..|].
  unfold tcph_doff, tcph_flags. rewrite Hv. cbn [mbind option_bind]. by destruct (_ <? 20).
Qed.

(** The received packet lies in the linear buffer: its bytes, the IP header as
    long as IHL says, and the bytes a UDP checksum covers. *)
Definition in_bounds (skb : sk_buff) : Prop :=
  linear skb /\ ip_hdr_in_buffer skb /\ udp_len_in_buffer skb.

Lemma parse_in_bounds skb :
  in_bounds skb ->
  exists r out, ull_parse_packet skb = Some (r, out).
Proof.
  intros (Hlin & Hih & Hu). pose proof Hlin as (Hb & Hl & _).
  enough (ull_parse_packet skb <> None) as H by (destruct (ull_parse_packet skb) as [[]|]; eauto; done).
  unfold ull_parse_packet, sizeof_ethhdr, sizeof_iphdr.
  destruct (skb_len skb <? 14) eqn:H14; [done|]. breflect.
  destruct (load_is_Some 2 (skb_data skb) (0 + 12)) as [p Hp]; [lia..|].
  unfold eth_h_proto. rewrite Hp. cbn [mbind option_bind].
  destruct (negb _); [done|]. destruct (skb_len skb <? _) eqn:H34; [done|]. breflect.
  destruct (load_is_Some 1 (skb_data skb) 14) as [v Hv]; [lia..|].
  destruct (load_is_Some 2 (skb_data skb) (14 + 10)) as [ck Hck]; [lia..|].
  destruct (load_is_Some 1 (skb_data skb) (14 + 9)) as [pr Hpr]; [lia..|].
  unfold iph_version_ihl, iph_check, iph_protocol. rewrite Hv, Hck, Hpr.
  cbn [mbind option_bind]. rewrite land_0f.
  destruct (negb _); [done|]. destruct (_ <? 20) eqn:H20; [done|]. breflect.
  destruct (validate_is_Some (drop (Z.to_nat 14) (skb_data skb)) (v mod 16 * 4) ck) as [r Hvr].
  { by apply Forall_drop. } { width_lia. }
  { rewrite zlen_drop by lia. specialize (Hih _ Hv). lia. }
  rewrite Hvr. cbn [mbind option_bind]. destruct (r <? 0); [done|].
  destruct (pr =? _); [by apply parse_tcp_no_oob|].
  destruct (Z.eqb_spec pr IPPROTO_UDP) as [->|]; [by apply parse_udp_no_oob|done].
Qed.

(** C13: on a linear packet whose IHL field and, for UDP with a checksum, whose
    UDP length field stay within the buffer, the parser performs no
    out-of-bounds read: it returns. *)
Theorem parse_no_out_of_bounds skb :
  linear skb -> ip_hdr_in_buffer skb -> udp_len_in_buffer skb ->
  exists r out, ull_parse_packet skb = Some (r, out).
Proof. intros H1 H2 H3. by apply parse_in_bounds. Qed.

(** The dispatch on the transport protocol, after the header checksum. *)
Definition parse_transport (skb : sk_buff) (ihl : Z) : option (Z * parse_out) :=
  proto ← iph_protocol (skb_data skb) 14;
  if proto =? IPPROTO_TCP then parse_tcp skb 14 ihl (14 + ihl)
  else if proto =? IPPROTO_UDP then parse_udp skb 14 ihl (14 + ihl)
  else Some (- EPROTONOSUPPORT, Build_parse_out (Some 14) None None None 0).

(** An Ethernet frame that carries an IPv4 header of [ihl] bytes. *)
Record ipv4_frame (skb : sk_buff) (ihl check : Z) : Prop := {
  frame_len : 34 <= skb_len skb;
  frame_ethertype : exists p, eth_h_proto (skb_data skb) 0 = Some p /\ ntohs p = ETH_P_IP;
  frame_version : exists v, iph_version_ihl (skb_data skb) 14 = Some v /\
    v / 16 = 4 /\ v mod 16 * 4 = ihl;
  frame_ihl : 20 <= ihl <= 60;
  frame_check : iph_check (skb_data skb) 14 = Some check;
}.

(** On such a frame the header checksum decides. *)
Lemma parse_ipv4_frame skb ihl check :
  ipv4_frame skb ihl check ->
  ull_parse_packet skb =
    (r ← validate_checksum (drop 14 (skb_data skb)) ihl check;
     if r <? 0 then Some (- EINVAL, Build_parse_out (Some 14) None None None 0)
     else parse_transport skb ihl).
Proof.
  intros [Hl (p & Hp & Ep) (v & Hv & Hv4 & <-) Hi Hck].
  unfold ull_parse_packet, sizeof_ethhdr, sizeof_iphdr.
  rewrite (proj2 (Z.ltb_ge _ _)) by lia. rewrite Hp. cbn [mbind option_bind].
  rewrite Ep, Z.eqb_refl. cbn [negb]. rewrite (proj2 (Z.ltb_ge _ _)) by lia.
  rewrite Hv. cbn [mbind option_bind]. rewrite shiftr_4, land_0f, Hv4.
  cbn [negb Z.eqb Pos.eqb]. rewrite (proj2 (Z.ltb_ge _ _)) by lia.
  rewrite Hck. done.
Qed.

(** C29: a frame whose IHL field reaches past the buffer makes the header
    checksum read out of bounds; no length check precedes it. *)
Theorem parse_ihl_overread skb ihl check :
  ipv4_frame skb ihl check -> zlen (skb_data skb) < 14 + ihl ->
  ull_parse_packet skb = None.
Proof.
  intros Hf Hlen. rewrite (parse_ipv4_frame _ _ _ Hf). destruct Hf.
  unfold validate_checksum. rewrite checksum_oob; [done| |lia].
  unfold zlen in *. rewrite length_drop. lia.
Qed.

Lemma even_ihl skb ihl check : ipv4_frame skb ihl check -> Z.even ihl = true.
Proof.
  intros [_ _ (v & _ & _ & <-) _ _]. rewrite Zeven_mod. apply Z.eqb_eq.
  replace (v mod 16 * 4) with (v mod 16 * 2 * 2) by lia. apply Z_mod_mult.
Qed.

Lemma valid_header_refused skb ihl check :
  Forall is_byte (skb_data skb) -> ipv4_frame skb ihl check ->
  14 + ihl <= zlen (skb_data skb) ->
  rfc1071 (take (Z.to_nat ihl) (drop 14 (skb_data skb))) = 0 -> check <> 0 ->
  ull_parse_packet skb = Some (- EINVAL, Build_parse_out (Some 14) None None None 0).
Proof.
  intros Hb Hf Hz Hv Hck. rewrite (parse_ipv4_frame _ _ _ Hf).
  pose proof (even_ihl _ _ _ Hf). destruct Hf.
  rewrite validate_checksum_of_valid; [|by apply Forall_drop|lia| |done|done].
  - rewrite (proj2 (Z.eqb_neq 0 check)) by lia. done.
  - unfold zlen in *. rewrite length_drop. lia.
Qed.

(** C27: a well-formed IPv4 frame whose header checksum is correct in the sense
    of RFC 1071 and is not zero is rejected with [-EINVAL]: the checksum is
    computed over a range that includes the stored checksum and compared with
    it, instead of with zero. *)
Theorem parse_rejects_valid_header skb ihl check :
  Forall is_byte (skb_data skb) -> ipv4_frame skb ihl check ->
  14 + ihl <= zlen (skb_data skb) ->
  rfc1071 (take (Z.to_nat ihl) (drop 14 (skb_data skb))) = 0 -> check <> 0 ->
  ull_parse_packet skb = Some (- EINVAL, Build_parse_out (Some 14) None None None 0).
Proof. apply valid_header_refused. Qed.

(** C28: a buffer that starts at the IPv4 header, as the netfilter PRE_ROUTING
    hook delivers it, is refused with [-EPROTONOSUPPORT] unless its source
    address begins with 8.0: the parser takes those two bytes for the
    EtherType. *)
Theorem parse_of_ip_aligned_buffer h rest len dev :
  20 <= len -> ip_saddr h mod 65536 <> 8 ->
  ull_parse_packet (Build_sk_buff (enc_iphdr h ++ rest) len dev) =
    Some (- EPROTONOSUPPORT, out_none).
Proof.
  intros Hl H8. unfold ull_parse_packet. cbn [skb_len skb_data].
  unfold sizeof_ethhdr. rewrite (proj2 (Z.ltb_ge _ _)) by lia.
  assert (eth_h_proto (enc_iphdr h ++ rest) 0 = Some (ip_saddr h mod 65536)) as ->.
  { unfold eth_h_proto. rewrite load_app_l by (rewrite enc_iphdr_length; done).
    unfold load. change ((0 <=? 0 + 12) && _) with true. cbv iota. f_equal.
    unfold enc_iphdr. cbn [le_encode app]. change (Z.to_nat (0 + 12)) with 12%nat.
    cbn [drop take le_decode]. width_lia. }
  cbn [mbind option_bind].
  destruct (Z.eqb_spec (ntohs (ip_saddr h mod 65536)) ETH_P_IP) as [E|]; [|done].
  exfalso. rewrite bswap16_value in E by width_lia. unfold ETH_P_IP in E. width_lia.
Qed.

(** ** Sample frames

    A market-data packet 10.0.0.1:12345 -> 192.168.1.100:8080 over UDP. The
    header checksum is a parameter: 44142 is the RFC 1071 value (as stored),
    22071 the one value the parser accepts. *)

Definition sample_eth : ull_ethhdr :=
  Build_ull_ethhdr [2; 0; 0; 0; 0; 1] [2; 0; 0; 0; 0; 2] (htons ETH_P_IP).

Definition sample_ip (ihl totlen proto check : Z) : ull_iphdr :=
  Build_ull_iphdr (64 + ihl) 0 (htons totlen) 0 (htons IP_DF) 64 proto check
    (le_decode [10; 0; 0; 1]) (le_decode [192; 168; 1; 100]).

Definition sample_udp (check : Z) : ull_udphdr :=
  Build_ull_udphdr (htons 12345) (htons 8080) (htons 32) check.

(** Price 9999 in host order, quantity 1000. *)
Definition sample_market : market_data :=
  Build_market_data (str "AAPL    ") 9999 1000 0.

Definition sample_frame (ip_check : Z) : sk_buff :=
  let data := enc_ethhdr sample_eth ++ enc_iphdr (sample_ip 5 52 IPPROTO_UDP ip_check) ++
              enc_udphdr (sample_udp 0) ++ enc_market_data sample_market in
  Build_sk_buff data (zlen data) (Some 2).

(** A TCP segment 10.0.0.1:12345 -> 192.168.1.100:8080 with the header checksum
    that the parser accepts. *)
Definition sample_tcp (syn ack : bool) : ull_tcphdr :=
  Build_ull_tcphdr (htons 12345) (htons 8080) (htonl 0x12345678) (htonl 2000) 0 5
    false syn false false ack false false false (htons 65535) 0 0.

Definition sample_tcp_frame (syn ack : bool) : sk_buff :=
  let data := enc_ethhdr sample_eth ++ enc_iphdr (sample_ip 5 64 IPPROTO_TCP 21943) ++
              enc_tcphdr (sample_tcp syn ack) ++ enc_market_data sample_market in
  Build_sk_buff data (zlen data) (Some 2).

Definition sample_out : parse_out := Build_parse_out (Some 14) None (Some 34) (Some 42) 24.

(** A 34-byte frame whose IHL field claims a 60-byte IP header. *)
Definition long_ihl_frame : sk_buff :=
  let data := enc_ethhdr sample_eth ++ enc_iphdr (sample_ip 15 20 IPPROTO_UDP 0) in
  Build_sk_buff data 34 (Some 2).

Lemma sample_linear c : linear (sample_frame c).
Proof.
  unfold linear. split; [|split; [split|]; [done|done|done]].
  unfold sample_frame. cbn [skb_data].
  repeat (apply Forall_app; split); try apply le_encode_bytes;
    repeat (constructor; [done|]); constructor.
Qed.

Lemma sample_tcp_linear syn ack : linear (sample_tcp_frame syn ack).
Proof.
  unfold linear. split; [|split; [split|]; [done|done|done]].
  unfold sample_tcp_frame. cbn [skb_data].
  repeat (apply Forall_app; split); try apply le_encode_bytes;
    repeat (constructor; [done|]); constructor.
Qed.

Lemma sample_tcp_in_bounds syn ack : in_bounds (sample_tcp_frame syn ack).
Proof.
  split; [apply sample_tcp_linear|]. split.
  - intros v Hv. destruct syn, ack; vm_compute in Hv; injection Hv as <-; vm_compute; discriminate.
  - intros v c l Hp. exfalso. destruct syn, ack; vm_compute in Hp; discriminate.
Qed.

(** The payload of the sample packet: 24 bytes at offset 42, 8 behind the UDP
    header at 34. *)
Lemma parse_success_in_bounds_witness :
  exists ihl thl, ihl = 20 /\ thl = 8 /\
    (po_payload sample_out, po_payload_len sample_out) = (Some (14 + ihl + thl), 24).
Proof.
  destruct (parse_success_in_bounds (sample_frame 22071) sample_out) as
    (ihl & thl & Hv & Hr & Hm & _ & Ht & Hp).
  - apply sample_linear.
  - vm_compute. reflexivity.
  - exists ihl, thl. destruct Ht as [(H6 & _)|(_ & _ & Hu & _ & ->)]; [discriminate H6|].
    assert (ihl = 20) as -> by (injection Hu; lia).
    split; [reflexivity|]. split; [reflexivity|]. exact Hp.
Defined.

(** A SYN with an ordinary initial sequence number. *)
Lemma parse_no_out_of_bounds_witness :
  exists r out, ull_parse_packet (sample_tcp_frame true false) = Some (r, out).
Proof.
  destruct (sample_tcp_in_bounds true false) as (H1 & H2 & H3).
  exact (parse_no_out_of_bounds (sample_tcp_frame true false) H1 H2 H3).
Defined.

Lemma parse_ihl_overread_witness : ull_parse_packet long_ihl_frame = None.
Proof.
  apply (parse_ihl_overread long_ihl_frame 60 0); [|vm_compute; reflexivity].
  split; [vm_compute; discriminate| | |lia|reflexivity]; eexists; split_and!; reflexivity.
Defined.

Lemma parse_rejects_valid_header_witness :
  ull_parse_packet (sample_frame 44142) =
    Some (- EINVAL, Build_parse_out (Some 14) None None None 0).
Proof.
  apply (parse_rejects_valid_header (sample_frame 44142) 20 44142).
  - apply sample_linear.
  - split; [vm_compute; discriminate| | |lia|reflexivity]; eexists; split_and!; reflexivity.
  - vm_compute. discriminate.
  - vm_compute. reflexivity.
  - discriminate.
Defined.

Lemma parse_of_ip_aligned_buffer_witness :
  ull_parse_packet (Build_sk_buff (enc_iphdr (sample_ip 5 52 IPPROTO_UDP 44142) ++
                                   enc_udphdr (sample_udp 0)) 28 (Some 2)) =
    Some (- EPROTONOSUPPORT, out_none).
Proof.
  apply parse_of_ip_aligned_buffer; [lia|]. vm_compute. discriminate.
Defined.
