(* ===== verification/Optimizations.v ===== *)
(** * optimizations.c: response-buffer pool, optimised parser, raw send

    The pool is an array of 256 optional buffer addresses with a head and a
    tail. [pool_inv] says which buffers it still owns; the loops of load and
    cleanup are recursions over the slots. The optimised parser is compared with
    the one of [MicroStack]. *)

From S2P Require Import Prelude Headers Kernel Sim Debug Checksum MicroStack.

(** The out-parameters of the optimised parser; it leaves them as they were on
    its early error returns. *)
Record opt_out := {
  oo_ip_hdr : option Z;
  oo_payload : option Z;
  oo_payload_len : Z;
}.

Section Optimizations.
Context {W B : Type} `{!KernelEnv W, !SkbOps B}.
Local Abbreviation M := (M W B).

(** ** The optimised parser ([prefetch] has no effect on the result) *)

Definition optimized_payload (skb : sk_buff) (ip transport_hdr ip_hdr_len transport_hdr_len : Z)
    : M (Z * opt_out) :=
  let payload_len :=
    s32 (u64 (skb_len skb - sizeof_ethhdr - ip_hdr_len - transport_hdr_len)) in
  if payload_len <? 0 then
    _ ← nanonet_log_error (str "Negative payload length calculated");
    mret (0, Build_opt_out (Some ip) None 0)
  else mret (0, Build_opt_out (Some ip) (Some (transport_hdr + transport_hdr_len)) payload_len).

Definition nanonet_parse_packet_optimized (skb : sk_buff) (out : opt_out) : M (Z * opt_out) :=
  let data := skb_data skb in
  if skb_len skb <? sizeof_ethhdr + sizeof_iphdr then
    _ ← nanonet_log_error (str "Invalid packet size: " ++ fmt_d (skb_len skb));
    mret (- EINVAL, out)
  else
  proto ← deref (eth_h_proto data 0);
  if negb (proto =? htons ETH_P_IP) then
    _ ← nanonet_log_error (str "Unsupported protocol: " ++ fmt_x (ntohs proto));
    mret (- EPROTONOSUPPORT, out)
  else
  let ip := sizeof_ethhdr in
  let out := Build_opt_out (Some ip) (oo_payload out) (oo_payload_len out) in
  version_ihl ← deref (iph_version_ihl data ip);
  let ip_hdr_len := Z.land version_ihl 0x0F * 4 in
  if ip_hdr_len <? sizeof_iphdr then
    _ ← nanonet_log_error (str "Invalid IP header length: " ++ fmt_d ip_hdr_len);
    mret (- EINVAL, out)
  else
  let transport_hdr := ip + ip_hdr_len in
  protocol ← deref (iph_protocol data ip);
  if protocol =? IPPROTO_TCP then
    if skb_len skb <? sizeof_ethhdr + ip_hdr_len + sizeof_tcphdr then
      _ ← nanonet_log_error (str "Invalid TCP packet size: " ++ fmt_d (skb_len skb));
      mret (- EINVAL, out)
    else
    doff ← deref (tcph_doff data transport_hdr);
    let transport_hdr_len := doff * 4 in
    if transport_hdr_len <? sizeof_tcphdr then
      _ ← nanonet_log_error (str "Invalid TCP header length: " ++ fmt_d transport_hdr_len);
      mret (- EINVAL, out)
    else optimized_payload skb ip transport_hdr ip_hdr_len transport_hdr_len
  else if protocol =? IPPROTO_UDP then
    if skb_len skb <? sizeof_ethhdr + ip_hdr_len + sizeof_udphdr then
      _ ← nanonet_log_error (str "Invalid UDP packet size: " ++ fmt_d (skb_len skb));
      mret (- EINVAL, out)
    else optimized_payload skb ip transport_hdr ip_hdr_len sizeof_udphdr
  else
    _ ← nanonet_log_error (str "Unsupported transport protocol: " ++ fmt_d protocol);
    mret (- EPROTONOSUPPORT, out).

(** ** The response pool *)

Definition pool_slot (i : nat) : M (option nat) :=
  rp ← gets response_pool;
  deref (pool rp !! i).

Definition pool_store (i : nat) (v : option nat) : M unit :=
  modify (fun s => let rp := response_pool s in
    set_pool (Build_response_pool_t (<[i := v]> (pool rp)) (pool_head rp) (pool_tail rp)) s).

Definition pool_set_ends (head tail : Z) : M unit :=
  modify (fun s => set_pool (Build_response_pool_t (pool (response_pool s)) head tail) s).

(** [kfree_skb(NULL)] does nothing. *)
Definition kfree_skb_opt (p : option nat) : M unit :=
  match p with Some p => kfree_skb p | None => mret tt end.

(** [while (--i >= 0) kfree_skb(response_pool.pool[i]);] *)
Fixpoint pool_unwind (i : nat) : M unit :=
  match i with
  | O => mret tt
  | S j => p ← pool_slot j; _ ← kfree_skb_opt p; pool_unwind j
  end.

(** The allocation loop from index [i], [n] slots to go. *)
Fixpoint pool_fill (n i : nat) : M Z :=
  match n with
  | O => mret 0
  | S n' =>
      p ← alloc_skb POOL_SKB_SIZE;
      _ ← pool_store i p;
      match p with
      | None =>
          _ ← nanonet_log_error
                (str "Failed to allocate skb for response pool at index " ++ fmt_d (Z.of_nat i));
          _ ← pool_unwind i;
          mret (- ENOMEM)
      | Some _ => pool_fill n' (S i)
      end
  end.

Definition nanonet_init_response_pool : M Z :=
  _ ← pool_set_ends 0 0;
  pool_fill (Z.to_nat RESPONSE_POOL_SIZE) 0.

(** The freeing loop from index [i], [n] slots to go. *)
Fixpoint pool_drain (n i : nat) : M unit :=
  match n with
  | O => mret tt
  | S n' =>
      p ← pool_slot i;
      _ ← match p with
          | Some q => _ ← kfree_skb q; pool_store i None
          | None => mret tt
          end;
      pool_drain n' (S i)
  end.

Definition nanonet_cleanup_response_pool : M unit :=
  _ ← pool_drain (Z.to_nat RESPONSE_POOL_SIZE) 0;
  pool_set_ends 0 0.

Definition nanonet_get_response_skb : M (option nat) :=
  rp ← gets response_pool;
  let head := pool_head rp in
  let tail := pool_tail rp in
  if (head + 1) mod RESPONSE_POOL_SIZE =? tail then
    _ ← nanonet_log_error (str "Response pool empty");
    mret None
  else
    skb ← pool_slot (Z.to_nat head);
    _ ← pool_store (Z.to_nat head) None;
    _ ← pool_set_ends ((head + 1) mod RESPONSE_POOL_SIZE) tail;
    mret skb.

(** ** Transmission *)

Definition nanonet_raw_send (skb : option nat) (dev : option Z) : M Z :=
  match skb, dev with
  | Some p, Some d =>
      o ← skb_get p;
      _ ← skb_set p (Build_skb_obj (so_buf o) (Some d) (htons ETH_P_IP));
      dev_queue_xmit p
  | _, _ =>
      _ ← kfree_skb_opt skb;
      _ ← nanonet_log_error (str "Invalid skb or device for raw send");
      mret (- EINVAL)
  end.
End Optimizations.

(** ** Agreement of the two parsers *)

Section ParserAgreement.
Context {W B : Type} `{!KernelEnv W, !SkbOps B}.
Implicit Types s : kstate W B.

Lemma eth_proto_host p : in_width 16 p -> ntohs p = ETH_P_IP -> p = htons ETH_P_IP.
Proof. intros Hp E. rewrite <- E. by rewrite bswap16_involutive. Qed.

Lemma optimized_payload_run skb ihl thl pl n s :
  linear skb -> 20 <= ihl <= 60 -> 0 <= thl <= 60 ->
  (pl = None /\ n = 0 /\ skb_len skb < 14 + ihl + thl) \/
  (pl = Some (14 + ihl + thl) /\ 0 <= n /\ 14 + ihl + thl + n = skb_len skb) ->
  exists s', optimized_payload skb 14 (14 + ihl) ihl thl s =
    Done ((0, Build_opt_out (Some 14) pl n), s') /\ logged s s'.
Proof.
  intros (_ & Hl & Hlt) Hi Ht Hp. unfold optimized_payload, sizeof_ethhdr.
  rewrite payload_len_in_range by lia.
  destruct Hp as [(-> & -> & Hneg)|(-> & Hn & E)].
  - rewrite (proj2 (Z.ltb_lt _ _)) by lia.
    destruct (log_error_run (str "Negative payload length calculated") s) as (s1 & E & Hlog).
    exists s1. split; [|done]. by rewrite (bind_run _ _ _ _ _ E).
  - rewrite (proj2 (Z.ltb_ge _ _)) by lia. exists s. split; [|done].
    unfold mret, M_ret. do 4 f_equal. lia.
Qed.

(** C11: on every linear packet that [ull_parse_packet] accepts, the optimised
    parser also succeeds and yields the same IP header pointer, payload pointer
    and payload length, changing nothing but the log. *)
Theorem optimized_parser_agrees skb out oo s :
  linear skb -> ull_parse_packet skb = Some (0, out) ->
  exists s', nanonet_parse_packet_optimized skb oo s =
    Done ((0, Build_opt_out (po_ip_hdr out) (po_payload out) (po_payload_len out)), s') /\
    logged s s'.
Proof.
  intros Hlin H. destruct (parse_success _ _ Hlin H) as (ihl & thl & proto & [Heth Hver Hihl _ Hpr Hip Htr Hpl]).
  pose proof Hlin as (Hb & Hl & _). destruct Heth as (p & Hp & Ep).
  unfold nanonet_parse_packet_optimized, sizeof_ethhdr, sizeof_iphdr, sizeof_tcphdr, sizeof_udphdr.
  rewrite (proj2 (Z.ltb_ge _ _)) by lia. rewrite (deref_bind _ _ _ _ Hp).
  pose proof (load_range _ _ _ _ Hb Hp).
  rewrite (eth_proto_host p) by (done || width_lia). rewrite Z.eqb_refl. cbn [negb].
  rewrite (deref_bind _ _ _ _ Hver), land_0f.
  assert ((64 + ihl / 4) mod 16 * 4 = ihl) as -> by width_lia.
  rewrite (proj2 (Z.ltb_ge _ _)) by lia. rewrite (deref_bind _ _ _ _ Hpr).
  rewrite Hip.
  destruct Htr as [(-> & _ & _ & Ht & Hlen & d & Hd & ->)|(-> & _ & _ & -> & Hlen)];
    cbn [Z.eqb Pos.eqb IPPROTO_TCP IPPROTO_UDP]; rewrite (proj2 (Z.ltb_ge _ _)) by lia.
  - rewrite (deref_bind _ _ _ _ Hd). rewrite (proj2 (Z.ltb_ge _ _)) by lia.
    apply optimized_payload_run; auto; lia.
  - apply optimized_payload_run; auto; lia.
Qed.
End ParserAgreement.

(** ** The response pool: invariant and frame *)

(** Everything but the pool, the buffer heap and the log is unchanged. *)
Abbreviation pool_only := (frame [FPool; FSkbs]).

(** Every live buffer has an address below the next fresh one. *)
Definition skb_heap_ok {W B} (s : kstate W B) : Prop :=
  forall p, is_Some (skbs s !! p) -> (p < next_skb s)%nat.

(** A live, empty buffer with room for a full frame. *)
Definition pool_buffer {W B} `{!SkbOps B} (s : kstate W B) (p : nat) : Prop :=
  exists o, skbs s !! p = Some o /\ skb_bytes (so_buf o) = [] /\
    POOL_SKB_SIZE <= skb_tailroom (so_buf o).

(** The pool holds the buffers [avail], in the slots from [head] on. *)
Record pool_inv {W B} `{!SkbOps B} (s : kstate W B) (avail : list nat) : Prop := {
  pi_slots : pool (response_pool s) = replicate (256 - length avail) None ++ (Some <$> avail);
  pi_head : pool_head (response_pool s) = 256 - zlen avail;
  pi_tail : pool_tail (response_pool s) = 0;
  pi_len : (1 <= length avail <= 256)%nat;
  pi_nodup : NoDup avail;
  pi_live : Forall (pool_buffer s) avail;
}.

Section PoolLemmas.
Context {W B : Type} `{!KernelEnv W, !SkbOps B}.
Implicit Types s : kstate W B.

Lemma logged_pool s s' :
  logged s s' -> response_pool s' = response_pool s /\ skbs s' = skbs s /\ next_skb s' = next_skb s.
Proof. intros (d & k & w & -> & _). by destruct s. Qed.

Lemma set_pool_only rp s : pool_only s (set_pool rp s).
Proof. destruct s. solve_frame. Qed.

Lemma pool_inv_ext s s' avail :
  response_pool s' = response_pool s -> skbs s' = skbs s ->
  pool_inv s avail -> pool_inv s' avail.
Proof.
  intros E1 E2 []. split; rewrite ?E1; auto.
  eapply Forall_impl; [done|]. intros p (o & Ho & ?). exists o. by rewrite E2.
Qed.

(** The slot at [head] holds the first available buffer; clearing it moves the
    boundary by one. *)
Lemma slots_head n p (rest : list nat) :
  (replicate n None ++ (Some <$> p :: rest)) !! n = Some (Some p).
Proof. rewrite lookup_app_r; rewrite length_replicate; [|done]. by rewrite Nat.sub_diag. Qed.

Lemma slots_clear n p (rest : list nat) :
  <[n := None]> (replicate n None ++ (Some <$> p :: rest)) =
    replicate (S n) None ++ (Some <$> rest).
Proof.
  rewrite insert_app_r_alt; rewrite length_replicate; [|done].
  rewrite Nat.sub_diag, replicate_S_end, <- app_assoc. done.
Qed.

(** What taking a buffer does, in terms of the list of available buffers. *)
Lemma get_response_skb_run s avail :
  pool_inv s avail ->
  match avail with
  | p :: q :: rest =>
      exists s', nanonet_get_response_skb s = Done (Some p, s') /\
        s' = set_pool (response_pool s') s /\ pool_inv s' (q :: rest)
  | _ => exists s', nanonet_get_response_skb s = Done (None, s') /\ logged s s'
  end.
Proof.
  intros [Hs Hh Ht Hl Hnd Hlive]. unfold nanonet_get_response_skb. run_simpl.
  rewrite Hh, Ht. unfold RESPONSE_POOL_SIZE.
  destruct avail as [|p [|q rest]]; [simpl in Hl; lia| |].
  - change ((256 - zlen [p] + 1) mod 256 =? 0) with true. cbv iota.
    destruct (log_error_run (str "Response pool empty") s) as (s1 & E & Hlog).
    exists s1. split; [|done]. by rewrite (bind_run _ _ _ _ _ E).
  - assert (Z.to_nat (256 - zlen (p :: q :: rest)) = 256 - length (p :: q :: rest))%nat as Hn
      by (unfold zlen; lia).
    assert (256 - length (q :: rest) = S (256 - length (p :: q :: rest)))%nat as Hn'
      by (simpl in *; lia).
    assert ((256 - zlen (p :: q :: rest) + 1) mod 256 = 256 - zlen (q :: rest)) as Hm.
    { rewrite !zlen_cons. unfold zlen. simpl in Hl. rewrite Z.mod_small; lia. }
    rewrite Hm. rewrite (proj2 (Z.eqb_neq _ _)).
    2:{ unfold zlen. simpl in *. lia. }
    unfold pool_slot. run_simpl. rewrite Hs, Hn.
    rewrite (deref_bind _ _ _ (Some p)) by apply slots_head.
    unfold pool_store, pool_set_ends. run_simpl.
    eexists. split; [reflexivity|]. split; [by destruct s|].
    destruct s as [? ? ? ? [sl hd tl] ? ? ? ? ? ? ? ? ? ? ?].
    cbn [response_pool pool pool_head pool_tail] in Hs, Hh, Ht.
    split; cbn [set_pool response_pool pool pool_head pool_tail]; rewrite ?Hs;
      [|done|done|simpl in *; lia| |].
    + by rewrite slots_clear, Hn'.
    + by apply NoDup_cons in Hnd as [_ ?].
    + apply Forall_cons in Hlive as [_ Hlive]. exact Hlive.
Qed.

(** ** Filling and draining the pool *)

Lemma kfree_skb_run s p :
  is_Some (skbs s !! p) -> kfree_skb p s = Done (tt, set_skbs (delete p (skbs s)) s).
Proof. intros [o Ho]. unfold kfree_skb, skb_get. run_simpl. by rewrite Ho. Qed.

Lemma skbs_set_skbs m s : skbs (set_skbs m s) = m.
Proof. by destruct s. Qed.

Lemma pool_set_skbs m s : response_pool (set_skbs m s) = response_pool s.
Proof. by destruct s. Qed.

Lemma pool_unwind_run bufs s :
  (forall j p, bufs !! j = Some p -> pool (response_pool s) !! j = Some (Some p)) ->
  NoDup bufs -> Forall (fun p => is_Some (skbs s !! p)) bufs ->
  exists s', pool_unwind (length bufs) s = Done (tt, s') /\ pool_only s s' /\
    (forall p, skbs s' !! p = if decide (p ∈ bufs) then None else skbs s !! p).
Proof.
  revert s. induction bufs as [|q bufs IH] using rev_ind; intros s Hslot Hnd Hlive.
  { exists s. split; [done|]. split; [done|]. intros p. by rewrite decide_False by set_solver. }
  apply NoDup_app in Hnd as (Hnd & Hni & _).
  apply Forall_app in Hlive as [Hlive [Hq _]%Forall_cons].
  rewrite length_app, Nat.add_1_r. cbn [pool_unwind]. unfold pool_slot. run_simpl.
  rewrite (deref_bind _ _ _ (Some q)).
  2:{ apply Hslot. by rewrite lookup_app_r, Nat.sub_diag. }
  cbn [kfree_skb_opt]. rewrite (bind_run _ _ _ _ _ (kfree_skb_run _ _ Hq)).
  destruct (IH (set_skbs (delete q (skbs s)) s)) as (s' & E & Ho & Hsk).
  - intros j p Hj. rewrite pool_set_skbs. apply Hslot. by apply lookup_app_l_Some.
  - done.
  - rewrite skbs_set_skbs. apply Forall_forall. intros p Hp.
    rewrite lookup_delete_ne by (intros ->; apply (Hni p Hp); set_solver).
    by apply (Forall_forall (fun p => is_Some (skbs s !! p)) bufs).
  - exists s'. split; [done|]. split.
    { etransitivity; [|exact Ho]. destruct s. solve_frame. }
    intros p. rewrite Hsk, skbs_set_skbs. destruct (decide (p = q)) as [->|].
    + rewrite (decide_True (P := q ∈ bufs ++ [q])) by set_solver.
      by rewrite lookup_delete_eq; destruct (decide _).
    + rewrite lookup_delete_ne by done.
      by destruct (decide (p ∈ bufs)); destruct (decide (p ∈ bufs ++ [q])); set_solver.
Qed.

Context `{!SkbLaws B}.

Lemma alloc_skb_run size s :
  exists w, alloc_skb size s = Done (None, set_world w s) \/
    alloc_skb size s = Done (Some (next_skb s),
      set_next_skb (S (next_skb s))
        (set_skbs (<[next_skb s := Build_skb_obj (skb_fresh size) None 0]> (skbs s))
          (set_world w s))).
Proof.
  unfold alloc_skb, ask, mbind, M_bind. destruct (alloc_skb_ok size (world s)) as [[] w];
    exists w; [right|left]; by destruct s.
Qed.

(** A new buffer does not touch the others. *)
Lemma pool_buffer_insert s s' p o :
  skbs s' = <[p := o]> (skbs s) -> skbs s !! p = None ->
  forall q, pool_buffer s q -> pool_buffer s' q.
Proof.
  intros E Hp q (oq & Hq & ?). exists oq. split; [|done].
  rewrite E, lookup_insert_ne; [done|]. intros ->. congruence.
Qed.

(** State of the allocation loop: [bufs] filled, [n] slots to go, [base] the
    buffer heap before the loop. *)
Record fill_inv (base : gmap nat (skb_obj B)) (n : nat) (bufs : list nat) s : Prop := {
  fi_len : length (pool (response_pool s)) = (length bufs + n)%nat;
  fi_take : take (length bufs) (pool (response_pool s)) = Some <$> bufs;
  fi_nodup : NoDup bufs;
  fi_live : Forall (pool_buffer s) bufs;
  fi_heap : skb_heap_ok s;
  fi_base : forall p, base !! p = if decide (p ∈ bufs) then None else skbs s !! p;
  fi_head : pool_head (response_pool s) = 0;
  fi_tail : pool_tail (response_pool s) = 0;
}.

(** The state after [alloc_skb] returned a buffer and it was stored. *)
Definition filled (w : W) (i : nat) s : kstate W B :=
  let p := next_skb s in
  let rp := response_pool s in
  set_pool (Build_response_pool_t (<[i := Some p]> (pool rp)) (pool_head rp) (pool_tail rp))
    (set_next_skb (S p)
      (set_skbs (<[p := Build_skb_obj (skb_fresh POOL_SKB_SIZE) None 0]> (skbs s))
        (set_world w s))).

Lemma filled_only w i s : pool_only s (filled w i s).
Proof. destruct s. solve_frame. Qed.

Lemma fill_inv_fresh base n bufs s :
  fill_inv base n bufs s -> skbs s !! next_skb s = None /\ next_skb s ∉ bufs.
Proof.
  intros [_ _ _ Hbuf Hheap _ _ _].
  assert (skbs s !! next_skb s = None) as Hf.
  { apply eq_None_not_Some. intros Hp%Hheap. lia. }
  split; [done|]. intros Hin.
  destruct (proj1 (Forall_forall _ _) Hbuf _ Hin) as (o & Ho & _). congruence.
Qed.

Lemma fill_inv_step base n bufs w s :
  fill_inv base (S n) bufs s ->
  fill_inv base n (bufs ++ [next_skb s]) (filled w (length bufs) s).
Proof.
  intros Hinv. destruct (fill_inv_fresh _ _ _ _ Hinv) as [Hfresh Hni].
  destruct Hinv as [Hlen Htk Hnd Hbuf Hheap Hbase Hh Ht].
  set (p := next_skb s) in *. set (s1 := filled w (length bufs) s).
  assert (skbs s1 = <[p := Build_skb_obj (skb_fresh POOL_SKB_SIZE) None 0]> (skbs s)) as Es
    by (by destruct s).
  assert (pool (response_pool s1) = <[length bufs := Some p]> (pool (response_pool s))) as Ep
    by (by destruct s).
  split; rewrite ?Ep, ?Es, ?length_insert, ?length_app, ?fmap_app.
  - simpl. lia.
  - rewrite Nat.add_1_r, <- Htk.
    rewrite (take_S_r _ _ (Some p)) by (apply list_lookup_insert_eq; lia).
    by rewrite take_insert_ge by done.
  - apply NoDup_app. split; [done|]. split; [set_solver|]. apply NoDup_singleton.
  - apply Forall_app. split.
    + eapply Forall_impl; [exact Hbuf|]. by apply (pool_buffer_insert s s1 p _ Es).
    + apply Forall_singleton. eexists. rewrite Es, lookup_insert_eq. split; [done|].
      cbn [so_buf]. split; [apply fresh_bytes|apply fresh_room].
  - intros q. rewrite Es. assert (next_skb s1 = S p) as -> by (by destruct s).
    destruct (decide (p = q)) as [->|]; [lia|]. rewrite lookup_insert_ne by done.
    intros Hq%Hheap. subst p. lia.
  - intros q. rewrite Hbase. destruct (decide (q = p)) as [->|].
    + rewrite decide_False by done. rewrite decide_True by set_solver. done.
    + rewrite lookup_insert_ne by done.
      by destruct (decide (q ∈ bufs)); destruct (decide (q ∈ bufs ++ [p])); set_solver.
  - by destruct s.
  - by destruct s.
Qed.

(** The error path of the loop gives every buffer back. *)
Lemma fill_inv_unwind base n bufs s s1 :
  fill_inv base (S n) bufs s ->
  pool (response_pool s1) = <[length bufs := None]> (pool (response_pool s)) ->
  skbs s1 = skbs s ->
  exists s', pool_unwind (length bufs) s1 = Done (tt, s') /\ pool_only s1 s' /\ skbs s' = base.
Proof.
  intros [Hlen Htk Hnd Hbuf Hheap Hbase _ _] Ep Es.
  destruct (pool_unwind_run bufs s1) as (s' & E & Ho & Hsk).
  - intros j p Hj. rewrite Ep. pose proof (lookup_lt_Some _ _ _ Hj).
    rewrite list_lookup_insert_ne, <- (lookup_take_lt _ (length bufs)), Htk by lia.
    by rewrite list_lookup_fmap, Hj.
  - done.
  - eapply Forall_impl; [exact Hbuf|]. intros p (o & Hp & _). rewrite Es. eauto.
  - exists s'. split; [done|]. split; [done|]. apply map_eq. intros p.
    by rewrite Hsk, Hbase, Es.
Qed.

(** The allocation loop: either every remaining slot gets a fresh empty buffer,
    or everything allocated is freed again. *)
Lemma pool_fill_run base n bufs s :
  fill_inv base n bufs s ->
  exists r s', pool_fill n (length bufs) s = Done (r, s') /\ pool_only s s' /\
    ((r = 0 /\ exists all, length all = (length bufs + n)%nat /\ fill_inv base 0 all s') \/
     (r = - ENOMEM /\ skbs s' = base)).
Proof.
  revert bufs s. induction n as [|n IH]; intros bufs s Hinv.
  { exists 0, s. split; [done|]. split; [done|]. left. rewrite Nat.add_0_r. eauto. }
  cbn [pool_fill]. destruct (alloc_skb_run POOL_SKB_SIZE s) as [w [E|E]];
    rewrite (bind_run _ _ _ _ _ E); unfold pool_store; run_simpl.
  - match goal with |- context [nanonet_log_error ?m] => set (msg := m) end.
    match goal with |- context [mbind _ _ ?t] => set (s1 := t) end.
    destruct (log_error_run msg s1) as (s2 & E2 & Hlog). rewrite (bind_run _ _ _ _ _ E2).
    destruct (logged_pool _ _ Hlog) as (Ep & Es & _).
    destruct (fill_inv_unwind base n bufs s s2 Hinv) as (s3 & E3 & Ho & Hbase).
    { rewrite Ep. subst s1. by destruct s. } { rewrite Es. subst s1. by destruct s. }
    exists (- ENOMEM), s3. rewrite (bind_run _ _ _ _ _ E3). split; [done|]. split; [|auto].
    transitivity s1; [subst s1; destruct s; solve_frame|].
    transitivity s2; [by apply logged_frame|done].
  - destruct (IH _ _ (fill_inv_step base n bufs w s Hinv)) as (r & s' & E' & Ho & Hres).
    rewrite length_app, Nat.add_1_r in E', Hres. exists r, s'.
    split; [rewrite <- E'; f_equal; by destruct s|].
    split; [etransitivity; [apply filled_only|exact Ho]|].
    by replace (length bufs + S n)%nat with (S (length bufs) + n)%nat by lia.
Qed.

Lemma fill_inv_start s :
  length (pool (response_pool s)) = 256%nat -> skb_heap_ok s ->
  pool_head (response_pool s) = 0 -> pool_tail (response_pool s) = 0 ->
  fill_inv (skbs s) 256 [] s.
Proof.
  intros. split; done || constructor.
Qed.

Lemma fill_inv_full base all s :
  length all = 256%nat -> fill_inv base 0 all s -> pool_inv s all.
Proof.
  intros Hl [Hlen Htk Hnd Hbuf Hheap _ Hh Ht]. split; try done; rewrite ?Hl; try lia.
  - rewrite take_ge in Htk by lia. by rewrite Htk.
  - unfold zlen. rewrite Hl. lia.
Qed.

Lemma init_response_pool_run s :
  length (pool (response_pool s)) = 256%nat -> skb_heap_ok s ->
  exists r s', nanonet_init_response_pool s = Done (r, s') /\ pool_only s s' /\
    ((r = 0 /\ exists all, length all = 256%nat /\ pool_inv s' all /\ skb_heap_ok s' /\
        (forall p, skbs s !! p = if decide (p ∈ all) then None else skbs s' !! p)) \/
     (r = - ENOMEM /\ skbs s' = skbs s)).
Proof.
  intros Hl Hheap. unfold nanonet_init_response_pool, pool_set_ends. run_simpl.
  match goal with |- context [pool_fill _ _ ?t] => set (s0 := t) end.
  assert (skbs s0 = skbs s) as Es by (by destruct s).
  destruct (pool_fill_run (skbs s0) 256 [] s0) as (r & s' & E & Ho & Hres).
  { apply fill_inv_start; by destruct s. }
  exists r, s'. split; [exact E|].
  split; [etransitivity; [|exact Ho]; destruct s; solve_frame|].
  rewrite Es in Hres. destruct Hres as [(-> & all & Hall & Hinv)|?]; [left|by right].
  split; [done|]. exists all. split; [done|]. split; [by eapply fill_inv_full|].
  by destruct Hinv.
Qed.

(** The draining loop frees exactly the buffers still in the pool. *)
Lemma pool_drain_run l i s :
  drop i (pool (response_pool s)) = l ->
  NoDup (omap id l) -> Forall (fun p => is_Some (skbs s !! p)) (omap id l) ->
  exists s', pool_drain (length l) i s = Done (tt, s') /\ pool_only s s' /\
    pool (response_pool s') = take i (pool (response_pool s)) ++ replicate (length l) None /\
    next_skb s' = next_skb s /\
    (forall p, skbs s' !! p = if decide (p ∈ omap id l) then None else skbs s !! p).
Proof.
  revert i s. induction l as [|x l IH]; intros i s Hd Hnd Hlive.
  { exists s. split; [done|]. split; [done|].
    assert (length (pool (response_pool s)) <= i)%nat.
    { apply (f_equal length) in Hd. rewrite length_drop in Hd. simpl in Hd. lia. }
    rewrite take_ge, app_nil_r by done. split; [done|]. split; [done|].
    intros p. by rewrite decide_False by set_solver. }
  assert (pool (response_pool s) !! i = Some x) as Hi.
  { rewrite <- (Nat.add_0_r i), <- lookup_drop, Hd. done. }
  pose proof (lookup_lt_Some _ _ _ Hi) as Hlt.
  assert (drop (S i) (pool (response_pool s)) = l) as Hd'.
  { rewrite (drop_S _ x) in Hd by done. by injection Hd. }
  cbn [pool_drain length]. unfold pool_slot. run_simpl. rewrite (deref_bind _ _ _ _ Hi).
  destruct x as [q|].
  - change (omap id (Some q :: l)) with (q :: omap id l) in *.
    apply NoDup_cons in Hnd as [Hni Hnd]. apply Forall_cons in Hlive as [Hq Hlive].
    rewrite bind_assoc, (bind_run _ _ _ _ _ (kfree_skb_run _ _ Hq)).
    unfold pool_store. run_simpl.
    match goal with |- context [pool_drain _ _ ?t] => set (s1 := t) end.
    assert (skbs s1 = delete q (skbs s)) as Es by (by destruct s).
    assert (pool (response_pool s1) = <[i := None]> (pool (response_pool s))) as Ep by (by destruct s).
    destruct (IH (S i) s1) as (s' & E & Ho & Hp & Hn & Hsk).
    + by rewrite Ep, drop_insert_lt by lia.
    + done.
    + apply Forall_forall. intros p Hp. rewrite Es, lookup_delete_ne by (intros ->; done).
      by apply (proj1 (Forall_forall _ _) Hlive).
    + exists s'. split; [exact E|]. split; [etransitivity; [|exact Ho]; destruct s; solve_frame|].
      split; [|split; [rewrite Hn; by destruct s|]].
      * rewrite Hp, Ep, (take_S_r _ _ None) by (by apply list_lookup_insert_eq).
        by rewrite take_insert_ge, <- app_assoc by done.
      * intros p. rewrite Hsk, Es. destruct (decide (p = q)) as [->|].
        -- rewrite lookup_delete_eq, (decide_True (P := q ∈ q :: _)) by set_solver.
           by destruct (decide _).
        -- rewrite lookup_delete_ne by done.
           by destruct (decide (p ∈ omap id l)), (decide (p ∈ q :: omap id l)); set_solver.
  - change (omap id (None :: l)) with (omap id l) in *. run_simpl.
    destruct (IH (S i) s Hd' Hnd Hlive) as (s' & E & Ho & Hp & Hn & Hsk).
    exists s'. split; [exact E|]. split; [done|]. split; [|done].
    by rewrite Hp, (take_S_r _ _ None), <- app_assoc by done.
Qed.

Lemma omap_slots n (avail : list nat) :
  omap id (replicate n None ++ (Some <$> avail)) = avail.
Proof.
  rewrite omap_app. replace (omap id (replicate n None)) with (@nil nat).
  - simpl. induction avail; [done|]. simpl. by f_equal.
  - induction n; done.
Qed.

Lemma cleanup_response_pool_run s avail :
  pool_inv s avail ->
  exists s', nanonet_cleanup_response_pool s = Done (tt, s') /\ pool_only s s' /\
    response_pool s' = response_pool_zero /\
    (forall p, skbs s' !! p = if decide (p ∈ avail) then None else skbs s !! p).
Proof.
  intros [Hs Hh Ht Hl Hnd Hlive].
  destruct (pool_drain_run (pool (response_pool s)) 0 s) as (s1 & E & Ho & Hp & _ & Hsk).
  - done.
  - by rewrite Hs, omap_slots.
  - rewrite Hs, omap_slots. eapply Forall_impl; [exact Hlive|].
    intros p (o & Ho & _). eauto.
  - assert (length (pool (response_pool s)) = 256%nat) as Hlen.
    { rewrite Hs, length_app, length_replicate, length_fmap. lia. }
    rewrite Hs, omap_slots in Hsk. rewrite Hlen in E, Hp.
    unfold nanonet_cleanup_response_pool. change (Z.to_nat RESPONSE_POOL_SIZE) with 256%nat.
    rewrite (bind_run _ _ _ _ _ E). unfold pool_set_ends, modify. eexists. split; [done|].
    rewrite Hp. split; [etransitivity; [exact Ho|]; destruct s1; solve_frame|].
    split; [by destruct s1|]. intros p. rewrite <- Hsk. by destruct s1.
Qed.
End PoolLemmas.

(** ** Properties of the pool *)

(** [k] calls of [nanonet_get_response_skb]. *)
Fixpoint get_many {W B} `{!KernelEnv W} (k : nat) : M W B (list (option nat)) :=
  match k with
  | O => mret []
  | S k' => x ← nanonet_get_response_skb; xs ← get_many k'; mret (x :: xs)
  end.

Section PoolTheorems.
Context {W B : Type} `{!KernelEnv W, !SkbOps B, !SkbLaws B}.
Implicit Types s : kstate W B.

(** C9: from a pool with its 256 slots, [nanonet_init_response_pool] never
    crashes; it either fills the pool with 256 distinct, live, empty buffers
    with room for 1500 bytes, all of them new, or returns [-ENOMEM] having freed
    every buffer it allocated; nothing else but the log changes. *)
Theorem init_response_pool_correct s :
  length (pool (response_pool s)) = 256%nat -> skb_heap_ok s ->
  exists r s', nanonet_init_response_pool s = Done (r, s') /\ pool_only s s' /\
    ((r = 0 /\ exists all, length all = 256%nat /\ pool_inv s' all /\ skb_heap_ok s' /\
        (forall p, skbs s !! p = if decide (p ∈ all) then None else skbs s' !! p)) \/
     (r = - ENOMEM /\ skbs s' = skbs s)).
Proof. apply init_response_pool_run. Qed.

Lemma get_many_run k s avail :
  pool_inv s avail ->
  exists s', get_many k s =
    Done ((Some <$> take k (take (length avail - 1) avail)) ++
          replicate (k - (length avail - 1)) None, s') /\
    pool_inv s' (drop (Nat.min k (length avail - 1)) avail) /\ pool_only s s'.
Proof.
  revert s avail. induction k as [|k IH]; intros s avail Hinv.
  { exists s. by rewrite drop_0. }
  pose proof (get_response_skb_run s avail Hinv) as Hget. pose proof Hinv as [_ _ _ Hl _ _].
  destruct avail as [|p [|q rest]]; [simpl in Hl; lia| |].
  - destruct Hget as (s1 & E & Hlog). destruct (logged_pool _ _ Hlog) as (Ep & Es & _).
    destruct (IH s1 [p]) as (s' & E' & Hinv' & Ho); [by eapply pool_inv_ext|].
    cbn [get_many]. rewrite (bind_run _ _ _ _ _ E), (bind_run _ _ _ _ _ E').
    exists s'. split; [|split].
    + simpl. by rewrite take_nil, Nat.sub_0_r.
    + simpl in *. by rewrite Nat.min_0_r in *.
    + etransitivity; [by apply logged_frame|done].
  - destruct Hget as (s1 & E & Hs1 & Hinv1).
    destruct (IH s1 _ Hinv1) as (s' & E' & Hinv' & Ho).
    cbn [get_many]. rewrite (bind_run _ _ _ _ _ E), (bind_run _ _ _ _ _ E').
    exists s'. split; [|split].
    + simpl. by rewrite Nat.sub_0_r.
    + simpl in *. by rewrite Nat.sub_0_r in *.
    + etransitivity; [|done]. rewrite Hs1. apply set_pool_only.
Qed.

(** C20: a full pool hands out its first 255 buffers, in order and each once;
    the call after that and every later one return NULL, the 256th buffer is
    never used and the pool is never refilled. *)
Theorem pool_serves_255 s avail k :
  pool_inv s avail -> length avail = 256%nat -> (255 <= k)%nat ->
  exists s' last, get_many k s =
    Done ((Some <$> take 255 avail) ++ replicate (k - 255) None, s') /\
    pool_inv s' [last] /\ avail = take 255 avail ++ [last] /\ pool_only s s'.
Proof.
  intros Hinv Hl Hk. destruct (get_many_run k s avail Hinv) as (s' & E & Hinv' & Ho).
  rewrite Hl in *. change (256 - 1)%nat with 255%nat in *.
  rewrite take_take, Nat.min_r in * by lia.
  destruct (drop 255 avail) as [|last [|]] eqn:Ed;
    apply (f_equal length) in Ed as Ed'; rewrite length_drop, Hl in Ed'; try (simpl in Ed'; lia).
  exists s', last. split_and!; [done|done| |done].
  by rewrite <- Ed, take_drop.
Qed.

(** C21: [nanonet_cleanup_response_pool] frees exactly the buffers still in the
    pool, without a double free even after buffers were taken, and leaves the
    pool in its initial state. *)
Theorem cleanup_after_gets k s avail :
  pool_inv s avail ->
  exists rs s1 s2, get_many k s = Done (rs, s1) /\
    nanonet_cleanup_response_pool s1 = Done (tt, s2) /\ pool_only s s2 /\
    response_pool s2 = response_pool_zero /\
    (forall p, skbs s2 !! p =
       if decide (p ∈ drop (Nat.min k (length avail - 1)) avail) then None else skbs s1 !! p).
Proof.
  intros Hinv. destruct (get_many_run k s avail Hinv) as (s1 & E1 & Hinv1 & Ho1).
  destruct (cleanup_response_pool_run s1 _ Hinv1) as (s2 & E2 & Ho2 & Hz & Hsk).
  do 3 eexists. split; [exact E1|]. split; [exact E2|]. split; [by etransitivity|]. done.
Qed.
End PoolTheorems.

(** ** Runs in the executable kernel *)

Lemma loaded_heap_ok {W B} (w : W) : skb_heap_ok (loaded (B := B) w).
Proof. intros p [o Ho]. done. Qed.

Lemma sim_pool :
  exists s avail, nanonet_init_response_pool sim_loaded = Done (0, s) /\
    pool_inv s avail /\ length avail = 256%nat.
Proof.
  destruct (init_response_pool_run sim_loaded) as (r & s & E & _ & H); [done|apply loaded_heap_ok|].
  assert (result_of (nanonet_init_response_pool sim_loaded) = Some 0) as Hr by (by vm_compute).
  rewrite E in Hr. injection Hr as ->.
  destruct H as [(_ & all & Hl & Hinv & _)|[Hneg _]]; [|discriminate Hneg].
  exists s, all. auto.
Qed.

Lemma optimized_parser_agrees_witness :
  exists s', nanonet_parse_packet_optimized (sample_frame 22071) (Build_opt_out None None 0)
      sim_loaded = Done ((0, Build_opt_out (Some 14) (Some 42) 24), s') /\ logged sim_loaded s'.
Proof.
  apply (optimized_parser_agrees (sample_frame 22071) sample_out).
  - apply sample_linear.
  - vm_compute. reflexivity.
Defined.

Lemma init_response_pool_correct_witness :
  exists r s', nanonet_init_response_pool sim_loaded = Done (r, s') /\ pool_only sim_loaded s'.
Proof.
  destruct (init_response_pool_correct sim_loaded) as (r & s' & E & Ho & _).
  - reflexivity.
  - apply loaded_heap_ok.
  - exists r, s'. split; assumption.
Defined.

Lemma pool_serves_255_witness :
  exists (s : kstate sim lskb) avail s', get_many 300 s =
    Done ((Some <$> take 255 avail) ++ replicate (300 - 255) None, s').
Proof.
  destruct sim_pool as (s & avail & _ & Hinv & Hl).
  destruct (pool_serves_255 s avail 300 Hinv Hl) as (s' & last & E & _); [lia|].
  exists s, avail, s'. exact E.
Defined.

Lemma cleanup_after_gets_witness :
  exists (s : kstate sim lskb) rs s1 s2, get_many 3 s = Done (rs, s1) /\
    nanonet_cleanup_response_pool s1 = Done (tt, s2) /\
    response_pool s2 = response_pool_zero.
Proof.
  destruct sim_pool as (s & avail & _ & Hinv & _).
  destruct (cleanup_after_gets 3 s avail Hinv) as (rs & s1 & s2 & E1 & E2 & _ & Hz & _).
  exists s, rs, s1, s2. split; [exact E1|]. split; [exact E2|exact Hz].
Defined.
