(* ===== verification/Security.v ===== *)
(** * security.c: packet and configuration validation, TCP connection table

    The table of 1024 hash buckets is a list of lists; [hash_node] links are the
    order in a bucket. The abstract view of the table is a finite map from the
    connection's four-tuple ([conn_map]), and [nanonet_track_tcp_connection]
    and [nanonet_clear_tcp_connections] are related to operations on that
    map. *)

From S2P Require Import Prelude Headers Kernel Sim Debug MicroStack.

Definition sizeof_tcp_conn : Z := 48.

Section Security.
Context {W B : Type} `{!KernelEnv W}.
Local Abbreviation M := (M W B).

(** ** Connection tracking *)

Definition nanonet_conn_hash (conn : ull_tcp_conn) : Z :=
  u32 (jhash_3words (conn_src_ip conn) (conn_dst_ip conn)
         (u32 (Z.lor (Z.shiftl (conn_src_port conn) 16) (conn_dst_port conn))) 0)
  mod CONN_HASH_SIZE.

(** The bucket index [nanonet_track_tcp_connection] computes. *)
Definition track_hash (saddr daddr source dest : Z) : Z :=
  u32 (jhash_3words saddr daddr
         (u32 (Z.lor (Z.shiftl (ntohs source) 16) (ntohs dest))) 0)
  mod CONN_HASH_SIZE.

Definition conn_matches (saddr daddr source dest : Z) (conn : ull_tcp_conn) : bool :=
  (conn_src_ip conn =? saddr) && (conn_dst_ip conn =? daddr) &&
  (conn_src_port conn =? source) && (conn_dst_port conn =? dest).

(** The updates of the matching entry: [last_seen] always; a SYN sets the state
    to 1 (Syn-Sent), a SYN-ACK sets it to 2 (Established) with both sequence
    numbers. *)
Definition conn_seen (now : Z) (c : ull_tcp_conn) : ull_tcp_conn :=
  match c with Build_ull_tcp_conn a si di sp dp sn an st _ =>
    Build_ull_tcp_conn a si di sp dp sn an st now end.
Definition conn_syn (c : ull_tcp_conn) : ull_tcp_conn :=
  match c with Build_ull_tcp_conn a si di sp dp sn an _ ls =>
    Build_ull_tcp_conn a si di sp dp sn an 1 ls end.
Definition conn_established (seq ack_seq : Z) (c : ull_tcp_conn) : ull_tcp_conn :=
  match c with Build_ull_tcp_conn a si di sp dp _ _ _ ls =>
    Build_ull_tcp_conn a si di sp dp (ntohl seq) (ntohl ack_seq) 2 ls end.

Definition touch_conn (m : list Z) (tcp_hdr now : Z) (syn ack : bool)
    : M (ull_tcp_conn -> ull_tcp_conn) :=
  if syn && negb ack then mret (fun c => conn_syn (conn_seen now c))
  else if syn && ack then
    seq ← deref (tcph_seq m tcp_hdr);
    ack_seq ← deref (tcph_ack_seq m tcp_hdr);
    mret (fun c => conn_established seq ack_seq (conn_seen now c))
  else mret (conn_seen now).

(** [hlist_for_each_entry ... if (match) { update; break; }]. *)
Fixpoint update_first (p : ull_tcp_conn -> bool) (f : ull_tcp_conn -> ull_tcp_conn)
    (l : list ull_tcp_conn) : list ull_tcp_conn :=
  match l with
  | [] => []
  | c :: l' => if p c then f c :: l' else c :: update_first p f l'
  end.

Definition set_bucket (hash : Z) (b : list ull_tcp_conn) : M unit :=
  modify (fun s => set_conns (<[Z.to_nat hash := b]> (connection_hash s)) s).

(** The walk found a matching entry. *)
Definition track_found (m : list Z) (tcp_hdr hash : Z) (bucket : list ull_tcp_conn)
    (matches : ull_tcp_conn -> bool) (syn ack : bool) : M Z :=
  now ← ask read_jiffies;
  f ← touch_conn m tcp_hdr now syn ack;
  _ ← set_bucket hash (update_first matches f bucket);
  mret 0.

(** No entry, and the segment is a SYN without ACK: allocate a connection. *)
Definition track_create (m : list Z) (tcp_hdr hash : Z) (bucket : list ull_tcp_conn)
    (saddr daddr source dest : Z) : M Z :=
  a ← kmalloc sizeof_tcp_conn;
  match a with
  | None =>
      _ ← nanonet_log_error (str "Failed to allocate memory for TCP connection");
      mret (- ENOMEM)
  | Some addr =>
      seq ← deref (tcph_seq m tcp_hdr);
      now ← ask read_jiffies;
      let conn := Build_ull_tcp_conn addr saddr daddr source dest (ntohl seq) 0 1 now in
      _ ← set_bucket hash (conn :: bucket);
      _ ← modify_stats (map_connections_active atomic64_inc);
      mret 0
  end.

Definition nanonet_track_tcp_connection (m : list Z) (ip_hdr tcp_hdr : Z) : M Z :=
  saddr ← deref (iph_saddr m ip_hdr);
  daddr ← deref (iph_daddr m ip_hdr);
  source ← deref (tcph_source m tcp_hdr);
  dest ← deref (tcph_dest m tcp_hdr);
  let hash := track_hash saddr daddr source dest in
  let matches := conn_matches saddr daddr source dest in
  tbl ← gets connection_hash;
  bucket ← deref (tbl !! Z.to_nat hash);
  syn ← deref (tcph_syn m tcp_hdr);
  ack ← deref (tcph_ack m tcp_hdr);
  if existsb matches bucket then track_found m tcp_hdr hash bucket matches syn ack
  else if syn && negb ack then track_create m tcp_hdr hash bucket saddr daddr source dest
  else mret (- EINVAL).

(** [hlist_for_each_entry_safe] over one bucket: unlink, free, count. *)
Fixpoint clear_bucket (i : nat) (l : list ull_tcp_conn) : M unit :=
  match l with
  | [] => mret tt
  | c :: rest =>
      _ ← modify (fun s => set_conns (<[i := rest]> (connection_hash s)) s);
      _ ← kfree (conn_addr c);
      _ ← modify_stats (map_connections_active atomic64_dec);
      _ ← modify_stats (map_connections_dropped atomic64_inc);
      clear_bucket i rest
  end.

Fixpoint clear_buckets (n i : nat) : M unit :=
  match n with
  | O => mret tt
  | S n' =>
      tbl ← gets connection_hash;
      bucket ← deref (tbl !! i);
      _ ← clear_bucket i bucket;
      clear_buckets n' (S i)
  end.

Definition nanonet_clear_tcp_connections : M unit :=
  clear_buckets (Z.to_nat CONN_HASH_SIZE) 0.

(** ** Validation *)

(** [tot_len] is compared as loaded, without [ntohs]. *)
Definition nanonet_validate_packet (m : list Z) (ip_hdr : Z) : M Z :=
  ok ← ask (ratelimit_ok nanonet_ratelimit);
  if negb ok then
    pr ← ask (ratelimit_ok printk_ratelimit_state);
    _ ← (if pr : bool then printk (str "NANONET: Rate limit exceeded" ++ newline) else mret tt);
    mret (- EBUSY)
  else
  saddr ← deref (iph_saddr m ip_hdr);
  tot_len ← deref (iph_tot_len m ip_hdr);
  if (saddr =? 0) || (tot_len <? sizeof_iphdr) then
    _ ← nanonet_log_error (str "Invalid packet: zero source IP or insufficient length");
    mret (- EINVAL)
  else mret 0.

Definition nanonet_check_permissions : M Z :=
  w ← gets world;
  mret (if capable_net_admin w then 0 else - EPERM).

Definition nanonet_validate_config (config : ull_config) : M Z :=
  if (cfg_target_ip config =? 0) || (cfg_response_ip config =? 0) ||
     (cfg_target_port config =? 0) || (cfg_response_port config =? 0) then
    _ ← nanonet_log_error (str "Invalid config: zero IP or port");
    mret (- EINVAL)
  else if negb (cfg_protocol config =? IPPROTO_TCP) && negb (cfg_protocol config =? IPPROTO_UDP) then
    _ ← nanonet_log_error (str "Invalid protocol: " ++ fmt_d (cfg_protocol config));
    mret (- EINVAL)
  else if cfg_multicast config && (cfg_multicast_group config =? 0) then
    _ ← nanonet_log_error (str "Invalid multicast group");
    mret (- EINVAL)
  else mret 0.
End Security.

(** ** The abstract connection table *)

(** A connection's identity: source and destination address, source and
    destination port. *)
Definition conn_key : Type := Z * Z * Z * Z.

Definition key_of (c : ull_tcp_conn) : conn_key :=
  (conn_src_ip c, conn_dst_ip c, conn_src_port c, conn_dst_port c).

Definition key_hash {W} `{!KernelEnv W} (k : conn_key) : Z :=
  let '(sa, da, sp, dp) := k in track_hash sa da sp dp.

Definition map_of (l : list ull_tcp_conn) : gmap conn_key ull_tcp_conn :=
  list_to_map ((fun c => (key_of c, c)) <$> l).

Definition conn_map (tbl : list (list ull_tcp_conn)) : gmap conn_key ull_tcp_conn :=
  map_of (concat tbl).

(** The table has its 1024 buckets, every entry is in the bucket of its key,
    no two entries share a key or an address, and every entry is a live
    object. *)
Record conns_ok {W B} `{!KernelEnv W} (s : kstate W B) : Prop := {
  co_len : length (connection_hash s) = 1024%nat;
  co_place : forall i b c, connection_hash s !! i = Some b -> c ∈ b ->
    Z.of_nat i = key_hash (key_of c);
  co_keys : NoDup (key_of <$> concat (connection_hash s));
  co_addrs : NoDup (conn_addr <$> concat (connection_hash s));
  co_live : Forall (fun c => conn_addr c ∈ klive s) (concat (connection_hash s));
  co_fresh : forall a, a ∈ klive s -> (a < next_obj s)%nat;
}.

Lemma conn_matches_key sa da sp dp c :
  conn_matches sa da sp dp c = true <-> key_of c = (sa, da, sp, dp).
Proof.
  unfold conn_matches, key_of. split.
  - intros H. breflect. congruence.
  - intros [= -> -> -> ->]. by rewrite !Z.eqb_refl.
Qed.

Lemma update_first_split p f l :
  existsb p l = true ->
  exists l1 c l2, l = l1 ++ c :: l2 /\ p c = true /\ update_first p f l = l1 ++ f c :: l2.
Proof.
  induction l as [|c l IH]; simpl; [done|]. destruct (p c) eqn:Hp; simpl.
  - intros _. exists [], c, l. auto.
  - intros H. destruct (IH H) as (l1 & c' & l2 & -> & Hp' & ->). by exists (c :: l1), c', l2.
Qed.

Lemma concat_insert {A} (tbl : list (list A)) i b b' :
  tbl !! i = Some b ->
  exists rest, concat tbl ≡ₚ b ++ rest /\ concat (<[i := b']> tbl) ≡ₚ b' ++ rest.
Proof.
  intros Hi. exists (concat (take i tbl) ++ concat (drop (S i) tbl)).
  pose proof (lookup_lt_Some _ _ _ Hi).
  rewrite <- (take_drop_middle tbl i b Hi) at 1.
  rewrite insert_take_drop by done. rewrite !concat_app. simpl.
  split; solve_Permutation.
Qed.

(** ** Lists of connections as maps *)

Lemma map_of_keys l : ((fun c => (key_of c, c)) <$> l).*1 = key_of <$> l.
Proof. rewrite <- list_fmap_compose. done. Qed.

Lemma map_of_perm l l' : NoDup (key_of <$> l) -> l ≡ₚ l' -> map_of l = map_of l'.
Proof.
  intros Hnd Hp. apply list_to_map_proper; [by rewrite map_of_keys|]. by rewrite Hp.
Qed.

Lemma map_of_None k l : k ∉ key_of <$> l -> map_of l !! k = None.
Proof. intros H. apply not_elem_of_list_to_map. by rewrite map_of_keys. Qed.

(** Replacing one entry by another with the same key. *)
Lemma map_of_replace l1 l2 rest c c' :
  key_of c' = key_of c -> NoDup (key_of <$> (l1 ++ c :: l2) ++ rest) ->
  map_of ((l1 ++ c :: l2) ++ rest) !! key_of c = Some c /\
  map_of ((l1 ++ c' :: l2) ++ rest) =
    <[key_of c := c']> (map_of ((l1 ++ c :: l2) ++ rest)).
Proof.
  intros Hk Hnd.
  assert (forall x, (l1 ++ x :: l2) ++ rest ≡ₚ x :: l1 ++ l2 ++ rest) as Hp
    by (intros; solve_Permutation).
  rewrite (map_of_perm _ _ Hnd (Hp c)). split; [apply lookup_insert_eq|].
  rewrite (map_of_perm _ (c' :: l1 ++ l2 ++ rest)); [|by rewrite Hp in Hnd |- *; simpl; rewrite Hk|by rewrite Hp].
  unfold map_of. simpl. by rewrite Hk, insert_insert_eq.
Qed.

Section ConnTable.
Context {W B : Type} `{!KernelEnv W}.
Implicit Types s : kstate W B.

Lemma track_hash_range sa da sp dp : 0 <= track_hash sa da sp dp < 1024.
Proof. unfold track_hash, CONN_HASH_SIZE. apply Z.mod_pos_bound. lia. Qed.

Lemma bucket_exists s sa da sp dp :
  conns_ok s -> exists b, connection_hash s !! Z.to_nat (track_hash sa da sp dp) = Some b.
Proof.
  intros []. apply lookup_lt_is_Some_2. pose proof (track_hash_range sa da sp dp). lia.
Qed.

Lemma conns_ok_ext s s' :
  connection_hash s' = connection_hash s -> klive s' = klive s ->
  (next_obj s <= next_obj s')%nat -> conns_ok s -> conns_ok s'.
Proof.
  intros E1 E2 E3 []. split; rewrite ?E1, ?E2; try done. intros a Ha%co_fresh0. lia.
Qed.

Lemma conns_ok_frame s s' mods :
  frame mods s s' -> FConns ∉ mods -> FKlive ∉ mods -> conns_ok s -> conns_ok s'.
Proof.
  intros Hf H1 H2. destruct (Hf FKlive H2) as [? En]. apply conns_ok_ext; auto; [by apply (Hf FConns)|].
  by rewrite En.
Qed.

(** No entry of the bucket matches exactly when the map has no such key. *)
Lemma no_match_None s sa da sp dp b :
  conns_ok s -> connection_hash s !! Z.to_nat (track_hash sa da sp dp) = Some b ->
  existsb (conn_matches sa da sp dp) b = false ->
  conn_map (connection_hash s) !! (sa, da, sp, dp) = None.
Proof.
  intros [_ Hplace _ _ _ _] Hb Hex. apply map_of_None.
  intros (c & Hk & Hc)%list_elem_of_fmap.
  apply list_elem_of_In, in_concat in Hc as (b' & Hb' & Hc).
  apply list_elem_of_In, list_elem_of_lookup in Hb' as (i & Hi).
  apply list_elem_of_In in Hc. pose proof (Hplace i b' c Hi Hc) as Hih.
  rewrite <- Hk in Hih. simpl in Hih.
  assert (i = Z.to_nat (track_hash sa da sp dp)) as -> by lia.
  assert (b' = b) as -> by congruence.
  assert (existsb (conn_matches sa da sp dp) b = true); [|congruence].
  apply existsb_exists. exists c. split; [by apply list_elem_of_In|].
  by apply conn_matches_key.
Qed.

(** Replacing one bucket. *)
Lemma conns_ok_bucket s s' i b b' rest :
  conns_ok s -> connection_hash s !! i = Some b ->
  connection_hash s' = <[i := b']> (connection_hash s) ->
  concat (<[i := b']> (connection_hash s)) ≡ₚ b' ++ rest ->
  (forall c, c ∈ b' -> Z.of_nat i = key_hash (key_of c)) ->
  NoDup (key_of <$> b' ++ rest) -> NoDup (conn_addr <$> b' ++ rest) ->
  Forall (fun c => conn_addr c ∈ klive s') (b' ++ rest) ->
  (forall a, a ∈ klive s' -> (a < next_obj s')%nat) ->
  conns_ok s'.
Proof.
  intros [Hlen Hplace _ _ _ _] Hb E Hp Hpl Hk Ha Hl Hf. split; rewrite ?E; try done.
  - by rewrite length_insert.
  - intros j bj c Hj Hc. destruct (decide (i = j)) as [<-|].
    + rewrite list_lookup_insert_eq in Hj by (by eapply lookup_lt_Some).
      injection Hj as <-. auto.
    + rewrite list_lookup_insert_ne in Hj by done. by eapply Hplace.
  - by rewrite Hp.
  - by rewrite Hp.
  - by rewrite Hp.
Qed.

(** Updating the matching entry in place, keeping its key and address. *)
Lemma update_match_map s sa da sp dp b f :
  conns_ok s -> connection_hash s !! Z.to_nat (track_hash sa da sp dp) = Some b ->
  existsb (conn_matches sa da sp dp) b = true ->
  (forall c, key_of (f c) = key_of c) -> (forall c, conn_addr (f c) = conn_addr c) ->
  let tbl' := <[Z.to_nat (track_hash sa da sp dp) :=
                update_first (conn_matches sa da sp dp) f b]> (connection_hash s) in
  conns_ok (set_conns tbl' s) /\
  exists c, conn_map (connection_hash s) !! (sa, da, sp, dp) = Some c /\
    conn_map tbl' = <[(sa, da, sp, dp) := f c]> (conn_map (connection_hash s)) /\
    conn_addr <$> concat tbl' ≡ₚ conn_addr <$> concat (connection_hash s).
Proof.
  intros Hok Hb Hex Hk Ha. cbv zeta.
  destruct (update_first_split _ f b Hex) as (l1 & c & l2 & -> & Hm & ->).
  apply conn_matches_key in Hm.
  destruct (concat_insert _ _ _ (l1 ++ f c :: l2) Hb) as (rest & Hp & Hp').
  pose proof Hok as [Hlen Hplace Hkeys Haddrs Hlive Hfresh].
  assert (key_of <$> (l1 ++ f c :: l2) ++ rest = key_of <$> (l1 ++ c :: l2) ++ rest) as Ek
    by (rewrite !fmap_app; simpl; by rewrite Hk).
  assert (conn_addr <$> (l1 ++ f c :: l2) ++ rest = conn_addr <$> (l1 ++ c :: l2) ++ rest) as Ea
    by (rewrite !fmap_app; simpl; by rewrite Ha).
  rewrite Hp in Hkeys, Haddrs, Hlive. split.
  - eapply (conns_ok_bucket s); try done; try (by destruct s).
    + intros x Hx. apply elem_of_app in Hx as [Hx|[->|Hx]%elem_of_cons].
      * eapply Hplace; [exact Hb|]. set_solver.
      * rewrite Hk. eapply Hplace; [exact Hb|]. set_solver.
      * eapply Hplace; [exact Hb|]. set_solver.
    + by rewrite Ek.
    + by rewrite Ea.
    + replace (klive (set_conns _ s)) with (klive s) by (by destruct s).
      rewrite !Forall_app, !Forall_cons in Hlive |- *. rewrite Ha. tauto.
  - exists c. rewrite <- Hm.
    destruct (map_of_replace l1 l2 rest c (f c) (Hk c) Hkeys) as [Hl Hr].
    unfold conn_map.
    rewrite (map_of_perm _ ((l1 ++ c :: l2) ++ rest)) by (rewrite ?Hp; done).
    split; [done|]. rewrite (map_of_perm _ ((l1 ++ f c :: l2) ++ rest)); [|by rewrite Hp', Ek|done].
    split; [done|]. by rewrite Hp', Hp, Ea.
Qed.

(** Adding a new connection at the head of its bucket. *)
Lemma add_conn_map s s' c b :
  conns_ok s -> connection_hash s !! Z.to_nat (key_hash (key_of c)) = Some b ->
  conn_map (connection_hash s) !! key_of c = None ->
  0 <= key_hash (key_of c) -> conn_addr c = next_obj s ->
  connection_hash s' = <[Z.to_nat (key_hash (key_of c)) := c :: b]> (connection_hash s) ->
  klive s' = {[next_obj s]} ∪ klive s -> next_obj s' = S (next_obj s) ->
  conns_ok s' /\
  conn_map (connection_hash s') = <[key_of c := c]> (conn_map (connection_hash s)) /\
  conn_addr <$> concat (connection_hash s') ≡ₚ
    conn_addr c :: (conn_addr <$> concat (connection_hash s)).
Proof.
  intros Hok Hb Hnone Hh Ha Ec El En. pose proof Hok as [Hlen Hplace Hkeys Haddrs Hlive Hfresh].
  destruct (concat_insert _ _ _ (c :: b) Hb) as (rest & Hp & Hp').
  rewrite Hp in Hkeys, Haddrs, Hlive.
  assert (key_of c ∉ key_of <$> b ++ rest) as Hni.
  { apply not_elem_of_list_to_map in Hnone. rewrite map_of_keys, Hp in Hnone. done. }
  assert (NoDup (key_of <$> (c :: b) ++ rest)) as Hk by (simpl; by constructor).
  split.
  - eapply (conns_ok_bucket s); try done; rewrite ?El, ?En.
    + intros x [->|Hx]%elem_of_cons; [lia|]. eapply Hplace; eauto.
    + simpl. constructor; [|done]. rewrite Ha. intros (x & Hx & Hin)%list_elem_of_fmap.
      apply (proj1 (Forall_forall _ _) Hlive) in Hin. apply Hfresh in Hin. lia.
    + simpl. constructor; [set_solver|]. eapply Forall_impl; [exact Hlive|]. set_solver.
    + intros a [->%elem_of_singleton|Hx]%elem_of_union; [lia|]. apply Hfresh in Hx. lia.
  - unfold conn_map. rewrite Ec.
    rewrite (map_of_perm (concat (connection_hash s)) (b ++ rest)) by (rewrite ?Hp; done).
    rewrite (map_of_perm _ ((c :: b) ++ rest)); [|by rewrite Hp'|done].
    split; [done|]. by rewrite Hp', Hp.
Qed.
End ConnTable.

(** ** Refinement of connection tracking *)

(** The header fields that tracking reads. *)
Record tcp_fields (m : list Z) (ip tcp sa da sp dp seq aseq : Z) (syn ack : bool) : Prop := {
  tf_saddr : iph_saddr m ip = Some sa;
  tf_daddr : iph_daddr m ip = Some da;
  tf_source : tcph_source m tcp = Some sp;
  tf_dest : tcph_dest m tcp = Some dp;
  tf_seq : tcph_seq m tcp = Some seq;
  tf_ack_seq : tcph_ack_seq m tcp = Some aseq;
  tf_syn : tcph_syn m tcp = Some syn;
  tf_ack : tcph_ack m tcp = Some ack;
}.

(** Headers inside the buffer have all these fields. *)
Lemma tcp_fields_exist m ip tcp :
  0 <= ip -> ip + 20 <= zlen m -> 0 <= tcp -> tcp + 20 <= zlen m ->
  exists sa da sp dp seq aseq syn ack, tcp_fields m ip tcp sa da sp dp seq aseq syn ack.
Proof.
  intros. 
  destruct (load_is_Some 4 m (ip + 12)) as [sa E1]; [lia..|].
  destruct (load_is_Some 4 m (ip + 16)) as [da E2]; [lia..|].
  destruct (load_is_Some 2 m tcp) as [sp E3]; [lia..|].
  destruct (load_is_Some 2 m (tcp + 2)) as [dp E4]; [lia..|].
  destruct (load_is_Some 4 m (tcp + 4)) as [seq E5]; [lia..|].
  destruct (load_is_Some 4 m (tcp + 8)) as [aseq E6]; [lia..|].
  destruct (load_is_Some 2 m (tcp + 12)) as [fl E7]; [lia..|].
  exists sa, da, sp, dp, seq, aseq, (Z.testbit fl 9), (Z.testbit fl 12).
  split; try done; unfold tcph_syn, tcph_ack, tcph_flags; by rewrite E7.
Qed.

Definition touched (now : Z) (syn ack : bool) (seq aseq : Z) (c : ull_tcp_conn) : ull_tcp_conn :=
  if syn && negb ack then conn_syn (conn_seen now c)
  else if syn && ack then conn_established seq aseq (conn_seen now c)
  else conn_seen now c.

Lemma touched_key now syn ack seq aseq c : key_of (touched now syn ack seq aseq c) = key_of c.
Proof. by destruct c, syn, ack. Qed.

Lemma touched_addr now syn ack seq aseq c :
  conn_addr (touched now syn ack seq aseq c) = conn_addr c.
Proof. by destruct c, syn, ack. Qed.

Section Tracking.
Context {W B : Type} `{!KernelEnv W}.
Implicit Types s : kstate W B.

Lemma touch_conn_run m ip tcp sa da sp dp seq aseq syn ack now s :
  tcp_fields m ip tcp sa da sp dp seq aseq syn ack ->
  touch_conn m tcp now syn ack s = Done (touched now syn ack seq aseq, s).
Proof.
  intros []. unfold touch_conn, touched. destruct syn, ack; simpl; try done.
  rewrite (deref_bind _ _ _ _ tf_seq0), (deref_bind _ _ _ _ tf_ack_seq0). done.
Qed.

(** What tracking a segment may change. *)
Abbreviation track_frame := (frame [FConns; FStats; FKlive]).

Lemma track_found_run m ip tcp sa da sp dp seq aseq syn ack b s :
  conns_ok s -> tcp_fields m ip tcp sa da sp dp seq aseq syn ack ->
  connection_hash s !! Z.to_nat (track_hash sa da sp dp) = Some b ->
  existsb (conn_matches sa da sp dp) b = true ->
  let now := fst (read_jiffies (world s)) in
  exists s' c, track_found m tcp (track_hash sa da sp dp) b (conn_matches sa da sp dp) syn ack s
      = Done (0, s') /\ conns_ok s' /\ frame [FConns] s s' /\
    conn_map (connection_hash s) !! (sa, da, sp, dp) = Some c /\
    conn_map (connection_hash s') =
      <[(sa, da, sp, dp) := touched now syn ack seq aseq c]> (conn_map (connection_hash s)) /\
    conn_addr <$> concat (connection_hash s') ≡ₚ conn_addr <$> concat (connection_hash s).
Proof.
  intros Hok Hf Hb Hex now. unfold track_found.
  rewrite (bind_run _ _ _ _ _ (ask_eq read_jiffies s)). fold now.
  rewrite
    (bind_run _ _ _ _ _ (touch_conn_run _ _ _ _ _ _ _ _ _ _ _ now _ Hf)).
  unfold set_bucket. run_simpl.
  destruct (update_match_map s sa da sp dp b (touched now syn ack seq aseq) Hok Hb Hex)
    as (Hok' & c & Hc & Hmap & Hadd); [apply touched_key|apply touched_addr|].
  eexists _, c. split; [done|]. split; [eapply conns_ok_ext; [| | |exact Hok']; by destruct s|].
  split; [destruct s; solve_frame|]. split; [done|].
  split; [rewrite <- Hmap|rewrite <- Hadd]; by destruct s.
Qed.

Lemma track_create_run m ip tcp sa da sp dp seq aseq syn ack b s :
  conns_ok s -> tcp_fields m ip tcp sa da sp dp seq aseq syn ack ->
  connection_hash s !! Z.to_nat (track_hash sa da sp dp) = Some b ->
  conn_map (connection_hash s) !! (sa, da, sp, dp) = None ->
  let '(ok, w) := kmalloc_ok sizeof_tcp_conn (world s) in
  exists s', track_create m tcp (track_hash sa da sp dp) b sa da sp dp s
      = Done (if ok : bool then 0 else - ENOMEM, s') /\ conns_ok s' /\
    if ok : bool then
      frame [FConns; FStats; FKlive] s s' /\
      global_stats s' = map_connections_active atomic64_inc (global_stats s) /\
      klive s' = {[next_obj s]} ∪ klive s /\
      conn_addr <$> concat (connection_hash s') ≡ₚ
        next_obj s :: (conn_addr <$> concat (connection_hash s)) /\
      conn_map (connection_hash s') =
        <[(sa, da, sp, dp) := Build_ull_tcp_conn (next_obj s) sa da sp dp (ntohl seq) 0 1
                                (fst (read_jiffies w))]> (conn_map (connection_hash s))
    else frame [] s s'.
Proof.
  intros Hok Hf Hb Hnone. unfold track_create. pose proof (kmalloc_eq sizeof_tcp_conn s) as Ek.
  destruct (kmalloc_ok sizeof_tcp_conn (world s)) as [[] w]; rewrite (bind_run _ _ _ _ _ Ek).
  - rewrite (deref_bind _ _ _ _ (tf_seq _ _ _ _ _ _ _ _ _ _ _ Hf)).
    match goal with |- context [mbind _ _ ?t] => set (s1 := t) end.
    assert (world s1 = w) as Ew by (unfold s1; by destruct s).
    rewrite (bind_run _ _ _ _ _ (ask_eq read_jiffies s1)), Ew.
    unfold set_bucket, modify_stats. run_simpl.
    match goal with |- context [mret 0 ?t] => set (s2 := t) end.
    pose proof (track_hash_range sa da sp dp).
    destruct (add_conn_map s s2
      (Build_ull_tcp_conn (next_obj s) sa da sp dp (ntohl seq) 0 1 (fst (read_jiffies w))) b)
      as (Hok' & Hmap & Hadd); try done; try (by destruct s); [simpl; lia|].
    exists s2. split; [done|]. split; [done|].
    split; [destruct s; solve_frame|]. split; [by destruct s|]. split; [by destruct s|done].
  - destruct (log_error_run (str "Failed to allocate memory for TCP connection")
      (set_world w s)) as (s1 & El & Hlog).
    rewrite (bind_run _ _ _ _ _ El). exists s1. split; [done|].
    assert (frame [] s s1) as Hfr.
    { etransitivity; [apply logged_frame, logged_world|by apply logged_frame]. }
    split; [eapply conns_ok_frame; [exact Hfr|set_solver|set_solver|done]|done].
Qed.
End Tracking.

Section TrackingTheorems.
Context {W B : Type} `{!KernelEnv W}.
Implicit Types s : kstate W B.

(** What a segment does to the entry of its connection: the time is the
    present one; a SYN moves the connection to state 1, a SYN-ACK to state 2 and
    records both sequence numbers in host order; nothing else changes. *)
Record entry_updated (now : Z) (syn ack : bool) (seq aseq : Z) (c c' : ull_tcp_conn) : Prop := {
  eu_addr : conn_addr c' = conn_addr c;
  eu_key : key_of c' = key_of c;
  eu_seen : conn_last_seen c' = now;
  eu_state : conn_state c' = if syn then if ack then 2 else 1 else conn_state c;
  eu_seq : conn_seq_num c' = if syn && ack then ntohl seq else conn_seq_num c;
  eu_ack : conn_ack_num c' = if syn && ack then ntohl aseq else conn_ack_num c;
}.

(** What tracking does to the abstract table. The time is the kernel's answer
    when asked for [jiffies], and [-ENOMEM] is the result exactly when the
    kernel has no memory for a new entry. *)
Definition tracked (sa da sp dp : Z) (syn ack : bool) (seq aseq : Z) s s' (r : Z) : Prop :=
  let key := (sa, da, sp, dp) in
  let m := conn_map (connection_hash s) in
  let m' := conn_map (connection_hash s') in
  match m !! key with
  | Some c =>
      r = 0 /\ global_stats s' = global_stats s /\
      exists c', m' = <[key := c']> m /\
        entry_updated (fst (read_jiffies (world s))) syn ack seq aseq c c'
  | None =>
      if syn && negb ack then
        let '(ok, w) := kmalloc_ok 48 (world s) in
        if ok : bool then
          r = 0 /\ klive s' = {[next_obj s]} ∪ klive s /\
          global_stats s' = map_connections_active (fun n => s64 (n + 1)) (global_stats s) /\
          m' = <[key := {| conn_addr := next_obj s;
                           conn_src_ip := sa; conn_dst_ip := da;
                           conn_src_port := sp; conn_dst_port := dp;
                           conn_seq_num := ntohl seq; conn_ack_num := 0; conn_state := 1;
                           conn_last_seen := fst (read_jiffies w) |}]> m
        else r = - ENOMEM /\ frame [] s s'
      else r = - EINVAL /\ s' = s
  end.

Lemma touched_updated now syn ack seq aseq c :
  entry_updated now syn ack seq aseq c (touched now syn ack seq aseq c).
Proof. by destruct c, syn, ack. Qed.

(** The addresses of the objects in the table. *)
Definition table_addrs s : list nat := conn_addr <$> concat (connection_hash s).

(** Its objects: unchanged, or one new. *)
Definition tracked_heap s s' : Prop :=
  (klive s' = klive s /\ next_obj s' = next_obj s /\ table_addrs s' ≡ₚ table_addrs s /\
   global_stats s' = global_stats s) \/
  (klive s' = {[next_obj s]} ∪ klive s /\ table_addrs s' ≡ₚ next_obj s :: table_addrs s /\
   global_stats s' = map_connections_active atomic64_inc (global_stats s)).

Lemma tracked_heap_frame mods s s' :
  frame mods s s' -> FKlive ∉ mods -> FStats ∉ mods -> table_addrs s' ≡ₚ table_addrs s ->
  tracked_heap s s'.
Proof.
  intros Hf H1 H2 Ha. left. destruct (Hf FKlive H1). split_and!; auto. by apply (Hf FStats).
Qed.

Lemma track_run m ip tcp sa da sp dp seq aseq syn ack s :
  conns_ok s -> tcp_fields m ip tcp sa da sp dp seq aseq syn ack ->
  exists r s', nanonet_track_tcp_connection m ip tcp s = Done (r, s') /\ conns_ok s' /\
    frame [FConns; FStats; FKlive] s s' /\ tracked sa da sp dp syn ack seq aseq s s' r /\
    tracked_heap s s'.
Proof.
  intros Hok Hf. pose proof Hf as [E1 E2 E3 E4 _ _ E7 E8].
  destruct (bucket_exists s sa da sp dp Hok) as [b Hb]. unfold nanonet_track_tcp_connection, tracked.
  rewrite (deref_bind _ _ _ _ E1), (deref_bind _ _ _ _ E2), (deref_bind _ _ _ _ E3),
    (deref_bind _ _ _ _ E4). run_simpl.
  rewrite (deref_bind _ _ _ _ Hb), (deref_bind _ _ _ _ E7), (deref_bind _ _ _ _ E8).
  destruct (existsb _ b) eqn:Hex.
  - destruct (track_found_run _ _ _ _ _ _ _ _ _ _ _ _ _ Hok Hf Hb Hex)
      as (s' & c & E & Hok' & Hfr & Hc & Hmap & Ha).
    rewrite Hc. exists 0, s'. split; [done|]. split; [done|].
    split; [eapply frame_weaken; [|exact Hfr]; set_solver|].
    split; [|by apply (tracked_heap_frame [FConns]); [|set_solver|set_solver|]].
    split; [done|]. split; [by apply (Hfr FStats); set_solver|]. eauto using touched_updated.
  - pose proof (no_match_None s sa da sp dp b Hok Hb Hex) as Hnone. rewrite Hnone.
    destruct (syn && negb ack).
    2:{ exists (- EINVAL), s. split_and!; try done. by left. }
    pose proof (track_create_run _ _ _ _ _ _ _ _ _ _ _ _ _ Hok Hf Hb Hnone) as Hcr.
    change sizeof_tcp_conn with 48 in Hcr.
    destruct (kmalloc_ok 48 (world s)) as [[] w].
    + destruct Hcr as (s' & E & Hok' & Hfr & Hst & Hk & Ha & Hmap).
      exists 0, s'. split; [exact E|]. split; [done|]. split; [done|]. split; [by split_and!|by right].
    + destruct Hcr as (s' & E & Hok' & Hfr).
      exists (- ENOMEM), s'. split; [done|]. split; [done|].
      split; [eapply frame_weaken; [|exact Hfr]; set_solver|]. split; [done|].
      apply (tracked_heap_frame []); [done|set_solver|set_solver|].
      unfold table_addrs. by keep Hfr FConns.
Qed.

(** C5: connection tracking refines a finite map keyed by the four-tuple. From
    a well-formed table, with the headers in the buffer, tracking never crashes,
    keeps the table well-formed, and: a segment of a known connection updates
    that one entry (the last-seen time becomes [jiffies]; state 1 on SYN; state 2
    and both sequence numbers, in host order, on SYN-ACK); a SYN of an unknown
    connection adds an entry in state 1 with the segment's sequence number and
    the present [jiffies], in a new object, and counts it, unless the kernel has
    no memory: then the result is [-ENOMEM] and nothing changes; any other segment
    of an unknown connection is refused with [-EINVAL] and changes nothing. *)
Theorem track_refines_map m ip tcp sa da sp dp seq aseq syn ack s :
  conns_ok s -> tcp_fields m ip tcp sa da sp dp seq aseq syn ack ->
  exists r s', nanonet_track_tcp_connection m ip tcp s = Done (r, s') /\ conns_ok s' /\
    frame [FConns; FStats; FKlive] s s' /\ tracked sa da sp dp syn ack seq aseq s s' r.
Proof.
  intros Hok Hf. destruct (track_run _ _ _ _ _ _ _ _ _ _ _ s Hok Hf) as (r & s' & E & H1 & H2 & H3 & _).
  eauto 10.
Qed.
End TrackingTheorems.

(** ** Clearing the table *)

(** The statistics after dropping [n] connections. *)
Definition drop_conns (n : nat) (st : ull_stats) : ull_stats :=
  Nat.iter n (fun st => map_connections_dropped atomic64_inc
                          (map_connections_active atomic64_dec st)) st.

Section Clearing.
Context {W B : Type} `{!KernelEnv W}.
Implicit Types s : kstate W B.

Lemma drop_conns_succ n st :
  drop_conns n (map_connections_dropped atomic64_inc (map_connections_active atomic64_dec st)) =
  drop_conns (S n) st.
Proof. unfold drop_conns. by rewrite Nat.iter_succ_r. Qed.

Lemma clear_bucket_run i l s :
  connection_hash s !! i = Some l -> NoDup (conn_addr <$> l) ->
  Forall (fun c => conn_addr c ∈ klive s) l ->
  exists s', clear_bucket i l s = Done (tt, s') /\ frame [FConns; FStats; FKlive] s s' /\
    connection_hash s' = <[i := []]> (connection_hash s) /\
    klive s' = klive s ∖ list_to_set (conn_addr <$> l) /\ next_obj s' = next_obj s /\
    global_stats s' = drop_conns (length l) (global_stats s).
Proof.
  revert s. induction l as [|c l IH]; intros s Hi Hnd Hl.
  { exists s. split; [done|]. split; [done|]. rewrite list_insert_id by done.
    split; [done|]. split; [set_solver|done]. }
  apply Forall_cons in Hl as [Hc Hl]. apply NoDup_cons in Hnd as [Hni Hnd].
  pose proof (lookup_lt_Some _ _ _ Hi) as Hlt.
  cbn [clear_bucket]. unfold modify_stats. rewrite modify_bind.
  erewrite bind_run by (apply kfree_run; by destruct s). run_simpl.
  match goal with |- context [clear_bucket i l ?t] => set (s1 := t) end.
  assert (connection_hash s1 = <[i := l]> (connection_hash s)) as Ec by (by destruct s).
  assert (klive s1 = klive s ∖ {[conn_addr c]}) as El by (by destruct s).
  destruct (IH s1) as (s' & E & Hf & Ec' & El' & En' & Es').
  - rewrite Ec. by apply list_lookup_insert_eq.
  - done.
  - apply Forall_forall. intros x Hx. rewrite El.
    apply (proj1 (Forall_forall _ _) Hl) in Hx as Hlive.
    assert (conn_addr x <> conn_addr c); [|set_solver].
    intros Heq. apply Hni. rewrite <- Heq. by apply list_elem_of_fmap_2.
  - exists s'. split; [done|]. split; [etransitivity; [|exact Hf]; destruct s; solve_frame|].
    rewrite Ec', Ec, list_insert_insert_eq. split; [done|].
    rewrite El', El. split; [set_solver|]. split; [rewrite En'; by destruct s|].
    rewrite Es'. simpl length. rewrite <- drop_conns_succ. by destruct s.
Qed.

Lemma clear_buckets_run n i s :
  length (connection_hash s) = (i + n)%nat ->
  let l := concat (drop i (connection_hash s)) in
  NoDup (conn_addr <$> l) -> Forall (fun c => conn_addr c ∈ klive s) l ->
  exists s', clear_buckets n i s = Done (tt, s') /\ frame [FConns; FStats; FKlive] s s' /\
    connection_hash s' = take i (connection_hash s) ++ replicate n [] /\
    klive s' = klive s ∖ list_to_set (conn_addr <$> l) /\ next_obj s' = next_obj s /\
    global_stats s' = drop_conns (length l) (global_stats s).
Proof.
  cbv zeta. revert i s. induction n as [|n IH]; intros i s Hlen Hnd Hl.
  { exists s. rewrite drop_ge, take_ge, app_nil_r by lia. simpl.
    split; [done|]. split; [done|]. split; [done|]. split; [set_solver|done]. }
  destruct (lookup_lt_is_Some_2 (connection_hash s) i ltac:(lia)) as [b Hb].
  rewrite (drop_S _ b i Hb) in *. simpl concat in *. rewrite fmap_app in Hnd.
  apply NoDup_app in Hnd as (Hnd1 & Hdisj & Hnd2). apply Forall_app in Hl as [Hl1 Hl2].
  cbn [clear_buckets]. run_simpl. rewrite (deref_bind _ _ _ _ Hb).
  destruct (clear_bucket_run i b s Hb Hnd1 Hl1) as (s1 & E1 & Hf1 & Ec1 & El1 & En1 & Es1).
  rewrite (bind_run _ _ _ _ _ E1).
  assert (drop (S i) (connection_hash s1) = drop (S i) (connection_hash s)) as Ed
    by (rewrite Ec1; by apply drop_insert_lt; lia).
  destruct (IH (S i) s1) as (s' & E' & Hf' & Ec' & El' & En' & Es'); rewrite ?Ed.
  - rewrite Ec1, length_insert. lia.
  - done.
  - apply Forall_forall. intros x Hx. rewrite El1.
    apply (proj1 (Forall_forall _ _) Hl2) in Hx as Hlive. apply elem_of_difference.
    split; [done|]. intros Hin%elem_of_list_to_set. apply (Hdisj _ Hin).
    by apply list_elem_of_fmap_2.
  - rewrite Ed in *. exists s'. split; [done|]. split; [by etransitivity|].
    split; [|split; [|split]].
    + rewrite Ec', Ec1, (take_S_r _ _ []) by (apply list_lookup_insert_eq; lia).
      by rewrite take_insert_ge, <- app_assoc by done.
    + rewrite El', El1, fmap_app, list_to_set_app_L. set_solver.
    + congruence.
    + rewrite Es', Es1, length_app. unfold drop_conns. by rewrite Nat.add_comm, Nat.iter_add.
Qed.

Lemma clear_run s :
  conns_ok s ->
  exists s', nanonet_clear_tcp_connections s = Done (tt, s') /\
    frame [FConns; FStats; FKlive] s s' /\ conns_ok s' /\
    connection_hash s' = connection_hash_zero /\
    klive s' = klive s ∖ list_to_set (conn_addr <$> concat (connection_hash s)) /\
    global_stats s' = drop_conns (length (concat (connection_hash s))) (global_stats s).
Proof.
  intros [Hlen _ _ Ha Hl Hfresh].
  destruct (clear_buckets_run 1024 0 s Hlen Ha Hl) as (s' & E & Hf & Ec & El & En & Es).
  rewrite drop_0 in *. exists s'. split; [exact E|]. split; [exact Hf|].
  rewrite take_0 in Ec. change ([] ++ replicate 1024 []) with connection_hash_zero in Ec.
  split; [|done].
  assert (concat (connection_hash s') = []) as Hnil by (rewrite Ec; reflexivity).
  split; rewrite ?Hnil; try constructor.
  - by rewrite Ec.
  - intros i b c Hi Hc. exfalso. rewrite Ec in Hi. apply lookup_replicate in Hi as [-> _].
    by apply not_elem_of_nil in Hc.
  - intros a. rewrite El, En. intros [Hin _]%elem_of_difference. by apply Hfresh.
Qed.
End Clearing.

(** ** Counters and validation *)

(** A value of an [atomic64_t]. *)
Definition is_s64 (x : Z) : Prop := - 2 ^ 63 <= x < 2 ^ 63.

Lemma iter_atomic64_dec n x : is_s64 x -> Nat.iter n atomic64_dec x = s64 (x - Z.of_nat n).
Proof.
  intros Hx. induction n as [|n IH].
  - simpl. rewrite Z.sub_0_r, swrap_small by (lia || done). done.
  - rewrite Nat.iter_succ, IH. unfold atomic64_dec, Z.sub at 1.
    rewrite swrap_add. f_equal. lia.
Qed.

Lemma iter_atomic64_inc n x : is_s64 x -> Nat.iter n atomic64_inc x = s64 (x + Z.of_nat n).
Proof.
  intros Hx. induction n as [|n IH].
  - simpl. rewrite Z.add_0_r, swrap_small by (lia || done). done.
  - rewrite Nat.iter_succ, IH. unfold atomic64_inc. rewrite swrap_add. f_equal. lia.
Qed.

Lemma drop_conns_counters n st :
  connections_active (drop_conns n st) = Nat.iter n atomic64_dec (connections_active st) /\
  connections_dropped (drop_conns n st) = Nat.iter n atomic64_inc (connections_dropped st) /\
  packets_processed (drop_conns n st) = packets_processed st /\
  packets_bypassed (drop_conns n st) = packets_bypassed st /\
  responses_sent (drop_conns n st) = responses_sent st /\
  errors (drop_conns n st) = errors st.
Proof.
  induction n as [|n (E1 & E2 & E3 & E4 & E5 & E6)]; [done|].
  unfold drop_conns in *. rewrite !Nat.iter_succ, <- E1, <- E2, <- E3, <- E4, <- E5, <- E6.
  by destruct (Nat.iter n _ st).
Qed.

(** A configuration that the module can run with. *)
Definition valid_config (c : ull_config) : Prop :=
  cfg_target_ip c <> 0 /\ cfg_response_ip c <> 0 /\ cfg_target_port c <> 0 /\
  cfg_response_port c <> 0 /\
  (cfg_protocol c = IPPROTO_TCP \/ cfg_protocol c = IPPROTO_UDP) /\
  (cfg_multicast c = true -> cfg_multicast_group c <> 0).

#[export] Instance valid_config_dec c : Decision (valid_config c).
Proof. unfold valid_config. apply _. Defined.

Section SecurityTheorems.
Context {W B : Type} `{!KernelEnv W}.
Implicit Types s : kstate W B.

(** C23: clearing a well-formed table never double-frees; it empties every
    bucket, frees every connection object and moves the count of dropped entries
    from the active to the dropped counter (in 64-bit arithmetic). *)
Theorem clear_empties_table s :
  conns_ok s -> is_s64 (connections_active (global_stats s)) ->
  is_s64 (connections_dropped (global_stats s)) ->
  let n := zlen (concat (connection_hash s)) in
  exists s', nanonet_clear_tcp_connections s = Done (tt, s') /\
    frame [FConns; FStats; FKlive] s s' /\ conns_ok s' /\
    conn_map (connection_hash s') = ∅ /\
    klive s' = klive s ∖ list_to_set (conn_addr <$> concat (connection_hash s)) /\
    connections_active (global_stats s') = s64 (connections_active (global_stats s) - n) /\
    connections_dropped (global_stats s') = s64 (connections_dropped (global_stats s) + n).
Proof.
  intros Hok Ha Hd n. destruct (clear_run s Hok) as (s' & E & Hf & Hok' & Ec & El & Es).
  exists s'. do 3 (split; [done|]). split; [by rewrite Ec|]. split; [done|].
  rewrite Es. destruct (drop_conns_counters (length (concat (connection_hash s))) (global_stats s))
    as (-> & -> & _). by rewrite iter_atomic64_dec, iter_atomic64_inc.
Qed.

Lemma validate_config_run c s :
  exists s', nanonet_validate_config c s =
    Done (if decide (valid_config c) then 0 else - EINVAL, s') /\ logged s s' /\
    (valid_config c -> s' = s).
Proof.
  unfold nanonet_validate_config.
  destruct (_ || _) eqn:E1.
  { rewrite !orb_true_iff, !Z.eqb_eq in E1.
    assert (~ valid_config c) as Hn by (unfold valid_config; tauto).
    rewrite decide_False by done. destruct (log_and_return (str "Invalid config: zero IP or port")
      (- EINVAL) s) as (s' & E & Hl). exists s'. tauto. }
  rewrite !orb_false_iff, !Z.eqb_neq in E1.
  destruct (negb _ && negb _) eqn:E2.
  { rewrite andb_true_iff, !negb_true_iff, !Z.eqb_neq in E2.
    assert (~ valid_config c) as Hn by (unfold valid_config; tauto).
    rewrite decide_False by done. destruct (log_and_return (str "Invalid protocol: " ++
      fmt_d (cfg_protocol c)) (- EINVAL) s) as (s' & E & Hl). exists s'. tauto. }
  rewrite andb_false_iff, !negb_false_iff, !Z.eqb_eq in E2.
  destruct (cfg_multicast c && _) eqn:E3.
  { rewrite andb_true_iff, !Z.eqb_eq in E3.
    assert (~ valid_config c) as Hn by (unfold valid_config; tauto).
    rewrite decide_False by done. destruct (log_and_return (str "Invalid multicast group")
      (- EINVAL) s) as (s' & E & Hl). exists s'. tauto. }
  rewrite andb_false_iff, Z.eqb_neq in E3.
  assert (valid_config c) as Hv.
  { unfold valid_config. destruct (cfg_multicast c); intuition congruence. }
  rewrite decide_True by done. exists s. done.
Qed.

(** C24: [nanonet_validate_config] returns 0 exactly on the valid
    configurations (non-zero addresses and ports, TCP or UDP, a group when
    multicast is on) and [-EINVAL] on all others; it changes only the log. *)
Theorem validate_config_decides c s :
  exists s', nanonet_validate_config c s =
    Done (if decide (valid_config c) then 0 else - EINVAL, s') /\ logged s s'.
Proof. destruct (validate_config_run c s) as (s' & E & Hl & _). eauto. Qed.

Lemma validate_packet_run m ip sa tl s :
  iph_saddr m ip = Some sa -> iph_tot_len m ip = Some tl ->
  exists r s', nanonet_validate_packet m ip s = Done (r, s') /\ logged s s' /\
    (r = - EBUSY /\ fst (ratelimit_ok nanonet_ratelimit (world s)) = false \/
     fst (ratelimit_ok nanonet_ratelimit (world s)) = true /\
     r = (if (sa =? 0) || (tl <? 20) then - EINVAL else 0)).
Proof.
  intros Hs Ht. unfold nanonet_validate_packet, mbind at 1, M_bind at 1, ask at 1.
  destruct (ratelimit_ok nanonet_ratelimit (world s)) as [[] w]; cbn [negb fst].
  - rewrite (deref_bind _ _ _ _ Hs), (deref_bind _ _ _ _ Ht). unfold sizeof_iphdr.
    destruct ((sa =? 0) || (tl <? 20)).
    + destruct (log_and_return (str "Invalid packet: zero source IP or insufficient length")
        (- EINVAL) (set_world w s)) as (s' & E & Hl).
      exists (- EINVAL), s'. split; [done|]. split; [|by right].
      etransitivity; [apply logged_world|done].
    + exists 0, (set_world w s). split; [done|]. split; [apply logged_world|by right].
  - unfold mbind at 1, M_bind at 1, ask at 1.
    destruct (ratelimit_ok printk_ratelimit_state _) as [[] w'].
    + eexists (- EBUSY), _. split; [done|]. split; [|by left].
      do 2 (etransitivity; [apply logged_world|]).
      by eapply (logged_printk (str "NANONET: Rate limit exceeded" ++ newline)).
    + eexists (- EBUSY), _. split; [done|]. split; [|by left].
      etransitivity; apply logged_world.
Qed.

(** C38: the length test of [nanonet_validate_packet] looks at the two bytes of
    [tot_len] in the wrong order. For an admitted packet with a non-zero source
    and a real total length [L]: every non-zero length below 20, which is
    impossible for an IPv4 packet, is accepted; and every multiple of 256 below
    5120 is rejected although such packets are legal. *)
Theorem validate_packet_byte_order m ip sa L s :
  iph_saddr m ip = Some sa -> sa <> 0 ->
  iph_tot_len m ip = Some (htons L) -> in_width 16 L ->
  fst (ratelimit_ok nanonet_ratelimit (world s)) = true ->
  exists r s', nanonet_validate_packet m ip s = Done (r, s') /\
    (0 < L < 20 -> r = 0) /\
    (0 < L < 5120 -> L mod 256 = 0 -> r = - EINVAL).
Proof.
  intros Hs Hsa Ht HL Hr. destruct (validate_packet_run _ _ _ _ s Hs Ht) as (r & s' & E & _ & H).
  exists r, s'. split; [done|]. destruct H as [[_ H]|[_ ->]]; [congruence|].
  rewrite (proj2 (Z.eqb_neq sa 0) Hsa). cbn [orb]. rewrite bswap16_value by done.
  split.
  - intros. rewrite (proj2 (Z.ltb_ge _ _)); [done|]. width_lia.
  - intros. rewrite (proj2 (Z.ltb_lt _ _)); [done|]. width_lia.
Qed.
End SecurityTheorems.

(** ** Runs in the executable kernel *)

Lemma loaded_conns_ok {W B} `{!KernelEnv W} (w : W) : conns_ok (loaded (B := B) w).
Proof.
  assert (concat connection_hash_zero = []) as Hnil by reflexivity.
  split; cbn [loaded connection_hash klive next_obj]; rewrite ?Hnil.
  - reflexivity.
  - intros i b c Hi Hc. apply lookup_replicate in Hi as [-> _]. by apply not_elem_of_nil in Hc.
  - apply NoDup_nil_2.
  - apply NoDup_nil_2.
  - apply Forall_nil_2.
  - intros a Ha. by apply elem_of_empty in Ha.
Qed.

Lemma sample_tcp_fields syn ack :
  tcp_fields (skb_data (sample_tcp_frame syn ack)) 14 34
    (le_decode [10; 0; 0; 1]) (le_decode [192; 168; 1; 100]) (htons 12345) (htons 8080)
    (htonl 0x12345678) (htonl 2000) syn ack.
Proof. by destruct syn, ack; split; vm_compute. Qed.

(** The table with one connection, from a tracked SYN. *)
Definition one_connection : kstate sim lskb :=
  state_of (nanonet_track_tcp_connection (skb_data (sample_tcp_frame true false)) 14 34 sim_loaded)
    sim_loaded.

Lemma one_connection_ok :
  conns_ok one_connection /\ zlen (concat (connection_hash one_connection)) = 1.
Proof.
  split; [|vm_compute; reflexivity].
  destruct (track_run _ _ _ _ _ _ _ _ _ _ _ sim_loaded
              (loaded_conns_ok sim_ok) (sample_tcp_fields true false)) as (r & s' & E & Hok & _).
  unfold one_connection. by rewrite E.
Qed.

(** A SYN-ACK of the known connection establishes it. *)
Lemma track_refines_map_witness :
  exists r s' c c', nanonet_track_tcp_connection (skb_data (sample_tcp_frame true true)) 14 34
      one_connection = Done (r, s') /\ r = 0 /\
    conn_map (connection_hash s') = <[key_of c := c']> (conn_map (connection_hash one_connection)) /\
    entry_updated 5000 true true (htonl 0x12345678) (htonl 2000) c c'.
Proof.
  destruct (track_refines_map _ _ _ _ _ _ _ _ _ _ _ one_connection
              (proj1 one_connection_ok) (sample_tcp_fields true true)) as (r & s' & E & _ & _ & Ht).
  unfold tracked in Ht.
  destruct (conn_map (connection_hash one_connection) !! _) as [c|] eqn:Hc;
    [|vm_compute in Hc; discriminate Hc].
  destruct Ht as (Hr & _ & c' & Hm & Hu). exists r, s', c, c'.
  split; [exact E|]. split; [exact Hr|]. split; [|exact Hu].
  vm_compute in Hc. injection Hc as <-. exact Hm.
Defined.

(** Clearing the table with one connection. *)
Lemma clear_empties_table_witness :
  exists s', nanonet_clear_tcp_connections one_connection = Done (tt, s') /\
    connections_active (global_stats s') = 0 /\ connections_dropped (global_stats s') = 1.
Proof.
  destruct (clear_empties_table one_connection) as (s' & E & _ & _ & _ & _ & Ha & Hd).
  - exact (proj1 one_connection_ok).
  - vm_compute. split; reflexivity || discriminate.
  - vm_compute. split; reflexivity || discriminate.
  - rewrite (proj2 one_connection_ok) in Ha, Hd.
    exists s'. split; [exact E|]. split; [rewrite Ha|rewrite Hd]; vm_compute; reflexivity.
Defined.

Lemma validate_packet_byte_order_witness :
  exists r s', nanonet_validate_packet (enc_iphdr (sample_ip 5 512 IPPROTO_UDP 0)) 0 sim_loaded
    = Done (r, s') /\ r = - EINVAL.
Proof.
  destruct (validate_packet_byte_order (enc_iphdr (sample_ip 5 512 IPPROTO_UDP 0)) 0
    (le_decode [10; 0; 0; 1]) 512 sim_loaded) as (r & s' & E & _ & H).
  - reflexivity.
  - discriminate.
  - reflexivity.
  - split; reflexivity || discriminate.
  - reflexivity.
  - exists r, s'. split; [exact E|]. apply H; [lia|reflexivity].
Defined.
