(* ===== verification/ResponseSender.v ===== *)
(** * response_sender.c: building and sending a response frame

    The frame is built in a socket buffer taken from the pool (or allocated),
    one [skb_put] per header. Stores to all the fields of a header are one store
    of its byte image. The theorems are stated against the socket-buffer
    interface [SkbOps]/[SkbLaws], which leaves the contents of freshly
    [skb_put] bytes open: that the transmitted frame is determined shows that no
    uninitialised byte is sent. *)

From S2P Require Import Prelude Headers Kernel Sim Debug Checksum MicroStack Optimizations.

(** ** The code *)

Section ResponseSender.
Context {W B : Type} `{!KernelEnv W, !SkbOps B}.
Local Abbreviation M := (M W B).

(** [skb_reserve], [skb_put] and stores on a live buffer. [skb_put] returns the
    offset of the new area in the data. *)
Definition reserve (p : nat) (n : Z) : M unit :=
  o ← skb_get p;
  skb_set p (Build_skb_obj (skb_reserve n (so_buf o)) (so_dev o) (so_protocol o)).

Definition put (p : nat) (n : Z) : M Z :=
  o ← skb_get p;
  match skb_put n (so_buf o) with
  | None => crash_with SkbOverPanic
  | Some b =>
      _ ← skb_set p (Build_skb_obj b (so_dev o) (so_protocol o));
      mret (zlen (skb_bytes (so_buf o)))
  end.

Definition store (p : nat) (off : Z) (bs : list Z) : M unit :=
  o ← skb_get p;
  skb_set p (Build_skb_obj (skb_store off bs (so_buf o)) (so_dev o) (so_protocol o)).

(** [nanonet_get_response_skb], else [alloc_skb]. *)
Definition response_buffer (total_len : Z) : M (option nat) :=
  new_skb ← nanonet_get_response_skb;
  match new_skb with
  | Some p => mret (Some p)
  | None =>
      new_skb ← alloc_skb (total_len + NET_IP_ALIGN);
      match new_skb with
      | Some p => mret (Some p)
      | None => _ ← nanonet_log_error (str "Failed to allocate response skb"); mret None
      end
  end.

Definition fill_ethhdr (orig_skb : option sk_buff) : M ull_ethhdr :=
  match orig_skb with
  | Some o =>
      src ← deref (load_bytes ETH_ALEN (skb_data o) 6);
      dst ← deref (load_bytes ETH_ALEN (skb_data o) 0);
      mret (Build_ull_ethhdr src dst (htons ETH_P_IP))
  | None => mret (Build_ull_ethhdr (replicate 6 0) (replicate 6 0) (htons ETH_P_IP))
  end.

(** The IP header, first with a zero checksum, then with the computed one. *)
Definition response_iphdr (config : ull_config) (daddr len check : Z) : ull_iphdr :=
  Build_ull_iphdr 0x45 0 (htons (u16 len)) 0 (htons IP_DF) 64 (cfg_protocol config) check
    (cfg_response_ip config) daddr.

Definition fill_iphdr (orig_skb : option sk_buff) (config : ull_config) (len : Z) : M ull_iphdr :=
  daddr ← match orig_skb with
          | Some o => deref (iph_saddr (skb_data o) sizeof_ethhdr)
          | None => mret (cfg_target_ip config)
          end;
  check ← deref (nanonet_compute_checksum (enc_iphdr (response_iphdr config daddr len 0)) sizeof_iphdr);
  mret (response_iphdr config daddr len check).

(** The offset of the transport header in the original packet. *)
Definition orig_transport (o : sk_buff) : M Z :=
  v ← deref (iph_version_ihl (skb_data o) sizeof_ethhdr);
  mret (sizeof_ethhdr + Z.land v 0x0F * 4).

Definition fill_tcphdr (orig_skb : option sk_buff) (config : ull_config) : M ull_tcphdr :=
  let hdr dest ack_seq ack :=
    Build_ull_tcphdr (cfg_response_port config) dest (htonl (cfg_seq_num config)) ack_seq
      0 (sizeof_tcphdr / 4) false false false true ack false false false (htons 65535) 0 0 in
  match orig_skb with
  | Some o =>
      t ← orig_transport o;
      source ← deref (tcph_source (skb_data o) t);
      seq ← deref (tcph_seq (skb_data o) t);
      mret (hdr source (htonl (u32 (ntohl seq + 1))) true)
  | None => mret (hdr (cfg_target_port config) 0 false)
  end.

Definition fill_udphdr (orig_skb : option sk_buff) (config : ull_config) (len : Z) : M ull_udphdr :=
  dest ← match orig_skb with
         | Some o => t ← orig_transport o; deref (udph_source (skb_data o) t)
         | None => mret (cfg_target_port config)
         end;
  mret (Build_ull_udphdr (cfg_response_port config) dest (htons (u16 len)) 0).

Definition fill_transport (orig_skb : option sk_buff) (config : ull_config) (len : Z) : M (list Z) :=
  if cfg_protocol config =? IPPROTO_TCP then
    h ← fill_tcphdr orig_skb config; mret (enc_tcphdr h)
  else
    h ← fill_udphdr orig_skb config len; mret (enc_udphdr h).

(** Headers and payload, in the order of the [skb_put] calls. *)
Definition fill_response (p : nat) (orig_skb : option sk_buff) (response_data : list Z)
    (response_len transport_hdr_len : Z) (config : ull_config) : M unit :=
  _ ← reserve p NET_IP_ALIGN;
  off ← put p sizeof_ethhdr;
  eth ← fill_ethhdr orig_skb;
  _ ← store p off (enc_ethhdr eth);
  off ← put p sizeof_iphdr;
  ip ← fill_iphdr orig_skb config (sizeof_iphdr + transport_hdr_len + response_len);
  _ ← store p off (enc_iphdr ip);
  off ← put p transport_hdr_len;
  transport ← fill_transport orig_skb config (transport_hdr_len + response_len);
  _ ← store p off transport;
  off ← put p response_len;
  bytes ← deref (load_bytes response_len response_data 0);
  store p off bytes.

(** The last part: the device, and the buffer's fields or its release. *)
Definition attach_device (orig_skb : option sk_buff) (p : nat) : M (option nat) :=
  dev ← match orig_skb with Some o => mret (skb_dev o) | None => dev_get_by_name end;
  match dev with
  | None =>
      _ ← kfree_skb p;
      _ ← nanonet_log_error (str "Failed to get network device");
      mret None
  | Some d =>
      o ← skb_get p;
      _ ← skb_set p (Build_skb_obj (so_buf o) (Some d) (htons ETH_P_IP));
      mret (Some p)
  end.

Definition nanonet_create_response_packet (orig_skb : option sk_buff) (response_data : list Z)
    (response_len : Z) (config : ull_config) : M (option nat) :=
  if (cfg_response_ip config =? 0) || (cfg_response_port config =? 0) then
    _ ← nanonet_log_error (str "Invalid response IP or port"); mret None
  else if negb (cfg_protocol config =? IPPROTO_TCP) && negb (cfg_protocol config =? IPPROTO_UDP) then
    _ ← nanonet_log_error (str "Unsupported protocol: " ++ fmt_d (cfg_protocol config)); mret None
  else
  let transport_hdr_len :=
    if cfg_protocol config =? IPPROTO_TCP then sizeof_tcphdr else sizeof_udphdr in
  let total_len := sizeof_ethhdr + sizeof_iphdr + transport_hdr_len + response_len in
  new_skb ← response_buffer total_len;
  match new_skb with
  | None => mret None
  | Some p =>
      _ ← fill_response p orig_skb response_data response_len transport_hdr_len config;
      attach_device orig_skb p
  end.

Definition set_seq_num (q : Z) (c : ull_config) : ull_config :=
  match c with Build_ull_config a b d e f g _ h i j => Build_ull_config a b d e f g q h i j end.

(** [config] is the address of [global_config] in every call. A send that does
    not return [NET_XMIT_SUCCESS] is followed by [kfree_skb]. *)
Definition nanonet_send_response (orig_skb : option sk_buff) (response_data : option (list Z))
    (response_len : Z) : M Z :=
  config ← gets global_config;
  match response_data with
  | None => _ ← nanonet_log_error (str "Invalid response data or length"); mret (- EINVAL)
  | Some data =>
      if response_len <=? 0 then
        _ ← nanonet_log_error (str "Invalid response data or length"); mret (- EINVAL)
      else
      response_skb ← nanonet_create_response_packet orig_skb data response_len config;
      match response_skb with
      | None => mret (- ENOMEM)
      | Some p =>
          o ← skb_get p;
          result ← nanonet_raw_send (Some p) (so_dev o);
          if negb (result =? NET_XMIT_SUCCESS) then
            _ ← kfree_skb p;
            _ ← nanonet_log_error (str "Failed to send response: " ++ fmt_d result);
            mret (- EIO)
          else
            _ ← modify (fun s => let c := global_config s in
                  set_config (set_seq_num (u32 (cfg_seq_num c + response_len)) c) s);
            mret 0
      end
  end.
End ResponseSender.

(** ** The frame that should be sent

    [reply_to] says whom a response addresses: the sender of the original
    packet, or the configured target when there is none. *)

Record reply_fields := {
  r_dest_mac : list Z;
  r_source_mac : list Z;
  r_daddr : Z;
  r_dport : Z;
  r_ack : option Z;          (* acknowledged sequence number, network order *)
}.

Inductive reply_to (config : ull_config) : option sk_buff -> reply_fields -> Prop :=
  | reply_unsolicited :
      reply_to config None
        (Build_reply_fields (replicate 6 0) (replicate 6 0) (cfg_target_ip config)
           (cfg_target_port config) None)
  | reply_solicited o smac dmac saddr v port seq :
      load_bytes 6 (skb_data o) 6 = Some smac ->
      load_bytes 6 (skb_data o) 0 = Some dmac ->
      load32 (skb_data o) 26 = Some saddr ->
      load8 (skb_data o) 14 = Some v ->
      load16 (skb_data o) (14 + v mod 16 * 4) = Some port ->
      (cfg_protocol config = IPPROTO_TCP ->
       load32 (skb_data o) (14 + v mod 16 * 4 + 4) = Some seq) ->
      reply_to config (Some o)
        (Build_reply_fields smac dmac saddr port (Some (htonl (u32 (ntohl seq + 1))))).

Definition response_transport (config : ull_config) (r : reply_fields) (len : Z) : list Z :=
  if cfg_protocol config =? IPPROTO_TCP then
    enc_tcphdr (Build_ull_tcphdr (cfg_response_port config) (r_dport r)
      (htonl (cfg_seq_num config)) (default 0 (r_ack r)) 0 5
      false false false true (match r_ack r with Some _ => true | None => false end) false false false
      (htons 65535) 0 0)
  else enc_udphdr (Build_ull_udphdr (cfg_response_port config) (r_dport r) (htons (u16 (8 + len))) 0).

Definition transport_len (config : ull_config) : Z :=
  if cfg_protocol config =? IPPROTO_TCP then 20 else 8.

(** The IPv4 header byte by byte: version 4 with 20 bytes, no type of service,
    the total length in network order, identification 0, don't-fragment, time to
    live 64, protocol, checksum, source and destination. *)
Definition ip_header_bytes (protocol saddr daddr len : Z) (check : list Z) : list Z :=
  [0x45; 0; u16 len / 256; u16 len mod 256; 0; 0; 0x40; 0; 64] ++ le_encode 1 protocol ++
  check ++ le_encode 4 saddr ++ le_encode 4 daddr.

(** It carries the RFC 1071 checksum of itself, in network order. *)
Definition response_ip_header (config : ull_config) (r : reply_fields) (len : Z) : list Z :=
  let h := ip_header_bytes (cfg_protocol config) (cfg_response_ip config) (r_daddr r)
             (20 + transport_len config + len) in
  let c := rfc1071 (h [0; 0]) in h [c / 256; c mod 256].

Definition response_frame (config : ull_config) (r : reply_fields) (data : list Z) : list Z :=
  enc_ethhdr (Build_ull_ethhdr (r_dest_mac r) (r_source_mac r) (htons ETH_P_IP)) ++
  response_ip_header config r (zlen data) ++
  response_transport config r (zlen data) ++ data.

(** The code's header is this one. *)
Lemma enc_response_iphdr config daddr len ck :
  enc_iphdr (response_iphdr config daddr len ck) =
  ip_header_bytes (cfg_protocol config) (cfg_response_ip config) daddr len (le_encode 2 ck).
Proof.
  unfold enc_iphdr, response_iphdr. cbn [ip_version_ihl ip_tos ip_tot_len ip_id ip_frag_off ip_ttl
    ip_protocol ip_check ip_saddr ip_daddr].
  rewrite le_encode_htons by (by apply wrap_range). reflexivity.
Qed.

Lemma response_ip_header_enc config r len :
  let h := response_iphdr config (r_daddr r) (20 + transport_len config + len) in
  response_ip_header config r len = enc_iphdr (h (htons (rfc1071 (enc_iphdr (h 0))))).
Proof.
  cbv zeta. rewrite !enc_response_iphdr. change (le_encode 2 0) with [0; 0].
  rewrite le_encode_htons; [done|]. apply rfc1071_range.
  change [0; 0] with (le_encode 2 0). rewrite <- enc_response_iphdr.
  unfold enc_iphdr. repeat (apply Forall_app; split); apply le_encode_bytes.
Qed.

(** ** Appending to a buffer *)

Lemma splice_tail (l junk bs : list Z) :
  zlen junk = zlen bs -> splice (zlen l) bs (l ++ junk) = l ++ bs.
Proof.
  unfold splice, zlen. intros H.
  rewrite Nat2Z.id, take_app_length.
  rewrite drop_ge by (rewrite length_app; lia). by rewrite app_nil_r.
Qed.

Lemma load_bytes_all (l : list Z) : load_bytes (zlen l) l 0 = Some l.
Proof.
  unfold load_bytes. pose proof (zlen_nonneg l).
  rewrite !(proj2 (Z.leb_le _ _)) by lia. cbn [andb]. unfold zlen. rewrite Nat2Z.id.
  by rewrite drop_0, firstn_all.
Qed.

Lemma load_bytes_length n l off bs : load_bytes n l off = Some bs -> zlen bs = n.
Proof.
  unfold load_bytes. destruct (_ && _) eqn:E; [|done]. intros [= <-]. breflect.
  unfold zlen in *. rewrite length_take, length_drop. lia.
Qed.

Lemma enc_iphdr_bytes h : Forall is_byte (enc_iphdr h).
Proof. unfold enc_iphdr. repeat (apply Forall_app; split); apply le_encode_bytes. Qed.

Section Building.
Context {W B : Type} `{!KernelEnv W, !KernelLaws W, !SkbOps B, !SkbLaws B}.
Implicit Types s : kstate W B.

Lemma skb_get_run s p o : skbs s !! p = Some o -> skb_get p s = Done (o, s).
Proof. intros H. unfold skb_get. run_simpl. by rewrite H. Qed.

Lemma set_skbs_set_skbs m m' s : set_skbs m (set_skbs m' s) = set_skbs m s.
Proof. by destruct s. Qed.

(** [skb_put] of an area followed by a store that fills it. *)
Lemma put_store_run p bs s o :
  skbs s !! p = Some o -> zlen bs <= skb_tailroom (so_buf o) ->
  exists o' off s1, put p (zlen bs) s = Done (off, s1) /\
    store p off bs s1 = Done (tt, set_skbs (<[p := o']> (skbs s)) s) /\
    skb_bytes (so_buf o') = skb_bytes (so_buf o) ++ bs /\
    skb_tailroom (so_buf o') = skb_tailroom (so_buf o) - zlen bs.
Proof.
  intros Hp Hroom. pose proof (zlen_nonneg bs).
  destruct (put_ok (zlen bs) (so_buf o)) as (b & junk & Eput & Hjunk & Hb & Hbr); [lia|].
  exists (Build_skb_obj (skb_store (zlen (skb_bytes (so_buf o))) bs b) (so_dev o) (so_protocol o)).
  exists (zlen (skb_bytes (so_buf o))).
  exists (set_skbs (<[p := Build_skb_obj b (so_dev o) (so_protocol o)]> (skbs s)) s).
  cbn [so_buf]. rewrite store_room, store_bytes, Hb, splice_tail by
    (rewrite ?Hb, ?zlen_app; pose proof (zlen_nonneg (skb_bytes (so_buf o))); lia).
  split_and!; [| |done|done].
  - unfold put. by rewrite (bind_run _ _ _ _ _ (skb_get_run _ _ _ Hp)), Eput.
  - unfold store, skb_set. erewrite bind_run
      by (apply skb_get_run; rewrite skbs_set_skbs; apply lookup_insert_eq).
    cbn [so_buf so_dev so_protocol]. unfold modify.
    by rewrite skbs_set_skbs, set_skbs_set_skbs, insert_insert_eq.
Qed.

(** The same around a computation of the contents that leaves the state
    alone. *)
Lemma append_run {X A} p n (mid : M W B X) (enc : X -> list Z) x (k : M W B A) s o :
  skbs s !! p = Some o -> (forall s, mid s = Done (x, s)) -> zlen (enc x) = n ->
  n <= skb_tailroom (so_buf o) ->
  exists o', skb_bytes (so_buf o') = skb_bytes (so_buf o) ++ enc x /\
    skb_tailroom (so_buf o') = skb_tailroom (so_buf o) - n /\
    (off ← put p n; y ← mid; _ ← store p off (enc y); k) s =
      k (set_skbs (<[p := o']> (skbs s)) s).
Proof.
  intros Hp Hmid <- Hroom.
  destruct (put_store_run p (enc x) s o) as (o' & off & s1 & E1 & E2 & ? & ?); [done|done|].
  exists o'. split_and!; [done|done|].
  by rewrite (bind_run _ _ _ _ _ E1), (bind_run _ _ _ _ _ (Hmid _)), (bind_run _ _ _ _ _ E2).
Qed.

Lemma fill_ethhdr_run config orig r s :
  reply_to config orig r ->
  fill_ethhdr orig s =
    Done (Build_ull_ethhdr (r_dest_mac r) (r_source_mac r) (htons ETH_P_IP), s).
Proof.
  intros []; [done|]. unfold fill_ethhdr, ETH_ALEN.
  erewrite deref_bind by eassumption. erewrite deref_bind by eassumption. done.
Qed.

Lemma fill_iphdr_run config orig r len s :
  reply_to config orig r ->
  fill_iphdr orig config len s =
    Done (response_iphdr config (r_daddr r) len
            (htons (rfc1071 (enc_iphdr (response_iphdr config (r_daddr r) len 0)))), s).
Proof.
  intros Hr.
  assert (forall d, nanonet_compute_checksum (enc_iphdr (response_iphdr config d len 0)) sizeof_iphdr =
    Some (htons (rfc1071 (enc_iphdr (response_iphdr config d len 0))))) as Hc.
  { intros d. rewrite compute_checksum_closed, checksummed_of_even by
      (try apply enc_iphdr_bytes; by rewrite ?enc_iphdr_length).
    do 3 f_equal. }
  unfold fill_iphdr. destruct Hr; run_simpl.
  - by rewrite (deref_bind _ _ _ _ (Hc _)).
  - rewrite (deref_bind (iph_saddr _ _) _ _ saddr) by done.
    by rewrite (deref_bind _ _ _ _ (Hc _)).
Qed.

Lemma orig_transport_run o v s :
  load8 (skb_data o) 14 = Some v -> orig_transport o s = Done (14 + v mod 16 * 4, s).
Proof.
  intros H. unfold orig_transport. rewrite (deref_bind _ _ _ v) by done. by rewrite land_0f.
Qed.

Lemma fill_transport_run config orig r len s :
  reply_to config orig r ->
  fill_transport orig config (transport_len config + len) s =
    Done (response_transport config r len, s).
Proof.
  intros Hr. unfold response_transport, fill_transport, fill_tcphdr, fill_udphdr, transport_len.
  destruct (Z.eqb_spec (cfg_protocol config) IPPROTO_TCP) as [Ht|Ht];
    destruct Hr as [|o smac dmac saddr v port seq _ _ _ Hv Hport Hseq]; try done; run_simpl;
    rewrite (bind_run _ _ _ _ _ (orig_transport_run o v s Hv)); run_simpl.
  - rewrite (deref_bind _ _ _ _ Hport). run_simpl. by rewrite (deref_bind _ _ _ _ (Hseq Ht)).
  - by rewrite (deref_bind _ _ _ _ Hport).
Qed.

Lemma response_transport_length config r len :
  zlen (response_transport config r len) = transport_len config.
Proof. unfold response_transport, transport_len. by destruct (_ =? _). Qed.

Lemma reply_mac_length config orig r :
  reply_to config orig r -> zlen (r_dest_mac r) = 6 /\ zlen (r_source_mac r) = 6.
Proof. intros []; [done|]. split; by eapply load_bytes_length. Qed.

Lemma response_frame_length config orig r data :
  reply_to config orig r ->
  zlen (response_frame config r data) = 34 + transport_len config + zlen data.
Proof.
  intros [H1 H2]%reply_mac_length. unfold response_frame. rewrite response_ip_header_enc.
  rewrite !zlen_app, response_transport_length, enc_iphdr_length, enc_ethhdr_length by done.
  unfold sizeof_ethhdr, sizeof_iphdr. lia.
Qed.

Lemma reserve_run s p n o :
  skbs s !! p = Some o -> skb_bytes (so_buf o) = [] -> 0 <= n <= skb_tailroom (so_buf o) ->
  exists o', reserve p n s = Done (tt, set_skbs (<[p := o']> (skbs s)) s) /\
    skb_bytes (so_buf o') = [] /\ skb_tailroom (so_buf o') = skb_tailroom (so_buf o) - n.
Proof.
  intros Hp Hb Hn. eexists. split.
  - unfold reserve. rewrite (bind_run _ _ _ _ _ (skb_get_run _ _ _ Hp)). done.
  - cbn [so_buf]. by rewrite reserve_bytes, reserve_room.
Qed.

(** Into an empty buffer with room enough, exactly the frame is written. *)
Lemma fill_response_run s p o orig r data config :
  skbs s !! p = Some o -> skb_bytes (so_buf o) = [] ->
  NET_IP_ALIGN + (34 + transport_len config + zlen data) <= skb_tailroom (so_buf o) ->
  reply_to config orig r ->
  exists o', fill_response p orig data (zlen data) (transport_len config) config s =
      Done (tt, set_skbs (<[p := o']> (skbs s)) s) /\
    skb_bytes (so_buf o') = response_frame config r data.
Proof.
  intros Hp Hb Hroom Hr. pose proof (zlen_nonneg data).
  pose proof net_ip_align_range.
  assert (8 <= transport_len config) as Htl by (unfold transport_len; destruct (_ =? _); lia).
  destruct (reply_mac_length _ _ _ Hr) as [Hm1 Hm2].
  destruct (reserve_run s p NET_IP_ALIGN o) as (o1 & E1 & Hb1 & Hr1); [done|done|lia|].
  unfold fill_response. rewrite (bind_run _ _ _ _ _ E1).
  assert (forall s (o : skb_obj B), skbs (set_skbs (<[p := o]> (skbs s)) s) !! p = Some o) as Hget.
  { intros. rewrite skbs_set_skbs. apply lookup_insert_eq. }
  edestruct (append_run (A := unit) p sizeof_ethhdr (fill_ethhdr orig) enc_ethhdr) as (o2 & Hb2 & Hr2 & ->);
    [apply Hget|intros; by eapply fill_ethhdr_run|by apply enc_ethhdr_length|
     unfold sizeof_ethhdr; lia|].
  edestruct (append_run (A := unit) p sizeof_iphdr
    (fill_iphdr orig config (sizeof_iphdr + transport_len config + zlen data)) enc_iphdr)
    as (o3 & Hb3 & Hr3 & ->);
    [apply Hget|intros; by apply fill_iphdr_run|by apply enc_iphdr_length|
     unfold sizeof_ethhdr, sizeof_iphdr in *; lia|].
  edestruct (append_run (A := unit) p (transport_len config)
    (fill_transport orig config (transport_len config + zlen data)) (fun x : list Z => x))
    as (o4 & Hb4 & Hr4 & ->);
    [apply Hget|intros; by apply fill_transport_run|apply response_transport_length|
     unfold sizeof_ethhdr, sizeof_iphdr in *; lia|].
  match goal with |- exists _, mbind _ _ ?st = _ /\ _ =>
    destruct (put_store_run p data st o4) as (o5 & off & s5 & E5 & E6 & Hb5 & _);
      [apply Hget|unfold sizeof_ethhdr, sizeof_iphdr in *; lia|] end.
  rewrite (bind_run _ _ _ _ _ E5), (deref_bind _ _ _ _ (load_bytes_all data)), E6.
  exists o5. split.
  - by rewrite !skbs_set_skbs, !set_skbs_set_skbs, !insert_insert_eq.
  - unfold response_frame. by rewrite response_ip_header_enc, Hb5, Hb4, Hb3, Hb2, Hb1, <- !app_assoc.
Qed.
End Building.

(** ** Ownership of buffers

    Between two calls the module owns exactly the buffers of its pool. *)

Record buffers_ok {W B} `{!SkbOps B} (s : kstate W B) (avail : list nat) : Prop := {
  bo_pool : pool_inv s avail;
  bo_heap : skb_heap_ok s;
  bo_owned : forall p, is_Some (skbs s !! p) <-> p ∈ avail;
}.

(** While a response is under construction the module also holds its buffer. *)
Definition holding {W B} `{!SkbOps B} (s : kstate W B) (p : nat) (avail : list nat) : Prop :=
  is_Some (skbs s !! p) /\ buffers_ok (set_skbs (delete p (skbs s)) s) avail.

(** [avail'] is what is left of [avail] after one response. *)
Definition one_taken (avail avail' : list nat) : Prop :=
  avail' = avail \/ exists p, avail = p :: avail'.

Section Ownership.
Context {W B : Type} `{!KernelEnv W, !KernelLaws W, !SkbOps B, !SkbLaws B}.
Implicit Types s : kstate W B.

Lemma buffers_ok_ext s s' avail :
  response_pool s' = response_pool s -> skbs s' = skbs s -> (next_skb s <= next_skb s')%nat ->
  buffers_ok s avail -> buffers_ok s' avail.
Proof.
  intros E1 E2 E3 [H1 H2 H3]. split.
  - by eapply pool_inv_ext.
  - intros p Hp. rewrite E2 in Hp. apply H2 in Hp. lia.
  - by rewrite E2.
Qed.

Lemma buffers_ok_frame mods s s' avail :
  FPool ∉ mods -> FSkbs ∉ mods -> frame mods s s' -> buffers_ok s avail -> buffers_ok s' avail.
Proof.
  intros H1 H2 Hf. destruct (Hf FSkbs H2) as [E2 E3].
  apply buffers_ok_ext; [by apply (Hf FPool)|done|by rewrite E3].
Qed.

Lemma holding_update s p o avail :
  holding s p avail -> holding (set_skbs (<[p := o]> (skbs s)) s) p avail.
Proof.
  intros [_ H]. unfold holding. rewrite skbs_set_skbs, set_skbs_set_skbs, delete_insert_eq.
  split; [by rewrite lookup_insert_eq|done].
Qed.

(** No buffer to be had: the pool is down to its last, unusable one and the
    allocator fails. *)
Definition starved (avail : list nat) : Prop :=
  length avail = 1%nat /\ exists n w, fst (alloc_skb_ok n w) = false.

Lemma alloc_skb_fails n s s' :
  alloc_skb n s = Done (None, s') -> fst (alloc_skb_ok n (world s)) = false.
Proof.
  unfold alloc_skb, ask, mbind, M_bind. by destruct (alloc_skb_ok n (world s)) as [[] w].
Qed.

(** A buffer for the response: either none and nothing but the log changed, or
    an empty one with enough room. *)
Definition got_buffer (s : kstate W B) (avail : list nat) (need : Z)
    (r : outcome (option nat * kstate W B)) : Prop :=
  exists s1 avail', one_taken avail avail' /\
    ((r = Done (None, s1) /\ logged s s1 /\ avail' = avail /\ starved avail) \/
     exists p o, r = Done (Some p, s1) /\ pool_only s s1 /\
       holding s1 p avail' /\ skbs s1 !! p = Some o /\
       skb_bytes (so_buf o) = [] /\ need <= skb_tailroom (so_buf o)).

Lemma fresh_holding s s' w avail need :
  buffers_ok s avail -> logged s s' ->
  let p := next_skb s' in
  let o := Build_skb_obj (skb_fresh need) None 0 in
  let s1 := set_next_skb (S p) (set_skbs (<[p := o]> (skbs s')) (set_world w s')) in
  pool_only s s1 /\ holding s1 p avail /\ skbs s1 !! p = Some o.
Proof.
  intros Hok Hl p o s1. pose proof Hok as [_ Hheap _].
  destruct (logged_pool _ _ Hl) as (Ep & Es & En).
  assert (skbs s' !! p = None) as Hfresh.
  { unfold p. rewrite Es, En. apply eq_None_not_Some. intros ?%Hheap. lia. }
  assert (skbs s1 = <[p := o]> (skbs s')) as Es1 by (by destruct s').
  rewrite Es1, lookup_insert_eq. split_and!; [|split; [by rewrite Es1, lookup_insert_eq|]|done].
  - etransitivity; [by apply logged_frame|]. destruct s'; solve_frame.
  - eapply (buffers_ok_ext s); [| | |done].
    + destruct s'; simpl in *; congruence.
    + rewrite skbs_set_skbs, Es1, delete_insert_id by done. done.
    + destruct s'; simpl in *; lia.
Qed.

Lemma allocate_buffer_run s s' avail need :
  buffers_ok s avail -> logged s s' -> length avail = 1%nat ->
  got_buffer s avail need
    ((new_skb ← alloc_skb need;
      match new_skb with
      | Some p => mret (Some p)
      | None => _ ← nanonet_log_error (str "Failed to allocate response skb"); mret None
      end) s').
Proof.
  intros Hok Hl Hone.
  destruct (alloc_skb_run need s') as (w & [Ea|Ea]); rewrite (bind_run _ _ _ _ _ Ea).
  - destruct (log_error_bind (str "Failed to allocate response skb")
      (fun _ => mret (None : option nat)) (set_world w s')) as (s1 & Hl1 & ->).
    exists s1, avail. split; [by left|]. left.
    apply alloc_skb_fails in Ea. split_and!; [done| |done|split; eauto].
    etransitivity; [exact Hl|]. etransitivity; [apply logged_world|exact Hl1].
  - destruct (fresh_holding s s' w avail need Hok Hl) as (Hf & Hh & Ho).
    eexists _, avail. split; [by left|]. right. eexists _, _. split; [done|].
    split_and!; [done|done|exact Ho|apply fresh_bytes|apply fresh_room].
Qed.

(** The first buffer of the pool while two are left, else a new one if the
    kernel has memory. *)
Lemma response_buffer_run s avail total :
  buffers_ok s avail -> total + NET_IP_ALIGN <= POOL_SKB_SIZE ->
  got_buffer s avail (total + NET_IP_ALIGN) (response_buffer total s).
Proof.
  intros Hok Hfit. pose proof Hok as [Hpool Hheap Hown]. unfold response_buffer.
  pose proof (get_response_skb_run s avail Hpool) as Hget.
  destruct avail as [|p [|q rest]].
  { by destruct Hpool as [_ _ _ [] _ _]; simpl in *; lia. }
  { destruct Hget as (s' & E & Hl). rewrite (bind_run _ _ _ _ _ E). by apply allocate_buffer_run. }
  destruct Hget as (s' & E & Es & Hinv). rewrite (bind_run _ _ _ _ _ E).
  exists s', (q :: rest). split; [right; by exists p|]. right.
  assert (skbs s' = skbs s /\ next_skb s' = next_skb s) as [Esk En].
  { rewrite Es. by destruct s. }
  destruct Hpool as [_ _ _ _ Hnd Hlive].
  apply Forall_cons in Hlive as [(o & Ho & Hb & Hr) _].
  apply NoDup_cons in Hnd as [Hp Hnd].
  exists p, o. split; [done|]. split; [rewrite Es; apply set_pool_only|].
  split_and!; [|by rewrite Esk|done|lia].
  split; [rewrite Esk; eauto|]. rewrite Esk. split.
  - destruct Hinv as [H1 H2 H3 H4 H5 H6]. split; rewrite ?pool_set_skbs; auto.
    eapply Forall_impl; [|intros x Hx; exact Hx].
    apply Forall_forall. intros x Hx.
    destruct (proj1 (Forall_forall _ _) H6 x Hx) as (ox & Hox & ?). exists ox.
    rewrite skbs_set_skbs, lookup_delete_ne, <- Esk by (by intros ->). done.
  - intros x Hx. rewrite skbs_set_skbs in Hx.
    assert (is_Some (skbs s !! x)) as Hx' by (destruct Hx as [? [_ ?]%lookup_delete_Some]; eauto).
    apply Hheap in Hx'. destruct s'; simpl in *; lia.
  - intros x. rewrite skbs_set_skbs. destruct (decide (x = p)) as [->|].
    + rewrite lookup_delete_eq. split; [by intros []|done].
    + rewrite lookup_delete_ne by done. rewrite Hown. set_solver.
Qed.

(** ** The whole packet *)

Definition dev_taken (orig : option sk_buff) : Z :=
  match orig with Some _ => 0 | None => 1 end.

Definition no_device (orig : option sk_buff) : Prop :=
  match orig with
  | Some o => skb_dev o = None
  | None => exists w, fst (find_device w) = None
  end.

(** Looking the device up: a reference is taken when there is no original
    packet to take it from. *)
Lemma response_device_run orig s :
  exists w d, (match orig with Some o => mret (skb_dev o) | None => dev_get_by_name end) s =
    Done (d, match d with
             | Some _ => set_dev_refs (dev_refs s + dev_taken orig) (set_world w s)
             | None => set_world w s
             end) /\ (d = None -> no_device orig).
Proof.
  destruct orig as [o|]; simpl.
  - exists (world s), (skb_dev o). rewrite Z.add_0_r. split; [|done].
    by destruct (skb_dev o), s.
  - unfold dev_get_by_name, ask, mbind, M_bind.
    destruct (find_device (world s)) as [d w] eqn:E. exists w, d.
    destruct d; (split; [by destruct s|]); [done|]. intros _. exists (world s). by rewrite E.
Qed.

Lemma holding_frame mods s s' p avail :
  FPool ∉ mods -> FSkbs ∉ mods -> frame mods s s' -> holding s p avail -> holding s' p avail.
Proof.
  intros H1 H2 Hf [Hp Hok]. destruct (Hf FSkbs H2) as [E2 E3]. pose proof (Hf FPool H1) as E1.
  split; [by rewrite E2|]. simpl in *. eapply buffers_ok_ext; [| | |exact Hok];
    rewrite ?pool_set_skbs, ?skbs_set_skbs, ?E2; [done|done|].
  destruct s, s'; simpl in *; lia.
Qed.

(** The response can be built from the configuration. *)
Definition can_respond (c : ull_config) : Prop :=
  cfg_response_ip c <> 0 /\ cfg_response_port c <> 0 /\
  (cfg_protocol c = IPPROTO_TCP \/ cfg_protocol c = IPPROTO_UDP).

#[export] Instance can_respond_dec c : Decision (can_respond c).
Proof. unfold can_respond. apply _. Defined.

Definition fits (c : ull_config) (data : list Z) : Prop :=
  0 < zlen data /\ 34 + transport_len c + zlen data + NET_IP_ALIGN <= POOL_SKB_SIZE.

Definition created (s : kstate W B) (avail : list nat) (orig : option sk_buff) (bytes : list Z)
    (res : outcome (option nat * kstate W B)) : Prop :=
  exists s1 avail', one_taken avail avail' /\
    ((res = Done (None, s1) /\ pool_only s s1 /\ buffers_ok s1 avail' /\
      (starved avail \/ no_device orig)) \/
     exists p o, res = Done (Some p, s1) /\ frame [FPool; FSkbs; FDevRefs] s s1 /\
       holding s1 p avail' /\ skbs s1 !! p = Some o /\ is_Some (so_dev o) /\
       skb_bytes (so_buf o) = bytes /\ dev_refs s1 = dev_refs s + dev_taken orig).

Lemma attach_device_run s0 avail avail' orig p o s :
  one_taken avail avail' -> pool_only s0 s -> holding s p avail' -> skbs s !! p = Some o ->
  created s0 avail orig (skb_bytes (so_buf o)) (attach_device orig p s).
Proof.
  intros Ht Hpo Hh Ho. unfold attach_device.
  destruct (response_device_run orig s) as (w & d & E & Hd). rewrite (bind_run _ _ _ _ _ E).
  destruct d as [d|].
  - set (s3 := set_dev_refs _ _). assert (frame [FDevRefs] s s3) as Hf3
      by (unfold s3; destruct s; solve_frame).
    assert (skbs s3 !! p = Some o) as Ho3 by (unfold s3; by destruct s).
    rewrite (bind_run _ _ _ _ _ (skb_get_run _ _ _ Ho3)). unfold skb_set. run_simpl.
    eexists _, avail'. split; [done|]. right. eexists p, _. split; [done|].
    split_and!; [| |by rewrite skbs_set_skbs, lookup_insert_eq|done|done|].
    + etransitivity; [eapply frame_weaken, Hpo; set_solver|].
      etransitivity; [eapply frame_weaken, Hf3; set_solver|]. destruct s3; solve_frame.
    + apply holding_update. eapply holding_frame, Hh; [| |exact Hf3]; set_solver.
    + unfold s3. rewrite <- (Hpo FDevRefs) by set_solver. by destruct s.
  - assert (is_Some (skbs (set_world w s) !! p)) as Hp by (destruct s; eauto).
    rewrite (bind_run _ _ _ _ _ (kfree_skb_run (set_world w s) p Hp)).
    destruct (log_error_bind (str "Failed to get network device") (fun _ => mret (None : option nat))
      (set_skbs (delete p (skbs (set_world w s))) (set_world w s))) as (s4 & Hl & ->).
    exists s4, avail'. split; [done|]. left. split_and!; [done| | |right; auto].
    + etransitivity; [exact Hpo|]. etransitivity; [|by apply logged_frame]. destruct s; solve_frame.
    + destruct Hh as [_ Hh]. eapply (buffers_ok_frame []), buffers_ok_ext, Hh;
        [set_solver|set_solver|by apply logged_frame|..]; by destruct s.
Qed.

Lemma create_response_run s avail orig r data c :
  buffers_ok s avail -> can_respond c -> reply_to c orig r -> fits c data ->
  created s avail orig (response_frame c r data)
    (nanonet_create_response_packet orig data (zlen data) c s).
Proof.
  intros Hok (Hip & Hport & Hproto) Hr [Hpos Hfit]. unfold nanonet_create_response_packet.
  rewrite (proj2 (Z.eqb_neq _ _) Hip), (proj2 (Z.eqb_neq _ _) Hport). cbn [orb].
  replace (negb (cfg_protocol c =? IPPROTO_TCP) && negb (cfg_protocol c =? IPPROTO_UDP)) with false
    by (by destruct Hproto as [-> | ->]).
  change (if cfg_protocol c =? IPPROTO_TCP then sizeof_tcphdr else sizeof_udphdr)
    with (transport_len c).
  unfold sizeof_ethhdr, sizeof_iphdr. change (14 + 20) with 34.
  destruct (response_buffer_run s avail _ Hok Hfit)
    as (s1 & avail' & Ht & [(E & Hl & -> & Hst)|(p & o & E & Hpo & Hh & Ho & Hb & Hroom)]);
    rewrite (bind_run _ _ _ _ _ E).
  { exists s1, avail. split; [done|]. left. split_and!; [done|by apply logged_frame| |by left].
    eapply (buffers_ok_frame []); [set_solver|set_solver|by apply logged_frame|done]. }
  destruct (fill_response_run s1 p o orig r data c) as (o2 & E2 & <-); [done|done|lia|done|].
  rewrite (bind_run _ _ _ _ _ E2).
  eapply attach_device_run; [exact Ht| |by apply holding_update|].
  - etransitivity; [exact Hpo|destruct s1; solve_frame].
  - by rewrite skbs_set_skbs, lookup_insert_eq.
Qed.

(** ** Sending *)

Definition sent_config (c : ull_config) (len : Z) : ull_config :=
  set_seq_num (u32 (cfg_seq_num c + len)) c.

(** A successful send. *)
Record sent (s s' : kstate W B) (avail' : list nat) (orig : option sk_buff) (bytes : list Z)
    (len : Z) : Prop := {
  sent_frame : frame [FPool; FSkbs; FDevRefs; FWire; FConfig] s s';
  sent_buffers : buffers_ok s' avail';
  sent_wire : wire s' = (bytes, NET_XMIT_SUCCESS) :: wire s;
  sent_seq : global_config s' = sent_config (global_config s) len;
  sent_refs : dev_refs s' = dev_refs s + dev_taken orig;
}.

Lemma raw_send_run s p o d avail :
  holding s p avail -> skbs s !! p = Some o -> so_dev o = Some d ->
  exists w, let '(rc, w') := qdisc_xmit (skb_bytes (so_buf o)) w in
  exists s', nanonet_raw_send (Some p) (so_dev o) s = Done (rc, s') /\
    skbs s' = delete p (skbs s) /\ frame [FSkbs; FWire] s s' /\ buffers_ok s' avail /\
    wire s' = (skb_bytes (so_buf o), rc) :: wire s.
Proof.
  intros [Hp Hok] Ho Hd. exists (world s). destruct (qdisc_xmit _ (world s)) as [rc w'] eqn:E.
  unfold nanonet_raw_send. rewrite Hd, (bind_run _ _ _ _ _ (skb_get_run _ _ _ Ho)).
  unfold skb_set, dev_queue_xmit. run_simpl.
  erewrite bind_run by (apply skb_get_run; rewrite skbs_set_skbs; apply lookup_insert_eq).
  run_simpl. unfold ask, mbind, M_bind. cbn [so_buf].
  destruct s; simpl in *. rewrite E. eexists. split; [done|]. simpl.
  rewrite delete_insert_eq. split_and!; [done|solve_frame| |done].
  eapply buffers_ok_ext, Hok; done.
Qed.

(** Every outcome of a send of a well-formed response. *)
Lemma send_response_run s avail orig r data :
  let c := global_config s in
  let bytes := response_frame c r data in
  buffers_ok s avail -> can_respond c -> reply_to c orig r -> fits c data ->
  exists avail', one_taken avail avail' /\
    ((starved avail \/ no_device orig) /\
     (exists s', nanonet_send_response orig (Some data) (zlen data) s = Done (- ENOMEM, s') /\
        pool_only s s' /\ buffers_ok s' avail') \/
     exists w, let rc := fst (qdisc_xmit bytes w) in
       (rc = NET_XMIT_SUCCESS /\
        exists s', nanonet_send_response orig (Some data) (zlen data) s = Done (0, s') /\
          sent s s' avail' orig bytes (zlen data)) \/
       (rc <> NET_XMIT_SUCCESS /\
        nanonet_send_response orig (Some data) (zlen data) s = Crashed UseAfterFree)).
Proof.
  intros c bytes Hok Hc Hr Hf.
  destruct (create_response_run s avail orig r data c Hok Hc Hr Hf)
    as (s1 & avail' & Ht & [(E & Hpo & Hb & Hwhy)|(p & o & E & Hfr & Hh & Ho & [d Hd] & Hbytes & Hrefs)]);
    exists avail'; (split; [done|]); [left|right].
  all: unfold nanonet_send_response; run_simpl; fold c.
  all: rewrite (proj2 (Z.leb_gt _ _)) by (by destruct Hf); rewrite (bind_run _ _ _ _ _ E).
  { split; [done|]. eauto. }
  rewrite (bind_run _ _ _ _ _ (skb_get_run _ _ _ Ho)).
  destruct (raw_send_run s1 p o d avail' Hh Ho Hd) as (w & Hs). exists w.
  rewrite Hbytes in Hs. fold bytes in Hs. destruct (qdisc_xmit bytes w) as [rc w'].
  destruct Hs as (s2 & E2 & Esk & Hf2 & Hok2 & Hw). rewrite (bind_run _ _ _ _ _ E2).
  cbn [fst]. destruct (Z.eqb_spec rc NET_XMIT_SUCCESS) as [->|Hne]; cbn [negb]; [left|right];
    (split; [done|]).
  - run_simpl. eexists. split; [done|].
    assert (frame [FPool; FSkbs; FDevRefs; FWire; FConfig] s s2) as Hfall.
    { etransitivity; [eapply frame_weaken, Hfr; set_solver|eapply frame_weaken, Hf2; set_solver]. }
    assert (global_config s2 = c) as Ec.
    { etransitivity; [apply (Hf2 FConfig); set_solver|apply (Hfr FConfig); set_solver]. }
    split.
    + etransitivity; [exact Hfall|destruct s2; solve_frame].
    + eapply (buffers_ok_frame [FConfig]), Hok2; [set_solver|set_solver|destruct s2; solve_frame].
    + rewrite <- (Hfr FWire) by set_solver. etransitivity; [|exact Hw]. by destruct s2.
    + rewrite Ec. by destruct s2.
    + rewrite <- Hrefs, <- (Hf2 FDevRefs) by set_solver. by destruct s2.
  - unfold kfree_skb, skb_get. run_simpl. by rewrite Esk, lookup_delete_eq.
Qed.

(** A fresh pool owns exactly its buffers. *)
Lemma init_buffers_ok s s' r :
  length (pool (response_pool s)) = 256%nat -> skbs s = ∅ ->
  nanonet_init_response_pool s = Done (r, s') ->
  pool_only s s' /\
  ((r = 0 /\ exists avail, length avail = 256%nat /\ buffers_ok s' avail) \/
   (r = - ENOMEM /\ skbs s' = ∅)).
Proof.
  intros Hl He E.
  destruct (init_response_pool_run s) as (r' & s1 & E1 & Ho & H);
    [done|intros p [o Hp]; by rewrite He in Hp|].
  rewrite E in E1. injection E1 as <- <-. split; [done|].
  destruct H as [(-> & all & Hall & Hinv & Hheap & Hsk)|[-> Hsk]]; [left|right; by rewrite Hsk].
  split; [done|]. exists all. split; [done|]. split; [done|done|].
  intros p. specialize (Hsk p). rewrite He, lookup_empty in Hsk. split.
  - intros [o Hp]. rewrite Hp in Hsk. by destruct (decide (p ∈ all)).
  - intros Hp. destruct Hinv as [_ _ _ _ _ Hlive].
    destruct (proj1 (Forall_forall _ _) Hlive p Hp) as (o & Ho' & _). eauto.
Qed.
End Ownership.

(** ** Properties *)

Lemma response_header_valid config r len :
  rfc1071 (response_ip_header config r len) = 0.
Proof.
  rewrite response_ip_header_enc. set (h := response_iphdr config (r_daddr r) _). cbv zeta.
  set (a := le_encode 1 0x45 ++ le_encode 1 0 ++
    le_encode 2 (htons (u16 (20 + transport_len config + len))) ++ le_encode 2 0 ++
    le_encode 2 (htons IP_DF) ++ le_encode 1 64 ++ le_encode 1 (cfg_protocol config)).
  set (b := le_encode 4 (cfg_response_ip config) ++ le_encode 4 (r_daddr r)).
  assert (forall ck, enc_iphdr (h ck) = a ++ le_encode 2 ck ++ b) as E.
  { intros ck. unfold a, b, enc_iphdr, h, response_iphdr. by rewrite <- !app_assoc. }
  rewrite !E. change (le_encode 2 0 ++ b) with (0 :: 0 :: b). apply rfc1071_fill; [| |done];
    unfold a, b; repeat (apply Forall_app; split); apply le_encode_bytes.
Qed.

Section Properties.
Context {W B : Type} `{!KernelEnv W, !KernelLaws W, !SkbOps B, !SkbLaws B}.
Implicit Types s : kstate W B.

(** C3: with a buffer left in the pool, a device and a queueing discipline that
    accepts the frame, [nanonet_send_response] returns 0 and hands exactly one
    frame to the driver. Every byte of the frame is determined by the
    configuration, the original packet and the payload (no uninitialised byte of
    the buffer is sent), its IP header verifies under RFC 1071, and its length
    is that of the headers and the payload. The buffer is given away, the
    sequence number advances by the payload length modulo 2^32, and without an
    original packet one device reference is taken and kept. *)
Theorem send_response_transmits s avail orig r data :
  let c := global_config s in
  buffers_ok s avail -> (2 <= length avail)%nat -> can_respond c -> reply_to c orig r ->
  fits c data -> ~ no_device orig ->
  (forall bs w, fst (qdisc_xmit bs w) = NET_XMIT_SUCCESS) ->
  exists s' avail', nanonet_send_response orig (Some data) (zlen data) s = Done (0, s') /\
    one_taken avail avail' /\
    sent s s' avail' orig (response_frame c r data) (zlen data) /\
    rfc1071 (response_ip_header c r (zlen data)) = 0 /\
    zlen (response_frame c r data) = 34 + transport_len c + zlen data.
Proof.
  intros c Hok Hav Hc Hr Hf Hdev Hq.
  destruct (send_response_run s avail orig r data Hok Hc Hr Hf)
    as (avail' & Ht & [[[[Hone _]|Hno] _]|(w & [(_ & s' & E & Hs)|[Hne _]])]);
    [lia|done| |by rewrite Hq in Hne].
  exists s', avail'. split_and!; [done|done|done|apply response_header_valid|].
  by eapply response_frame_length.
Qed.

(** C19: when the queueing discipline does not report success, the code frees a
    buffer that [dev_queue_xmit] has already consumed: the send ends in a use
    after free, whatever the response. *)
Theorem send_response_double_free s avail orig r data :
  let c := global_config s in
  buffers_ok s avail -> (2 <= length avail)%nat -> can_respond c -> reply_to c orig r ->
  fits c data -> ~ no_device orig ->
  (forall bs w, fst (qdisc_xmit bs w) <> NET_XMIT_SUCCESS) ->
  nanonet_send_response orig (Some data) (zlen data) s = Crashed UseAfterFree.
Proof.
  intros c Hok Hav Hc Hr Hf Hdev Hq.
  destruct (send_response_run s avail orig r data Hok Hc Hr Hf)
    as (avail' & Ht & [[[[Hone _]|Hno] _]|(w & [[Hz _]|[_ E]])]);
    [lia|done|by apply Hq in Hz|done].
Qed.

Lemma create_response_refuses c orig data len s :
  ~ can_respond c ->
  exists s', nanonet_create_response_packet orig data len c s = Done (None, s') /\ logged s s'.
Proof.
  intros Hc. unfold nanonet_create_response_packet.
  destruct (_ || _) eqn:E1; [|destruct (_ && _) eqn:E2].
  1,2: apply log_and_return.
  exfalso. apply Hc. breflect. split; [done|]. split; [done|].
  apply andb_false_iff in E2. rewrite !negb_false_iff, !Z.eqb_eq in E2. done.
Qed.

(** C33: a call with no data or a length that is not positive returns [-EINVAL],
    and a configuration that names no response address or no transport protocol
    makes the call return [-ENOMEM]; in both cases only the log changes: nothing
    is sent and no buffer is taken from the pool. *)
Theorem send_response_refuses s orig data len :
  (data = None \/ len <= 0 \/ ~ can_respond (global_config s)) ->
  exists rc s', nanonet_send_response orig data len s = Done (rc, s') /\ logged s s' /\
    rc = if decide (is_Some data /\ 0 < len) then - ENOMEM else - EINVAL.
Proof.
  intros H. unfold nanonet_send_response. run_simpl. destruct data as [data|].
  2:{ destruct (log_and_return (str "Invalid response data or length") (- EINVAL) s) as (s1 & -> & Hl).
      do 2 eexists. split; [done|]. split; [done|]. rewrite decide_False; [done|]. by intros [[] _]. }
  destruct (Z.leb_spec len 0) as [Hle|Hgt].
  - destruct (log_and_return (str "Invalid response data or length") (- EINVAL) s) as (s1 & -> & Hl).
    do 2 eexists. split; [done|]. split; [done|]. rewrite decide_False; [done|lia].
  - destruct H as [H|[H|H]]; [done|lia|].
    destruct (create_response_refuses (global_config s) orig data len s H) as (s1 & E & Hl).
    rewrite (bind_run _ _ _ _ _ E). do 2 eexists. split; [done|]. split; [done|].
    rewrite decide_True; [done|]. split; [eauto|done].
Qed.
End Properties.

(** ** Runs *)

Definition sample_config : ull_config :=
  Build_ull_config 1 (le_decode [192; 168; 1; 100]) (htons 8080) IPPROTO_UDP
    (le_decode [192; 168; 1; 1]) (htons 9090) 7 1 0 0.

(** A loaded module with a configuration and a filled pool. *)
Lemma ready_state {W} `{!KernelEnv W, !KernelLaws W} (c : ull_config) (w : W) :
  result_of (nanonet_init_response_pool (set_config c (loaded (B := lskb) w))) = Some 0 ->
  exists s avail, nanonet_init_response_pool (set_config c (loaded (B := lskb) w)) = Done (0, s) /\
    pool_only (set_config c (loaded w)) s /\ length avail = 256%nat /\ buffers_ok s avail.
Proof.
  intros H. destruct (nanonet_init_response_pool _) as [[r s]|] eqn:E; [|done].
  simpl in H. injection H as ->.
  edestruct init_buffers_ok as (Ho & [(_ & avail & Hl & Hok)|[Hneg _]]);
    [| |exact E| |discriminate Hneg]; [done|done|].
  exists s, avail. auto.
Qed.

Lemma send_response_transmits_witness :
  exists (s s' : kstate calm lskb), global_config s = sample_config /\
    nanonet_send_response None (Some (str "hello")) (zlen (str "hello")) s = Done (0, s') /\
    dev_refs s' = dev_refs s + 1.
Proof.
  destruct (ready_state sample_config Calm) as (s & avail & _ & Ho & Hl & Hok);
    [vm_compute; reflexivity|].
  assert (global_config s = sample_config) as Ec by (apply (Ho FConfig); set_solver).
  destruct (send_response_transmits s avail None
    (Build_reply_fields (replicate 6 0) (replicate 6 0) (cfg_target_ip (global_config s))
       (cfg_target_port (global_config s)) None) (str "hello"))
    as (s' & avail' & E & _ & [] & _).
  - exact Hok.
  - rewrite Hl. lia.
  - rewrite Ec. split; [discriminate|]. split; [discriminate|]. right. reflexivity.
  - constructor.
  - rewrite Ec. split; vm_compute; [reflexivity|discriminate].
  - intros [[] H]. discriminate H.
  - reflexivity.
  - exists s, s'. split; [exact Ec|]. split; [exact E|assumption].
Defined.

Lemma send_response_double_free_witness :
  exists (s : kstate busy lskb), global_config s = sample_config /\
    nanonet_send_response None (Some (str "hello")) (zlen (str "hello")) s = Crashed UseAfterFree.
Proof.
  destruct (ready_state sample_config Busy) as (s & avail & _ & Ho & Hl & Hok);
    [vm_compute; reflexivity|].
  assert (global_config s = sample_config) as Ec by (apply (Ho FConfig); set_solver).
  exists s. split; [exact Ec|].
  apply (send_response_double_free s avail None
    (Build_reply_fields (replicate 6 0) (replicate 6 0) (cfg_target_ip (global_config s))
       (cfg_target_port (global_config s)) None)).
  - exact Hok.
  - rewrite Hl. lia.
  - rewrite Ec. split; [discriminate|]. split; [discriminate|]. right. reflexivity.
  - constructor.
  - rewrite Ec. split; vm_compute; [reflexivity|discriminate].
  - intros [[] H]. discriminate H.
  - discriminate.
Defined.

Lemma send_response_refuses_witness :
  exists rc s', nanonet_send_response None (Some (str "hello")) 5 sim_loaded = Done (rc, s') /\
    rc = - ENOMEM.
Proof.
  destruct (send_response_refuses sim_loaded None (Some (str "hello")) 5) as (rc & s' & E & _ & Hrc).
  - right. right. intros [H _]. apply H. reflexivity.
  - exists rc, s'. split; [exact E|]. rewrite Hrc. reflexivity.
Defined.
