(* ===== verification/PacketProcessor.v ===== *)
(** * packet_processor.c: the trading logic

    A market-data message below the threshold is answered with an order. The
    payload is the bytes readable from the payload pointer ([None] is NULL). The
    order object is its [kmalloc] address with its contents; bytes of it that the
    code does not write keep what the allocator left there. *)

From S2P Require Import Prelude Headers Kernel Sim Debug Checksum MicroStack Optimizations.
From S2P Require Import ResponseSender.

(** ** The code *)

(** [snprintf] into a [size]-byte array that holds [stale]: the text, the NUL,
    and the old bytes behind it. *)
Definition snprintf_into (size : Z) (text stale : list Z) : list Z :=
  let t := snprintf size text in
  t ++ 0 :: drop (length t + 1) stale.

(** [order->clOrdId] after [snprintf(..., "ORD%llu", timestamp)]. *)
Definition clOrdId (timestamp : Z) (stale : list Z) : list Z :=
  snprintf_into 16 (str "ORD" ++ fmt_u timestamp) stale.

Section PacketProcessor.
Context {W B : Type} `{!KernelEnv W, !SkbOps B}.
Local Abbreviation M := (M W B).

(** The result, [*response_data] and [*response_len]. The length test is made in
    [size_t]. *)
Definition process_market_data (payload : option (list Z)) (payload_len : Z) :
    M (Z * option (nat * list Z) * Z) :=
  match payload with
  | None =>
      _ ← nanonet_log_error (str "Invalid market data size: " ++ fmt_d payload_len);
      mret (- EINVAL, None, 0)
  | Some market =>
      if u64 payload_len <? sizeof_market_data then
        _ ← nanonet_log_error (str "Invalid market data size: " ++ fmt_d payload_len);
        mret (- EINVAL, None, 0)
      else
      price ← deref (load32 market 8);
      if price <? 10000 then
        w ← gets world;
        order ← kmalloc sizeof_trading_order;
        match order with
        | None =>
            _ ← nanonet_log_error (str "Failed to allocate memory for order");
            mret (- ENOMEM, None, 0)
        | Some order =>
            symbol ← deref (load_bytes 8 market 0);
            timestamp ← get_timestamp_ns;
            let bytes := enc_trading_order
              (Build_trading_order symbol (u32 (price + 1)) 100 0 timestamp
                 (clOrdId timestamp (drop 25 (stale_bytes sizeof_trading_order w)))) in
            mret (1, Some (order, bytes), sizeof_trading_order)
        end
      else mret (0, None, 0)
  end.

(** The tail of the function: send, free the order, log a failure. *)
Definition finish_response (order : nat) (bytes : list Z) (len : Z) : M Z :=
  result ← nanonet_send_response None (Some bytes) len;
  _ ← kfree order;
  _ ← (if result <? 0
       then nanonet_log_error (str "Failed to send response: " ++ fmt_d result)
       else mret tt);
  mret result.

Definition nanonet_process_application_logic (payload : option (list Z)) (payload_len : Z) : M Z :=
  match payload with
  | None => mret 0
  | Some _ =>
      if payload_len <=? 0 then mret 0
      else
      config ← gets global_config;
      if cfg_application_logic_type config =? 0 then
        '(result, response_data, response_len) ← process_market_data payload payload_len;
        match response_data with
        | Some (order, bytes) =>
            if 0 <? result then finish_response order bytes response_len
            else mret result
        | None => mret result
        end
      else
        _ ← nanonet_log_error (str "Unknown application logic type: " ++
              fmt_d (cfg_application_logic_type config));
        mret (- EINVAL)
  end.
End PacketProcessor.

(** ** Client order ids *)

Lemma snprintf_into_length size text stale :
  1 <= size -> zlen stale = size -> zlen (snprintf_into size text stale) = size.
Proof.
  intros Hs Hst. unfold snprintf_into, snprintf, zlen in *.
  rewrite length_app. cbn [length]. rewrite length_drop, length_take. lia.
Qed.

Lemma dec_digits_step fuel n :
  10 <= n -> dec_digits (S fuel) n = dec_digits fuel (n / 10) ++ [48 + n mod 10].
Proof. intros H. simpl. by rewrite (proj2 (Z.ltb_ge _ _)) by lia. Qed.

(** A number between 10^k and 10^(k+1) has k+1 digits. *)
Lemma dec_digits_length k fuel n :
  (k < fuel)%nat -> 10 ^ Z.of_nat k <= n < 10 ^ (Z.of_nat k + 1) ->
  length (dec_digits fuel n) = S k.
Proof.
  revert fuel n. induction k as [|k IH]; intros [|fuel] n Hf Hn; try lia.
  - simpl. rewrite (proj2 (Z.ltb_lt _ _)) by (simpl in Hn; lia). done.
  - rewrite Nat2Z.inj_succ in Hn. unfold Z.succ in Hn.
    rewrite !Z.pow_add_r in Hn by lia. change (10 ^ 1) with 10 in Hn.
    assert (1 <= 10 ^ Z.of_nat k) by (pose proof (Z.pow_pos_nonneg 10 (Z.of_nat k)); lia).
    rewrite dec_digits_step by lia. rewrite length_app, (IH fuel); [simpl; lia|lia|].
    rewrite Z.pow_add_r by lia. change (10 ^ 1) with 10. Z.div_mod_to_equations; lia.
Qed.

(** Fuel beyond the number of digits makes no difference. *)
Lemma dec_digits_fuel k f f' n :
  (k < f)%nat -> (k < f')%nat -> 0 <= n < 10 ^ (Z.of_nat k + 1) ->
  dec_digits f n = dec_digits f' n.
Proof.
  revert f f' n. induction k as [|k IH]; intros [|f] [|f'] n Hf Hf' Hn; try lia.
  - simpl. by rewrite (proj2 (Z.ltb_lt _ _)) by (simpl in Hn; lia).
  - simpl. destruct (n <? 10); [done|]. f_equal. apply IH; [lia|lia|].
    rewrite Nat2Z.inj_succ in Hn. unfold Z.succ in Hn.
    rewrite (Z.pow_add_r 10 (Z.of_nat k + 1) 1) in Hn by lia.
    change (10 ^ 1) with 10 in Hn. Z.div_mod_to_equations; lia.
Qed.

(** The leading digits of a number are the digits of its quotient. *)
Lemma dec_digits_prefix k fuel n :
  10 ^ Z.of_nat k <= n ->
  exists tail, dec_digits (fuel + k) n = dec_digits fuel (n / 10 ^ Z.of_nat k) ++ tail /\
    length tail = k.
Proof.
  revert n. induction k as [|k IH]; intros n Hn.
  - exists []. by rewrite Nat.add_0_r, Z.div_1_r, app_nil_r.
  - rewrite Nat2Z.inj_succ, Z.pow_succ_r in Hn by lia.
    assert (1 <= 10 ^ Z.of_nat k) by (pose proof (Z.pow_pos_nonneg 10 (Z.of_nat k)); lia).
    rewrite Nat.add_succ_r, dec_digits_step by lia.
    destruct (IH (n / 10)) as (tl & -> & Hl); [Z.div_mod_to_equations; lia|].
    exists (tl ++ [48 + n mod 10]). rewrite length_app, Hl, <- app_assoc. simpl. split; [|lia].
    by rewrite Nat2Z.inj_succ, Z.pow_succ_r, Z.div_div by lia.
Qed.

(** ** The order *)

Definition order_bytes (symbol : list Z) (price timestamp : Z) (stale : list Z) : list Z :=
  enc_trading_order (Build_trading_order symbol (price + 1) 100 0 timestamp
    (clOrdId timestamp (drop 25 stale))).

Lemma order_bytes_length symbol price ts stale :
  zlen symbol = 8 -> zlen stale = 41 -> zlen (order_bytes symbol price ts stale) = 41.
Proof.
  intros Hs Hst. apply enc_trading_order_length; [done|].
  apply snprintf_into_length; [lia|]. unfold zlen in *. rewrite length_drop. lia.
Qed.

Section Market.
Context {W B : Type} `{!KernelEnv W, !KernelLaws W, !SkbOps B, !SkbLaws B}.
Implicit Types s : kstate W B.

(** Decoding a message that lies in the buffer. *)
Lemma market_fields data :
  Forall is_byte data -> 24 <= zlen data ->
  exists symbol price, load_bytes 8 data 0 = Some symbol /\ load32 data 8 = Some price /\
    0 <= price < 2 ^ 32 /\ zlen symbol = 8.
Proof.
  intros Hb Hl. destruct (load_is_Some 4 data 8) as [price Hp]; [lia|lia|].
  assert (load_bytes 8 data 0 = Some (take 8 data)) as Hs.
  { unfold load_bytes. rewrite (proj2 (Z.leb_le (0 + 8) _)) by lia. done. }
  exists (take 8 data), price. split; [done|]. split; [done|].
  split; [by apply (load_range _ _ _ _ Hb Hp)|by apply load_bytes_length in Hs].
Qed.

(** An order was allocated and filled in. *)
Record order_made (s s' : kstate W B) (symbol : list Z) (price : Z) (bytes : list Z) : Prop := {
  om_frame : frame [FKlive] s s';
  om_live : klive s' = {[next_obj s]} ∪ klive s;
  om_next : next_obj s' = S (next_obj s);
  om_bytes : exists ts stale, in_width 64 ts /\ zlen stale = 41 /\
    bytes = order_bytes symbol price ts stale;
}.

Lemma process_market_data_run data len symbol price s :
  24 <= len < 2 ^ 31 -> load_bytes 8 data 0 = Some symbol -> load32 data 8 = Some price ->
  0 <= price ->
  (10000 <= price /\ process_market_data (Some data) len s = Done ((0, None, 0), s)) \/
  (price < 10000 /\ exists s',
     (logged s s' /\ (exists n w, fst (kmalloc_ok n w) = false) /\
      process_market_data (Some data) len s = Done ((- ENOMEM, None, 0), s')) \/
     (exists bytes, order_made s s' symbol price bytes /\
        process_market_data (Some data) len s = Done ((1, Some (next_obj s, bytes), 41), s'))).
Proof.
  intros Hlen Hs Hp H0. unfold process_market_data, sizeof_market_data.
  rewrite wrap_small by width_lia. rewrite (proj2 (Z.ltb_ge _ _)) by lia.
  rewrite (deref_bind _ _ _ _ Hp). destruct (Z.ltb_spec price 10000); [right|by left].
  split; [done|]. run_simpl. unfold sizeof_trading_order.
  destruct (kmalloc_run 41 s) as (w & [E|E]); rewrite (bind_run _ _ _ _ _ E).
  - destruct (log_and_return (str "Failed to allocate memory for order")
      (- ENOMEM, None : option (nat * list Z), 0) (set_world w s)) as (s' & E' & Hl).
    exists s'. left. split; [etransitivity; [apply logged_world|done]|]. split; [|done].
    exists 41, (world s). unfold kmalloc, ask, mbind, M_bind in E.
    by destruct (kmalloc_ok 41 (world s)) as [[] ?].
  - rewrite (deref_bind _ _ _ _ Hs). set (s1 := set_next_obj _ _).
    destruct (get_timestamp_run s1) as (ts & s' & Ets & Hl & Hts).
    rewrite (bind_run _ _ _ _ _ Ets). exists s'. right. eexists. split; [|done].
    destruct (logged_frame [] _ _ Hl FKlive) as [Ek En]; [set_solver|].
    rewrite (wrap_small 32 (price + 1)) by width_lia. split.
    + etransitivity; [|by apply logged_frame]. unfold s1. destruct s; solve_frame.
    + rewrite Ek. unfold s1. by destruct s.
    + rewrite En. unfold s1. by destruct s.
    + exists ts, (stale_bytes 41 (world s)). split; [done|]. split; [by apply stale_bytes_length|done].
Qed.

(** A payload shorter than a message is refused. *)
Lemma process_market_data_short data len s :
  0 < len < 24 ->
  exists s', process_market_data (Some data) len s = Done ((- EINVAL, None, 0), s') /\ logged s s'.
Proof.
  intros Hl. unfold process_market_data, sizeof_market_data.
  rewrite wrap_small by width_lia. rewrite (proj2 (Z.ltb_lt _ _)) by lia. apply log_and_return.
Qed.
End Market.

(** ** The application logic *)

(** The queueing discipline accepts every frame: the condition under which the
    send path does not hit the double free of [send_response_double_free]. *)
Class XmitAccepts (W : Type) `{!KernelEnv W} : Prop :=
  xmit_accepts bs (w : W) : fst (qdisc_xmit bs w) = NET_XMIT_SUCCESS.

(** What a response may change. *)
Abbreviation response_frame_fields :=
  [FPool; FSkbs; FDevRefs; FWire; FConfig; FKlive].

(** The unsolicited addressee: the configured target. *)
Definition target_reply (c : ull_config) : reply_fields :=
  Build_reply_fields (replicate 6 0) (replicate 6 0) (cfg_target_ip c) (cfg_target_port c) None.

Section Logic.
Context {W B : Type} `{!KernelEnv W, !KernelLaws W, !SkbOps B, !SkbLaws B}.
Implicit Types s : kstate W B.

(** Device references follow the frames sent: one is taken per response, and
    none is returned. *)
Definition refs_follow (s s' : kstate W B) : Prop :=
  dev_refs s' - zlen (wire s') = dev_refs s - zlen (wire s).

Lemma refs_follow_frame mods s s' :
  frame mods s s' -> FDevRefs ∉ mods -> FWire ∉ mods -> refs_follow s s'.
Proof.
  intros Hf H1 H2. unfold refs_follow.
  by rewrite (Hf FDevRefs H1 : _ = _), (Hf FWire H2 : _ = _).
Qed.

Lemma refs_follow_trans s1 s2 s3 : refs_follow s1 s2 -> refs_follow s2 s3 -> refs_follow s1 s3.
Proof. unfold refs_follow. lia. Qed.

(** The outcome of the application logic on one payload. *)
Record logic_done (s s' : kstate W B) (avail' : list nat) (r : Z) : Prop := {
  ld_frame : frame response_frame_fields s s';
  ld_live : klive s' = klive s;
  ld_next : (next_obj s <= next_obj s')%nat;
  ld_buffers : buffers_ok s' avail';
  ld_config : exists q, global_config s' = set_seq_num q (global_config s);
  ld_refs : refs_follow s s';
  ld_result : r <= 0;
}.

Lemma kfree_log_run order r s :
  order ∈ klive s ->
  exists s', (_ ← kfree order;
      _ ← (if r <? 0
           then nanonet_log_error (str "Failed to send response: " ++ fmt_d r)
           else mret tt);
      mret r) s = Done (r, s') /\ frame [FKlive] s s' /\
    klive s' = klive s ∖ {[order]} /\ next_obj s' = next_obj s /\
    wire s' = wire s /\ global_config s' = global_config s.
Proof.
  intros Hin. rewrite (bind_run _ _ _ _ _ (kfree_run _ _ Hin)).
  set (s1 := set_klive _ s).
  assert (frame [FKlive] s s1 /\ klive s1 = klive s ∖ {[order]} /\ next_obj s1 = next_obj s)
    as (Hf & Hk & Hn) by (unfold s1; destruct s; split; [solve_frame|done]).
  destruct (r <? 0).
  - destruct (log_and_return (str "Failed to send response: " ++ fmt_d r) r s1) as (s' & E & Hl).
    exists s'. split; [exact E|].
    destruct (logged_frame [] _ _ Hl FKlive) as [Ek En]; [set_solver|].
    assert (frame [FKlive] s s') as Hf' by (etransitivity; [exact Hf|by apply logged_frame]).
    split_and!; [done|congruence|congruence| |]; [apply (Hf' FWire)|apply (Hf' FConfig)]; set_solver.
  - exists s1. split; [done|]. split_and!; [done|done|done| |];
      [apply (Hf FWire)|apply (Hf FConfig)]; set_solver.
Qed.

(** What a response attempt puts on the wire. *)
Definition attempted (s s' : kstate W B) (avail : list nat) (bytes : list Z) (r : Z) : Prop :=
  let c := global_config s in
  (r = 0 /\ can_respond c /\ global_config s' = sent_config c (zlen bytes) /\
   wire s' = (response_frame c (target_reply c) bytes, NET_XMIT_SUCCESS) :: wire s) \/
  (r = - ENOMEM /\ global_config s' = c /\ wire s' = wire s /\
   (~ can_respond c \/ starved (W := W) avail \/ no_device (W := W) None)).

Lemma set_seq_num_same c : set_seq_num (cfg_seq_num c) c = c.
Proof. by destruct c. Qed.

Lemma order_fits c bytes : zlen bytes = 41 -> fits (W := W) c bytes.
Proof.
  intros E. pose proof net_ip_align_range. unfold fits, transport_len, POOL_SKB_SIZE.
  rewrite E. destruct (_ =? _); lia.
Qed.

Context `{!XmitAccepts W}.

(** Sending from a state with a well-formed pool. *)
Lemma send_order_run s avail bytes :
  buffers_ok s avail -> zlen bytes = 41 ->
  exists r s' avail', nanonet_send_response None (Some bytes) 41 s = Done (r, s') /\
    one_taken avail avail' /\ buffers_ok s' avail' /\
    frame [FPool; FSkbs; FDevRefs; FWire; FConfig] s s' /\ refs_follow s s' /\
    attempted s s' avail bytes r.
Proof.
  intros Hok Hl. destruct (decide (can_respond (global_config s))) as [Hc|Hc].
  - replace (nanonet_send_response None (Some bytes) 41 s)
      with (nanonet_send_response None (Some bytes) (zlen bytes) s) by (by rewrite Hl).
    destruct (send_response_run s avail None (target_reply (global_config s)) bytes Hok Hc)
      as (avail' & Ht & [(Hwhy & s' & E & Hpo & Hb)|(w & [(Hrc & s' & E & [Hfr Hbuf Hwire Hseq Hrefs])|[Hrc _]])]).
    + constructor.
    + by apply order_fits.
    + exists (- ENOMEM), s', avail'. split_and!; [done|done|done|eapply frame_weaken, Hpo; set_solver| |].
      { eapply refs_follow_frame; [exact Hpo|set_solver|set_solver]. }
      right. split_and!; [done|apply (Hpo FConfig); set_solver|apply (Hpo FWire); set_solver|by right].
    + exists 0, s', avail'. split_and!; [done|done|done|done| |by left].
      unfold refs_follow. rewrite Hwire, Hrefs, zlen_cons. simpl. lia.
    + exfalso. by rewrite xmit_accepts in Hrc.
  - destruct (create_response_refuses (global_config s) None bytes 41 s Hc) as (s' & E & Hlog).
    exists (- ENOMEM), s', avail. split_and!; [|by left| |by apply logged_frame| |].
    + unfold nanonet_send_response. run_simpl.
      rewrite (proj2 (Z.leb_gt 41 0)) by lia. by rewrite (bind_run _ _ _ _ _ E).
    + eapply (buffers_ok_frame []), Hok; [set_solver|set_solver|by apply logged_frame].
    + eapply (refs_follow_frame []); [by apply logged_frame|set_solver|set_solver].
    + right. split_and!; [done| | |by left];
        [apply (logged_frame [] _ _ Hlog FConfig)|apply (logged_frame [] _ _ Hlog FWire)]; set_solver.
Qed.

Lemma finish_response_run s s1 avail symbol price bytes :
  buffers_ok s avail -> kheap_ok s -> zlen symbol = 8 -> order_made s s1 symbol price bytes ->
  exists r s' avail', finish_response (next_obj s) bytes 41 s1 = Done (r, s') /\
    one_taken avail avail' /\ logic_done s s' avail' r /\ attempted s s' avail bytes r.
Proof.
  intros Hok Hk Hsym [Hf Hlive Hnext (ts & stale & Hts & Hst & ->)].
  pose proof (order_bytes_length symbol price ts stale Hsym Hst) as Hlen.
  set (bytes := order_bytes symbol price ts stale) in *.
  destruct (send_order_run s1 avail bytes) as (r & s2 & avail' & E & Ht & Hb & Hf2 & Hrf & Ha).
  { eapply (buffers_ok_frame [FKlive]), Hok; [set_solver|set_solver|done]. }
  { done. }
  destruct (Hf2 FKlive) as [Ek2 En2]; [set_solver|].
  destruct (kfree_log_run (next_obj s) r s2) as (s3 & E3 & Hf3 & Ek3 & En3 & Ew3 & Ec3).
  { rewrite Ek2, Hlive. set_solver. }
  assert (global_config s1 = global_config s) as Ec by (apply (Hf FConfig); set_solver).
  assert (wire s1 = wire s) as Ew by (apply (Hf FWire); set_solver).
  exists r, s3, avail'. split; [unfold finish_response; by rewrite (bind_run _ _ _ _ _ E)|].
  split; [done|]. unfold attempted in *. rewrite Ec3, Ew3, <- Ec, <- Ew. split; [|done].
  split.
  - etransitivity; [eapply frame_weaken, Hf; set_solver|].
    etransitivity; [eapply frame_weaken, Hf2; set_solver|]. eapply frame_weaken, Hf3; set_solver.
  - rewrite Ek3, Ek2, Hlive. by apply kheap_fresh_free.
  - lia.
  - eapply (buffers_ok_frame [FKlive]), Hb; [set_solver|set_solver|done].
  - rewrite Ec3, <- Ec. destruct Ha as [(_ & _ & -> & _)|(_ & -> & _)]; [by eexists|].
    eexists. symmetry. apply set_seq_num_same.
  - eapply refs_follow_trans; [eapply refs_follow_frame; [exact Hf|set_solver|set_solver]|].
    eapply refs_follow_trans; [exact Hrf|eapply refs_follow_frame; [exact Hf3|set_solver|set_solver]].
  - destruct Ha as [(-> & _)|(-> & _)]; [done|]. unfold ENOMEM. lia.
Qed.

Lemma logic_done_logged s s' avail r :
  logged s s' -> buffers_ok s avail -> r <= 0 -> logic_done s s' avail r.
Proof.
  intros Hl Hok Hr. pose proof (logged_frame [] _ _ Hl) as Hf.
  destruct (Hf FKlive) as [Ek En]; [set_solver|]. split; [by apply logged_frame|done|lia| | | |done].
  - eapply (buffers_ok_frame []), Hok; [set_solver|set_solver|done].
  - exists (cfg_seq_num (global_config s)). rewrite set_seq_num_same. apply (Hf FConfig). set_solver.
  - eapply (refs_follow_frame []); [done|set_solver|set_solver].
Qed.

(** The application logic on a payload that lies in the buffer, with a queueing
    discipline that accepts frames: every outcome. *)
Lemma app_logic_run s avail data len :
  buffers_ok s avail -> kheap_ok s -> Forall is_byte data -> len <= zlen data -> len < 2 ^ 31 ->
  exists r s' avail', nanonet_process_application_logic (Some data) len s = Done (r, s') /\
    one_taken avail avail' /\ logic_done s s' avail' r.
Proof.
  intros Hok Hk Hb Hl Hw. unfold nanonet_process_application_logic.
  destruct (Z.leb_spec len 0).
  { exists 0, s, avail. split; [done|]. split; [by left|]. by apply logic_done_logged. }
  run_simpl. destruct (_ =? 0).
  2:{ match goal with |- context [nanonet_log_error ?m] =>
        destruct (log_and_return m (- EINVAL) s) as (s' & E & Hlog) end.
      exists (- EINVAL), s', avail. split; [exact E|]. split; [by left|]. by apply logic_done_logged. }
  destruct (Z.lt_ge_cases len 24).
  { destruct (process_market_data_short data len s) as (s' & E & Hlog); [lia|].
    rewrite (bind_run _ _ _ _ _ E). exists (- EINVAL), s', avail. split; [done|].
    split; [by left|]. by apply logic_done_logged. }
  destruct (market_fields data Hb) as (symbol & price & Hs & Hp & Hpr & Hsym); [lia|].
  destruct (process_market_data_run data len symbol price s)
    as [[_ E]|[_ (s1 & [(Hlog & _ & E)|(bytes & Hm & E)])]];
    [lia|done|done|lia| | |]; rewrite (bind_run _ _ _ _ _ E).
  - exists 0, s, avail. split; [done|]. split; [by left|]. by apply logic_done_logged.
  - exists (- ENOMEM), s1, avail. split; [done|]. split; [by left|]. by apply logic_done_logged.
  - destruct (finish_response_run s s1 avail symbol price bytes Hok Hk Hsym Hm)
      as (r & s' & avail' & E' & Ht & Hd & _).
    exists r, s', avail'. split; [exact E'|done].
Qed.
End Logic.

(** ** Properties *)

(** A kernel in which the things a response needs succeed. *)
Class Cooperative (W : Type) `{!KernelEnv W} : Prop := {
  coop_xmit : XmitAccepts W;
  coop_kmalloc n (w : W) : fst (kmalloc_ok n w) = true;
  coop_device (w : W) : fst (find_device w) <> None;
}.
#[export] Existing Instance coop_xmit.

#[export] Instance calm_cooperative : Cooperative calm.
Proof. by split. Qed.

Section LogicTheorems.
Context {W B : Type} `{!KernelEnv W, !KernelLaws W, !SkbOps B, !SkbLaws B}.
Implicit Types s : kstate W B.


Lemma market_reached s data len :
  24 <= len -> cfg_application_logic_type (global_config s) = 0 ->
  forall a s1, process_market_data (Some data) len s = Done (a, s1) ->
  nanonet_process_application_logic (Some data) len s =
    (let '(result, response_data, response_len) := a in
     match response_data with
     | Some (order, bytes) =>
         if 0 <? result then finish_response order bytes response_len else mret result
     | None => mret result
     end) s1.
Proof.
  intros Hl Ht [[r rd] rl] s1 E. unfold nanonet_process_application_logic.
  rewrite (proj2 (Z.leb_gt _ _)) by lia. run_simpl. rewrite Ht. cbn [Z.eqb].
  by rewrite (bind_run _ _ _ _ _ E).
Qed.

(** C4: a market-data message of at least 24 bytes with a price below 10000,
    with a cooperative kernel, a buffer in the pool and a configuration that
    names a response address, produces exactly one frame: addressed to the
    configured target, and carrying a buy order for 100 units of the same symbol
    at the message's price plus one (no overflow), with the current time. The
    order object is freed, and the function returns 0. *)
Theorem market_order_sent `{!Cooperative W} s avail data len symbol price :
  let c := global_config s in
  buffers_ok s avail -> (2 <= length avail)%nat -> kheap_ok s ->
  can_respond c -> cfg_application_logic_type c = 0 ->
  Forall is_byte data -> 24 <= len <= zlen data -> len < 2 ^ 31 ->
  load_bytes 8 data 0 = Some symbol -> load32 data 8 = Some price -> price < 10000 ->
  exists s' ts stale, nanonet_process_application_logic (Some data) len s = Done (0, s') /\
    wire s' = (response_frame c (target_reply c) (order_bytes symbol price ts stale),
               NET_XMIT_SUCCESS) :: wire s /\
    in_width 64 ts /\ klive s' = klive s /\ global_config s' = sent_config c 41.
Proof.
  intros c Hok Hav Hk Hc Ht Hb Hlen Hw Hs Hp Hlt.
  pose proof (load_range _ _ _ _ Hb Hp) as Hpr. pose proof (load_bytes_length _ _ _ _ Hs) as Hsym.
  destruct (process_market_data_run data len symbol price s)
    as [[Hge _]|[_ (s1 & [(_ & (n & w & Hno) & _)|(bytes & Hm & E)])]]; try done; try lia.
  { by rewrite coop_kmalloc in Hno. }
  destruct (finish_response_run s s1 avail symbol price bytes Hok Hk Hsym Hm)
    as (r & s' & avail' & E' & _ & Hd & Ha).
  destruct Hm as [_ _ _ (ts & stale & Hts & Hst & ->)].
  exists s', ts, stale. rewrite (market_reached s data len ltac:(lia) Ht _ _ E).
  cbv beta iota. change (0 <? 1) with true. cbv iota. rewrite E'. destruct Ha as [(-> & _ & Hcfg & Hwire)|(_ & _ & _ & Hno)].
  - rewrite order_bytes_length in Hcfg by done. destruct Hd. done.
  - exfalso. destruct Hno as [?|[[? _]|[w Hw']]]; [done|lia|by apply coop_device in Hw'].
Qed.

Lemma high_price_run s data len price :
  cfg_application_logic_type (global_config s) = 0 ->
  24 <= len < 2 ^ 31 -> load32 data 8 = Some price -> 10000 <= price ->
  nanonet_process_application_logic (Some data) len s = Done (0, s).
Proof.
  intros Ht Hlen Hp Hge.
  rewrite (market_reached s data len ltac:(lia) Ht (0, None, 0) s); [done|].
  unfold process_market_data, sizeof_market_data.
  rewrite wrap_small by width_lia. rewrite (proj2 (Z.ltb_ge _ _)) by lia.
  rewrite (deref_bind _ _ _ _ Hp). by rewrite (proj2 (Z.ltb_ge _ _)) by lia.
Qed.

(** C32: a message with a price of 10000 or more is answered with nothing: the
    function returns 0 and the state is unchanged. *)
Theorem market_no_order s data len price :
  cfg_application_logic_type (global_config s) = 0 ->
  24 <= len < 2 ^ 31 -> load32 data 8 = Some price -> 10000 <= price ->
  nanonet_process_application_logic (Some data) len s = Done (0, s).
Proof. apply high_price_run. Qed.

Lemma send_response_nonpos orig data len s r s' :
  nanonet_send_response orig data len s = Done (r, s') -> r <= 0.
Proof.
  intros E. unfold nanonet_send_response in E. run_inv E. destruct data as [data|]; run_inv E.
  2:{ unfold EINVAL. lia. }
  destruct (len <=? 0); run_inv E; [unfold EINVAL; lia|].
  destruct x; run_inv E; [|unfold ENOMEM; lia].
  destruct (negb _); run_inv E; unfold EIO; lia.
Qed.

Lemma market_none_nonpos payload len s r l s' :
  process_market_data payload len s = Done ((r, None, l), s') -> r <= 0.
Proof.
  unfold process_market_data, EINVAL, ENOMEM. intros E.
  assert (forall a (b : option (nat * list Z)) (d : Z) (t : kstate W B),
    (mret (a, b, d) : M W B _) t = Done ((r, None, l), s') ->
    a <= 0 \/ b <> None -> r <= 0) as Hret.
  { intros a b d t [= -> -> -> ->] [?|?]; done. }
  destruct payload as [data|].
  2:{ apply bind_Done in E as (? & ? & _ & E). eapply Hret; [exact E|lia]. }
  destruct (_ <? sizeof_market_data).
  { apply bind_Done in E as (? & ? & _ & E). eapply Hret; [exact E|lia]. }
  apply bind_Done in E as (price & ? & _ & E). destruct (price <? 10000).
  2:{ eapply Hret; [exact E|lia]. }
  apply bind_Done in E as (w & ? & _ & E). apply bind_Done in E as ([order|] & ? & _ & E).
  - do 2 (apply bind_Done in E as (? & ? & _ & E)). eapply Hret; [exact E|by right].
  - apply bind_Done in E as (? & ? & _ & E). eapply Hret; [exact E|lia].
Qed.

(** C30: the application logic never returns a positive value. Its caller counts
    a response only on a positive result, so no response is ever counted. *)
Theorem app_logic_never_positive payload len s r s' :
  nanonet_process_application_logic payload len s = Done (r, s') -> r <= 0.
Proof.
  unfold nanonet_process_application_logic. intros E.
  destruct payload as [data|]; [|by run_inv E]. destruct (len <=? 0); [by run_inv E|].
  run_inv E. destruct (_ =? 0); run_inv E; [|unfold EINVAL; lia].
  destruct x as [[result rd] rl]. destruct rd as [[order bytes]|].
  - destruct (0 <? result) eqn:Hr; [|breflect; by run_inv E]. unfold finish_response in E. run_inv E.
    by eapply send_response_nonpos.
  - run_inv E. by eapply market_none_nonpos.
Qed.
End LogicTheorems.

(** C31: with a clock between the years 2001 and 2286 the order id is [ORD] and
    the leading twelve digits of the timestamp, NUL-terminated, with no stale
    heap byte behind it. The sixteen-byte field cuts off the last seven digits,
    so two orders made within the same ten milliseconds carry the same id. *)
Theorem clOrdId_truncated ts stale :
  10 ^ 18 <= ts < 10 ^ 19 -> zlen stale = 16 ->
  clOrdId ts stale = str "ORD" ++ fmt_u (ts / 10 ^ 7) ++ [0].
Proof.
  intros Hts Hst. unfold clOrdId, snprintf_into, fmt_u, snprintf.
  destruct (dec_digits_prefix 7 13 ts) as (tl & E & Htl); [simpl; lia|].
  change (13 + 7)%nat with 20%nat in E. change (Z.of_nat 7) with 7 in E.
  assert (forall f, (11 < f)%nat -> length (dec_digits f (ts / 10 ^ 7)) = 12%nat) as Hlen.
  { intros f Hf. apply dec_digits_length; [done|]. simpl. Z.div_mod_to_equations; lia. }
  assert (dec_digits 13 (ts / 10 ^ 7) = dec_digits 20 (ts / 10 ^ 7)) as Efuel.
  { apply (dec_digits_fuel 11); [lia|lia|]. simpl. Z.div_mod_to_equations; lia. }
  rewrite E, app_assoc, take_app_le, take_ge; rewrite ?length_app, ?Hlen by lia; try (simpl; lia).
  rewrite drop_ge by (unfold zlen in Hst; simpl; lia). by rewrite Efuel, <- app_assoc.
Qed.

(** ** Runs *)

Definition market_config : ull_config :=
  Build_ull_config 1 (le_decode [192; 168; 1; 100]) (htons 8080) IPPROTO_UDP
    (le_decode [192; 168; 1; 1]) (htons 9090) 0 0 0 0.

Lemma sample_market_bytes : Forall is_byte (enc_market_data sample_market).
Proof. by repeat constructor. Qed.

Lemma ready_kheap {W B} `{!KernelEnv W} c (w : W) s :
  pool_only (set_config c (loaded (B := B) w)) s -> kheap_ok s.
Proof.
  intros Ho a Ha. destruct (Ho FKlive) as [Ek _]; [set_solver|]. rewrite Ek in Ha.
  by apply elem_of_empty in Ha.
Qed.

Lemma market_order_sent_witness :
  exists (s s' : kstate calm lskb), global_config s = market_config /\
    nanonet_process_application_logic (Some (enc_market_data sample_market)) 24 s = Done (0, s') /\
    klive s' = klive s.
Proof.
  destruct (ready_state market_config Calm) as (s & avail & _ & Ho & Hl & Hok);
    [vm_compute; reflexivity|].
  assert (global_config s = market_config) as Ec by (apply (Ho FConfig); set_solver).
  destruct (market_order_sent s avail (enc_market_data sample_market) 24 (str "AAPL    ") 9999)
    as (s' & ts & stale & E & _ & _ & Hk & _).
  - exact Hok.
  - rewrite Hl. lia.
  - exact (ready_kheap _ _ _ Ho).
  - rewrite Ec. split; [discriminate|]. split; [discriminate|]. right. reflexivity.
  - rewrite Ec. reflexivity.
  - exact sample_market_bytes.
  - vm_compute. split; discriminate.
  - reflexivity.
  - reflexivity.
  - reflexivity.
  - reflexivity.
  - exists s, s'. split; [exact Ec|]. split; [exact E|exact Hk].
Defined.

Lemma market_no_order_witness :
  nanonet_process_application_logic
    (Some (enc_market_data (Build_market_data (str "AAPL    ") 10000 1000 0))) 24 sim_loaded =
    Done (0, sim_loaded).
Proof.
  apply (market_no_order sim_loaded _ 24 10000); [reflexivity|lia|reflexivity|lia].
Defined.

(** Not even when an order was sent. *)
Definition market_ready : kstate sim lskb :=
  state_of (nanonet_init_response_pool (set_config market_config sim_loaded)) sim_loaded.

Lemma app_logic_never_positive_witness :
  exists r s', nanonet_process_application_logic (Some (enc_market_data sample_market)) 24
      market_ready = Done (r, s') /\ zlen (wire s') = 1 /\ r <= 0.
Proof.
  destruct (nanonet_process_application_logic (Some (enc_market_data sample_market)) 24 market_ready)
    as [[r s']|c] eqn:E.
  - exists r, s'. split; [reflexivity|]. split; [|exact (app_logic_never_positive _ _ _ _ _ E)].
    apply (f_equal (fun o => zlen (wire (state_of o market_ready)))) in E.
    change (zlen (wire s') = 1) with (zlen (wire (state_of (Done (r, s')) market_ready)) = 1).
    rewrite <- E. vm_compute. reflexivity.
  - exfalso. apply (f_equal result_of) in E. vm_compute in E. discriminate E.
Defined.

Lemma clOrdId_truncated_witness :
  clOrdId 1700000000123456789 (replicate 16 0xAA) = str "ORD170000000012" ++ [0].
Proof.
  rewrite (clOrdId_truncated 1700000000123456789 (replicate 16 0xAA));
    [reflexivity|lia|reflexivity].
Defined.
