(* ===== verification/ControlInterface.v ===== *)
(** * control_interface.c: /dev/nanonet, its ioctls, and /proc/nanonet

    [struct ull_config] is not packed: the layout below is that of the x86-64
    ABI, with padding after [enabled], [protocol], [response_port] and
    [multicast]. Padding bytes carry no information; they are written as
    zero. *)

From S2P Require Import Prelude Headers Kernel Sim Debug MicroStack Security.

(** ** Command numbers: [_IOC(dir, type, nr, size)] *)

Definition _IOC (dir type nr size : Z) : Z :=
  Z.lor (Z.lor (Z.shiftl dir 30) (Z.shiftl size 16)) (Z.lor (Z.shiftl type 8) nr).
Definition _IO (type nr : Z) : Z := _IOC 0 type nr 0.
Definition _IOW (type nr size : Z) : Z := _IOC 1 type nr size.
Definition _IOR (type nr size : Z) : Z := _IOC 2 type nr size.

Definition sizeof_config : Z := 32.
Definition sizeof_stats : Z := 80.

Definition NANONET_IOC_MAGIC : Z := 117.       (* 'u' *)
Definition NANONET_IOC_SET_CONFIG : Z := _IOW NANONET_IOC_MAGIC 1 sizeof_config.
Definition NANONET_IOC_GET_CONFIG : Z := _IOR NANONET_IOC_MAGIC 2 sizeof_config.
Definition NANONET_IOC_GET_STATS : Z := _IOR NANONET_IOC_MAGIC 3 sizeof_stats.
Definition NANONET_IOC_RESET_STATS : Z := _IO NANONET_IOC_MAGIC 4.
Definition NANONET_IOC_CLEAR_CONNECTIONS : Z := _IO NANONET_IOC_MAGIC 5.

(** ** The structures in memory *)

Definition enc_config (c : ull_config) : list Z :=
  le_encode 1 (cfg_enabled_byte c) ++ [0; 0; 0] ++
  le_encode 4 (cfg_target_ip c) ++ le_encode 2 (cfg_target_port c) ++
  le_encode 1 (cfg_protocol c) ++ [0] ++
  le_encode 4 (cfg_response_ip c) ++ le_encode 2 (cfg_response_port c) ++ [0; 0] ++
  le_encode 4 (cfg_seq_num c) ++ le_encode 1 (cfg_application_logic_type c) ++
  le_encode 1 (cfg_multicast_byte c) ++ [0; 0] ++ le_encode 4 (cfg_multicast_group c).

Definition dec_config (m : list Z) : option ull_config :=
  enabled ← load8 m 0;
  target_ip ← load32 m 4;
  target_port ← load16 m 8;
  protocol ← load8 m 10;
  response_ip ← load32 m 12;
  response_port ← load16 m 16;
  seq_num ← load32 m 20;
  application_logic_type ← load8 m 24;
  multicast ← load8 m 25;
  multicast_group ← load32 m 28;
  Some (Build_ull_config enabled target_ip target_port protocol response_ip response_port
          seq_num application_logic_type multicast multicast_group).

Definition enc_stats (st : ull_stats) : list Z :=
  le_encode 8 (packets_processed st) ++ le_encode 8 (packets_bypassed st) ++
  le_encode 8 (responses_sent st) ++ le_encode 8 (errors st) ++
  le_encode 8 (last_process_time_ns st) ++ le_encode 8 (min_process_time_ns st) ++
  le_encode 8 (max_process_time_ns st) ++ le_encode 8 (avg_process_time_ns st) ++
  le_encode 8 (connections_active st) ++ le_encode 8 (connections_dropped st).

(** ** The code *)

(** [%pI4]. *)
Definition fmt_pI4 (a : Z) : list Z :=
  match le_encode 4 a with
  | [b0; b1; b2; b3] => fmt_u b0 ++ str "." ++ fmt_u b1 ++ str "." ++ fmt_u b2 ++ str "." ++ fmt_u b3
  | _ => []
  end.

Section ControlInterface.
Context {W B : Type} `{!KernelEnv W}.
Local Abbreviation M := (M W B).

Definition nanonet_open : M Z := nanonet_check_permissions.

Definition nanonet_release : M Z := mret 0.

(** [copy_from_user] writes [global_config] in place, whether or not all of the
    bytes could be copied. *)
Definition ioctl_set_config (arg : Z) : M Z :=
  '(bytes, missing) ← ask (copy_from_user arg sizeof_config);
  config ← deref (dec_config bytes);
  _ ← modify (set_config config);
  if negb (missing =? 0) then
    _ ← nanonet_log_error (str "Failed to copy config from user");
    mret (- EFAULT)
  else
  config ← gets global_config;
  ret ← nanonet_validate_config config;
  if ret <? 0 then
    _ ← nanonet_log_error (str "Invalid configuration: " ++ fmt_d ret);
    mret ret
  else
  _ ← printk (str "NANONET: Configuration updated" ++ newline);
  mret ret.

Definition ioctl_get_config (arg : Z) : M Z :=
  config ← gets global_config;
  missing ← copy_out arg (enc_config config);
  if negb (missing =? 0) then
    _ ← nanonet_log_error (str "Failed to copy config to user");
    mret (- EFAULT)
  else mret 0.

Definition ioctl_get_stats (arg : Z) : M Z :=
  stats ← gets global_stats;
  missing ← copy_out arg (enc_stats stats);
  if negb (missing =? 0) then
    _ ← nanonet_log_error (str "Failed to copy stats to user");
    mret (- EFAULT)
  else mret 0.

(** Every counter to zero, [min_process_time_ns] to [UINT64_MAX]. *)
Definition ioctl_reset_stats : M Z :=
  _ ← modify_stats (fun _ => Build_ull_stats 0 0 0 0 0 UINT64_MAX 0 0 0 0);
  _ ← printk (str "NANONET: Statistics reset" ++ newline);
  mret 0.

Definition ioctl_clear_connections : M Z :=
  _ ← nanonet_clear_tcp_connections;
  _ ← printk (str "NANONET: TCP connections cleared" ++ newline);
  mret 0.

Definition nanonet_ioctl (cmd arg : Z) : M Z :=
  if cmd =? NANONET_IOC_SET_CONFIG then ioctl_set_config arg
  else if cmd =? NANONET_IOC_GET_CONFIG then ioctl_get_config arg
  else if cmd =? NANONET_IOC_GET_STATS then ioctl_get_stats arg
  else if cmd =? NANONET_IOC_RESET_STATS then ioctl_reset_stats
  else if cmd =? NANONET_IOC_CLEAR_CONNECTIONS then ioctl_clear_connections
  else
    _ ← nanonet_log_error (str "Invalid IOCTL command: " ++ fmt_u cmd);
    mret (- ENOTTY).

(** The text of /proc/nanonet. *)
Definition nanonet_proc_show : M (list Z) :=
  c ← gets global_config;
  st ← gets global_stats;
  let line name value := str name ++ value ++ newline in
  let yesno (b : bool) := str (if b then "Yes" else "No") in
  mret (line "NanoNet Module Status" [] ++
    line "========================================" [] ++
    line "Enabled: " (yesno (cfg_enabled c)) ++
    line "Target IP: " (fmt_pI4 (cfg_target_ip c)) ++
    line "Target Port: " (fmt_u (ntohs (cfg_target_port c))) ++
    line "Protocol: " (str (if cfg_protocol c =? IPPROTO_TCP then "TCP" else "UDP")) ++
    line "Multicast: " (yesno (cfg_multicast c)) ++
    (if cfg_multicast c then line "Multicast Group: " (fmt_pI4 (cfg_multicast_group c)) else []) ++
    newline ++ line "Statistics:" [] ++
    line "Packets Processed: " (fmt_u (u64 (packets_processed st))) ++
    line "Packets Bypassed: " (fmt_u (u64 (packets_bypassed st))) ++
    line "Responses Sent: " (fmt_u (u64 (responses_sent st))) ++
    line "Errors: " (fmt_u (u64 (errors st))) ++
    line "Active Connections: " (fmt_u (u64 (connections_active st))) ++
    line "Dropped Connections: " (fmt_u (u64 (connections_dropped st))) ++
    line "Min Process Time: " (fmt_u (min_process_time_ns st) ++ str " ns") ++
    line "Max Process Time: " (fmt_u (max_process_time_ns st) ++ str " ns") ++
    line "Avg Process Time: " (fmt_u (avg_process_time_ns st) ++ str " ns")).

(** Registration, in the order of the code; every failure undoes the steps
    before it. [IS_ERR] is true of an error pointer only. *)
Definition control_proc : M Z :=
  p ← ask (register_ptr RProc);
  match p with
  | PNull =>
      _ ← release RDevice;
      _ ← release RClass;
      _ ← release RCdev;
      _ ← release RChrdev;
      _ ← printk (str "NANONET: Failed to create proc entry" ++ newline);
      mret (- ENOMEM)
  | _ =>
      _ ← match p with PValid => acquire RProc | _ => mret tt end;
      _ ← printk (str "NANONET: Control interface initialized" ++ newline);
      mret 0
  end.

Definition control_device : M Z :=
  p ← ask (register_ptr RDevice);
  match p with
  | PErr e =>
      _ ← release RClass;
      _ ← release RCdev;
      _ ← release RChrdev;
      mret e
  | _ =>
      _ ← match p with PValid => acquire RDevice | _ => mret tt end;
      control_proc
  end.

Definition control_class : M Z :=
  p ← ask (register_ptr RClass);
  match p with
  | PErr e =>
      _ ← release RCdev;
      _ ← release RChrdev;
      mret e
  | _ =>
      _ ← match p with PValid => acquire RClass | _ => mret tt end;
      control_device
  end.

Definition nanonet_control_init : M Z :=
  ret ← ask (register_int RChrdev);
  if ret <? 0 then
    _ ← printk (str "NANONET: Failed to allocate device number" ++ newline);
    mret ret
  else
  _ ← acquire RChrdev;
  ret ← ask (register_int RCdev);
  if ret <? 0 then
    _ ← release RChrdev;
    _ ← printk (str "NANONET: Failed to add character device" ++ newline);
    mret ret
  else
  _ ← acquire RCdev;
  control_class.

Definition nanonet_control_cleanup : M unit :=
  _ ← release RProc;
  _ ← release RDevice;
  _ ← release RClass;
  _ ← release RCdev;
  _ ← release RChrdev;
  printk (str "NANONET: Control interface cleaned up" ++ newline).
End ControlInterface.

(** ** The configuration's memory image *)

(** Every field within its C type. *)
Record config_typed (c : ull_config) : Prop := {
  ct_enabled : in_width 8 (cfg_enabled_byte c);
  ct_target_ip : in_width 32 (cfg_target_ip c);
  ct_target_port : in_width 16 (cfg_target_port c);
  ct_protocol : in_width 8 (cfg_protocol c);
  ct_response_ip : in_width 32 (cfg_response_ip c);
  ct_response_port : in_width 16 (cfg_response_port c);
  ct_seq_num : in_width 32 (cfg_seq_num c);
  ct_logic : in_width 8 (cfg_application_logic_type c);
  ct_multicast : in_width 8 (cfg_multicast_byte c);
  ct_group : in_width 32 (cfg_multicast_group c);
}.

Lemma le_roundtrip n x : in_width (8 * Z.of_nat n) x -> le_decode (le_encode n x) = x.
Proof.
  intros Hx. rewrite le_decode_encode, Z.mod_small; [done|].
  unfold in_width in Hx. rewrite Z.pow_mul_r in Hx by lia. done.
Qed.

(** The offsets of [struct ull_config] that belong to no member. *)
Definition config_padding : list nat := [1; 2; 3; 11; 18; 19; 26; 27]%nat.

(** Storing bytes as a configuration and reading them back restores every byte
    outside the padding. *)
Lemma enc_dec_config m c :
  Forall is_byte m -> zlen m = 32 -> dec_config m = Some c ->
  zlen (enc_config c) = 32 /\ forall i, i ∉ config_padding -> enc_config c !! i = m !! i.
Proof.
  intros Hb Hl Hd. split; [reflexivity|].
  do 32 (destruct m as [|? m]; [discriminate Hl|]). destruct m as [|? m].
  2:{ exfalso. unfold zlen in Hl. simpl in Hl. lia. }
  assert (forall a, is_byte a -> le_encode 1 (a + 256 * 0) = [a]) as H1.
  { intros a Ha. apply (le_encode_decode [a]). by repeat (apply Forall_cons; split; [assumption|]). }
  assert (forall a b, is_byte a -> is_byte b -> le_encode 2 (a + 256 * (b + 256 * 0)) = [a; b]) as H2.
  { intros a b Ha Hb'. apply (le_encode_decode [a; b]). by repeat (apply Forall_cons; split; [assumption|]). }
  assert (forall a b c d, is_byte a -> is_byte b -> is_byte c -> is_byte d ->
    le_encode 4 (a + 256 * (b + 256 * (c + 256 * (d + 256 * 0)))) = [a; b; c; d]) as H4.
  { intros a b c' d Ha Hb' Hc' Hd'. apply (le_encode_decode [a; b; c'; d]). by repeat (apply Forall_cons; split; [assumption|]). }
  repeat match goal with H : Forall _ (_ :: _) |- _ => apply Forall_cons in H as [? H] end.
  injection Hd as <-. unfold enc_config. cbn [cfg_enabled_byte cfg_target_ip cfg_target_port
    cfg_protocol cfg_response_ip cfg_response_port cfg_seq_num cfg_application_logic_type
    cfg_multicast_byte cfg_multicast_group].
  rewrite !H1, !H2, !H4 by assumption.
  intros i Hi. unfold config_padding in Hi.
  do 32 (destruct i as [|i]; [first [reflexivity|by exfalso; apply Hi; repeat constructor]|]). reflexivity.
Qed.

(** Any 32 bytes are a configuration. *)
Lemma dec_config_total m :
  Forall is_byte m -> zlen m = 32 -> exists c, dec_config m = Some c /\ config_typed c.
Proof.
  intros Hb Hl.
  assert (forall n off, 0 <= off -> off + Z.of_nat n <= 32 ->
    exists v, load n m off = Some v /\ in_width (8 * Z.of_nat n) v) as Hload.
  { intros n off H1 H2. destruct (load_is_Some n m off) as [v Hv]; [lia|lia|].
    exists v. split; [done|]. unfold in_width. rewrite Z.pow_mul_r by lia.
    by apply (load_range _ _ _ _ Hb Hv). }
  unfold dec_config.
  destruct (Hload 1%nat 0) as (v0 & -> & ?); [lia|lia|].
  destruct (Hload 4%nat 4) as (v1 & -> & ?); [lia|lia|].
  destruct (Hload 2%nat 8) as (v2 & -> & ?); [lia|lia|].
  destruct (Hload 1%nat 10) as (v3 & -> & ?); [lia|lia|].
  destruct (Hload 4%nat 12) as (v4 & -> & ?); [lia|lia|].
  destruct (Hload 2%nat 16) as (v5 & -> & ?); [lia|lia|].
  destruct (Hload 4%nat 20) as (v6 & -> & ?); [lia|lia|].
  destruct (Hload 1%nat 24) as (v7 & -> & ?); [lia|lia|].
  destruct (Hload 1%nat 25) as (v8 & -> & ?); [lia|lia|].
  destruct (Hload 4%nat 28) as (v9 & -> & ?); [lia|lia|].
  eexists. split; [reflexivity|]. split; assumption.
Qed.

(** ** The ioctls *)

Section Ioctls.
Context {W B : Type} `{!KernelEnv W, !KernelLaws W}.
Implicit Types s : kstate W B.

Lemma printk_return {A} msg (a : A) s :
  exists s', (_ ← printk msg; mret a) s = Done (a, s') /\ logged s s'.
Proof. eexists. split; [done|]. by eapply logged_printk. Qed.

Lemma ioctl_set_config_run arg s :
  let '((bytes, missing), _) := copy_from_user arg sizeof_config (world s) in
  exists c r s', dec_config bytes = Some c /\ config_typed c /\
    ioctl_set_config arg s = Done (r, s') /\ logged (set_config c s) s' /\
    r = if missing =? 0 then if decide (valid_config c) then 0 else - EINVAL else - EFAULT.
Proof.
  pose proof (copy_from_user_fills arg sizeof_config (world s)) as Hc.
  destruct (copy_from_user arg sizeof_config (world s)) as [[bytes missing] w] eqn:E.
  destruct Hc as [Hlen Hb]; [done|]. simpl in Hlen, Hb.
  destruct (dec_config_total bytes Hb Hlen) as (c & Ec & Ht). exists c.
  assert (ask (copy_from_user arg sizeof_config) s = Done ((bytes, missing), set_world w s)) as Ea
    by (unfold ask; by rewrite E).
  unfold ioctl_set_config. rewrite (bind_run _ _ _ _ _ Ea), (deref_bind _ _ _ _ Ec). run_simpl.
  set (s1 := set_config c (set_world w s)).
  assert (logged (set_config c s) s1) as Hl1.
  { exists (debug_stats s), (klog s), w. unfold s1. by destruct s. }
  assert (global_config s1 = c) as Eg by (unfold s1; by destruct s).
  destruct (missing =? 0); cbn [negb].
  - run_simpl. rewrite Eg. destruct (validate_config_run c s1) as (s2 & E2 & Hl2 & _).
    rewrite (bind_run _ _ _ _ _ E2). destruct (decide (valid_config c)).
    + destruct (printk_return (str "NANONET: Configuration updated" ++ newline) 0 s2) as (s3 & E3 & Hl3).
      exists 0, s3. split_and!; [done|done|exact E3|by do 2 (etransitivity; [eassumption|])|done].
    + destruct (log_and_return (str "Invalid configuration: " ++ fmt_d (- EINVAL)) (- EINVAL) s2)
        as (s3 & E3 & Hl3).
      exists (- EINVAL), s3. split_and!; [done|done|exact E3|by do 2 (etransitivity; [eassumption|])|done].
  - destruct (log_and_return (str "Failed to copy config from user") (- EFAULT) s1) as (s3 & E3 & Hl3).
    exists (- EFAULT), s3. split_and!; [done|done|exact E3|by etransitivity|done].
Qed.

(** C25: [NANONET_IOC_SET_CONFIG] installs whatever the user supplied before it
    validates: the result is 0 exactly for a valid configuration, [-EINVAL] for
    an invalid one and [-EFAULT] for a fault, and in all three cases the new
    configuration is in force afterwards (after a fault with zeroes for the
    bytes that were not copied). *)
Theorem set_config_installs arg s :
  let '((bytes, missing), _) := copy_from_user arg sizeof_config (world s) in
  exists c r s', dec_config bytes = Some c /\
    nanonet_ioctl NANONET_IOC_SET_CONFIG arg s = Done (r, s') /\
    global_config s' = c /\ frame [FConfig] s s' /\
    r = if missing =? 0 then if decide (valid_config c) then 0 else - EINVAL else - EFAULT.
Proof.
  pose proof (ioctl_set_config_run arg s) as H.
  destruct (copy_from_user arg sizeof_config (world s)) as [[bytes missing] w].
  destruct H as (c & r & s' & Ec & _ & E & Hl & Hr). exists c, r, s'.
  split_and!; [done|done| | |done].
  - etransitivity; [apply (logged_frame [] _ _ Hl FConfig); set_solver|by destruct s].
  - etransitivity; [|by apply logged_frame]. destruct s; solve_frame.
Qed.

(** The effect of copying [image] to the user's address: the bytes the kernel
    could copy are there, and the result says whether these are all. *)
Definition get_effect (image : list Z) (arg : Z) s s' (r : Z) : Prop :=
  let missing := fst (copy_to_user arg image (world s)) in
  r = (if missing =? 0 then 0 else - EFAULT) /\
  logged (set_user_writes
    ((arg, take (Z.to_nat (zlen image - missing)) image) :: user_writes s) s) s'.

Lemma ioctl_get_run {A} (f : kstate W B -> A) (enc : A -> list Z) arg msg s :
  exists r s', (x ← gets f;
     missing ← copy_out arg (enc x);
     if negb (missing =? 0) then _ ← nanonet_log_error msg; mret (- EFAULT) else mret 0) s
     = Done (r, s') /\ get_effect (enc (f s)) arg s s' r.
Proof.
  unfold copy_out, get_effect. run_simpl. rewrite (bind_run _ _ _ _ _ (ask_eq _ s)). run_simpl.
  set (missing := fst (copy_to_user arg (enc (f s)) (world s))).
  match goal with |- context [(if negb _ then _ else _) ?t] => set (s1 := t) end.
  assert (logged (set_user_writes ((arg, take (Z.to_nat (zlen (enc (f s)) - missing)) (enc (f s)))
    :: user_writes s) s) s1) as Hl1.
  { eexists (debug_stats s), (klog s), _. unfold s1. by destruct s. }
  clearbody s1. destruct (missing =? 0); cbn [negb]; [by exists 0, s1|].
  destruct (log_and_return msg (- EFAULT) s1) as (s' & E & Hl).
  exists (- EFAULT), s'. split; [done|]. split; [done|by etransitivity].
Qed.

Definition is_ioctl (cmd : Z) : bool :=
  (cmd =? NANONET_IOC_SET_CONFIG) || (cmd =? NANONET_IOC_GET_CONFIG) ||
  (cmd =? NANONET_IOC_GET_STATS) || (cmd =? NANONET_IOC_RESET_STATS) ||
  (cmd =? NANONET_IOC_CLEAR_CONNECTIONS).

Lemma ioctl_unknown cmd arg s :
  is_ioctl cmd = false ->
  exists s', nanonet_ioctl cmd arg s = Done (- ENOTTY, s') /\ logged s s'.
Proof.
  unfold is_ioctl, nanonet_ioctl. intros H.
  repeat (apply orb_false_iff in H as [H ?]).
  repeat match goal with E : (_ =? _) = false |- _ => rewrite E; clear E end.
  apply log_and_return.
Qed.

(** What an ioctl may change. *)
Abbreviation ioctl_frame := (frame [FConfig; FStats; FConns; FKlive; FUser]).

Lemma reset_run s :
  exists s', ioctl_reset_stats s = Done (0, s') /\ logged (set_stats global_stats_init s) s'.
Proof. eexists. split; [done|]. by eapply logged_printk. Qed.

Lemma clear_ioctl_run s :
  conns_ok s ->
  exists s', ioctl_clear_connections s = Done (0, s') /\ frame [FConns; FStats; FKlive] s s' /\
    conns_ok s' /\ connection_hash s' = connection_hash_zero /\
    klive s' = klive s ∖ list_to_set (conn_addr <$> concat (connection_hash s)) /\
    global_stats s' = drop_conns (length (concat (connection_hash s))) (global_stats s).
Proof.
  intros Hok. destruct (clear_run s Hok) as (s1 & E & Hf & Hok1 & Ec & El & Es).
  unfold ioctl_clear_connections. rewrite (bind_run _ _ _ _ _ E).
  destruct (printk_return (str "NANONET: TCP connections cleared" ++ newline) 0 s1) as (s2 & E2 & Hl).
  exists s2. split; [exact E2|]. pose proof (logged_frame [] _ _ Hl) as Hf2.
  destruct (Hf2 FKlive) as [Ek _]; [set_solver|].
  split_and!.
  - etransitivity; [exact Hf|by apply logged_frame].
  - eapply conns_ok_frame; [exact Hf2|set_solver|set_solver|done].
  - etransitivity; [apply (Hf2 FConns); set_solver|done].
  - by rewrite Ek.
  - etransitivity; [apply (Hf2 FStats); set_solver|done].
Qed.

Lemma ioctl_cases (P : Z -> Prop) cmd :
  P NANONET_IOC_SET_CONFIG -> P NANONET_IOC_GET_CONFIG -> P NANONET_IOC_GET_STATS ->
  P NANONET_IOC_RESET_STATS -> P NANONET_IOC_CLEAR_CONNECTIONS ->
  (is_ioctl cmd = false -> P cmd) -> P cmd.
Proof.
  intros. destruct (is_ioctl cmd) eqn:E; [|auto]. unfold is_ioctl in E.
  rewrite !orb_true_iff, !Z.eqb_eq in E. by intuition subst.
Qed.

(** What each command does, given that it ran. [SET_CONFIG] decodes the bytes
    that [copy_from_user] delivers; the two [GET] commands copy out the image of
    what they name. *)
Definition ioctl_effect (cmd arg : Z) (s s' : kstate W B) (r : Z) : Prop :=
  if cmd =? NANONET_IOC_SET_CONFIG then
    let '((bytes, missing), _) := copy_from_user arg 32 (world s) in
    exists c, dec_config bytes = Some c /\ config_typed c /\ logged (set_config c s) s' /\
      r = if missing =? 0 then if decide (valid_config c) then 0 else - EINVAL else - EFAULT
  else if cmd =? NANONET_IOC_GET_CONFIG then
    get_effect (enc_config (global_config s)) arg s s' r
  else if cmd =? NANONET_IOC_GET_STATS then
    get_effect (enc_stats (global_stats s)) arg s s' r
  else if cmd =? NANONET_IOC_RESET_STATS then
    r = 0 /\ logged (set_stats global_stats_init s) s'
  else if cmd =? NANONET_IOC_CLEAR_CONNECTIONS then
    r = 0 /\ connection_hash s' = connection_hash_zero /\
    frame [FConns; FStats; FKlive] s s' /\
    klive s' = klive s ∖ list_to_set (conn_addr <$> concat (connection_hash s)) /\
    global_stats s' = drop_conns (length (concat (connection_hash s))) (global_stats s)
  else r = - ENOTTY /\ logged s s'.

Lemma ioctl_run cmd arg s :
  conns_ok s ->
  exists r s', nanonet_ioctl cmd arg s = Done (r, s') /\ conns_ok s' /\
    ioctl_frame s s' /\ ioctl_effect cmd arg s s' r.
Proof.
  intros Hok.
  assert (forall s' x mods, logged x s' -> frame mods s x -> FConns ∉ mods -> FKlive ∉ mods ->
    conns_ok s' /\ frame mods s s') as Hlog.
  { intros s' x mods Hl Hf H1 H2. assert (frame mods s s') as Hf' by
      (etransitivity; [exact Hf|by apply logged_frame]).
    split; [by eapply conns_ok_frame|done]. }
  pattern cmd. apply ioctl_cases.
  - pose proof (ioctl_set_config_run arg s) as H. unfold ioctl_effect.
    change (NANONET_IOC_SET_CONFIG =? NANONET_IOC_SET_CONFIG) with true. cbv iota.
    change sizeof_config with 32 in H.
    destruct (copy_from_user arg 32 (world s)) as [[bytes missing] w].
    destruct H as (c & r & s' & Ec & Ht & E & Hl & Hr). exists r, s'. split; [exact E|].
    destruct (Hlog _ _ [FConfig] Hl) as [H1 H2]; [destruct s; solve_frame|set_solver|set_solver|].
    split; [done|]. split; [eapply frame_weaken, H2; set_solver|eauto].
  - destruct (ioctl_get_run global_config enc_config arg (str "Failed to copy config to user") s)
      as (r & s' & E & Hr & Hl). exists r, s'. split; [exact E|].
    destruct (Hlog _ _ [FUser] Hl) as [H1 H2]; [destruct s; solve_frame|set_solver|set_solver|].
    split; [done|]. split; [eapply frame_weaken, H2; set_solver|by split].
  - destruct (ioctl_get_run global_stats enc_stats arg (str "Failed to copy stats to user") s)
      as (r & s' & E & Hr & Hl). exists r, s'. split; [exact E|].
    destruct (Hlog _ _ [FUser] Hl) as [H1 H2]; [destruct s; solve_frame|set_solver|set_solver|].
    split; [done|]. split; [eapply frame_weaken, H2; set_solver|by split].
  - destruct (reset_run s) as (s' & E & Hl). exists 0, s'. split; [exact E|].
    destruct (Hlog _ _ [FStats] Hl) as [H1 H2]; [destruct s; solve_frame|set_solver|set_solver|].
    split; [done|]. split; [eapply frame_weaken, H2; set_solver|done].
  - destruct (clear_ioctl_run s Hok) as (s' & E & Hf & Hok' & Ec & El & Es).
    exists 0, s'. split; [exact E|]. split; [done|].
    split; [eapply frame_weaken, Hf; set_solver|done].
  - intros Hno. destruct (ioctl_unknown cmd arg s Hno) as (s' & E & Hl).
    exists (- ENOTTY), s'. split; [done|].
    destruct (Hlog _ _ [] Hl) as [H1 H2]; [done|set_solver|set_solver|].
    split; [done|]. split; [by apply logged_frame|]. unfold ioctl_effect.
    unfold is_ioctl in Hno. repeat (apply orb_false_iff in Hno as [Hno ?]).
    repeat match goal with E : (_ =? _) = false |- _ => rewrite E; clear E end. done.
Qed.

(** C8: whatever the command number and argument, an ioctl on a well-formed
    connection table never crashes, keeps the table well-formed, and has exactly
    the effect of its command. Set: the configuration becomes the one encoded by
    the bytes copied from the user (zeroes past a fault), and the result is 0
    when it is valid, [-EINVAL] when it is not and [-EFAULT] after a fault. Get
    configuration, get statistics: the bytes of that structure are written to the
    user's address, as many as the kernel could copy, the result says whether all
    were, and nothing else changes. Reset: the initial statistics. Clear: an
    empty table, every connection object freed and counted as dropped. Any other
    number is refused with [-ENOTTY]. *)
Theorem ioctl_correct cmd arg s :
  conns_ok s ->
  exists r s', nanonet_ioctl cmd arg s = Done (r, s') /\ conns_ok s' /\
    ioctl_frame s s' /\ ioctl_effect cmd arg s s' r.
Proof. apply ioctl_run. Qed.

(** C22: what [SET_CONFIG] stores, [GET_CONFIG] returns: for any 32 bytes the
    user supplies, valid as a configuration or not, a set followed by a get that
    succeeds writes 32 bytes to the user's address which agree with the supplied
    ones at every offset outside the structure's padding. *)
Theorem config_set_get arg1 arg2 s :
  let bytes := fst (fst (copy_from_user arg1 sizeof_config (world s))) in
  exists r1 s1 r2 s2, nanonet_ioctl NANONET_IOC_SET_CONFIG arg1 s = Done (r1, s1) /\
    nanonet_ioctl NANONET_IOC_GET_CONFIG arg2 s1 = Done (r2, s2) /\
    (r2 = 0 -> exists image, user_writes s2 = (arg2, image) :: user_writes s /\
       zlen image = 32 /\ forall i, i ∉ config_padding -> image !! i = bytes !! i).
Proof.
  pose proof (copy_from_user_fills arg1 sizeof_config (world s)) as Hc.
  pose proof (ioctl_set_config_run arg1 s) as H.
  destruct (copy_from_user arg1 sizeof_config (world s)) as [[bytes missing] w].
  destruct Hc as [Hlen Hb]; [done|]. cbn [fst] in *. cbv zeta.
  destruct H as (c & r1 & s1 & Ec & _ & E1 & Hl1 & _).
  destruct (ioctl_get_run global_config enc_config arg2 (str "Failed to copy config to user") s1)
    as (r2 & s2 & E2 & Hr2 & Hl2).
  exists r1, s1, r2, s2. split; [exact E1|]. split; [exact E2|]. intros ->.
  destruct (Z.eqb_spec (fst (copy_to_user arg2 (enc_config (global_config s1)) (world s1))) 0)
    as [Em|]; [|done].
  pose proof (logged_frame [] _ _ Hl1) as Hf1. pose proof (logged_frame [] _ _ Hl2) as Hf2.
  assert (global_config s1 = c) as Eg
    by (etransitivity; [apply (Hf1 FConfig); set_solver|by destruct s]).
  assert (user_writes s1 = user_writes s) as Eu
    by (etransitivity; [apply (Hf1 FUser); set_solver|by destruct s]).
  destruct (enc_dec_config bytes c Hb Hlen Ec) as [Hl32 Hsame].
  exists (enc_config c). split_and!; [|done|done].
  etransitivity; [apply (Hf2 FUser); set_solver|].
  rewrite Em, Eg, Z.sub_0_r, take_ge by (unfold zlen; lia). rewrite <- Eu. by destruct s1.
Qed.

(** C40: resetting the statistics and then clearing the connections leaves a
    negative number of active connections: minus the number that was in the
    table, which [/proc/nanonet] prints as a huge unsigned number. *)
Theorem reset_then_clear_negative a1 a2 s :
  conns_ok s -> let n := zlen (concat (connection_hash s)) in n < 2 ^ 63 ->
  exists s1 s2, nanonet_ioctl NANONET_IOC_RESET_STATS a1 s = Done (0, s1) /\
    nanonet_ioctl NANONET_IOC_CLEAR_CONNECTIONS a2 s1 = Done (0, s2) /\
    connections_active (global_stats s2) = - n /\ connections_dropped (global_stats s2) = s64 n.
Proof.
  intros Hok n Hn. destruct (reset_run s) as (s1 & E1 & Hl).
  pose proof (logged_frame [] _ _ Hl) as Hf.
  assert (connection_hash s1 = connection_hash s) as Ec.
  { etransitivity; [apply (Hf FConns); set_solver|by destruct s]. }
  assert (global_stats s1 = global_stats_init) as Es.
  { etransitivity; [apply (Hf FStats); set_solver|by destruct s]. }
  assert (conns_ok s1) as Hok1.
  { eapply (conns_ok_frame _ _ [] Hf); [set_solver|set_solver|].
    eapply conns_ok_ext, Hok; by destruct s. }
  destruct (clear_ioctl_run s1 Hok1) as (s2 & E2 & _ & _ & _ & _ & Es2).
  exists s1, s2. split; [exact E1|]. split; [exact E2|].
  rewrite Es2, Ec, Es.
  destruct (drop_conns_counters (length (concat (connection_hash s))) global_stats_init)
    as (-> & -> & _). pose proof (zlen_nonneg (concat (connection_hash s))).
  rewrite iter_atomic64_dec, iter_atomic64_inc by done.
  change (Z.of_nat (length (concat (connection_hash s)))) with n.
  cbn [global_stats_init connections_active connections_dropped]. split; [|f_equal; lia].
  rewrite swrap_small; [lia|done|]. change (64 - 1) with 63. lia.
Qed.
End Ioctls.

(** ** Registration *)

Definition control_resources : list resource := [RProc; RDevice; RClass; RCdev; RChrdev].

Lemma filter_absent (r : resource) (l : list resource) :
  r ∉ l -> filter (fun x => x <> r) l = l.
Proof.
  induction l as [|x l IH]; [done|]. intros H. rewrite filter_cons_True by set_solver.
  f_equal. apply IH. set_solver.
Qed.

Lemma filter_cons_self (r : resource) l : r ∉ l -> filter (fun x => x <> r) (r :: l) = l.
Proof.
  intros H. rewrite filter_cons_False by (intros Hn; by apply Hn). by apply filter_absent.
Qed.

Section Registration.
Context {W B : Type} `{!KernelEnv W, !KernelLaws W}.
Implicit Types s : kstate W B.

(** The outcome of registering on top of the resources [base]: everything, or
    an error and nothing. *)
Definition all_or_nothing (base added : list resource) s (o : outcome (Z * kstate W B)) : Prop :=
  exists r s', o = Done (r, s') /\ frame [FRegistered] s s' /\
    (r = 0 /\ registered s' = added ++ base \/ r < 0 /\ registered s' = base).

Lemma release_run r s :
  release r s = Done (tt, set_registered (filter (fun x => x <> r) (registered s)) s).
Proof. done. Qed.

Lemma release_bind {A} r (k : M W B A) base s :
  registered s = r :: base -> r ∉ base ->
  (_ ← release r; k) s = k (set_registered base s).
Proof.
  intros E Hr. rewrite (bind_run _ _ _ _ _ (release_run r s)).
  by rewrite E, filter_cons_self.
Qed.

Lemma registered_set x s : registered (set_registered x s) = x.
Proof. by destruct s. Qed.

(** A step from [s] to [s1] that only concerns registrations and logging. *)
Lemma all_or_nothing_step base added s s1 o :
  frame [FRegistered] s s1 -> all_or_nothing base added s1 o -> all_or_nothing base added s o.
Proof. intros Hf (r & s' & E & Hf' & H). exists r, s'. split_and!; [done|by etransitivity|done]. Qed.

Lemma failed base added r s s' :
  r < 0 -> frame [FRegistered] s s' -> registered s' = base ->
  all_or_nothing base added s (Done (r, s')).
Proof. intros. exists r, s'. auto. Qed.

Lemma world_registered w s : registered (set_world w s) = registered s.
Proof. by destruct s. Qed.

Lemma world_frame mods w s : frame mods s (set_world w s).
Proof. apply logged_frame, logged_world. Qed.

(** Run the releases at the head of an error path. *)
Ltac unwind E Hnd :=
  unfold control_resources in Hnd; cbn [app] in Hnd; rewrite !NoDup_cons in Hnd;
  repeat (erewrite release_bind;
    [ | first [ apply registered_set | etransitivity; [apply world_registered|exact E] ]
      | set_solver ]).

Lemma control_proc_run base s :
  registered s = [RDevice; RClass; RCdev; RChrdev] ++ base -> NoDup (control_resources ++ base) ->
  all_or_nothing base control_resources s (control_proc s).
Proof.
  intros E Hnd. unfold control_proc, mbind at 1, M_bind at 1, ask at 1.
  destruct (register_ptr RProc (world s)) as [p w] eqn:Ep.
  assert (forall e, p <> PErr e) as Herr.
  { intros e ->. apply (proc_not_error (world s) e). by rewrite Ep. }
  destruct p as [|e|]; [|by destruct (Herr e)|].
  - unwind E Hnd. apply failed; [done| |by destruct s]. destruct s; solve_frame.
  - exists 0. eexists. split; [done|]. split; [destruct s; solve_frame|]. left. split; [done|].
    destruct s; simpl in *. by rewrite E.
Qed.

Lemma control_device_run base s :
  registered s = [RClass; RCdev; RChrdev] ++ base -> NoDup (control_resources ++ base) ->
  all_or_nothing base control_resources s (control_device s).
Proof.
  intros E Hnd. unfold control_device, mbind at 1, M_bind at 1, ask at 1.
  destruct (register_ptr RDevice (world s)) as [p w] eqn:Ep. destruct p as [|e|].
  - exfalso. apply (device_not_null (world s)). by rewrite Ep.
  - assert (e < 0) by (apply (register_ptr_error RDevice (world s)); by rewrite Ep).
    unwind E Hnd. apply failed; [done| |by destruct s]. destruct s; solve_frame.
  - unfold acquire. run_simpl. eapply all_or_nothing_step; [|apply control_proc_run; [|done]].
    + destruct s; solve_frame.
    + destruct s; simpl in *. by rewrite E.
Qed.

Lemma control_class_run base s :
  registered s = [RCdev; RChrdev] ++ base -> NoDup (control_resources ++ base) ->
  all_or_nothing base control_resources s (control_class s).
Proof.
  intros E Hnd. unfold control_class, mbind at 1, M_bind at 1, ask at 1.
  destruct (register_ptr RClass (world s)) as [p w] eqn:Ep. destruct p as [|e|].
  - exfalso. apply (class_not_null (world s)). by rewrite Ep.
  - assert (e < 0) by (apply (register_ptr_error RClass (world s)); by rewrite Ep).
    unwind E Hnd. apply failed; [done| |by destruct s]. destruct s; solve_frame.
  - unfold acquire. run_simpl. eapply all_or_nothing_step; [|apply control_device_run; [|done]].
    + destruct s; solve_frame.
    + destruct s; simpl in *. by rewrite E.
Qed.

Lemma control_init_run s :
  NoDup (control_resources ++ registered s) ->
  all_or_nothing (registered s) control_resources s (nanonet_control_init s).
Proof.
  intros Hnd. unfold nanonet_control_init.
  destruct (ask_run (register_int RChrdev) s) as (ret & w & Ea). rewrite (bind_run _ _ _ _ _ Ea).
  destruct (Z.ltb_spec ret 0).
  { apply failed; [done| |by destruct s]. destruct s; solve_frame. }
  unfold acquire. rewrite modify_bind. match goal with |- context [mbind _ (ask _) ?t] => set (s1 := t) end.
  assert (frame [FRegistered] s s1 /\ registered s1 = [RChrdev] ++ registered s) as [Hf1 E1]
    by (unfold s1; destruct s; split; [solve_frame|done]).
  apply (all_or_nothing_step _ _ _ s1); [done|]. clearbody s1.
  destruct (ask_run (register_int RCdev) s1) as (ret' & w' & Ea'). rewrite (bind_run _ _ _ _ _ Ea').
  destruct (Z.ltb_spec ret' 0).
  - unwind E1 Hnd. apply failed; [done| |by destruct s1]. destruct s1; solve_frame.
  - rewrite modify_bind. eapply all_or_nothing_step; [|apply control_class_run; [|done]].
    + destruct s1; solve_frame.
    + destruct s1; simpl in *. by rewrite E1.
Qed.

Lemma control_cleanup_run base s :
  (registered s = control_resources ++ base \/ registered s = base) ->
  NoDup (control_resources ++ base) ->
  exists s', nanonet_control_cleanup s = Done (tt, s') /\ frame [FRegistered] s s' /\
    registered s' = base.
Proof.
  intros E Hnd. unfold nanonet_control_cleanup, release. run_simpl. eexists. split; [done|].
  split; [destruct s; solve_frame|].
  destruct s; simpl in *. unfold control_resources in *. simpl in *.
  assert (forall r, r ∈ control_resources -> r ∉ base) as Hout.
  { unfold control_resources. rewrite !NoDup_cons in Hnd. set_solver. }
  destruct E as [-> | ->].
  - rewrite !NoDup_cons in Hnd.
    rewrite (filter_cons_self RProc), (filter_cons_self RDevice), (filter_cons_self RClass),
      (filter_cons_self RCdev), (filter_cons_self RChrdev) by set_solver. done.
  - rewrite (filter_absent RProc), (filter_absent RDevice), (filter_absent RClass),
      (filter_absent RCdev), (filter_absent RChrdev)
      by (apply Hout; unfold control_resources; set_solver). done.
Qed.

(** [nanonet_control_init] registers all five objects (device number,
    character device, class, device node, /proc entry) and returns 0, or
    returns a negative error with none of them left registered, whichever step
    failed; [nanonet_control_cleanup] removes them all. *)
Theorem control_init_all_or_nothing s :
  NoDup (control_resources ++ registered s) ->
  exists r s1 s2, nanonet_control_init s = Done (r, s1) /\ frame [FRegistered] s s1 /\
    (r = 0 /\ registered s1 = control_resources ++ registered s \/
     r < 0 /\ registered s1 = registered s) /\
    nanonet_control_cleanup s1 = Done (tt, s2) /\ registered s2 = registered s.
Proof.
  intros Hnd. destruct (control_init_run s Hnd) as (r & s1 & E & Hf & H).
  destruct (control_cleanup_run (registered s) s1) as (s2 & E2 & _ & Er); [tauto|done|].
  exists r, s1, s2. split_and!; done.
Qed.
End Registration.

(** ** Runs in the executable kernel *)

Definition typed_config : ull_config :=
  Build_ull_config 1 (le_decode [192; 168; 1; 100]) (htons 8080) IPPROTO_UDP
    (le_decode [192; 168; 1; 1]) (htons 9090) 7 0 1 (le_decode [224; 0; 0; 1]).

(** A user whose buffer holds that configuration. *)
Definition config_user : sim :=
  Build_sim 0 0 true true 0 None 0 true (enc_config typed_config) 0 None.

Lemma config_set_get_witness :
  exists s1 s2 image,
    nanonet_ioctl NANONET_IOC_SET_CONFIG 0 (loaded (B := lskb) config_user) = Done (0, s1) /\
    nanonet_ioctl NANONET_IOC_GET_CONFIG 64 s1 = Done (0, s2) /\
    user_writes s2 = [(64, image)] /\ image !! 8%nat = Some 31 /\ image !! 9%nat = Some 144.
Proof.
  destruct (config_set_get 0 64 (loaded (B := lskb) config_user)) as (r1 & s1 & r2 & s2 & E1 & E2 & H).
  vm_compute in E1. injection E1 as <- <-. vm_compute in E2. injection E2 as <- <-.
  destruct (H eq_refl) as (image & Hu & _ & Hi).
  eexists _, _, image. split; [vm_compute; reflexivity|]. split; [vm_compute; reflexivity|].
  split; [exact Hu|].
  split; rewrite Hi by (unfold config_padding; set_solver); vm_compute; reflexivity.
Defined.

(** An all-zero configuration is refused, and in force. *)
Definition zero_user : sim := Build_sim 0 0 true true 0 None 0 true (replicate 32 0) 0 None.

Lemma set_config_installs_witness :
  exists r s', nanonet_ioctl NANONET_IOC_SET_CONFIG 0
      (set_config typed_config (loaded (B := lskb) zero_user)) = Done (r, s') /\ r = - EINVAL /\
    cfg_enabled (global_config s') = false.
Proof.
  pose proof (set_config_installs 0 (set_config typed_config (loaded (B := lskb) zero_user))) as H.
  cbv beta iota zeta delta [copy_from_user sim_kernel world set_config loaded] in H.
  destruct H as (c & r & s' & Ec & E & Eg & _ & Hr).
  vm_compute in Ec. injection Ec as <-. vm_compute in Hr.
  exists r, s'. split; [exact E|]. split; [exact Hr|]. rewrite Eg. reflexivity.
Defined.

(** The statistics, with one active connection, reach the user's buffer. *)
Lemma ioctl_correct_witness :
  exists s', nanonet_ioctl NANONET_IOC_GET_STATS 7 one_connection = Done (0, s') /\
    user_writes s' = [(7, enc_stats (map_connections_active (fun _ => 1) global_stats_init))].
Proof.
  destruct (ioctl_correct NANONET_IOC_GET_STATS 7 one_connection (proj1 one_connection_ok))
    as (r & s' & E & _ & _ & Hr & Hl).
  exists s'. split.
  - vm_compute in Hr. rewrite E, Hr. reflexivity.
  - etransitivity; [apply (logged_frame [] _ _ Hl FUser); set_solver|]. vm_compute. reflexivity.
Defined.

Lemma reset_then_clear_negative_witness :
  exists s1 s2, nanonet_ioctl NANONET_IOC_RESET_STATS 0 one_connection = Done (0, s1) /\
    nanonet_ioctl NANONET_IOC_CLEAR_CONNECTIONS 0 s1 = Done (0, s2) /\
    connections_active (global_stats s2) = -1.
Proof.
  destruct (reset_then_clear_negative 0 0 one_connection) as (s1 & s2 & E1 & E2 & Ha & _).
  - exact (proj1 one_connection_ok).
  - rewrite (proj2 one_connection_ok). reflexivity.
  - exists s1, s2. split; [exact E1|]. split; [exact E2|].
    rewrite Ha, (proj2 one_connection_ok). reflexivity.
Defined.

Lemma control_init_all_or_nothing_witness :
  exists r s1, nanonet_control_init sim_loaded = Done (r, s1) /\
    (r = 0 /\ registered s1 = control_resources ++ [] \/ r < 0 /\ registered s1 = []).
Proof.
  destruct (control_init_all_or_nothing sim_loaded) as (r & s1 & s2 & E & _ & H & _).
  - vm_compute. repeat constructor; set_solver.
  - exists r, s1. split; [exact E|exact H].
Defined.
