(* ===== verification/Nanonet.v ===== *)
(** * nanonet.c: the netfilter hook, module load and unload

    The hook composes the parser, validation, connection tracking and the
    application logic, and keeps the statistics. [global_config] is read where
    the code reads it. *)

From S2P Require Import Prelude Headers Kernel Sim Debug Checksum MicroStack Optimizations.
From S2P Require Import Security ResponseSender PacketProcessor ControlInterface.

(** ** Timing statistics *)

(** Lines 128-137 with the updated packet counter; [None] is a division by
    zero. [atomic64_read] is signed; mixed with the [u64] fields the arithmetic
    is unsigned. *)
Definition record_time (process_time : Z) (st : ull_stats) : option ull_stats :=
  let n := packets_processed st in
  let min := if process_time <? min_process_time_ns st then process_time
             else min_process_time_ns st in
  let max := if max_process_time_ns st <? process_time then process_time
             else max_process_time_ns st in
  if u64 n =? 0 then None
  else Some (set_process_times process_time min max
    (u64 (avg_process_time_ns st * u64 (n - 1) + process_time) / u64 n) st).

Section Nanonet.
Context {W B : Type} `{!KernelEnv W, !SkbOps B}.
Local Abbreviation M := (M W B).

Definition init_multicast : M Z :=
  config ← gets global_config;
  dev ← gets target_dev;
  match dev with
  | Some ifindex =>
      if cfg_multicast config then
        let r := RMcGroup (cfg_multicast_group config) ifindex in
        result ← ask (register_int r);
        _ ← (if result <? 0 then mret tt else acquire r);
        mret result
      else mret 0
  | None => mret 0
  end.

(** ** The hook *)

Definition bypass : M Z :=
  _ ← modify_stats (map_packets_bypassed atomic64_inc);
  mret NF_ACCEPT.

Definition hook_error : M Z :=
  _ ← modify_stats (map_errors atomic64_inc);
  mret NF_ACCEPT.

(** The port arguments of the trace event: from the TCP header if there is one,
    else from the UDP header. *)
Definition trace_ports (data : list Z) (out : parse_out) : M (Z * Z) :=
  match po_tcp_hdr out with
  | Some t =>
      source ← deref (tcph_source data t);
      dest ← deref (tcph_dest data t);
      mret (ntohs source, ntohs dest)
  | None =>
      u ← non_null (po_udp_hdr out);
      source ← deref (udph_source data u);
      dest ← deref (udph_dest data u);
      mret (ntohs source, ntohs dest)
  end.

(** From [atomic64_inc(&global_stats.packets_processed)] to the end. *)
Definition hook_finish (data : list Z) (ip_hdr : Z) (out : parse_out) (start_time result : Z) : M Z :=
  _ ← modify_stats (map_packets_processed atomic64_inc);
  end_time ← get_timestamp_ns;
  let process_time := u64 (end_time - start_time) in
  stats ← gets global_stats;
  _ ← match record_time process_time stats with
      | Some st => modify_stats (fun _ => st)
      | None => crash_with DivideError
      end;
  saddr ← deref (iph_saddr data ip_hdr);
  daddr ← deref (iph_daddr data ip_hdr);
  '(sport, dport) ← trace_ports data out;
  _ ← trace_nanonet_packet_processed saddr sport daddr dport process_time result;
  mret NF_STOLEN.

(** The application logic on the payload, and its result. *)
Definition hook_process (data : list Z) (ip_hdr : Z) (out : parse_out) (start_time : Z) : M Z :=
  result ← nanonet_process_application_logic
             ((fun p => drop (Z.to_nat p) data) <$> po_payload out) (po_payload_len out);
  _ ← (if result <? 0 then
         _ ← modify_stats (map_errors atomic64_inc);
         nanonet_log_error (str "Application logic failed: " ++ fmt_d result)
       else if 0 <? result then modify_stats (map_responses_sent atomic64_inc)
       else mret tt);
  hook_finish data ip_hdr out start_time result.

(** The transport-level filter and connection tracking. A header of the other
    protocol than the configured one is not looked at. *)
Definition hook_transport (data : list Z) (ip_hdr : Z) (out : parse_out) (start_time : Z) : M Z :=
  config ← gets global_config;
  match (if cfg_protocol config =? IPPROTO_TCP then po_tcp_hdr out else None) with
  | Some tcp_hdr =>
      dest ← deref (tcph_dest data tcp_hdr);
      if negb (dest =? cfg_target_port config) then bypass else
      result ← nanonet_track_tcp_connection data ip_hdr tcp_hdr;
      if result <? 0 then hook_error else hook_process data ip_hdr out start_time
  | None =>
      match (if cfg_protocol config =? IPPROTO_UDP then po_udp_hdr out else None) with
      | Some udp_hdr =>
          dest ← deref (udph_dest data udp_hdr);
          if negb (dest =? cfg_target_port config) then bypass
          else hook_process data ip_hdr out start_time
      | None => hook_process data ip_hdr out start_time
      end
  end.

(** The destination filter: the target address, or the group while multicast is
    on. *)
Definition hook_filter (data : list Z) (ip_hdr : Z) (out : parse_out) (start_time : Z) : M Z :=
  config ← gets global_config;
  daddr ← deref (iph_daddr data ip_hdr);
  if negb (daddr =? cfg_target_ip config) &&
     (negb (cfg_multicast config) || negb (daddr =? cfg_multicast_group config))
  then bypass
  else hook_transport data ip_hdr out start_time.

Definition nanonet_hook (skb : sk_buff) : M Z :=
  config ← gets global_config;
  match skb_dev skb with
  | None => bypass
  | Some _ =>
      if negb (cfg_enabled config) then bypass else
      start_time ← get_timestamp_ns;
      '(result, out) ← deref (ull_parse_packet skb);
      if result <? 0 then
        _ ← modify_stats (map_errors atomic64_inc);
        _ ← nanonet_log_error (str "Packet parsing failed: " ++ fmt_d result);
        mret NF_ACCEPT
      else
      ip_hdr ← non_null (po_ip_hdr out);
      v ← nanonet_validate_packet (skb_data skb) ip_hdr;
      if v <? 0 then hook_error else
      hook_filter (skb_data skb) ip_hdr out start_time
  end.

(** ** Load and unload *)

(** The error paths of [nanonet_init], innermost first. *)
Definition init_hook : M Z :=
  result ← ask (register_int RNetHook);
  if result <? 0 then
    _ ← printk (str "NANONET: Failed to register netfilter hook" ++ newline);
    _ ← nanonet_debug_cleanup;
    _ ← nanonet_control_cleanup;
    _ ← nanonet_cleanup_response_pool;
    _ ← dev_put;
    mret result
  else
  _ ← acquire RNetHook;
  _ ← printk (str "NANONET: Module loaded successfully" ++ newline);
  _ ← printk (str "NANONET: Use /dev/nanonet for control or check /proc/nanonet for status" ++ newline);
  mret 0.

Definition init_groups : M Z :=
  result ← init_multicast;
  if result <? 0 then
    _ ← printk (str "NANONET: Failed to join multicast group" ++ newline);
    _ ← nanonet_debug_cleanup;
    _ ← nanonet_control_cleanup;
    _ ← nanonet_cleanup_response_pool;
    _ ← dev_put;
    mret result
  else init_hook.

Definition init_debug : M Z :=
  result ← nanonet_debug_init;
  if result <? 0 then
    _ ← printk (str "NANONET: Failed to initialize debug interface" ++ newline);
    _ ← nanonet_control_cleanup;
    _ ← nanonet_cleanup_response_pool;
    _ ← dev_put;
    mret result
  else init_groups.

Definition init_control : M Z :=
  result ← nanonet_control_init;
  if result <? 0 then
    _ ← printk (str "NANONET: Failed to initialize control interface" ++ newline);
    _ ← nanonet_cleanup_response_pool;
    _ ← dev_put;
    mret result
  else init_debug.

Definition nanonet_init : M Z :=
  _ ← printk (str "NANONET: Initializing ultra-low latency networking module" ++ newline);
  dev ← dev_get_by_name;
  _ ← modify (set_target_dev dev);
  match dev with
  | None =>
      _ ← printk (str "NANONET: Failed to find network device" ++ newline);
      mret (- ENODEV)
  | Some _ =>
      result ← nanonet_init_response_pool;
      if result <? 0 then
        _ ← printk (str "NANONET: Failed to initialize response pool" ++ newline);
        _ ← dev_put;
        mret result
      else init_control
  end.

Definition nanonet_exit : M unit :=
  _ ← printk (str "NANONET: Unloading module" ++ newline);
  _ ← release RNetHook;
  _ ← nanonet_debug_cleanup;
  _ ← nanonet_control_cleanup;
  _ ← nanonet_cleanup_response_pool;
  dev ← gets target_dev;
  _ ← match dev with Some _ => dev_put | None => mret tt end;
  printk (str "NANONET: Module unloaded successfully" ++ newline).
End Nanonet.

(** ** Timing statistics *)

(** The recorded times are consistent: the average lies between the minimum and
    the maximum, once a packet has been processed. *)
Definition times_ok (st : ull_stats) : Prop :=
  0 <= min_process_time_ns st <= UINT64_MAX /\ 0 <= max_process_time_ns st <= UINT64_MAX /\
  0 <= avg_process_time_ns st <= UINT64_MAX /\
  (0 < packets_processed st ->
   min_process_time_ns st <= last_process_time_ns st <= max_process_time_ns st /\
   min_process_time_ns st <= avg_process_time_ns st <= max_process_time_ns st).

(** The running sum behind the average fits in 64 bits. *)
Definition sum_fits (pt : Z) (st : ull_stats) : Prop :=
  avg_process_time_ns st * packets_processed st + pt <= UINT64_MAX.

Lemma avg_between n avg pt lo hi :
  0 < n -> lo <= pt <= hi -> (1 < n -> lo <= avg <= hi) ->
  lo <= (avg * (n - 1) + pt) / n <= hi.
Proof.
  intros Hn Hpt Hav. destruct (Z.eq_dec n 1) as [->|].
  - rewrite Z.sub_diag, Z.mul_0_r, Z.add_0_l, Z.div_1_r. done.
  - specialize (Hav ltac:(lia)). split.
    + apply Z.div_le_lower_bound; nia.
    + apply Z.div_le_upper_bound; nia.
Qed.

Lemma record_time_run pt st st0 :
  st = map_packets_processed atomic64_inc st0 ->
  0 <= packets_processed st0 < 2 ^ 63 - 1 ->
  exists st', record_time pt st = Some st' /\
    packets_processed st' = packets_processed st0 + 1 /\
    packets_bypassed st' = packets_bypassed st0 /\ responses_sent st' = responses_sent st0 /\
    errors st' = errors st0 /\ connections_active st' = connections_active st0 /\
    connections_dropped st' = connections_dropped st0 /\
    (in_width 64 pt -> times_ok st0 -> sum_fits pt st0 -> times_ok st').
Proof.
  intros -> Hn.
  assert (packets_processed (map_packets_processed atomic64_inc st0) = packets_processed st0 + 1) as En.
  { destruct st0; simpl in *. unfold atomic64_inc. rewrite swrap_small; [done|done|].
    change (64 - 1) with 63. lia. }
  unfold record_time. rewrite En. rewrite wrap_small by (unfold in_width; lia).
  rewrite (proj2 (Z.eqb_neq _ _)) by lia. eexists. split; [done|].
  split_and!; try (by destruct st0).
  intros Hpt (Hmin & Hmax & Havg & Hord) Hsum. unfold sum_fits, UINT64_MAX, in_width in *.
  change (2 ^ 64) with 18446744073709551616 in *.
  replace (packets_processed st0 + 1 - 1) with (packets_processed st0) by lia.
  rewrite (wrap_small 64 (packets_processed st0)) by (unfold in_width; lia).
  assert (avg_process_time_ns (map_packets_processed atomic64_inc st0) = avg_process_time_ns st0
    /\ min_process_time_ns (map_packets_processed atomic64_inc st0) = min_process_time_ns st0
    /\ max_process_time_ns (map_packets_processed atomic64_inc st0) = max_process_time_ns st0)
    as (-> & -> & ->) by (by destruct st0).
  rewrite wrap_small by (unfold in_width; change (2 ^ 64) with 18446744073709551616; nia).
  set (n := packets_processed st0) in *.
  set (lo := if pt <? min_process_time_ns st0 then pt else min_process_time_ns st0).
  set (hi := if max_process_time_ns st0 <? pt then pt else max_process_time_ns st0).
  assert (lo <= pt <= hi /\ lo <= min_process_time_ns st0 /\ max_process_time_ns st0 <= hi /\
    0 <= lo /\ hi <= 18446744073709551615) as (Hlp & Hlm & Hhm & Hl0 & Hhx).
  { unfold lo, hi. destruct (Z.ltb_spec pt (min_process_time_ns st0)),
      (Z.ltb_spec (max_process_time_ns st0) pt); lia. }
  pose proof (avg_between (n + 1) (avg_process_time_ns st0) pt lo hi) as Hb.
  replace (n + 1 - 1) with n in Hb by lia.
  destruct Hb as [Hb1 Hb2]; [lia|lia|intros; destruct Hord; lia|].
  unfold times_ok. destruct st0; simpl in *. unfold UINT64_MAX. lia.
Qed.

(** ** The hook's building blocks *)

Lemma parse_result skb r out :
  ull_parse_packet skb = Some (r, out) -> r = 0 \/ r < 0.
Proof.
  intros H.
  repeat (lazymatch type of H with
  | Some (_, _) = Some (_, _) => injection H as <- <-
  | None = Some _ => discriminate H
  | (if ?b then _ else _) = Some _ => destruct b
  | (mbind _ ?o) = Some _ => destruct o; cbn [mbind option_bind] in H
  | ull_parse_packet _ = _ => unfold ull_parse_packet in H
  | parse_tcp _ _ _ _ = _ => unfold parse_tcp in H
  | parse_udp _ _ _ _ = _ => unfold parse_udp in H
  end); unfold EINVAL, EPROTONOSUPPORT; lia.
Qed.

(** The invariant of the module's data: the pool owns the live buffers, the
    connection table is well-formed, and the only live objects are its
    entries. *)
Record module_inv {W B} `{!KernelEnv W, !SkbOps B} (s : kstate W B) (avail : list nat) : Prop := {
  mi_buffers : buffers_ok s avail;
  mi_conns : conns_ok s;
  mi_live : klive s = list_to_set (table_addrs s);
}.

(** The packet counters and the verdict of one packet. *)
Definition accepted_as (bypassed_d errors_d : Z) (st st' : ull_stats) : Prop :=
  packets_processed st' = packets_processed st /\
  packets_bypassed st' = s64 (packets_bypassed st + bypassed_d) /\
  errors st' = s64 (errors st + errors_d) /\ responses_sent st' = responses_sent st /\
  (times_ok st -> times_ok st').

Definition stolen_with (errors_d : Z) (st st' : ull_stats) : Prop :=
  packets_processed st' = packets_processed st + 1 /\
  packets_bypassed st' = packets_bypassed st /\
  errors st' = s64 (errors st + errors_d) /\ responses_sent st' = responses_sent st.

(** A counter value. *)
Definition counters_ok (st : ull_stats) : Prop :=
  0 <= packets_processed st < 2 ^ 63 - 1 /\ is_s64 (packets_bypassed st) /\ is_s64 (errors st).

Lemma s64_id x : is_s64 x -> s64 (x + 0) = x.
Proof. intros H. rewrite Z.add_0_r. by apply swrap_small. Qed.

(** What one packet does to the statistics, by its verdict. *)
Definition packet_effect (st st' : ull_stats) (v : Z) : Prop :=
  (v = NF_ACCEPT /\ (accepted_as 1 0 st st' \/ accepted_as 0 1 st st')) \/
  (v = NF_STOLEN /\ exists pt d, (d = 0 \/ d = 1) /\ stolen_with d st st' /\ in_width 64 pt /\
     (times_ok st -> sum_fits pt st -> times_ok st')).

Section Hook.
Context {W B : Type} `{!KernelEnv W, !KernelLaws W, !SkbOps B, !SkbLaws B}.
Implicit Types s : kstate W B.

(** What one packet may change. *)
Abbreviation packet_frame :=
  (frame [FStats; FConns; FKlive; FPool; FSkbs; FDevRefs; FWire; FConfig; FTrace]).

Lemma module_inv_frame mods s s' avail :
  FPool ∉ mods -> FSkbs ∉ mods -> FConns ∉ mods -> FKlive ∉ mods ->
  frame mods s s' -> module_inv s avail -> module_inv s' avail.
Proof.
  intros H1 H2 H3 H4 Hf [Hb Hc Hl]. destruct (Hf FKlive H4) as [Ek En].
  pose proof (Hf FConns H3) as Ec. split.
  - by eapply buffers_ok_frame.
  - by eapply conns_ok_frame.
  - unfold table_addrs. simpl in *. by rewrite Ek, Hl, Ec.
Qed.

Lemma trace_ports_run skb out ihl thl proto s :
  linear skb -> parsed skb out ihl thl proto ->
  exists a b, trace_ports (skb_data skb) out s = Done ((a, b), s).
Proof.
  intros Hlin Hp. destruct (parsed_transport_bounds _ _ _ _ _ Hlin Hp) as (_ & Ht & Hu).
  destruct Hp as [_ _ Hi _ _ _ Htr _]. unfold trace_ports.
  destruct Htr as [(_ & Et & _)|(_ & Et & Eu & _)]; rewrite Et.
  - destruct (Ht _ Et). destruct (load_is_Some 2 (skb_data skb) (14 + ihl)) as [a Ha]; [lia..|].
    destruct (load_is_Some 2 (skb_data skb) (14 + ihl + 2)) as [b Hb]; [lia..|].
    rewrite (deref_bind _ _ _ a), (deref_bind _ _ _ b) by done. by eexists _, _.
  - destruct (Hu _ Eu). destruct (load_is_Some 2 (skb_data skb) (14 + ihl)) as [a Ha]; [lia..|].
    destruct (load_is_Some 2 (skb_data skb) (14 + ihl + 2)) as [b Hb]; [lia..|].
    rewrite Eu. cbn [non_null]. run_simpl.
    rewrite (deref_bind _ _ _ a), (deref_bind _ _ _ b) by done. by eexists _, _.
Qed.

Lemma hook_finish_run skb out ihl thl proto start result s :
  linear skb -> parsed skb out ihl thl proto ->
  0 <= packets_processed (global_stats s) < 2 ^ 63 - 1 ->
  exists pt s', hook_finish (skb_data skb) 14 out start result s = Done (NF_STOLEN, s') /\
    frame [FStats; FTrace] s s' /\ in_width 64 pt /\
    record_time pt (map_packets_processed atomic64_inc (global_stats s)) = Some (global_stats s').
Proof.
  intros Hlin Hp Hn. pose proof Hlin as (Hb & Hl & _).
  assert (34 <= zlen (skb_data skb)) as Hz.
  { destruct (parsed_transport_bounds _ _ _ _ _ Hlin Hp) as (? & _). destruct Hp. lia. }
  unfold hook_finish, modify_stats. run_simpl.
  match goal with |- context [mbind _ get_timestamp_ns ?t] => set (s1 := t) end.
  destruct (get_timestamp_run s1) as (e & s2 & E2 & Hl2 & _). rewrite (bind_run _ _ _ _ _ E2). run_simpl.
  pose proof (logged_frame [] _ _ Hl2) as Hf2.
  assert (global_stats s2 = map_packets_processed atomic64_inc (global_stats s)) as Est.
  { etransitivity; [apply (Hf2 FStats); set_solver|]. unfold s1. by destruct s. }
  set (pt := u64 (e - start)).
  destruct (record_time_run pt _ (global_stats s) Est Hn) as (st' & Er & _).
  rewrite Er. run_simpl.
  destruct (load_is_Some 4 (skb_data skb) (14 + 12)) as [sa Hsa]; [lia..|].
  destruct (load_is_Some 4 (skb_data skb) (14 + 16)) as [da Hda]; [lia..|].
  rewrite (deref_bind _ _ _ sa), (deref_bind _ _ _ da) by done.
  match goal with |- context [mbind _ (trace_ports _ _) ?t] => set (s3 := t) end.
  destruct (trace_ports_run skb out ihl thl proto s3 Hlin Hp) as (a & b & Et).
  rewrite (bind_run _ _ _ _ _ Et). unfold trace_nanonet_packet_processed. run_simpl.
  exists pt. eexists. split; [done|]. split_and!.
  - transitivity s1; [unfold s1; destruct s; solve_frame|].
    transitivity s2; [eapply frame_weaken, Hf2; set_solver|].
    unfold s3. destruct s2; solve_frame.
  - by apply wrap_range.
  - rewrite <- Est, Er. unfold s3. by destruct s2.
Qed.

Lemma logic_module_inv s s' avail avail' r :
  module_inv s avail -> logic_done s s' avail' r -> module_inv s' avail'.
Proof.
  intros [Hb Hc Hl] [Hf Ek En Hb' _ _ _].
  assert (connection_hash s' = connection_hash s) as Ec by (apply (Hf FConns); set_solver).
  split; [done| |].
  - by eapply conns_ok_ext.
  - unfold table_addrs. by rewrite Ek, Hl, Ec.
Qed.

(** The logic on the parsed payload. *)
Lemma payload_logic_run `{!XmitAccepts W} skb out ihl thl proto s avail :
  linear skb -> parsed skb out ihl thl proto -> buffers_ok s avail -> kheap_ok s ->
  exists r s' avail', nanonet_process_application_logic
      ((fun p => drop (Z.to_nat p) (skb_data skb)) <$> po_payload out) (po_payload_len out) s =
      Done (r, s') /\ one_taken avail avail' /\ logic_done s s' avail' r.
Proof.
  intros (Hb & Hl & Hlt) [_ _ Hi _ _ _ Htr Hpay] Hok Hk.
  destruct Hpay as [(-> & -> & _)|(-> & Hn & He)]; simpl.
  - exists 0, s, avail. split; [done|]. split; [by left|]. by apply logic_done_logged.
  - apply app_logic_run; [done|done|by apply Forall_drop| |lia].
    rewrite zlen_drop; [lia|]. destruct Htr as [?|?]; lia.
Qed.

(** The result is counted as an error or not at all. *)
Lemma count_result_run r s :
  r <= 0 -> is_s64 (errors (global_stats s)) ->
  exists s', (if r <? 0 then
         _ ← modify_stats (map_errors atomic64_inc);
         nanonet_log_error (str "Application logic failed: " ++ fmt_d r)
       else if 0 <? r then modify_stats (map_responses_sent atomic64_inc)
       else mret tt) s = Done (tt, s') /\ frame [FStats] s s' /\
    exists d, (d = 0 \/ d = 1) /\ (d = 0 <-> r = 0) /\
      global_stats s' = map_errors (fun e => s64 (e + d)) (global_stats s).
Proof.
  intros Hr He. destruct (Z.ltb_spec r 0).
  - unfold modify_stats. run_simpl. match goal with |- context [nanonet_log_error _ ?t] => set (s1 := t) end.
    destruct (log_error_run (str "Application logic failed: " ++ fmt_d r) s1) as (s2 & E & Hl).
    exists s2. split; [done|]. pose proof (logged_frame [] _ _ Hl) as Hf. split.
    + transitivity s1; [unfold s1; destruct s; solve_frame|eapply frame_weaken, Hf; set_solver].
    + exists 1. split; [by right|]. split; [lia|].
      etransitivity; [apply (Hf FStats); set_solver|]. unfold s1. by destruct s.
  - assert (r = 0) as -> by lia. exists s. split; [done|]. split; [done|].
    exists 0. split; [by left|]. split; [done|].
    destruct s as [? [] ? ? ? ? ? ? ? ? ? ? ? ? ? ?]; simpl in *. by rewrite s64_id.
Qed.

(** A packet that reaches the application logic. *)
Definition processed (s s' : kstate W B) (r : Z) : Prop :=
  exists pt d, in_width 64 pt /\ (d = 0 \/ d = 1) /\ (d = 0 <-> r = 0) /\
    record_time pt (map_packets_processed atomic64_inc
      (map_errors (fun e => s64 (e + d)) (global_stats s))) = Some (global_stats s').

Lemma hook_process_run `{!XmitAccepts W} skb out ihl thl proto start s avail :
  linear skb -> parsed skb out ihl thl proto -> module_inv s avail -> counters_ok (global_stats s) ->
  exists r s' avail', hook_process (skb_data skb) 14 out start s = Done (NF_STOLEN, s') /\
    one_taken avail avail' /\ module_inv s' avail' /\ r <= 0 /\
    frame (FStats :: FTrace :: response_frame_fields) s s' /\ processed s s' r /\
    refs_follow s s' /\ exists q, global_config s' = set_seq_num q (global_config s).
Proof.
  intros Hlin Hp Hm (Hn & _ & He). pose proof Hm as [Hb [_ _ _ _ _ Hk] _].
  destruct (payload_logic_run skb out ihl thl proto s avail Hlin Hp Hb Hk)
    as (r & s1 & avail' & E1 & Ht & Hd).
  unfold hook_process. rewrite (bind_run _ _ _ _ _ E1).
  pose proof (logic_module_inv _ _ _ _ _ Hm Hd) as Hm1. destruct Hd as [Hf1 _ _ _ Hcfg Hrf Hr].
  assert (global_stats s1 = global_stats s) as Es1 by (apply (Hf1 FStats); set_solver).
  destruct (count_result_run r s1 Hr) as (s2 & E2 & Hf2 & d & Hd & Hdr & Es2); [by rewrite Es1|].
  rewrite (bind_run _ _ _ _ _ E2).
  destruct (hook_finish_run skb out ihl thl proto start r s2 Hlin Hp) as (pt & s3 & E3 & Hf3 & Hpt & Er).
  { rewrite Es2, Es1. by destruct (global_stats s). }
  exists r, s3, avail'. split; [done|]. split; [done|].
  assert (frame [FStats; FTrace] s1 s3) as Hf13.
  { transitivity s2; [eapply frame_weaken, Hf2; set_solver|done]. }
  split_and!.
  - eapply (module_inv_frame [FStats; FTrace]), Hm1; set_solver || done.
  - done.
  - transitivity s1; [eapply frame_weaken, Hf1; set_solver|eapply frame_weaken, Hf13; set_solver].
  - exists pt, d. rewrite Es2, Es1 in Er. done.
  - eapply refs_follow_trans; [exact Hrf|eapply refs_follow_frame; [exact Hf13|set_solver|set_solver]].
  - destruct Hcfg as [q Hq]. exists q. rewrite <- Hq. apply (Hf13 FConfig). set_solver.
Qed.

(** The active counter follows the table. *)
Definition conn_counted (s s' : kstate W B) : Prop :=
  connections_active (global_stats s') =
    s64 (connections_active (global_stats s) + (zlen (table_addrs s') - zlen (table_addrs s))) /\
  connections_dropped (global_stats s') = connections_dropped (global_stats s).

(** A step that leaves configuration and packet counters alone. *)
Record quiet (s s' : kstate W B) : Prop := {
  quiet_frame : packet_frame s s';
  quiet_config : global_config s' = global_config s;
  quiet_stats : exists a, global_stats s' = map_connections_active (fun _ => a) (global_stats s);
  quiet_conns : conn_counted s s';
  quiet_refs : refs_follow s s';
}.

(** The outcome of a packet. *)
Definition packet_result (s : kstate W B) (avail : list nat) (o : outcome (Z * kstate W B)) : Prop :=
  exists v s' avail', o = Done (v, s') /\ one_taken avail avail' /\ module_inv s' avail' /\
    packet_frame s s' /\ packet_effect (global_stats s) (global_stats s') v /\
    conn_counted s s' /\ refs_follow s s' /\
    exists q, global_config s' = set_seq_num q (global_config s).

Lemma conn_counted_frame mods s s' :
  frame mods s s' -> FConns ∉ mods ->
  is_s64 (connections_active (global_stats s)) ->
  connections_active (global_stats s') = connections_active (global_stats s) ->
  connections_dropped (global_stats s') = connections_dropped (global_stats s) ->
  conn_counted s s'.
Proof.
  intros Hf H Ha E1 E2. split; [|done]. unfold table_addrs. simpl. rewrite (Hf FConns H : _ = _).
  rewrite Z.sub_diag, s64_id; done.
Qed.

Lemma conn_counted_trans s1 s2 s3 : conn_counted s1 s2 -> conn_counted s2 s3 -> conn_counted s1 s3.
Proof.
  intros [E1 E2] [E3 E4]. split; [|congruence]. rewrite E3, E1, swrap_add. f_equal. lia.
Qed.

Lemma quiet_logged s s' :
  logged s s' -> is_s64 (connections_active (global_stats s)) -> quiet s s'.
Proof.
  intros Hl Ha. pose proof (logged_frame [] _ _ Hl) as Hf.
  assert (global_stats s' = global_stats s) as Es by (apply (Hf FStats); set_solver).
  split.
  - by apply logged_frame.
  - apply (Hf FConfig). set_solver.
  - exists (connections_active (global_stats s)). rewrite Es. by destruct (global_stats s).
  - eapply (conn_counted_frame []); [done|set_solver|done|by rewrite Es|by rewrite Es].
  - eapply (refs_follow_frame []); [done|set_solver|set_solver].
Qed.

Lemma quiet_tracked s s' :
  frame [FConns; FStats; FKlive] s s' -> tracked_heap s s' ->
  is_s64 (connections_active (global_stats s)) -> quiet s s'.
Proof.
  intros Hf Hh Ha. split.
  - eapply frame_weaken, Hf. set_solver.
  - apply (Hf FConfig). set_solver.
  - destruct Hh as [(_ & _ & _ & ->)|(_ & _ & ->)];
      [exists (connections_active (global_stats s))
      |exists (atomic64_inc (connections_active (global_stats s)))];
      by destruct (global_stats s).
  - destruct Hh as [(_ & _ & Hp & Es)|(_ & Hp & Es)]; split; rewrite Es;
      unfold zlen; rewrite ?(Permutation_length Hp).
    + rewrite Z.sub_diag. by rewrite s64_id.
    + done.
    + destruct (global_stats s); simpl. unfold atomic64_inc. f_equal. lia.
    + by destruct (global_stats s).
  - eapply refs_follow_frame; [exact Hf|set_solver|set_solver].
Qed.

Lemma quiet_counters s s' :
  quiet s s' -> counters_ok (global_stats s) -> counters_ok (global_stats s').
Proof. intros [_ _ [a ->] _ _] H. by destruct (global_stats s). Qed.

(** A quiet step before a packet's outcome. *)
Lemma packet_result_quiet s s1 avail o :
  quiet s s1 -> packet_result s1 avail o -> packet_result s avail o.
Proof.
  intros [Hf Hc [a Hst] Hcc Hrf] (v & s' & avail' & -> & Ht & Hm & Hf' & He & Hcc' & Hrf' & q & Hq).
  exists v, s', avail'. split_and!; [done|done|done|by etransitivity| |by eapply conn_counted_trans
    |by eapply refs_follow_trans|].
  - rewrite Hst in He. destruct (global_stats s). exact He.
  - exists q. by rewrite Hq, Hc.
Qed.

Lemma packet_stats_result s avail v f :
  module_inv s avail -> is_s64 (connections_active (global_stats s)) ->
  (forall st, connections_active (f st) = connections_active st /\
              connections_dropped (f st) = connections_dropped st) ->
  packet_effect (global_stats s) (f (global_stats s)) v ->
  packet_result s avail ((_ ← modify_stats f; mret v) s).
Proof.
  intros Hm Ha Hfa He. unfold modify_stats. run_simpl.
  assert (frame [FStats] s (set_stats (f (global_stats s)) s)) as Hf by (destruct s; solve_frame).
  assert (global_stats (set_stats (f (global_stats s)) s) = f (global_stats s)) as Es by (by destruct s).
  destruct (Hfa (global_stats s)) as [E1 E2].
  eexists v, _, avail. split; [done|]. split; [by left|]. split_and!.
  - eapply (module_inv_frame [FStats]), Hm; set_solver || done.
  - eapply frame_weaken, Hf. set_solver.
  - by rewrite Es.
  - apply (conn_counted_frame [FStats]); [done|set_solver|done|by rewrite Es|by rewrite Es].
  - apply (refs_follow_frame _ _ _ Hf); set_solver.
  - exists (cfg_seq_num (global_config s)). rewrite set_seq_num_same. by destruct s.
Qed.

Lemma bypass_result s avail :
  module_inv s avail -> counters_ok (global_stats s) ->
  is_s64 (connections_active (global_stats s)) -> packet_result s avail (bypass s).
Proof.
  intros Hm (_ & _ & He) Ha. apply packet_stats_result; [done|done|by intros []|].
  left. split; [done|]. left. unfold accepted_as. destruct (global_stats s); simpl in *.
  rewrite s64_id by done. done.
Qed.

Lemma error_result s avail :
  module_inv s avail -> counters_ok (global_stats s) ->
  is_s64 (connections_active (global_stats s)) -> packet_result s avail (hook_error s).
Proof.
  intros Hm (_ & Hb & _) Ha. apply packet_stats_result; [done|done|by intros []|].
  left. split; [done|]. right. unfold accepted_as. destruct (global_stats s); simpl in *.
  rewrite s64_id by done. done.
Qed.

Lemma process_result `{!XmitAccepts W} skb out ihl thl proto start s avail :
  linear skb -> parsed skb out ihl thl proto -> module_inv s avail ->
  counters_ok (global_stats s) -> is_s64 (connections_active (global_stats s)) ->
  packet_result s avail (hook_process (skb_data skb) 14 out start s).
Proof.
  intros Hlin Hp Hm Hc Ha.
  destruct (hook_process_run skb out ihl thl proto start s avail Hlin Hp Hm Hc)
    as (r & s' & avail' & E & Ht & Hm' & Hr & Hf & (pt & d & Hpt & Hd & _ & Er) & Hrf & Hq).
  destruct (record_time_run pt _ (map_errors (fun e => s64 (e + d)) (global_stats s)) eq_refl)
    as (st' & Er' & E1 & E2 & E3 & E4 & E5 & E6 & Htm).
  { destruct Hc as (? & _). by destruct (global_stats s). }
  rewrite Er in Er'. injection Er' as <-.
  exists NF_STOLEN, s', avail'. split_and!; [done|done|done| | | |done|done].
  - eapply frame_weaken, Hf. set_solver.
  - right. split; [done|]. exists pt, d. split; [done|]. split; [|split; [done|]].
    + unfold stolen_with. rewrite E1, E2, E3, E4. by destruct (global_stats s).
    + intros H1 H2. apply Htm; [done|..]; by destruct (global_stats s).
  - apply (conn_counted_frame _ _ _ Hf); [set_solver|done| |]; rewrite ?E5, ?E6;
      by destruct (global_stats s).
Qed.

Lemma tracked_module_inv s s' avail :
  module_inv s avail -> frame [FConns; FStats; FKlive] s s' -> conns_ok s' -> tracked_heap s s' ->
  module_inv s' avail.
Proof.
  intros [Hb Hc Hl] Hf Hc' Hh. split; [eapply buffers_ok_frame, Hb; [| |exact Hf]; set_solver|done|].
  destruct Hh as [(-> & _ & Hp & _)|(-> & Hp & _)]; rewrite Hl; apply set_eq; intros a;
    rewrite ?elem_of_union, ?elem_of_singleton, !elem_of_list_to_set, Hp; [done|].
  by rewrite elem_of_cons.
Qed.

(** Headers of a parsed packet can be tracked. *)
Lemma parsed_tcp_fields skb out ihl thl proto t :
  linear skb -> parsed skb out ihl thl proto -> po_tcp_hdr out = Some t ->
  exists sa da sp dp seq aseq syn ack,
    tcp_fields (skb_data skb) 14 t sa da sp dp seq aseq syn ack.
Proof.
  intros Hlin Hp Et. destruct (parsed_transport_bounds _ _ _ _ _ Hlin Hp) as (_ & Ht & _).
  destruct (Ht t Et) as [-> ?]. destruct Hp. apply tcp_fields_exist; lia.
Qed.

Lemma transport_result `{!XmitAccepts W} skb out ihl thl proto start s avail :
  linear skb -> parsed skb out ihl thl proto -> module_inv s avail ->
  counters_ok (global_stats s) -> is_s64 (connections_active (global_stats s)) ->
  packet_result s avail (hook_transport (skb_data skb) 14 out start s).
Proof.
  intros Hlin Hp Hm Hc Ha. unfold hook_transport. run_simpl.
  destruct (parsed_transport_bounds _ _ _ _ _ Hlin Hp) as (_ & _ & Hu).
  destruct (if _ =? IPPROTO_TCP then po_tcp_hdr out else None) as [t|] eqn:Et.
  - assert (po_tcp_hdr out = Some t) as Et' by (by destruct (_ =? _)).
    destruct (parsed_tcp_fields _ _ _ _ _ _ Hlin Hp Et')
      as (sa & da & sp & dp & seq & aseq & syn & ack & Hf).
    rewrite (deref_bind _ _ _ _ (tf_dest _ _ _ _ _ _ _ _ _ _ _ Hf)).
    destruct (negb _); [by apply bypass_result|].
    destruct (track_run _ _ _ _ _ _ _ _ _ _ _ s (mi_conns _ _ Hm) Hf)
      as (r & s1 & E & Hok1 & Hf1 & _ & Hh).
    rewrite (bind_run _ _ _ _ _ E).
    pose proof (quiet_tracked _ _ Hf1 Hh Ha) as Hq. apply (packet_result_quiet _ _ _ _ Hq).
    pose proof (tracked_module_inv _ _ _ Hm Hf1 Hok1 Hh). pose proof (quiet_counters _ _ Hq Hc).
    assert (is_s64 (connections_active (global_stats s1))).
    { destruct Hq as [_ _ _ [-> _] _]. unfold is_s64, swrap. change (2 ^ (64 - 1)) with (2 ^ 63).
      pose proof (Z.mod_pos_bound (connections_active (global_stats s) +
        (zlen (table_addrs s1) - zlen (table_addrs s)) + 2 ^ 63) (2 ^ 64)). lia. }
    destruct (r <? 0); [by apply error_result|by eapply process_result].
  - destruct (if _ =? IPPROTO_UDP then po_udp_hdr out else None) as [u|] eqn:Eu.
    + assert (po_udp_hdr out = Some u) as Eu' by (by destruct (_ =? IPPROTO_UDP)).
      destruct (Hu _ Eu') as [-> ?].
      destruct (load_is_Some 2 (skb_data skb) (14 + ihl + 2)) as [dest Hd]; [destruct Hp; lia|lia|].
      rewrite (deref_bind _ _ _ dest) by done.
      destruct (negb _); [by apply bypass_result|by eapply process_result].
    + by eapply process_result.
Qed.

(** Logging before and after does not matter. *)
Lemma logged_before s s1 avail :
  logged s s1 -> module_inv s avail -> counters_ok (global_stats s) ->
  is_s64 (connections_active (global_stats s)) ->
  module_inv s1 avail /\ counters_ok (global_stats s1) /\
  is_s64 (connections_active (global_stats s1)) /\
  (forall o, packet_result s1 avail o -> packet_result s avail o).
Proof.
  intros Hl Hm Hc Ha. pose proof (quiet_logged _ _ Hl Ha) as Hq.
  assert (global_stats s1 = global_stats s) as -> by (apply (logged_frame [] _ _ Hl FStats); set_solver).
  split_and!; [|done|done|by intros o; apply packet_result_quiet].
  eapply (module_inv_frame []), Hm; try set_solver. by apply logged_frame.
Qed.

Lemma logged_after s avail v s1 s2 :
  logged s1 s2 -> packet_result s avail (Done (v, s1)) -> packet_result s avail (Done (v, s2)).
Proof.
  intros Hl (v' & s' & avail' & [= <- <-] & Ht & Hm & Hf & He & [Hc1 Hc2] & Hrf & q & Hq).
  pose proof (logged_frame [] _ _ Hl) as Hf2.
  assert (global_stats s2 = global_stats s1) as Es by (apply (Hf2 FStats); set_solver).
  assert (connection_hash s2 = connection_hash s1) as Ec by (apply (Hf2 FConns); set_solver).
  exists v, s2, avail'. unfold conn_counted, table_addrs in *. rewrite Es, Ec.
  split_and!; [done|done| | |done|done|done| |].
  - eapply (module_inv_frame []), Hm; done || set_solver.
  - etransitivity; [exact Hf|by apply logged_frame].
  - eapply refs_follow_trans; [exact Hrf|eapply refs_follow_frame; [exact Hf2|set_solver|set_solver]].
  - exists q. rewrite <- Hq. apply (Hf2 FConfig). set_solver.
Qed.

Lemma parse_error_result msg s avail :
  module_inv s avail -> counters_ok (global_stats s) ->
  is_s64 (connections_active (global_stats s)) ->
  packet_result s avail ((_ ← modify_stats (map_errors atomic64_inc);
    _ ← nanonet_log_error msg; mret NF_ACCEPT) s).
Proof.
  intros Hm Hc Ha. pose proof (error_result s avail Hm Hc Ha) as H.
  unfold hook_error, modify_stats in *. revert H. run_simpl. intros H.
  match type of H with packet_result _ _ (mret _ ?t) =>
    destruct (log_and_return msg NF_ACCEPT t) as (s2 & -> & Hl) end.
  by eapply logged_after.
Qed.

Lemma hook_result `{!XmitAccepts W} skb s avail :
  in_bounds skb -> module_inv s avail -> counters_ok (global_stats s) ->
  is_s64 (connections_active (global_stats s)) ->
  packet_result s avail (nanonet_hook skb s).
Proof.
  intros Hin Hm Hc Ha. pose proof Hin as [Hlin _]. unfold nanonet_hook. run_simpl.
  destruct (skb_dev skb); [|by apply bypass_result].
  destruct (negb _); [by apply bypass_result|].
  destruct (get_timestamp_run s) as (start & s1 & E1 & Hl1 & _). rewrite (bind_run _ _ _ _ _ E1).
  destruct (logged_before _ _ _ Hl1 Hm Hc Ha) as (Hm1 & Hc1 & Ha1 & Hres). apply Hres.
  destruct (parse_in_bounds skb Hin) as (r & out & Ep). rewrite (deref_bind _ _ _ _ Ep).
  destruct (Z.ltb_spec r 0); [by apply parse_error_result|].
  destruct (parse_result _ _ _ Ep) as [->|]; [|lia].
  destruct (parse_success _ _ Hlin Ep) as (ihl & thl & proto & Hp).
  rewrite (parsed_ip _ _ _ _ _ Hp). cbn [non_null]. run_simpl.
  assert (34 <= zlen (skb_data skb)) as Hz.
  { destruct (parsed_transport_bounds _ _ _ _ _ Hlin Hp) as (? & _). destruct Hp. lia. }
  destruct (load_is_Some 4 (skb_data skb) (14 + 12)) as [sa Hsa]; [lia..|].
  destruct (load_is_Some 2 (skb_data skb) (14 + 2)) as [tl Htl]; [lia..|].
  destruct (load_is_Some 4 (skb_data skb) (14 + 16)) as [da Hda]; [lia..|].
  destruct (validate_packet_run (skb_data skb) 14 sa tl s1 Hsa Htl) as (v & s2 & E2 & Hl2 & _).
  rewrite (bind_run _ _ _ _ _ E2).
  destruct (logged_before _ _ _ Hl2 Hm1 Hc1 Ha1) as (Hm2 & Hc2 & Ha2 & Hres2). apply Hres2.
  destruct (v <? 0); [by apply error_result|]. unfold hook_filter. run_simpl.
  rewrite (deref_bind _ _ _ da) by done.
  destruct (_ && _); [by apply bypass_result|by eapply transport_result].
Qed.
End Hook.

(** ** Properties of the hook *)

Section HookTheorems.
Context {W B : Type} `{!KernelEnv W, !KernelLaws W, !SkbOps B, !SkbLaws B}.
Implicit Types s : kstate W B.

(** C2: for any packet that lies in its linear buffer (its bytes, the IP header
    as long as IHL says and, for UDP with a checksum, the bytes the UDP length
    covers), whatever the configuration and the kernel's answers, as long as the
    queueing discipline accepts frames, the hook does not crash.
    It keeps the module's invariant (well-formed pool and connection table, no
    leaked buffer or object), takes at most one buffer from the pool, changes
    only the sequence number of the configuration, and accounts for the packet
    exactly once: an accepted packet is counted either as bypassed or as an
    error, a stolen one as processed (and as an error too if the logic failed);
    the active-connections counter follows the table; a minimum, average and
    maximum time in order stay in order while the running sum fits. *)
Theorem hook_correct `{!XmitAccepts W} skb s avail :
  in_bounds skb -> module_inv s avail -> counters_ok (global_stats s) ->
  is_s64 (connections_active (global_stats s)) ->
  exists v s' avail', nanonet_hook skb s = Done (v, s') /\
    one_taken avail avail' /\ module_inv s' avail' /\
    frame [FStats; FConns; FKlive; FPool; FSkbs; FDevRefs; FWire; FConfig; FTrace] s s' /\
    packet_effect (global_stats s) (global_stats s') v /\ conn_counted s s' /\ refs_follow s s' /\
    exists q, global_config s' = set_seq_num q (global_config s).
Proof. apply hook_result. Qed.

(** While the module is disabled, or for a packet without a device, the
    hook accepts the packet, counts it as bypassed and does nothing else; not a
    byte of the packet is read. *)
Theorem hook_disabled skb s :
  cfg_enabled (global_config s) = false \/ skb_dev skb = None ->
  nanonet_hook skb s =
    Done (NF_ACCEPT, set_stats (map_packets_bypassed atomic64_inc (global_stats s)) s).
Proof.
  intros H. unfold nanonet_hook. run_simpl.
  destruct (skb_dev skb); [|done]. destruct H as [->|]; done.
Qed.

Lemma parse_failed_run skb out r s :
  cfg_enabled (global_config s) = true -> is_Some (skb_dev skb) ->
  ull_parse_packet skb = Some (r, out) -> r < 0 ->
  exists s', nanonet_hook skb s = Done (NF_ACCEPT, s') /\
    logged (set_stats (map_errors atomic64_inc (global_stats s)) s) s'.
Proof.
  intros Hen [d Hd] Ep Hr. unfold nanonet_hook. run_simpl. rewrite Hd, Hen. cbn [negb].
  destruct (get_timestamp_run s) as (t & s1 & E1 & (dd & k & w & -> & Hdc & Hlf) & _).
  rewrite (bind_run _ _ _ _ _ E1), (deref_bind _ _ _ _ Ep).
  rewrite (proj2 (Z.ltb_lt _ _) Hr). unfold modify_stats. run_simpl.
  match goal with |- context [mbind _ (nanonet_log_error ?m) ?t] =>
    destruct (log_and_return m NF_ACCEPT t) as (s2 & E2 & Hl2) end.
  exists s2. split; [exact E2|]. etransitivity; [|exact Hl2].
  exists dd, k, w. unfold log_upd in *. destruct s; simpl in *. done.
Qed.

(** C26: a well-formed IPv4 packet whose header checksum is correct and not
    zero is never processed: the enabled hook accepts it and counts it as an
    error, and nothing but that counter and the log changes. *)
Theorem hook_ignores_valid_packets skb ihl check s :
  cfg_enabled (global_config s) = true -> is_Some (skb_dev skb) ->
  Forall is_byte (skb_data skb) -> ipv4_frame skb ihl check ->
  14 + ihl <= zlen (skb_data skb) ->
  rfc1071 (take (Z.to_nat ihl) (drop 14 (skb_data skb))) = 0 -> check <> 0 ->
  exists s', nanonet_hook skb s = Done (NF_ACCEPT, s') /\
    logged (set_stats (map_errors atomic64_inc (global_stats s)) s) s'.
Proof.
  intros Hen Hd Hb Hf Hz Hv Hck.
  eapply parse_failed_run; [done|done|by eapply valid_header_refused|done].
Qed.

(** An admitted packet: enabled, with a device, parsed, not rate limited, with a
    source address and a plausible length. *)
Record admitted (skb : sk_buff) (out : parse_out) (s : kstate W B) : Prop := {
  ad_enabled : cfg_enabled (global_config s) = true;
  ad_dev : is_Some (skb_dev skb);
  ad_parse : ull_parse_packet skb = Some (0, out);
  ad_rate : forall w : W, fst (ratelimit_ok nanonet_ratelimit w) = true;
  ad_source : exists sa, iph_saddr (skb_data skb) 14 = Some sa /\ sa <> 0;
  ad_len : exists tl, iph_tot_len (skb_data skb) 14 = Some tl /\ 20 <= tl;
}.

Lemma admitted_run skb out s :
  linear skb -> admitted skb out s ->
  exists start s1, logged s s1 /\ nanonet_hook skb s = hook_filter (skb_data skb) 14 out start s1.
Proof.
  intros Hlin [Hen [d Hd] Ep Hrate (sa & Hsa & Hsa0) (tl & Htl & Htl20)].
  destruct (parse_success _ _ Hlin Ep) as (ihl & thl & proto & Hp).
  unfold nanonet_hook. run_simpl. rewrite Hd, Hen. cbn [negb].
  destruct (get_timestamp_run s) as (start & s1 & E1 & Hl1 & _).
  rewrite (bind_run _ _ _ _ _ E1), (deref_bind _ _ _ _ Ep). cbn [Z.ltb Z.compare].
  rewrite (parsed_ip _ _ _ _ _ Hp). cbn [non_null]. run_simpl.
  destruct (validate_packet_run (skb_data skb) 14 sa tl s1 Hsa Htl)
    as (v & s2 & E2 & Hl2 & [[_ H]|[_ ->]]); [by rewrite Hrate in H|].
  rewrite (proj2 (Z.eqb_neq sa 0) Hsa0) in E2. rewrite (proj2 (Z.ltb_ge tl 20) Htl20) in E2.
  rewrite (bind_run _ _ _ _ _ E2). exists start, s2. split; [by etransitivity|done].
Qed.

(** The packet's destination address is one the module listens to. *)
Definition addressed (c : ull_config) (da : Z) : Prop :=
  da = cfg_target_ip c \/ (cfg_multicast c = true /\ da = cfg_multicast_group c).

#[export] Instance addressed_dec c da : Decision (addressed c da).
Proof. unfold addressed. apply _. Defined.

(** C10: the exact filter for UDP packets. An admitted UDP packet is stolen and
    processed exactly when its destination address is the configured target (or
    the configured group while multicast is on), and, if the configured protocol
    is UDP, its destination port is the configured one; with any other
    configured protocol the port is not looked at. All others are accepted. *)
Theorem udp_delivery `{!XmitAccepts W} skb out u da dp s avail :
  in_bounds skb -> admitted skb out s -> po_udp_hdr out = Some u ->
  iph_daddr (skb_data skb) 14 = Some da -> udph_dest (skb_data skb) u = Some dp ->
  module_inv s avail -> counters_ok (global_stats s) ->
  let c := global_config s in
  exists s', nanonet_hook skb s = Done
    (if decide (addressed c da /\ (cfg_protocol c = IPPROTO_UDP -> dp = cfg_target_port c))
     then NF_STOLEN else NF_ACCEPT, s').
Proof.
  intros [Hlin _] Had Hu Hda Hdp Hm Hc c.
  destruct (admitted_run skb out s Hlin Had) as (start & s1 & Hl & ->).
  destruct Had as [_ _ Ep _ _ _].
  destruct (parse_success _ _ Hlin Ep) as (ihl & thl & proto & Hp).
  pose proof (logged_frame [] _ _ Hl) as Hf.
  assert (global_config s1 = c) as Ec by (apply (Hf FConfig); set_solver).
  assert (global_stats s1 = global_stats s) as Es by (apply (Hf FStats); set_solver).
  apply (module_inv_frame [] s s1 avail) in Hm; try (done || set_solver).
  rewrite <- Es in Hc.
  destruct (hook_process_run skb out ihl thl proto start s1 avail Hlin Hp Hm Hc)
    as (r & s' & avail' & E & _).
  unfold hook_filter, hook_transport. run_simpl. rewrite (deref_bind _ _ _ _ Hda). run_simpl.
  rewrite Ec, Hu.
  assert (po_tcp_hdr out = None) as Ht by (destruct Hp as [_ _ _ _ _ _ [(?&?&?&?)|(?&?&?&?)] _]; congruence).
  rewrite Ht.
  destruct (negb (da =? cfg_target_ip c) && _) eqn:Ead.
  - rewrite decide_False; [by eexists|]. intros [Had _]. unfold addressed in Had.
    apply andb_true_iff in Ead as [E1%negb_true_iff%Z.eqb_neq E2].
    apply orb_true_iff in E2 as [E2%negb_true_iff|E2%negb_true_iff%Z.eqb_neq]; intuition congruence.
  - assert (addressed c da) as Hadr.
    { unfold addressed. apply andb_false_iff in Ead as [E1%negb_false_iff%Z.eqb_eq|E2]; [by left|].
      apply orb_false_iff in E2 as [E2%negb_false_iff E3%negb_false_iff%Z.eqb_eq]. by right. }
    run_simpl. rewrite Ec.
    replace (if cfg_protocol c =? IPPROTO_TCP then None else None) with (None : option Z)
      by (by destruct (cfg_protocol c =? IPPROTO_TCP)).
    destruct (Z.eqb_spec (cfg_protocol c) IPPROTO_UDP) as [Hud|Hud].
    + rewrite (deref_bind _ _ _ _ Hdp). destruct (Z.eqb_spec dp (cfg_target_port c)); cbn [negb].
      * rewrite decide_True by auto. eauto.
      * rewrite decide_False by tauto. by eexists.
    + rewrite decide_True by (split; [done|intros; done]). eauto.
Qed.

(** C16: the average processing time is a true running average of 64-bit
    values: while the running sum fits in 64 bits and the counter has not
    reached its maximum, recording a packet succeeds, the minimum and maximum
    absorb the new time, and the average stays between them. *)
Theorem record_time_average pt st :
  0 <= packets_processed st < 2 ^ 63 - 1 -> in_width 64 pt -> times_ok st -> sum_fits pt st ->
  exists st', record_time pt (map_packets_processed atomic64_inc st) = Some st' /\
    times_ok st' /\ packets_processed st' = packets_processed st + 1.
Proof.
  intros Hn Hpt Ht Hs.
  destruct (record_time_run pt _ st eq_refl Hn) as (st' & E & En & _ & _ & _ & _ & _ & H).
  exists st'. auto.
Qed.
End HookTheorems.

(** ** Load and unload *)

Definition debug_resources : list resource := [RDebugFile; RDebugDir].

(** What loading may change. *)
Abbreviation load_fields := [FTarget; FPool; FSkbs; FDevRefs; FRegistered].

Section Load.
Context {W B : Type} `{!KernelEnv W, !KernelLaws W, !SkbOps B, !SkbLaws B}.
Implicit Types s : kstate W B.

Lemma filter_drop (r : resource) l l' :
  r ∉ l' -> filter (fun x => x <> r) (l ++ l') = filter (fun x => x <> r) l ++ l'.
Proof. intros H. rewrite filter_app. by rewrite (filter_absent r l'). Qed.

(** Debugfs reports failure as NULL, which is what the code tests for; or it
    is absent and answers with an [ERR_PTR], which the code takes for success. *)
Definition debugfs_null_errors : Prop :=
  forall r w e, r ∈ debug_resources -> fst (register_ptr r w) <> PErr e.
Definition debugfs_absent : Prop :=
  forall r w, r ∈ debug_resources -> exists e, fst (register_ptr r w) = PErr e.

(** The objects of the debug interface after a load that succeeded. *)
Definition debug_interface (dbg : list resource) : Prop :=
  dbg ⊆ debug_resources /\ (debugfs_null_errors -> dbg = debug_resources) /\
  (debugfs_absent -> dbg = []).

(** The kernel grants everything the module asks for. *)
Definition all_granted : Prop :=
  (forall r w, fst (register_int r w) = 0) /\ (forall r w, fst (register_ptr r w) = PValid) /\
  (forall n w, fst (alloc_skb_ok n w) = true) /\ (forall w, is_Some (fst (find_device w))).

(** On failure the debug interface leaves nothing behind. *)
Definition debug_outcome (base : list resource) s (o : outcome (Z * kstate W B)) : Prop :=
  exists r s' dbg, o = Done (r, s') /\ frame [FRegistered] s s' /\
    registered s' = dbg ++ base /\ dbg ⊆ debug_resources /\ (all_granted -> r = 0) /\
    (r = 0 /\ debug_interface dbg \/ r < 0 /\ dbg = []).

Lemma debug_file_run base dbg dir w s s1 :
  frame [FRegistered] s s1 -> registered s1 = dbg ++ base ->
  RDebugFile ∉ base -> RDebugDir ∉ base -> fst (register_ptr RDebugDir w) = dir ->
  (exists e, dbg = [] /\ dir = PErr e) \/ (dbg = [RDebugDir] /\ dir = PValid) ->
  debug_outcome base s (debug_stats_file s1).
Proof.
  intros Hf E1 H1 H2 Hdir Hdbg. unfold debug_stats_file.
  rewrite (bind_run _ _ _ _ _ (ask_eq (register_ptr RDebugFile) s1)).
  destruct (register_ptr RDebugFile (world s1)) as [file w1] eqn:Ef. cbn [fst snd].
  apply (f_equal fst) in Ef. cbn [fst] in Ef.
  assert (frame [FRegistered] s (set_world w1 s1)) as Hf1
    by (etransitivity; [exact Hf|apply world_frame]).
  assert (dbg ⊆ [RDebugDir] /\ filter (fun x => x <> RDebugDir) dbg = []) as [Hsub Hflt]
    by (destruct Hdbg as [(e & -> & _)|[-> _]]; split; set_solver || done).
  assert (forall r e w0, r ∈ debug_resources -> fst (register_ptr r w0) = PErr e ->
    debugfs_null_errors -> False) as Hnull by (intros r e w0 Hr He Hn; by apply (Hn r w0 e)).
  assert (forall r w0, r ∈ debug_resources -> fst (register_ptr r w0) = PValid ->
    debugfs_absent -> False) as Habs
    by (intros r w0 Hr He Hn; destruct (Hn r w0 Hr); congruence).
  assert (RDebugDir ∈ debug_resources /\ RDebugFile ∈ debug_resources) as [Hd1 Hd2]
    by (unfold debug_resources; set_solver).
  destruct file; unfold release, acquire; run_simpl.
  - do 2 eexists. exists []. split; [done|].
    split; [etransitivity; [exact Hf1|destruct s1; solve_frame]|].
    split; [|split; [set_solver|split; [|right; done]]].
    + destruct s1; simpl in *. rewrite E1, (filter_absent RDebugFile) by set_solver.
      by rewrite filter_drop, Hflt.
    + intros (_ & Hp & _). by rewrite Hp in Ef.
  - do 2 eexists. exists dbg. split; [done|]. split; [done|].
    split; [by destruct s1|]. split; [unfold debug_resources; set_solver|]. split; [done|].
    left. split; [done|]. split; [unfold debug_resources; set_solver|].
    split; [by intros []%(Hnull _ _ _ Hd2 Ef)|].
    destruct Hdbg as [(e' & -> & _)|[-> ->]]; [done|]. by intros []%(Habs _ _ Hd1 Hdir).
  - do 2 eexists. exists (RDebugFile :: dbg). split; [done|].
    split; [etransitivity; [exact Hf1|destruct s1; solve_frame]|].
    split; [destruct s1; simpl in *; by rewrite E1|].
    split; [unfold debug_resources; set_solver|]. split; [done|]. left. split; [done|].
    split; [unfold debug_resources; set_solver|].
    split; [|by intros []%(Habs _ _ Hd2 Ef)].
    destruct Hdbg as [(e' & -> & ->)|[-> _]]; [|done]. by intros []%(Hnull _ _ _ Hd1 Hdir).
Qed.

Lemma debug_init_run base s :
  registered s = base -> RDebugFile ∉ base -> RDebugDir ∉ base ->
  debug_outcome base s (nanonet_debug_init s).
Proof.
  intros E H1 H2. unfold nanonet_debug_init.
  rewrite (bind_run _ _ _ _ _ (ask_eq (register_ptr RDebugDir) s)).
  destruct (register_ptr RDebugDir (world s)) as [dir w] eqn:Ed. cbn [fst snd].
  apply (f_equal fst) in Ed. cbn [fst] in Ed.
  destruct dir; unfold acquire; run_simpl.
  - do 2 eexists. exists []. split; [done|]. split; [destruct s; solve_frame|].
    split; [by destruct s|]. split; [set_solver|]. split; [|right; done].
    intros (_ & Hp & _). by rewrite Hp in Ed.
  - apply (debug_file_run base [] (PErr e) (world s));
      [apply world_frame|by destruct s|done|done|done|left; eauto].
  - apply (debug_file_run base [RDebugDir] PValid (world s));
      [destruct s; solve_frame| |done|done|done|by right].
    destruct s; simpl in *. by rewrite E.
Qed.

(** Tearing down: the pool and the device reference. *)
Lemma pool_empty_run s avail :
  buffers_ok s avail ->
  exists s', nanonet_cleanup_response_pool s = Done (tt, s') /\ pool_only s s' /\ skbs s' = ∅.
Proof.
  intros [Hp _ Hown]. destruct (cleanup_response_pool_run s avail Hp) as (s1 & E & Hf & _ & Hsk).
  exists s1. split; [done|]. split; [done|]. apply map_eq. intros p. rewrite Hsk, lookup_empty.
  destruct (decide (p ∈ avail)) as [|Hn]; [done|]. rewrite <- Hown in Hn. by apply eq_None_not_Some.
Qed.

Lemma pool_teardown_run {A} (a : A) s avail :
  buffers_ok s avail ->
  exists s', (_ ← nanonet_cleanup_response_pool; _ ← dev_put; mret a) s = Done (a, s') /\
    frame [FPool; FSkbs; FDevRefs] s s' /\ skbs s' = ∅ /\ dev_refs s' = dev_refs s - 1.
Proof.
  intros Hb. destruct (pool_empty_run s avail Hb) as (s1 & E & Hf & Hsk).
  rewrite (bind_run _ _ _ _ _ E). unfold dev_put. run_simpl. eexists. split; [done|].
  split; [etransitivity; [eapply frame_weaken, Hf; set_solver|destruct s1; solve_frame]|].
  split; [by destruct s1|]. rewrite <- (Hf FDevRefs) by set_solver. by destruct s1.
Qed.

Lemma control_teardown_run {A} (a : A) s avail :
  buffers_ok s avail -> registered s = control_resources ->
  exists s', (_ ← nanonet_control_cleanup; _ ← nanonet_cleanup_response_pool; _ ← dev_put; mret a) s
      = Done (a, s') /\ frame [FRegistered; FPool; FSkbs; FDevRefs] s s' /\
    registered s' = [] /\ skbs s' = ∅ /\ dev_refs s' = dev_refs s - 1.
Proof.
  intros Hb Hr. destruct (control_cleanup_run [] s) as (s1 & E & Hf & Hr1).
  { left. by rewrite app_nil_r. } { repeat constructor; set_solver. }
  rewrite (bind_run _ _ _ _ _ E).
  destruct (pool_teardown_run a s1 avail) as (s2 & -> & Hf2 & Hsk & Hd).
  { eapply buffers_ok_frame, Hb; [| |exact Hf]; set_solver. }
  exists s2. split; [done|]. split_and!; [|rewrite <- Hr1; apply (Hf2 FRegistered); set_solver|done|].
  - transitivity s1; [eapply frame_weaken, Hf; set_solver|eapply frame_weaken, Hf2; set_solver].
  - rewrite Hd. f_equal. apply (Hf FDevRefs). set_solver.
Qed.

Lemma debug_cleanup_run dbg base s :
  registered s = dbg ++ base -> dbg ⊆ debug_resources -> RDebugFile ∉ base -> RDebugDir ∉ base ->
  exists s', nanonet_debug_cleanup s = Done (tt, s') /\ frame [FRegistered] s s' /\
    registered s' = base.
Proof.
  intros E Hsub H1 H2. unfold nanonet_debug_cleanup, release. run_simpl. eexists. split; [done|].
  split; [destruct s; solve_frame|]. destruct s; simpl in *. rewrite E.
  rewrite filter_drop, filter_drop by done.
  replace (filter (fun x => x <> RDebugDir) (filter (fun x => x <> RDebugFile) dbg)) with (@nil resource);
    [done|]. symmetry. clear E. induction dbg as [|x dbg IH]; [done|].
  assert (x = RDebugFile \/ x = RDebugDir) as [-> | ->] by (unfold debug_resources in Hsub; set_solver).
  - rewrite filter_cons_False by (intros H; by apply H). apply IH. set_solver.
  - rewrite filter_cons_True by done. rewrite filter_cons_False by (intros H; by apply H).
    apply IH. set_solver.
Qed.

Lemma full_teardown_run {A} (a : A) dbg s avail :
  buffers_ok s avail -> registered s = dbg ++ control_resources -> dbg ⊆ debug_resources ->
  exists s', (_ ← nanonet_debug_cleanup; _ ← nanonet_control_cleanup;
      _ ← nanonet_cleanup_response_pool; _ ← dev_put; mret a) s
      = Done (a, s') /\ frame [FRegistered; FPool; FSkbs; FDevRefs] s s' /\
    registered s' = [] /\ skbs s' = ∅ /\ dev_refs s' = dev_refs s - 1.
Proof.
  intros Hb Hr Hsub.
  destruct (debug_cleanup_run dbg control_resources s) as (s1 & E & Hf & Hr1);
    [done|done|unfold control_resources; set_solver|unfold control_resources; set_solver|].
  rewrite (bind_run _ _ _ _ _ E).
  destruct (control_teardown_run a s1 avail) as (s2 & -> & Hf2 & Hr2 & Hsk & Hd).
  { eapply buffers_ok_frame, Hb; [| |exact Hf]; set_solver. } { done. }
  exists s2. split; [done|]. split_and!; [|done|done|].
  - transitivity s1; [eapply frame_weaken, Hf; set_solver|done].
  - rewrite Hd. f_equal. apply (Hf FDevRefs). set_solver.
Qed.

(** The module is up, with the hook and the control interface registered, the
    debug interface as far as debugfs has it, a full pool and one device
    reference. *)
Record module_up (refs : Z) (s : kstate W B) : Prop := {
  up_registered : exists dbg, registered s = RNetHook :: dbg ++ control_resources /\
    debug_interface dbg;
  up_buffers : exists avail, length avail = 256%nat /\ buffers_ok s avail;
  up_refs : dev_refs s = refs + 1;
  up_target : is_Some (target_dev s);
}.

(** Nothing is left in the kernel. *)
Definition module_down (refs : Z) (s : kstate W B) : Prop :=
  registered s = [] /\ skbs s = ∅ /\ dev_refs s = refs.

Definition load_outcome (refs : Z) (s : kstate W B) (o : outcome (Z * kstate W B)) : Prop :=
  exists r s', o = Done (r, s') /\ frame load_fields s s' /\ (all_granted -> r = 0) /\
    (r = 0 /\ module_up refs s' \/ r < 0 /\ module_down refs s').

Lemma load_outcome_step refs s s1 o :
  frame load_fields s s1 -> load_outcome refs s1 o -> load_outcome refs s o.
Proof.
  intros Hf (r & s' & E & Hf' & H). exists r, s'. split; [done|]. split; [by etransitivity|done].
Qed.

(** The state before the hook is registered. *)
Record nearly_up (refs : Z) (dbg : list resource) (avail : list nat) (s : kstate W B) : Prop := {
  nu_registered : registered s = dbg ++ control_resources;
  nu_debug : dbg ⊆ debug_resources;
  nu_len : length avail = 256%nat;
  nu_buffers : buffers_ok s avail;
  nu_refs : dev_refs s = refs + 1;
  nu_target : is_Some (target_dev s);
}.

Lemma nearly_up_logged refs dbg avail s s' :
  logged s s' -> nearly_up refs dbg avail s -> nearly_up refs dbg avail s'.
Proof.
  intros Hl []. pose proof (logged_frame [] _ _ Hl) as Hf. split; try done.
  - rewrite <- nu_registered0. apply (Hf FRegistered). set_solver.
  - eapply (buffers_ok_frame []), nu_buffers0; [set_solver|set_solver|done].
  - rewrite <- nu_refs0. apply (Hf FDevRefs). set_solver.
  - keep Hf FTarget. done.
Qed.

Lemma printk_bind {A} msg (k : M W B A) s :
  exists s1, logged s s1 /\ (_ ← printk msg; k) s = k s1.
Proof. eexists. split; [by eapply logged_printk|done]. Qed.

(** An error path that undoes everything. *)
Lemma teardown_outcome refs dbg avail r msg s :
  r < 0 -> ~ all_granted -> nearly_up refs dbg avail s ->
  load_outcome refs s ((_ ← printk msg; _ ← nanonet_debug_cleanup; _ ← nanonet_control_cleanup;
    _ ← nanonet_cleanup_response_pool; _ ← dev_put; mret r) s).
Proof.
  intros Hr Hng Hn. match goal with |- context [(_ ← printk msg; ?k) s] =>
    destruct (printk_bind msg k s) as (s1 & Hl & ->) end.
  pose proof (nearly_up_logged _ _ _ _ _ Hl Hn) as [].
  destruct (full_teardown_run r dbg s1 avail) as (s2 & -> & Hf & Hr2 & Hsk & Hd); [done..|].
  exists r, s2. split; [done|]. split; [|split; [done|]].
  - etransitivity; [by apply logged_frame|eapply frame_weaken, Hf; set_solver].
  - right. split; [done|]. unfold module_down. rewrite Hd. split_and!; [done|done|lia].
Qed.

Lemma init_hook_outcome refs dbg avail s :
  debug_interface dbg -> nearly_up refs dbg avail s -> load_outcome refs s (init_hook s).
Proof.
  intros Hdi Hn. unfold init_hook. rewrite (bind_run _ _ _ _ _ (ask_eq (register_int RNetHook) s)).
  destruct (register_int RNetHook (world s)) as [r w] eqn:E. cbn [fst snd].
  pose proof (nearly_up_logged _ _ _ _ _ (logged_world w s) Hn) as Hn1.
  apply (load_outcome_step _ _ (set_world w s)); [apply world_frame|].
  destruct (Z.ltb_spec r 0).
  { eapply teardown_outcome; [done| |done]. intros [Hg _]. specialize (Hg RNetHook (world s)).
    rewrite E in Hg. simpl in Hg. lia. }
  set (s1 := set_world w s) in *. clearbody s1. destruct Hn1 as [Hr Hd Hl Hb Href Ht].
  unfold acquire, printk. run_simpl. do 2 eexists. split; [done|].
  split; [destruct s1; solve_frame|]. split; [done|]. left. split; [done|]. split.
  - exists dbg. split; [destruct s1; simpl in *; by rewrite Hr|done].
  - exists avail. split; [done|].
    eapply (buffers_ok_frame [FRegistered]), Hb; [set_solver|set_solver|destruct s1; solve_frame].
  - by destruct s1.
  - by destruct s1.
Qed.

Lemma init_groups_outcome refs dbg avail s :
  cfg_multicast (global_config s) = false -> debug_interface dbg -> nearly_up refs dbg avail s ->
  load_outcome refs s (init_groups s).
Proof.
  intros Hmc Hdi Hn. unfold init_groups, init_multicast. run_simpl.
  destruct (target_dev s); rewrite ?Hmc; run_simpl; by eapply init_hook_outcome.
Qed.

Lemma init_debug_outcome refs avail s :
  cfg_multicast (global_config s) = false -> nearly_up refs [] avail s ->
  load_outcome refs s (init_debug s).
Proof.
  intros Hmc [Hr _ Hl Hb Href Ht]. unfold init_debug.
  destruct (debug_init_run control_resources s) as (r & s1 & dbg & E & Hf & Hr1 & Hsub & Hg & Hres);
    [done|unfold control_resources; set_solver|unfold control_resources; set_solver|].
  rewrite (bind_run _ _ _ _ _ E).
  apply (load_outcome_step _ _ s1); [eapply frame_weaken, Hf; set_solver|].
  assert (nearly_up refs dbg avail s1) as Hn1.
  { split; [done|done|done| | |].
    - eapply buffers_ok_frame, Hb; [| |exact Hf]; set_solver.
    - rewrite <- Href. apply (Hf FDevRefs). set_solver.
    - keep Hf FTarget. done. }
  destruct (Z.ltb_spec r 0).
  - destruct Hres as [[-> _]|[_ ->]]; [lia|].
    match goal with |- context [(_ ← printk ?m; ?k) s1] =>
      destruct (printk_bind m k s1) as (s2 & Hlog & ->) end.
    pose proof (nearly_up_logged _ _ _ _ _ Hlog Hn1) as [].
    destruct (control_teardown_run r s2 avail) as (s3 & -> & Hf3 & Hr3 & Hsk & Hd); [done|done|].
    exists r, s3. split; [done|]. split; [|split; [intros ?%Hg; lia|]].
    + etransitivity; [by apply logged_frame|eapply frame_weaken, Hf3; set_solver].
    + right. split; [done|]. unfold module_down. rewrite Hd. split_and!; [done|done|lia].
  - destruct Hres as [[_ Hdi]|[? _]]; [|lia].
    eapply init_groups_outcome, Hn1; [|done]. keep Hf FConfig. done.
Qed.

(** Nothing fails in a kernel that grants everything. *)
Lemma control_init_granted s : all_granted -> exists s', nanonet_control_init s = Done (0, s').
Proof.
  intros (Hi & Hp & _). unfold nanonet_control_init, control_class, control_device, control_proc.
  repeat (rewrite (bind_run _ _ _ _ _ (ask_eq _ _)); rewrite ?Hi, ?Hp; unfold acquire, printk;
    cbn [Z.ltb Z.compare]; run_simpl).
  eauto.
Qed.

Lemma pool_fill_granted n i s : all_granted -> exists s', pool_fill n i s = Done (0, s').
Proof.
  intros Hg. pose proof Hg as (_ & _ & Ha & _). revert i s.
  induction n as [|n IH]; intros i s; simpl; [eauto|]. unfold alloc_skb. run_simpl.
  rewrite (bind_run _ _ _ _ _ (ask_eq _ s)), Ha. run_simpl. apply IH.
Qed.

Lemma init_control_outcome refs avail s :
  cfg_multicast (global_config s) = false -> registered s = [] -> length avail = 256%nat ->
  buffers_ok s avail -> dev_refs s = refs + 1 -> is_Some (target_dev s) ->
  load_outcome refs s (init_control s).
Proof.
  intros Hmc Hr Hl Hb Href Ht. unfold init_control.
  destruct (control_init_run s) as (r & s1 & E & Hf & Hres).
  { rewrite Hr. repeat constructor; set_solver. }
  rewrite (bind_run _ _ _ _ _ E), Hr, app_nil_r in *.
  apply (load_outcome_step _ _ s1); [eapply frame_weaken, Hf; set_solver|].
  assert (buffers_ok s1 avail) as Hb1 by (eapply buffers_ok_frame, Hb; [| |exact Hf]; set_solver).
  assert (dev_refs s1 = refs + 1) as Hd1 by (rewrite <- Href; apply (Hf FDevRefs); set_solver).
  destruct (Z.ltb_spec r 0); destruct Hres as [[-> Hr1]|[? Hr1]]; try lia.
  - match goal with |- context [(_ ← printk ?m; ?k) s1] =>
      destruct (printk_bind m k s1) as (s2 & Hlog & ->) end.
    pose proof (logged_frame [] _ _ Hlog) as Hf2.
    destruct (pool_teardown_run r s2 avail) as (s3 & -> & Hf3 & Hsk & Hd).
    { eapply (buffers_ok_frame []), Hb1; [set_solver|set_solver|done]. }
    exists r, s3. split; [done|]. split; [|split].
    + etransitivity; [by apply logged_frame|eapply frame_weaken, Hf3; set_solver].
    + intros Hg. destruct (control_init_granted s Hg) as [s' E']. congruence.
    + right. split; [done|]. unfold module_down. rewrite Hd.
      keep Hf3 FRegistered. keep Hf2 FRegistered. keep Hf2 FDevRefs. split_and!; [done|done|lia].
  - eapply init_debug_outcome.
    + keep Hf FConfig. done.
    + split; [done|set_solver|done|done|done|]. keep Hf FTarget. done.
Qed.

(** The state before loading. *)
Record unloaded (s : kstate W B) : Prop := {
  un_registered : registered s = [];
  un_skbs : skbs s = ∅;
  un_pool : length (pool (response_pool s)) = 256%nat;
  un_multicast : cfg_multicast (global_config s) = false;
}.

Lemma dev_get_run s :
  exists d w, dev_get_by_name s = Done (d, match d with
    | Some _ => set_dev_refs (dev_refs s + 1) (set_world w s)
    | None => set_world w s end).
Proof.
  unfold dev_get_by_name, ask, mbind, M_bind. destruct (find_device (world s)) as [d w].
  exists d, w. destruct d; by destruct s.
Qed.

Lemma init_run s : unloaded s -> load_outcome (dev_refs s) s (nanonet_init s).
Proof.
  intros [Hr Hsk Hp Hmc]. unfold nanonet_init.
  match goal with |- context [(_ ← printk ?m; ?k) s] =>
    destruct (printk_bind m k s) as (s1 & Hlog & ->) end.
  pose proof (logged_frame [] _ _ Hlog) as Hf1.
  apply (load_outcome_step _ _ s1); [by apply logged_frame|].
  assert (dev_refs s1 = dev_refs s) as Ed by (apply (Hf1 FDevRefs); set_solver).
  assert (registered s1 = []) as Hr1 by (by keep Hf1 FRegistered).
  assert (skbs s1 = ∅) as Hsk1 by (rewrite <- Hsk; apply (Hf1 FSkbs); set_solver).
  assert (length (pool (response_pool s1)) = 256%nat) as Hp1 by (by keep Hf1 FPool).
  assert (cfg_multicast (global_config s1) = false) as Hmc1 by (by keep Hf1 FConfig).
  rewrite <- Ed. clear s Hr Hsk Hp Hmc Hlog Hf1 Ed.
  destruct (dev_get_run s1) as (d & w & E). rewrite (bind_run _ _ _ _ _ E). run_simpl.
  destruct d as [d|].
  - match goal with |- context [mbind _ nanonet_init_response_pool ?x] => set (s2 := x) end.
    assert (frame [FTarget; FDevRefs] s1 s2 /\ dev_refs s2 = dev_refs s1 + 1 /\ target_dev s2 = Some d)
      as (Hf2 & Hd2 & Ht2) by (unfold s2; destruct s1; split; [solve_frame|done]).
    clearbody s2. apply (load_outcome_step _ _ s2); [eapply frame_weaken, Hf2; set_solver|].
    destruct (nanonet_init_response_pool s2) as [[r s3]|] eqn:E3.
    2:{ destruct (init_response_pool_run s2) as (? & ? & ? & _); [by keep Hf2 FPool| |congruence].
        intros p. destruct (Hf2 FSkbs) as [-> _]; [set_solver|]. rewrite Hsk1. by intros []. }
    rewrite (bind_run _ _ _ _ _ E3).
    destruct (init_buffers_ok s2 s3 r) as [Hf3 Hres]; [by keep Hf2 FPool| |done|].
    { rewrite <- Hsk1. apply (Hf2 FSkbs). set_solver. }
    apply (load_outcome_step _ _ s3); [eapply frame_weaken, Hf3; set_solver|].
    destruct Hres as [(-> & avail & Hl & Hb)|[-> Hsk3]].
    + eapply init_control_outcome; [|  |exact Hl|exact Hb| |].
      * keep Hf3 FConfig. by keep Hf2 FConfig.
      * keep Hf3 FRegistered. by keep Hf2 FRegistered.
      * by keep Hf3 FDevRefs.
      * keep Hf3 FTarget. by rewrite Ht2.
    + cbn [Z.ltb Z.compare Z.opp ENOMEM].
      do 2 eexists. split; [done|]. split; [destruct s3; solve_frame|]. split.
      { intros Hg. unfold nanonet_init_response_pool, pool_set_ends in E3. revert E3. run_simpl.
        match goal with |- pool_fill ?n ?i ?x = _ -> _ =>
          destruct (pool_fill_granted n i x Hg) as [s' ->] end. done. }
      right. split; [done|].
      unfold module_down. assert (registered s3 = []) by (keep Hf3 FRegistered; by keep Hf2 FRegistered).
      assert (dev_refs s3 = dev_refs s1 + 1) by (by keep Hf3 FDevRefs).
      destruct s3; simpl in *. split_and!; [done|done|lia].
  - do 2 eexists. split; [done|]. split; [destruct s1; solve_frame|].
    split; [|right; split; [done|unfold module_down; by destruct s1]].
    intros (_ & _ & _ & Hdev). exfalso. revert E. unfold dev_get_by_name.
    rewrite (bind_run _ _ _ _ _ (ask_eq _ s1)). destruct (Hdev (world s1)) as [d ->]. done.
Qed.

Lemma exit_run dbg avail s :
  registered s = RNetHook :: dbg ++ control_resources -> dbg ⊆ debug_resources ->
  buffers_ok s avail -> is_Some (target_dev s) ->
  exists s', nanonet_exit s = Done (tt, s') /\ module_down (dev_refs s - 1) s' /\
    frame load_fields s s'.
Proof.
  intros Hr Hsub Hb [d Ht]. unfold nanonet_exit.
  match goal with |- context [(_ ← printk ?m; ?k) s] =>
    destruct (printk_bind m k s) as (s1 & Hlog & ->) end.
  pose proof (logged_frame [] _ _ Hlog) as Hf1.
  erewrite (release_bind RNetHook _ (dbg ++ control_resources)).
  2:{ by keep Hf1 FRegistered. }
  2:{ unfold control_resources, debug_resources in *. set_solver. }
  set (s2 := set_registered _ s1).
  assert (frame [FRegistered] s s2) as Hf2.
  { transitivity s1; [by apply logged_frame|unfold s2; destruct s1; solve_frame]. }
  assert (registered s2 = dbg ++ control_resources) as Hr2 by (unfold s2; by destruct s1).
  clearbody s2. clear s1 Hlog Hf1.
  destruct (debug_cleanup_run dbg control_resources s2) as (s3 & E3 & Hf3 & Hr3);
    [done|done|unfold control_resources; set_solver|unfold control_resources; set_solver|].
  rewrite (bind_run _ _ _ _ _ E3).
  destruct (control_cleanup_run [] s3) as (s4 & E4 & Hf4 & Hr4).
  { left. by rewrite app_nil_r. } { repeat constructor; set_solver. }
  rewrite (bind_run _ _ _ _ _ E4).
  assert (frame [FRegistered] s s4) as Hf by (transitivity s2; [done|]; by transitivity s3).
  destruct (pool_empty_run s4 avail) as (s5 & E5 & Hf5 & Hsk).
  { eapply buffers_ok_frame, Hb; [| |exact Hf]; set_solver. }
  rewrite (bind_run _ _ _ _ _ E5). run_simpl.
  assert (frame [FRegistered; FPool; FSkbs] s s5) as Hf'.
  { transitivity s4; [eapply frame_weaken, Hf; set_solver|eapply frame_weaken, Hf5; set_solver]. }
  assert (registered s5 = []) as Hr5 by (by keep Hf5 FRegistered).
  assert (dev_refs s5 = dev_refs s) as Hd5 by (apply (Hf' FDevRefs); set_solver).
  keep Hf' FTarget. rewrite Ht. unfold dev_put, printk. run_simpl. eexists. split; [done|].
  split.
  - unfold module_down. destruct s5; simpl in *. split_and!; [done|done|lia].
  - etransitivity; [eapply frame_weaken, Hf'; set_solver|destruct s5; solve_frame].
Qed.

(** C6: loading is all or nothing. From a freshly loaded image,
    [nanonet_init] returns 0 with the hook and the control interface registered,
    a pool of 256 buffers and one device reference, or a negative error with
    every registration removed, every buffer freed and no device reference held,
    whichever of the six steps failed. It returns 0 in a kernel that grants
    every request. After a success the debug directory and its file are
    registered when debugfs reports failure as NULL, as the code expects, and
    neither is when debugfs is absent and answers with an [ERR_PTR]: that failure
    goes unnoticed. Loading never touches configuration or statistics. *)
Theorem init_all_or_nothing s :
  unloaded s ->
  exists r s', nanonet_init s = Done (r, s') /\ frame load_fields s s' /\
    (all_granted -> r = 0) /\
    (r = 0 /\ module_up (dev_refs s) s' \/ r < 0 /\ module_down (dev_refs s) s').
Proof. apply init_run. Qed.

End Load.

(** ** Runs *)

Lemma ready_module (c : ull_config) :
  exists (s : kstate calm lskb) avail, module_inv s avail /\ global_config s = c /\
    global_stats s = global_stats_init /\ length avail = 256%nat /\ registered s = [].
Proof.
  destruct (ready_state c Calm) as (s & avail & _ & Ho & Hl & Hok).
  { destruct c. vm_compute. reflexivity. }
  exists s, avail. split_and!; [|by keep Ho FConfig|by keep Ho FStats|done|by keep Ho FRegistered].
  split; [done| |].
  - eapply (conns_ok_frame (set_config c (loaded Calm)) s); [exact Ho|set_solver|set_solver|].
    by eapply conns_ok_ext, (loaded_conns_ok Calm).
  - unfold table_addrs. destruct (Ho FKlive) as [Ek _]; [set_solver|]. rewrite Ek. by keep Ho FConns.
Qed.

Lemma init_counters_ok : counters_ok global_stats_init.
Proof. unfold counters_ok, is_s64. simpl. lia. Qed.

Lemma init_times_ok : times_ok global_stats_init.
Proof. unfold times_ok, UINT64_MAX. simpl. unfold UINT64_MAX. lia. Qed.

Lemma sample_in_bounds c : in_bounds (sample_frame c).
Proof.
  split; [apply sample_linear|]. split.
  - intros v [= <-]. vm_compute. discriminate.
  - intros v ck l _ [= <-] [= <-]. done.
Qed.

(** A SYN with an ordinary initial sequence number, TCP configured. *)
Definition tcp_config : ull_config :=
  Build_ull_config 1 (le_decode [192; 168; 1; 100]) (htons 8080) IPPROTO_TCP
    (le_decode [192; 168; 1; 1]) (htons 9090) 0 0 0 0.

Lemma hook_correct_witness :
  exists (s : kstate calm lskb) v s', global_config s = tcp_config /\
    nanonet_hook (sample_tcp_frame true false) s = Done (v, s') /\
    packet_effect global_stats_init (global_stats s') v.
Proof.
  destruct (ready_module tcp_config) as (s & avail & Hm & Hc & Hst & _ & _).
  destruct (hook_correct (sample_tcp_frame true false) s avail)
    as (v & s' & avail' & E & _ & _ & _ & Heff & _).
  - exact (sample_tcp_in_bounds true false).
  - exact Hm.
  - rewrite Hst. exact init_counters_ok.
  - rewrite Hst. split; [discriminate|reflexivity].
  - exists s, v, s'. split; [exact Hc|]. split; [exact E|]. rewrite <- Hst. exact Heff.
Defined.

Lemma hook_disabled_witness :
  nanonet_hook (sample_frame 22071) sim_loaded =
    Done (NF_ACCEPT, set_stats (map_packets_bypassed atomic64_inc global_stats_init) sim_loaded).
Proof.
  apply (hook_disabled (sample_frame 22071) sim_loaded). left. reflexivity.
Defined.

Lemma hook_ignores_valid_packets_witness :
  exists s', nanonet_hook (sample_frame 44142) (set_config market_config sim_loaded) =
    Done (NF_ACCEPT, s').
Proof.
  destruct (hook_ignores_valid_packets (sample_frame 44142) 20 44142
    (set_config market_config sim_loaded)) as (s' & E & _).
  - reflexivity.
  - exists 2. reflexivity.
  - exact (proj1 (sample_linear 44142)).
  - split; [vm_compute; discriminate| | |lia|reflexivity]; eexists; split_and!; reflexivity.
  - vm_compute. discriminate.
  - vm_compute. reflexivity.
  - discriminate.
  - exists s'. exact E.
Defined.

Lemma udp_delivery_witness :
  exists (s s' : kstate calm lskb), global_config s = market_config /\
    nanonet_hook (sample_frame 22071) s = Done (NF_STOLEN, s').
Proof.
  destruct (ready_module market_config) as (s & avail & Hm & Hc & Hst & _ & _).
  destruct (udp_delivery (sample_frame 22071) sample_out 34 (le_decode [192; 168; 1; 100])
    (htons 8080) s avail) as (s' & E).
  - exact (sample_in_bounds _).
  - split.
    + rewrite Hc. reflexivity.
    + exists 2. reflexivity.
    + vm_compute. reflexivity.
    + reflexivity.
    + exists (le_decode [10; 0; 0; 1]). split; [reflexivity|discriminate].
    + exists (htons 52). split; [reflexivity|]. vm_compute. discriminate.
  - reflexivity.
  - reflexivity.
  - reflexivity.
  - exact Hm.
  - rewrite Hst. exact init_counters_ok.
  - exists s, s'. split; [exact Hc|]. rewrite E, Hc, decide_True; [reflexivity|].
    split; [left; reflexivity|reflexivity].
Defined.

Lemma record_time_average_witness :
  exists st', record_time 500 (map_packets_processed atomic64_inc global_stats_init) = Some st' /\
    times_ok st'.
Proof.
  destruct (record_time_average 500 global_stats_init) as (st' & E & Ht & _).
  - simpl. lia.
  - split; [discriminate|reflexivity].
  - exact init_times_ok.
  - unfold sum_fits. vm_compute. discriminate.
  - exists st'. split; [exact E|exact Ht].
Defined.

(** Both outcomes: a kernel where everything works registers all eight objects;
    one that refuses the device node leaves nothing behind. *)
Lemma calm_granted : all_granted (W := calm).
Proof. split_and!; intros; try reflexivity. eexists. reflexivity. Qed.

Definition no_device_node : sim :=
  Build_sim 1700000000000000000 5000 true true 1000 (Some 2) 0 true [] 0 (Some RDevice).

Lemma init_all_or_nothing_witness :
  (exists s' : kstate calm lskb, nanonet_init (loaded Calm) = Done (0, s') /\
     registered s' = RNetHook :: debug_resources ++ control_resources) /\
  (exists r (s' : kstate sim lskb), nanonet_init (loaded no_device_node) = Done (r, s') /\
     r < 0 /\ module_down 0 s').
Proof.
  split.
  - destruct (init_all_or_nothing (loaded (B := lskb) Calm)) as (r & s' & E & _ & Hg & H);
      [split; reflexivity|].
    specialize (Hg calm_granted). subst r. exists s'. split; [exact E|].
    destruct H as [[_ Hup]|[Hlt _]]; [|exfalso; lia].
    destruct (up_registered _ _ Hup) as (dbg & Hr & _ & Hall & _). rewrite Hr, Hall; [reflexivity|].
    intros r w e _. rewrite (proj1 (proj2 calm_granted) r w). discriminate.
  - destruct (init_all_or_nothing (loaded (B := lskb) no_device_node)) as (r & s' & E & _ & _ & H);
      [split; reflexivity|].
    exists r, s'. split; [exact E|].
    assert (result_of (nanonet_init (loaded (B := lskb) no_device_node)) = Some (- ENOMEM)) as Hr
      by (vm_compute; reflexivity).
    rewrite E in Hr. injection Hr as ->. destruct H as [[Hz _]|H]; [discriminate Hz|exact H].
Defined.

(** What a successful load of the module's image establishes. *)
Lemma loaded_unloaded {W B} (w : W) : unloaded (loaded (B := B) w).
Proof. by split. Qed.

Lemma loaded_up {W B} `{!KernelEnv W, !KernelLaws W, !SkbOps B, !SkbLaws B} (w : W) (s : kstate W B) :
  nanonet_init (loaded w) = Done (0, s) ->
  module_up 0 s /\ frame load_fields (loaded w) s /\
  exists avail, length avail = 256%nat /\ module_inv s avail.
Proof.
  intros E. destruct (init_run (loaded w) (loaded_unloaded w)) as (r & s' & E' & Hf & _ & Hres).
  rewrite E in E'. injection E' as <- <-. destruct Hres as [[_ Hup]|[? _]]; [|lia].
  split; [done|]. split; [done|]. destruct Hup as [_ (avail & Hl & Hb) _ _].
  exists avail. split; [done|]. split; [done| |].
  - eapply (conns_ok_frame (loaded w) s); [exact Hf|set_solver|set_solver|apply loaded_conns_ok].
  - unfold table_addrs. destruct (Hf FKlive) as [Ek _]; [set_solver|]. rewrite Ek. by keep Hf FConns.
Qed.
