(* ===== verification/System.v ===== *)
(** * The running module: events, reachable states, invariants

    After a successful load the module reacts to packets (the netfilter hook)
    and to ioctls, in any order and number, while the rest of the kernel changes
    its own state in between. [reachable] collects the states that arise; the
    theorems are invariants of all of them, by induction on the trace. A second
    step relation splits the hook's bookkeeping into its memory accesses and lets
    a reset ioctl run between them. *)

From S2P Require Import Prelude Headers Kernel Sim Debug Checksum MicroStack Optimizations.
From S2P Require Import Security ResponseSender PacketProcessor ControlInterface Nanonet.

(** ** Events *)

Inductive event :=
  | Packet (skb : sk_buff)
  | Ioctl (cmd arg : Z)
  | Outside.

Section System.
Context {W B : Type} `{!KernelEnv W, !KernelLaws W, !SkbOps B, !SkbLaws B}.
Implicit Types s : kstate W B.

(** One event: its result and the next state. [Outside] stands for the rest of
    the kernel (clock, rate limiters, memory, devices). *)
Inductive step : kstate W B -> event -> Z -> kstate W B -> Prop :=
  | step_packet s skb v s' :
      nanonet_hook skb s = Done (v, s') -> step s (Packet skb) v s'
  | step_ioctl s cmd arg r s' :
      nanonet_ioctl cmd arg s = Done (r, s') -> step s (Ioctl cmd arg) r s'
  | step_outside s w : step s Outside 0 (set_world w s).

(** Traces are most recent first. *)
Inductive reachable : list (event * Z) -> kstate W B -> Prop :=
  | reach_load w s : nanonet_init (loaded w) = Done (0, s) -> reachable [] s
  | reach_step tr s e r s' :
      reachable tr s -> step s e r s' -> reachable ((e, r) :: tr) s'.

(** Packets lie in their buffers. *)
Definition event_ok (e : event) : Prop :=
  match e with Packet skb => in_bounds skb | _ => True end.

Definition trace_ok (tr : list (event * Z)) : Prop :=
  Forall (fun p => event_ok p.1) tr /\ zlen tr < 2 ^ 63 - 1.

(** ** The invariant *)

Record system_inv (n : Z) (s : kstate W B) : Prop := {
  si_module : exists avail, module_inv s avail;
  si_processed : 0 <= packets_processed (global_stats s) <= n;
  si_counters : is_s64 (packets_bypassed (global_stats s)) /\ is_s64 (errors (global_stats s)) /\
    is_s64 (connections_active (global_stats s));
  si_responses : responses_sent (global_stats s) = 0;
  si_refs : dev_refs s = 1 + zlen (wire s);
  si_debug : debug_counters (debug_stats s) = (0, 0, 0, 0, 0) /\ last_error_fits (debug_stats s);
  si_registered : exists dbg, registered s = RNetHook :: dbg ++ control_resources /\
    debug_interface (W := W) dbg;
  si_target : is_Some (target_dev s);
}.

Lemma s64_is_s64 x : is_s64 (s64 x).
Proof.
  unfold is_s64, swrap. change (2 ^ (64 - 1)) with (2 ^ 63).
  pose proof (Z.mod_pos_bound (x + 2 ^ 63) (2 ^ 64)). lia.
Qed.

Lemma system_inv_load w s : nanonet_init (loaded w) = Done (0, s) -> system_inv 0 s.
Proof.
  intros E. destruct (loaded_up w s E) as ([Hreg _ Href Ht] & Hf & avail & _ & Hm).
  split; [by exists avail| | | | | |done|done].
  - by keep Hf FStats.
  - keep Hf FStats. unfold is_s64. simpl. lia.
  - by keep Hf FStats.
  - rewrite Href. by keep Hf FWire.
  - destruct (Hf FDebug) as [Hd1 Hd2]; [set_solver|]. split; [by rewrite Hd1|]. by apply Hd2.
Qed.

Lemma debug_frame mods s s' :
  frame mods s s' -> FDebug ∉ mods ->
  debug_counters (debug_stats s) = (0, 0, 0, 0, 0) /\ last_error_fits (debug_stats s) ->
  debug_counters (debug_stats s') = (0, 0, 0, 0, 0) /\ last_error_fits (debug_stats s').
Proof. intros Hf H [H1 H2]. destruct (Hf FDebug H) as [-> H3]. auto. Qed.

Lemma packet_step_inv `{!XmitAccepts W} n skb s :
  in_bounds skb -> n < 2 ^ 63 - 1 -> system_inv n s ->
  exists v s', nanonet_hook skb s = Done (v, s') /\ system_inv (n + 1) s' /\
    packet_effect (global_stats s) (global_stats s') v /\ conn_counted s s'.
Proof.
  intros Hin Hn [[avail Hm] Hp (Hb & He & Ha) Hr Href Hd Hreg Ht].
  assert (counters_ok (global_stats s)) as Hc by (unfold counters_ok; split_and!; [lia|lia|done|done]).
  destruct (hook_result skb s avail Hin Hm Hc Ha)
    as (v & s' & avail' & E & _ & Hm' & Hf & Heff & Hcc & Hrf & _).
  pose proof Hcc as [Hca _]. exists v, s'. split; [done|]. split; [|done]. split.
  - by exists avail'.
  - destruct Heff as [[_ [(-> & _)|(-> & _)]]|(_ & pt & d & _ & (-> & _) & _)]; lia.
  - rewrite Hca. apply and_assoc. split; [|apply s64_is_s64].
    destruct Heff as [[_ [(_ & -> & -> & _)|(_ & -> & -> & _)]]|(_ & pt & d & _ & (_ & -> & -> & _) & _)];
      split; apply s64_is_s64 || done.
  - rewrite <- Hr. destruct Heff as [[_ [(_ & _ & _ & -> & _)|(_ & _ & _ & -> & _)]]|(_ & pt & d & _ & (_ & _ & _ & ->) & _)]; done.
  - unfold refs_follow in Hrf. lia.
  - eapply debug_frame; [exact Hf|set_solver|done].
  - by keep Hf FRegistered.
  - by keep Hf FTarget.
Qed.

(** Ioctls keep the module's data invariant. *)
Lemma ioctl_module_inv cmd arg s s' r avail :
  module_inv s avail -> conns_ok s' -> frame [FConfig; FStats; FConns; FKlive; FUser] s s' ->
  ioctl_effect cmd arg s s' r -> module_inv s' avail.
Proof.
  intros [Hb Hc Hl] Hc' Hf He. split; [eapply buffers_ok_frame, Hb; [| |exact Hf]; set_solver|done|].
  assert (forall x, logged x s' -> klive x = klive s -> connection_hash x = connection_hash s ->
    klive s' = list_to_set (table_addrs s')) as Hlog.
  { intros x Hx E1 E2. pose proof (logged_frame [] _ _ Hx) as Hfx.
    destruct (Hfx FKlive) as [Ek _]; [set_solver|]. unfold table_addrs. keep Hfx FConns.
    by rewrite Ek, E1, E2, Hl. }
  unfold ioctl_effect in He.
  destruct (cmd =? NANONET_IOC_SET_CONFIG).
  { destruct (copy_from_user arg 32 (world s)) as [[bytes missing] w].
    destruct He as (c & _ & _ & Hx & _). apply (Hlog _ Hx); by destruct s. }
  repeat match type of He with context [if ?b =? ?c then _ else _] => destruct (b =? c) end.
  - destruct He as [_ Hx]. apply (Hlog _ Hx); by destruct s.
  - destruct He as [_ Hx]. apply (Hlog _ Hx); by destruct s.
  - destruct He as [_ Hx]. apply (Hlog _ Hx); by destruct s.
  - destruct He as (_ & Ec & _ & Ek & _). unfold table_addrs. rewrite Ek, Ec, Hl.
    change (conn_addr <$> concat connection_hash_zero) with (@nil nat). unfold table_addrs. set_solver.
  - by apply (Hlog s); [apply He|..].
Qed.

(** What ioctls do to the statistics. *)
Definition stats_after_ioctl (cmd : Z) (st st' : ull_stats) : Prop :=
  if cmd =? NANONET_IOC_RESET_STATS then st' = global_stats_init
  else if cmd =? NANONET_IOC_CLEAR_CONNECTIONS then exists n, st' = drop_conns n st
  else st' = st.

Lemma ioctl_stats cmd arg s s' r :
  ioctl_effect cmd arg s s' r -> stats_after_ioctl cmd (global_stats s) (global_stats s').
Proof.
  assert (forall x, logged x s' -> global_stats s' = global_stats x) as Hlog.
  { intros x Hx. apply (logged_frame [] _ _ Hx FStats). set_solver. }
  unfold stats_after_ioctl, ioctl_effect.
  destruct (Z.eqb_spec cmd NANONET_IOC_SET_CONFIG) as [->|_].
  { destruct (copy_from_user arg 32 (world s)) as [[bytes missing] w].
    intros (c & _ & _ & Hx & _). rewrite (Hlog _ Hx). by destruct s. }
  destruct (Z.eqb_spec cmd NANONET_IOC_GET_CONFIG) as [->|_].
  { intros [_ Hx]. rewrite (Hlog _ Hx). by destruct s. }
  destruct (Z.eqb_spec cmd NANONET_IOC_GET_STATS) as [->|_].
  { intros [_ Hx]. rewrite (Hlog _ Hx). by destruct s. }
  destruct (cmd =? NANONET_IOC_RESET_STATS).
  { intros [_ Hx]. rewrite (Hlog _ Hx). by destruct s. }
  destruct (cmd =? NANONET_IOC_CLEAR_CONNECTIONS).
  { intros (_ & _ & _ & _ & ->). by eexists. }
  intros [_ Hx]. by rewrite (Hlog _ Hx).
Qed.

Lemma ioctl_step_inv n cmd arg s :
  0 <= n -> system_inv n s ->
  exists r s', nanonet_ioctl cmd arg s = Done (r, s') /\ system_inv n s' /\
    ioctl_effect cmd arg s s' r.
Proof.
  intros Hn [[avail Hm] Hp (Hb & He & Ha) Hr Href Hd Hreg Ht].
  destruct (ioctl_run cmd arg s (mi_conns _ _ Hm)) as (r & s' & E & Hc' & Hf & Heff).
  exists r, s'. split; [done|]. split; [|done].
  pose proof (ioctl_stats _ _ _ _ _ Heff) as Hst. unfold stats_after_ioctl in Hst.
  assert (0 <= packets_processed (global_stats s') <= n /\
    (is_s64 (packets_bypassed (global_stats s')) /\ is_s64 (errors (global_stats s')) /\
     is_s64 (connections_active (global_stats s'))) /\ responses_sent (global_stats s') = 0)
    as (H1 & H2 & H3).
  { destruct (cmd =? NANONET_IOC_RESET_STATS); [|destruct (cmd =? NANONET_IOC_CLEAR_CONNECTIONS)].
    - rewrite Hst. unfold is_s64. simpl. lia.
    - destruct Hst as [k ->]. destruct (drop_conns_counters k (global_stats s)) as (-> & _ & -> & -> & -> & ->).
      rewrite iter_atomic64_dec by done. split; [done|]. split; [|done]. split_and!; [done|done|apply s64_is_s64].
    - by rewrite Hst. }
  split; [exists avail; by eapply ioctl_module_inv|done|done|done| | | |].
  - keep Hf FDevRefs. by keep Hf FWire.
  - eapply debug_frame; [exact Hf|set_solver|done].
  - by keep Hf FRegistered.
  - by keep Hf FTarget.
Qed.

Lemma system_inv_mono n m s : n <= m -> system_inv n s -> system_inv m s.
Proof. intros Hle []. split; try done. lia. Qed.

Lemma outside_inv n w s : system_inv n s -> system_inv n (set_world w s).
Proof.
  intros [[avail Hm] Hp Hc Hr Href Hd Hreg Ht].
  split; [|by destruct s..]. exists avail.
  eapply (module_inv_frame []), Hm; [set_solver..|apply world_frame].
Qed.

Lemma reachable_inv `{!XmitAccepts W} tr s :
  reachable tr s -> trace_ok tr -> system_inv (zlen tr) s.
Proof.
  induction 1 as [w s E|tr s e r s' Hre IH Hst]; intros [Hok Hlen]; [by eapply system_inv_load|].
  apply Forall_cons in Hok as [He Hok]. rewrite zlen_cons in *.
  assert (system_inv (zlen tr) s) as Hinv by (apply IH; split; [done|lia]).
  pose proof (zlen_nonneg tr). destruct Hst as [s skb v s' E|s cmd arg r s' E|s w].
  - destruct (packet_step_inv (zlen tr) skb s) as (v' & s1 & E1 & Hi & _); [done|lia|done|].
    rewrite E in E1. injection E1 as <- <-. by rewrite Z.add_comm.
  - destruct (ioctl_step_inv (zlen tr) cmd arg s) as (r' & s1 & E1 & Hi & _); [lia|done|].
    rewrite E in E1. injection E1 as <- <-. eapply system_inv_mono, Hi. lia.
  - eapply system_inv_mono, outside_inv, Hinv. lia.
Qed.

(** ** Properties *)

(** C1: provided the queueing discipline accepts frames, every state the loaded
    module can reach by packets that lie in their buffers, by ioctls and by
    changes in the rest of the kernel, in any order and fewer than 2^63 - 1 of
    them, satisfies the invariant: the pool and the connection table are
    well-formed and own exactly the live buffers and objects, the hook and the
    interfaces stay registered, the debug counters are still zero, the last error
    fits its array, the response counter is zero and one device reference is held
    per frame sent besides the one of the load; and no further such event crashes
    the module. *)
Theorem reachable_safe `{!XmitAccepts W} tr s e :
  reachable tr s -> trace_ok ((e, 0) :: tr) ->
  system_inv (zlen tr) s /\ exists r s', step s e r s'.
Proof.
  intros Hre [Hok Hlen]. apply Forall_cons in Hok as [He Hok]. rewrite zlen_cons in Hlen.
  assert (system_inv (zlen tr) s) as Hinv by (apply reachable_inv; [done|split; [done|lia]]).
  pose proof (zlen_nonneg tr). split; [done|]. destruct e as [skb|cmd arg|].
  - destruct (packet_step_inv (zlen tr) skb s) as (v & s1 & E & _); [done|lia|done|].
    exists v, s1. by constructor.
  - destruct (ioctl_step_inv (zlen tr) cmd arg s) as (r & s1 & E & _); [lia|done|].
    exists r, s1. by constructor.
  - exists 0, (set_world (world s) s). constructor.
Qed.

(** No reset of the statistics in the trace. *)
Definition no_reset (tr : list (event * Z)) : Prop :=
  Forall (fun p => forall arg, p.1 <> Ioctl NANONET_IOC_RESET_STATS arg) tr.

(** The packets of the trace that were stolen. *)
Definition is_stolen (p : event * Z) : bool :=
  match p.1 with Packet _ => p.2 =? NF_STOLEN | _ => false end.

Definition stolen_count (tr : list (event * Z)) : Z := zlen (List.filter is_stolen tr).

Lemma not_reset (e : event) r cmd arg tr :
  no_reset ((e, r) :: tr) -> e = Ioctl cmd arg -> (cmd =? NANONET_IOC_RESET_STATS) = false.
Proof.
  intros [H _]%Forall_cons ->. apply Z.eqb_neq. intros ->. by apply (H arg).
Qed.

Lemma packet_effect_processed st st' v :
  packet_effect st st' v ->
  packets_processed st' = packets_processed st + (if v =? NF_STOLEN then 1 else 0).
Proof.
  intros [[-> [(-> & _)|(-> & _)]]|(-> & pt & d & _ & (-> & _) & _)]; simpl; lia.
Qed.

(** C14: for packets that lie in their buffers and a queueing discipline that
    accepts frames, as long as the statistics are not reset the processed counter
    is exactly the number of packets the hook has stolen. *)
Theorem processed_counts_stolen `{!XmitAccepts W} tr s :
  reachable tr s -> trace_ok tr -> no_reset tr ->
  packets_processed (global_stats s) = stolen_count tr.
Proof.
  induction 1 as [w s E|tr s e r s' Hre IH Hst]; intros [Hok Hlen] Hnr.
  { destruct (loaded_up w s E) as (_ & Hf & _). by keep Hf FStats. }
  pose proof Hok as [He Hok']%Forall_cons. pose proof Hnr as [_ Hnr']%Forall_cons.
  rewrite zlen_cons in Hlen. pose proof (zlen_nonneg tr).
  assert (trace_ok tr) as Htr by (split; [done|lia]).
  specialize (IH Htr Hnr'). pose proof (reachable_inv tr s Hre Htr) as Hinv.
  unfold stolen_count in *. destruct Hst as [s skb v s' E|s cmd arg r s' E|s w].
  - destruct (packet_step_inv (zlen tr) skb s) as (v' & s1 & E1 & _ & Heff & _); [done|lia|done|].
    rewrite E in E1. injection E1 as <- <-. rewrite (packet_effect_processed _ _ _ Heff), IH.
    simpl. unfold is_stolen at 2. simpl. destruct (v =? NF_STOLEN); rewrite ?zlen_cons; lia.
  - destruct (ioctl_step_inv (zlen tr) cmd arg s) as (r' & s1 & E1 & _ & Heff); [lia|done|].
    rewrite E in E1. injection E1 as <- <-. apply ioctl_stats in Heff.
    unfold stats_after_ioctl in Heff. rewrite (not_reset _ _ _ _ _ Hnr eq_refl) in Heff.
    change (List.filter is_stolen ((Ioctl cmd arg, r) :: tr)) with (List.filter is_stolen tr).
    rewrite <- IH. destruct (_ =? _); [|by rewrite Heff].
    destruct Heff as [k ->]. apply drop_conns_counters.
  - change (List.filter is_stolen ((Outside, 0) :: tr)) with (List.filter is_stolen tr).
    rewrite <- IH. by destruct s.
Qed.

(** An ioctl other than a reset keeps the active counter in step with the
    table. *)
Lemma ioctl_active cmd arg s s' r :
  (cmd =? NANONET_IOC_RESET_STATS) = false -> ioctl_effect cmd arg s s' r ->
  connections_active (global_stats s) = s64 (zlen (table_addrs s)) ->
  connections_active (global_stats s') = s64 (zlen (table_addrs s')).
Proof.
  intros Hnr He Ha. pose proof (ioctl_stats _ _ _ _ _ He) as Hst. unfold stats_after_ioctl in Hst.
  rewrite Hnr in Hst. unfold ioctl_effect in He. rewrite Hnr in He.
  assert (forall x, logged x s' -> connection_hash x = connection_hash s ->
    table_addrs s' = table_addrs s) as Hlog.
  { intros x Hx E. pose proof (logged_frame [] _ _ Hx) as Hfx. unfold table_addrs.
    keep Hfx FConns. by rewrite E. }
  destruct (Z.eqb_spec cmd NANONET_IOC_SET_CONFIG) as [->|_].
  { destruct (copy_from_user arg 32 (world s)) as [[bytes missing] w].
    destruct He as (c & _ & _ & Hx & _). by rewrite (Hlog _ Hx), Hst by (by destruct s). }
  destruct (Z.eqb_spec cmd NANONET_IOC_GET_CONFIG) as [->|_].
  { by rewrite (Hlog _ (proj2 He)), Hst by (by destruct s). }
  destruct (Z.eqb_spec cmd NANONET_IOC_GET_STATS) as [->|_].
  { by rewrite (Hlog _ (proj2 He)), Hst by (by destruct s). }
  destruct (cmd =? NANONET_IOC_CLEAR_CONNECTIONS).
  - destruct He as (_ & Ec & _ & _ & Es). rewrite Es.
    destruct (drop_conns_counters (length (concat (connection_hash s))) (global_stats s)) as (-> & _).
    rewrite Ha, iter_atomic64_dec by apply s64_is_s64. unfold Z.sub. rewrite swrap_add.
    unfold table_addrs, zlen. rewrite !length_fmap, Ec.
    change (concat connection_hash_zero) with (@nil ull_tcp_conn). simpl length. f_equal. lia.
  - by rewrite (Hlog _ (proj2 He)), Hst by done.
Qed.

(** C15: for packets that lie in their buffers and a queueing discipline that
    accepts frames, as long as the statistics are not reset the counter of active
    connections is the number of entries in the connection table (as a 64-bit
    value). *)
Theorem active_counts_table `{!XmitAccepts W} tr s :
  reachable tr s -> trace_ok tr -> no_reset tr ->
  connections_active (global_stats s) = s64 (zlen (table_addrs s)).
Proof.
  induction 1 as [w s E|tr s e r s' Hre IH Hst]; intros [Hok Hlen] Hnr.
  { destruct (loaded_up w s E) as (_ & Hf & _). unfold table_addrs. keep Hf FStats. by keep Hf FConns. }
  pose proof Hok as [He Hok']%Forall_cons. pose proof Hnr as [_ Hnr']%Forall_cons.
  rewrite zlen_cons in Hlen. pose proof (zlen_nonneg tr).
  assert (trace_ok tr) as Htr by (split; [done|lia]).
  specialize (IH Htr Hnr'). pose proof (reachable_inv tr s Hre Htr) as Hinv.
  destruct Hst as [s skb v s' E|s cmd arg r s' E|s w].
  - destruct (packet_step_inv (zlen tr) skb s) as (v' & s1 & E1 & _ & _ & [Hc _]); [done|lia|done|].
    rewrite E in E1. injection E1 as <- <-. rewrite Hc, IH, swrap_add. f_equal. lia.
  - destruct (ioctl_step_inv (zlen tr) cmd arg s) as (r' & s1 & E1 & _ & Heff); [lia|done|].
    rewrite E in E1. injection E1 as <- <-.
    eapply ioctl_active; [by eapply not_reset|done|done].
  - transitivity (connections_active (global_stats s)); [by destruct s|rewrite IH; by destruct s].
Qed.

(** C17: for packets that lie in their buffers and a queueing discipline that
    accepts frames, after unloading from any reachable state nothing is
    registered and no buffer is live, but the device keeps one reference for
    every response sent, and every connection still in the table stays
    allocated. *)
Theorem unload_leaks `{!XmitAccepts W} tr s :
  reachable tr s -> trace_ok tr ->
  exists s', nanonet_exit s = Done (tt, s') /\ registered s' = [] /\ skbs s' = ∅ /\
    dev_refs s' = zlen (wire s) /\ klive s' = list_to_set (table_addrs s).
Proof.
  intros Hre Htr. destruct (reachable_inv tr s Hre Htr) as [[avail Hm] _ _ _ Href _ (dbg & Hr & Hsub) Ht].
  destruct (exit_run dbg avail s Hr (proj1 Hsub) (mi_buffers _ _ Hm) Ht) as (s' & E & (H1 & H2 & H3) & Hf).
  exists s'. split_and!; [done|done|done|lia|].
  rewrite <- (mi_live _ _ Hm). apply (Hf FKlive). set_solver.
Qed.
End System.

(** ** A reset in the middle of the hook's bookkeeping

    The hook's last part and the reset ioctl run on different processors. Each
    is a list of accesses to [global_stats]; [None] is a division by zero. *)

Definition access : Type := ull_stats -> option ull_stats.

Definition hook_accesses (process_time : Z) : list access :=
  [ (fun st => Some (map_packets_processed atomic64_inc st));
    (fun st => Some (set_process_times process_time (min_process_time_ns st)
                       (max_process_time_ns st) (avg_process_time_ns st) st));
    (fun st => Some (if process_time <? min_process_time_ns st
       then set_process_times (last_process_time_ns st) process_time
              (max_process_time_ns st) (avg_process_time_ns st) st else st));
    (fun st => Some (if max_process_time_ns st <? process_time
       then set_process_times (last_process_time_ns st) (min_process_time_ns st)
              process_time (avg_process_time_ns st) st else st));
    (fun st => let n := packets_processed st in
       if u64 n =? 0 then None
       else Some (set_process_times (last_process_time_ns st) (min_process_time_ns st)
              (max_process_time_ns st)
              (u64 (avg_process_time_ns st * u64 (n - 1) + process_time) / u64 n) st)) ].

Definition reset_accesses : list access :=
  [ (fun st => Some (map_packets_processed (fun _ => 0) st));
    (fun st => Some (map_packets_bypassed (fun _ => 0) st));
    (fun st => Some (map_responses_sent (fun _ => 0) st));
    (fun st => Some (map_errors (fun _ => 0) st));
    (fun st => Some (map_connections_active (fun _ => 0) st));
    (fun st => Some (map_connections_dropped (fun _ => 0) st));
    (fun st => Some (set_process_times 0 (min_process_time_ns st) (max_process_time_ns st)
                       (avg_process_time_ns st) st));
    (fun st => Some (set_process_times (last_process_time_ns st) UINT64_MAX
                       (max_process_time_ns st) (avg_process_time_ns st) st));
    (fun st => Some (set_process_times (last_process_time_ns st) (min_process_time_ns st) 0
                       (avg_process_time_ns st) st));
    (fun st => Some (set_process_times (last_process_time_ns st) (min_process_time_ns st)
                       (max_process_time_ns st) 0 st)) ].

Fixpoint run_accesses (l : list access) (st : ull_stats) : option ull_stats :=
  match l with
  | [] => Some st
  | a :: l' => st' ← a st; run_accesses l' st'
  end.

(** The merges of two access lists. *)
Inductive interleaving : list access -> list access -> list access -> Prop :=
  | inter_nil : interleaving [] [] []
  | inter_left a l1 l2 l : interleaving l1 l2 l -> interleaving (a :: l1) l2 (a :: l)
  | inter_right a l1 l2 l : interleaving l1 l2 l -> interleaving l1 (a :: l2) (a :: l).

Lemma interleaving_seq l1 l2 : interleaving l1 l2 (l1 ++ l2).
Proof.
  induction l1 as [|a l1 IH]; simpl; [|by constructor].
  induction l2; by constructor.
Qed.

(** Run alone, the accesses are the operations of the model. *)
Lemma hook_accesses_seq pt st :
  run_accesses (hook_accesses pt) st = record_time pt (map_packets_processed atomic64_inc st).
Proof.
  destruct st as [n b r e l mi ma av ca cd]. unfold hook_accesses, record_time. simpl.
  destruct (pt <? mi); simpl; destruct (ma <? pt); simpl; by destruct (_ =? 0).
Qed.

Lemma reset_accesses_seq st : run_accesses reset_accesses st = Some global_stats_init.
Proof. by destruct st. Qed.

(** C18: the two run one after the other behave as the operations, and never
    divide by zero below the counter's limit; but whatever the statistics, some
    interleaving of a reset with the hook's bookkeeping divides by zero: the one
    that clears the packet counter between its increment and the computation of
    the average. *)
Theorem reset_race pt st :
  0 <= packets_processed st < 2 ^ 63 - 1 ->
  (exists st', run_accesses (hook_accesses pt ++ reset_accesses) st = Some st') /\
  (exists st', run_accesses (reset_accesses ++ hook_accesses pt) st = Some st') /\
  (exists l, interleaving (hook_accesses pt) reset_accesses l /\ run_accesses l st = None).
Proof.
  intros Hn.
  assert (forall l1 l2 x, run_accesses (l1 ++ l2) x = (y ← run_accesses l1 x; run_accesses l2 y)) as Happ.
  { induction l1 as [|a l1 IH]; intros l2 x; simpl; [done|]. destruct (a x); simpl; auto. }
  split_and!.
  - rewrite Happ, hook_accesses_seq.
    destruct (record_time_run pt _ st eq_refl Hn) as (st' & -> & _). simpl.
    eexists. apply reset_accesses_seq.
  - rewrite Happ, reset_accesses_seq. cbn [mbind option_bind]. rewrite hook_accesses_seq.
    destruct (record_time_run pt _ global_stats_init eq_refl) as (st' & -> & _); [simpl; lia|eauto].
  - unfold hook_accesses, reset_accesses. eexists. split.
    + apply inter_left, inter_right. apply interleaving_seq.
    + destruct st as [n b r e l mi ma av ca cd]. simpl.
      destruct (pt <? mi); simpl; by destruct (ma <? pt).
Qed.

(** ** A run

    In a kernel where every request is granted and the user's buffer holds
    [tcp_config]: the module is loaded and configured, and a SYN that carries
    a market-data message arrives. The packet is stolen, the connection entered
    in the table and an order sent. *)

Inductive trader := Trader.

#[export] Instance trader_kernel : KernelEnv trader := fixed_kernel trader
  (Build_sim 1700000000000000000 5000 true true 1000 (Some 2) 0 true
     (enc_config tcp_config) 0 None).
#[export] Instance trader_laws : KernelLaws trader.
Proof. apply fixed_laws. Qed.
#[export] Instance trader_xmit : XmitAccepts trader.
Proof. intros bs w. reflexivity. Qed.

Definition trader_up : kstate trader lskb := state_of (nanonet_init (loaded Trader)) (loaded Trader).
Definition trader_configured : kstate trader lskb :=
  state_of (nanonet_ioctl NANONET_IOC_SET_CONFIG 0 trader_up) trader_up.
Definition trader_traded : kstate trader lskb :=
  state_of (nanonet_hook (sample_tcp_frame true false) trader_configured) trader_configured.

Definition trading_trace : list (event * Z) :=
  [(Packet (sample_tcp_frame true false), NF_STOLEN); (Ioctl NANONET_IOC_SET_CONFIG 0, 0)].

Lemma result_state {W B A} (o : outcome (A * kstate W B)) a d :
  result_of o = Some a -> o = Done (a, state_of o d).
Proof. destruct o as [[x s]|]; [|done]. by intros [= ->]. Qed.

Lemma trading_reachable : reachable trading_trace trader_traded.
Proof.
  apply (reach_step _ trader_configured); [apply (reach_step _ trader_up); [|constructor]|constructor].
  - apply (reach_load Trader), result_state. vm_compute. reflexivity.
  - apply result_state. vm_compute. reflexivity.
  - apply result_state. vm_compute. reflexivity.
Qed.

Lemma trading_trace_ok e : event_ok e -> trace_ok ((e, 0) :: trading_trace) /\ trace_ok trading_trace.
Proof.
  intros He. assert (event_ok (Packet (sample_tcp_frame true false))) as H
    by apply sample_tcp_in_bounds.
  split; (split; [by repeat (apply Forall_cons; split)|reflexivity]).
Qed.

Lemma trading_no_reset : no_reset trading_trace.
Proof. repeat (apply Forall_cons; split); [discriminate..|done]. Qed.

Lemma trading_facts :
  packets_processed (global_stats trader_traded) = 1 /\ table_addrs trader_traded = [0%nat] /\
  zlen (wire trader_traded) = 1.
Proof. vm_compute. split_and!; reflexivity. Qed.

(** After the trade the module survives the SYN-ACK too, and holds two device
    references. *)
Lemma reachable_safe_witness :
  reachable trading_trace trader_traded /\ dev_refs trader_traded = 2 /\
  exists r s', step trader_traded (Packet (sample_tcp_frame true true)) r s'.
Proof.
  destruct (reachable_safe trading_trace trader_traded (Packet (sample_tcp_frame true true))
    trading_reachable (proj1 (trading_trace_ok (Packet (sample_tcp_frame true true))
      (sample_tcp_in_bounds true true)))) as [Hi Hs].
  split; [exact trading_reachable|]. split; [|exact Hs].
  rewrite (si_refs _ _ Hi), (proj2 (proj2 trading_facts)). reflexivity.
Defined.

Lemma processed_counts_stolen_witness :
  reachable trading_trace trader_traded /\
  packets_processed (global_stats trader_traded) = stolen_count trading_trace /\
  stolen_count trading_trace = 1.
Proof.
  split; [exact trading_reachable|]. split; [|reflexivity].
  exact (processed_counts_stolen _ _ trading_reachable (proj2 (trading_trace_ok Outside I))
           trading_no_reset).
Defined.

Lemma active_counts_table_witness :
  reachable trading_trace trader_traded /\ connections_active (global_stats trader_traded) = 1.
Proof.
  split; [exact trading_reachable|].
  rewrite (active_counts_table _ _ trading_reachable (proj2 (trading_trace_ok Outside I))
             trading_no_reset), (proj1 (proj2 trading_facts)). reflexivity.
Defined.

(** Unloading after the trade leaves a device reference and the connection. *)
Lemma unload_leaks_witness :
  exists s', nanonet_exit trader_traded = Done (tt, s') /\ dev_refs s' = 1 /\
    klive s' = {[0%nat]}.
Proof.
  destruct (unload_leaks _ _ trading_reachable (proj2 (trading_trace_ok Outside I)))
    as (s' & E & _ & _ & Hd & Hk).
  exists s'. split; [exact E|]. rewrite Hd, Hk, (proj2 (proj2 trading_facts)),
    (proj1 (proj2 trading_facts)). split; [reflexivity|]. vm_compute. reflexivity.
Defined.

Lemma reset_race_witness :
  exists l, interleaving (hook_accesses 500) reset_accesses l /\ run_accesses l global_stats_init = None.
Proof.
  destruct (reset_race 500 global_stats_init) as (_ & _ & H); [simpl; lia|exact H].
Defined.
