(* ===== verification/ControlTool.v ===== *)
(** * tools/nanonet_control.c: the command-line tool

    The tool's [main] as a function of its arguments, run against the module's
    device: [open] and [ioctl] are [nanonet_open] and [nanonet_ioctl]. The
    result is the exit code and the text on standard output. [inet_aton] is a
    parameter. *)

From S2P Require Import Prelude Headers Kernel Sim Debug MicroStack Security ControlInterface.

(** ** The tool's own structures *)

(** The tool's [struct ull_config]: [int] flags, no sequence number. *)
Record tool_config := {
  tc_enabled : Z;
  tc_target_ip : Z;
  tc_target_port : Z;
  tc_protocol : Z;
  tc_response_ip : Z;
  tc_response_port : Z;
  tc_application_logic_type : Z;
  tc_multicast : Z;
  tc_multicast_group : Z;
}.

Definition sizeof_tool_config : Z := 28.

(** Padding after [protocol] and [application_logic_type]. *)
Definition enc_tool_config (c : tool_config) : list Z :=
  le_encode 4 (tc_enabled c) ++ le_encode 4 (tc_target_ip c) ++
  le_encode 2 (tc_target_port c) ++ le_encode 1 (tc_protocol c) ++ [0] ++
  le_encode 4 (tc_response_ip c) ++ le_encode 2 (tc_response_port c) ++
  le_encode 1 (tc_application_logic_type c) ++ [0] ++
  le_encode 4 (tc_multicast c) ++ le_encode 4 (tc_multicast_group c).

Definition TOOL_IOC_SET_CONFIG : Z := _IOW NANONET_IOC_MAGIC 1 sizeof_tool_config.
Definition TOOL_IOC_GET_CONFIG : Z := _IOR NANONET_IOC_MAGIC 2 sizeof_tool_config.
Definition TOOL_IOC_GET_STATS : Z := _IOR NANONET_IOC_MAGIC 3 sizeof_stats.
Definition TOOL_IOC_RESET_STATS : Z := _IO NANONET_IOC_MAGIC 4.
Definition TOOL_IOC_CLEAR_CONNECTIONS : Z := _IO NANONET_IOC_MAGIC 5.

(** [strcmp(a, b) == 0]. *)
Definition streq (a b : list Z) : bool := bool_decide (a = b).

(** [atoi]: leading digits after blanks and a sign. *)
Fixpoint atoi_digits (acc : Z) (s : list Z) : Z :=
  match s with
  | d :: rest => if (48 <=? d) && (d <=? 57) then atoi_digits (10 * acc + (d - 48)) rest else acc
  | [] => acc
  end.

Fixpoint atoi (s : list Z) : Z :=
  match s with
  | c :: rest =>
      if (c =? 32) || ((9 <=? c) && (c <=? 13)) then atoi rest
      else if c =? 45 then - atoi_digits 0 rest
      else if c =? 43 then atoi_digits 0 rest
      else atoi_digits 0 s
  | [] => 0
  end.

Section ControlTool.
Context {W B : Type} `{!KernelEnv W}.
Local Abbreviation M := (M W B).
Variable inet_aton : list Z -> option Z.

Definition line (name : string) (value : list Z) : list Z := str name ++ value ++ newline.

Definition tool_usage (program : list Z) : list Z :=
  line "Usage: " (program ++ str " <command> [options]") ++
  line "Commands:" [] ++
  line "  status                    - Show current status" [] ++
  line "  enable                    - Enable packet processing" [] ++
  line "  disable                   - Disable packet processing" [] ++
  line "  config <ip> <port> <proto> [multicast <group>]" [] ++
  line "                            - Set target configuration" [] ++
  line "  stats                     - Show statistics" [] ++
  line "  reset                     - Reset statistics" [] ++
  line "  clear-connections         - Clear TCP connections" [] ++
  newline ++ line "Example:" [] ++
  line "  " (program ++ str " config 192.168.1.100 8080 udp multicast 239.1.1.1").

(** The buffer at address [addr] after a call during which the module's writes
    to user memory grew from [before] to [after] (most recent first). *)
Definition received (addr : Z) (before after : list (Z * list Z)) (buf : list Z) : list Z :=
  foldr (fun w b => splice (fst w - addr) (snd w) b) buf
    (take (length after - length before) after).

(** [ioctl(fd, cmd, buf)] with the buffer at address 0: the return value and the
    buffer afterwards, which holds what the module copied to it. What the module
    copies from it is the answer of [copy_from_user]. *)
Definition ioctl (cmd : Z) (buf : list Z) : M (Z * list Z) :=
  before ← gets user_writes;
  ret ← nanonet_ioctl cmd 0;
  after ← gets user_writes;
  mret (if ret <? 0 then -1 else ret, received 0 before after buf).

(** The statistics part of [status] and [stats], from the buffer. *)
Definition print_stats (buf : list Z) : M (list Z) :=
  processed ← deref (load 8 buf 0);
  bypassed ← deref (load 8 buf 8);
  responses ← deref (load 8 buf 16);
  errs ← deref (load 8 buf 24);
  tmin ← deref (load 8 buf 40);
  tmax ← deref (load 8 buf 48);
  tavg ← deref (load 8 buf 56);
  active ← deref (load 8 buf 64);
  dropped ← deref (load 8 buf 72);
  mret (line "Packets Processed: " (fmt_d (s64 processed)) ++
    line "Packets Bypassed: " (fmt_d (s64 bypassed)) ++
    line "Responses Sent: " (fmt_d (s64 responses)) ++
    line "Errors: " (fmt_d (s64 errs)) ++
    line "Active Connections: " (fmt_d (s64 active)) ++
    line "Dropped Connections: " (fmt_d (s64 dropped)) ++
    line "Min Process Time: " (fmt_u tmin ++ str " ns") ++
    line "Max Process Time: " (fmt_u tmax ++ str " ns") ++
    line "Avg Process Time: " (fmt_u tavg ++ str " ns")).

Definition print_config (buf : list Z) : M (list Z) :=
  enabled ← deref (load32 buf 0);
  target_ip ← deref (load32 buf 4);
  target_port ← deref (load16 buf 8);
  protocol ← deref (load8 buf 10);
  multicast ← deref (load32 buf 20);
  group ← deref (load32 buf 24);
  mret (line "NanoNet Module Status:" [] ++
    line "Enabled: " (str (if enabled =? 0 then "No" else "Yes")) ++
    line "Target IP: " (fmt_pI4 target_ip) ++
    line "Target Port: " (fmt_u (ntohs target_port)) ++
    line "Protocol: " (str (if protocol =? 6 then "TCP" else "UDP")) ++
    line "Multicast: " (str (if multicast =? 0 then "No" else "Yes")) ++
    (if multicast =? 0 then [] else line "Multicast Group: " (fmt_pI4 group)) ++
    newline ++ line "Statistics:" []).

(** An uninitialised [struct ull_config] and [struct ull_stats] on the stack. *)
Variable stack_config stack_stats : list Z.

Definition cmd_status : M (Z * list Z) :=
  '(ret, config) ← ioctl TOOL_IOC_GET_CONFIG stack_config;
  if ret <? 0 then mret (1, []) else
  '(ret, stats) ← ioctl TOOL_IOC_GET_STATS stack_stats;
  if ret <? 0 then mret (1, []) else
  a ← print_config config;
  b ← print_stats stats;
  mret (0, a ++ b).

(** [enable] and [disable]: read, set the flag, write back. *)
Definition cmd_enable (enabled : Z) (done_text : string) : M (Z * list Z) :=
  '(ret, config) ← ioctl TOOL_IOC_GET_CONFIG stack_config;
  if ret <? 0 then mret (1, []) else
  '(ret, _) ← ioctl TOOL_IOC_SET_CONFIG (le_encode 4 enabled ++ drop 4 config);
  if ret <? 0 then mret (1, []) else mret (0, line done_text []).

(** The configuration that [config] builds from its arguments, or the message
    it fails with; [None] is the use of a NULL argument. [argc] counts the
    program name; [argv] is indexed as in C. *)
Definition build_config (argc : Z) (argv : nat -> option (list Z)) : option (tool_config + list Z) :=
  ip ← argv 2%nat; port ← argv 3%nat; proto ← argv 4%nat;
  match inet_aton ip with
  | None => Some (inr (line "Invalid IP address: " ip))
  | Some target_ip =>
      let config protocol multicast group := Build_tool_config 0 target_ip (htons (u16 (atoi port)))
        protocol target_ip (htons 9999) 0 multicast group in
      if negb (streq proto (str "tcp") || streq proto (str "udp")) then
        Some (inr (line "Invalid protocol: " (proto ++ str " (use 'tcp' or 'udp')")))
      else
      let protocol := if streq proto (str "tcp") then 6 else 17 in
      if (argc =? 6) && streq proto (str "udp") &&
         match argv 5%nat with Some a => streq a (str "multicast") | None => false end
      then
        group_arg ← argv 6%nat;
        match inet_aton group_arg with
        | None => Some (inr (line "Invalid multicast group: " group_arg))
        | Some group => Some (inl (config protocol 1 group))
        end
      else Some (inl (config protocol 0 0))
  end.

Definition cmd_config (argc : Z) (argv : nat -> option (list Z)) (program : list Z) : M (Z * list Z) :=
  let usage := line "Usage: " (program ++ str " config <ip> <port> <proto> [multicast <group>]") in
  if argc <? 5 then mret (1, usage) else
  proto ← non_null (argv 4%nat);
  if streq proto (str "multicast") && negb (argc =? 6) then mret (1, usage) else
  r ← non_null (build_config argc argv);
  match r with
  | inr msg => mret (1, msg)
  | inl config =>
      '(ret, _) ← ioctl TOOL_IOC_SET_CONFIG (enc_tool_config config);
      if ret <? 0 then mret (1, []) else mret (0, line "Configuration updated" [])
  end.

Definition cmd_stats : M (Z * list Z) :=
  '(ret, stats) ← ioctl TOOL_IOC_GET_STATS stack_stats;
  if ret <? 0 then mret (1, []) else
  b ← print_stats stats;
  mret (0, line "Statistics:" [] ++ b).

Definition cmd_simple (cmd : Z) (done_text : string) : M (Z * list Z) :=
  '(ret, _) ← ioctl cmd [];
  if ret <? 0 then mret (1, []) else mret (0, line done_text []).

(** [main]: [args] is [argv[0]], ..., [argv[argc - 1]]. *)
Definition tool_main (args : list (list Z)) : M (Z * list Z) :=
  let argc := zlen args in
  let argv := fun i => args !! i in
  program ← non_null (argv 0%nat);
  if argc <? 2 then mret (1, tool_usage program) else
  fd ← nanonet_open;
  if fd <? 0 then mret (1, []) else
  command ← non_null (argv 1%nat);
  if streq command (str "status") then cmd_status
  else if streq command (str "enable") then cmd_enable 1 "Module enabled"
  else if streq command (str "disable") then cmd_enable 0 "Module disabled"
  else if streq command (str "config") then cmd_config argc argv program
  else if streq command (str "stats") then cmd_stats
  else if streq command (str "reset") then cmd_simple TOOL_IOC_RESET_STATS "Statistics reset"
  else if streq command (str "clear-connections") then
    cmd_simple TOOL_IOC_CLEAR_CONNECTIONS "TCP connections cleared"
  else mret (1, line "Unknown command: " command ++ tool_usage program).
End ControlTool.

(** ** Properties *)

(** The statistics within their C types. *)
Record stats_typed (st : ull_stats) : Prop := {
  sy_processed : is_s64 (packets_processed st);
  sy_bypassed : is_s64 (packets_bypassed st);
  sy_responses : is_s64 (responses_sent st);
  sy_errors : is_s64 (errors st);
  sy_min : in_width 64 (min_process_time_ns st);
  sy_max : in_width 64 (max_process_time_ns st);
  sy_avg : in_width 64 (avg_process_time_ns st);
  sy_active : is_s64 (connections_active st);
  sy_dropped : is_s64 (connections_dropped st);
}.

(** The text the tool should print for given statistics. *)
Definition stats_text (st : ull_stats) : list Z :=
  line "Packets Processed: " (fmt_d (packets_processed st)) ++
  line "Packets Bypassed: " (fmt_d (packets_bypassed st)) ++
  line "Responses Sent: " (fmt_d (responses_sent st)) ++
  line "Errors: " (fmt_d (errors st)) ++
  line "Active Connections: " (fmt_d (connections_active st)) ++
  line "Dropped Connections: " (fmt_d (connections_dropped st)) ++
  line "Min Process Time: " (fmt_u (min_process_time_ns st) ++ str " ns") ++
  line "Max Process Time: " (fmt_u (max_process_time_ns st) ++ str " ns") ++
  line "Avg Process Time: " (fmt_u (avg_process_time_ns st) ++ str " ns").

Lemma s64_of_bytes x : is_s64 x -> s64 (le_decode (le_encode 8 x)) = x.
Proof.
  intros Hx. rewrite le_decode_encode. unfold is_s64 in Hx. unfold swrap.
  change (256 ^ Z.of_nat 8) with (2 ^ 64). change (2 ^ (64 - 1)) with (2 ^ 63).
  rewrite Zplus_mod_idemp_l, Z.mod_small; [lia|].
  change (2 ^ 64) with (2 ^ 63 + 2 ^ 63). lia.
Qed.

Section Tool.
Context {W B : Type} `{!KernelEnv W, !KernelLaws W}.
Implicit Types s : kstate W B.
Variable inet_aton : list Z -> option Z.
Variable stack_config stack_stats : list Z.

Lemma print_stats_run st rest s :
  stats_typed st -> print_stats (enc_stats st ++ rest) s = Done (stats_text st, s).
Proof.
  intros []. unfold print_stats.
  assert (forall off x k (f : Z -> M W B (list Z)),
    0 <= off -> off + 8 <= 80 -> load 8 (enc_stats st) off = Some (le_decode (le_encode 8 x)) ->
    f (le_decode (le_encode 8 x)) s = k ->
    (v ← deref (load 8 (enc_stats st ++ rest) off); f v) s = k) as Hload.
  { intros off x k f H1 H2 E Hk. rewrite <- (load_app_l _ _ rest) in E by (exact H2 || done).
    by rewrite (deref_bind _ _ _ _ E). }
  do 9 (eapply Hload; [done|done|reflexivity|]). unfold stats_text.
  rewrite !s64_of_bytes, !(le_roundtrip 8) by done. done.
Qed.

(** An ioctl the module does not know. *)
Lemma ioctl_refused cmd buf s :
  is_ioctl cmd = false -> exists s', ioctl cmd buf s = Done ((-1, buf), s') /\ logged s s'.
Proof.
  intros H. unfold ioctl. run_simpl. destruct (ioctl_unknown cmd 0 s H) as (s' & E & Hl).
  rewrite (bind_run _ _ _ _ _ E). run_simpl. exists s'. split; [|done].
  unfold received. keep (logged_frame [] _ _ Hl) FUser. by rewrite Nat.sub_diag.
Qed.

(** Reading the statistics into a buffer. *)
Lemma ioctl_get_stats_run buf s :
  fst (copy_to_user 0 (enc_stats (global_stats s)) (world s)) = 0 ->
  exists s', ioctl TOOL_IOC_GET_STATS buf s =
      Done ((0, enc_stats (global_stats s) ++ drop 80 buf), s') /\
    logged (set_user_writes ((0, enc_stats (global_stats s)) :: user_writes s) s) s'.
Proof.
  intros Hcopy.
  destruct (ioctl_get_run global_stats enc_stats 0 (str "Failed to copy stats to user") s)
    as (r & s' & E & Hr & Hl).
  rewrite Hcopy, Z.sub_0_r, take_ge in Hl by (unfold zlen; lia). rewrite Hcopy in Hr. simpl in Hr.
  subst r. exists s'. split; [|done]. unfold ioctl. run_simpl.
  assert (nanonet_ioctl TOOL_IOC_GET_STATS 0 s = Done (0, s')) as E' by exact E.
  rewrite (bind_run _ _ _ _ _ E'). run_simpl. unfold received.
  assert (user_writes s' = (0, enc_stats (global_stats s)) :: user_writes s) as ->.
  { etransitivity; [apply (logged_frame [] _ _ Hl FUser); set_solver|by destruct s]. }
  cbn [length]. rewrite Nat.sub_succ_l, Nat.sub_diag by done. reflexivity.
Qed.

Lemma open_run s : nanonet_open s = Done (if capable_net_admin (world s) then 0 else - EPERM, s).
Proof. done. Qed.

Lemma get_config_fails (k : list Z -> M W B (Z * list Z)) s :
  exists s', ('(ret, config) ← ioctl TOOL_IOC_GET_CONFIG stack_config;
    if ret <? 0 then mret (1, []) else k config) s = Done ((1, []), s') /\ logged s s'.
Proof.
  destruct (ioctl_refused TOOL_IOC_GET_CONFIG stack_config s) as (s' & E & Hl); [reflexivity|].
  rewrite (bind_run _ _ _ _ _ E). by exists s'.
Qed.

Lemma cmd_config_fails program rest s :
  (forall ip port, rest = [ip; port; str "udp"; str "multicast"] -> inet_aton ip = None) ->
  exists out s', cmd_config inet_aton (zlen (program :: str "config" :: rest))
      (fun i => (program :: str "config" :: rest) !! i) program s = Done ((1, out), s') /\
    logged s s'.
Proof.
  intros Hm. unfold cmd_config. rewrite !zlen_cons.
  destruct (Z.ltb_spec (1 + (1 + zlen rest)) 5); [by eexists _, s|].
  destruct rest as [|ip [|port [|proto rest]]]; try (exfalso; unfold zlen in *; simpl in *; lia).
  cbn [lookup list_lookup non_null]. run_simpl.
  destruct (streq proto (str "multicast") && _); [by eexists _, s|].
  unfold build_config. cbn [lookup list_lookup mbind option_bind].
  destruct (inet_aton ip) as [addr|] eqn:Ha; [|by eexists _, s].
  destruct (negb _); [by eexists _, s|].
  destruct ((_ =? 6) && _ && _) eqn:Hc.
  { exfalso. apply andb_true_iff in Hc as [Hc Hx]. apply andb_true_iff in Hc as [Hc Hu].
    apply bool_decide_eq_true in Hu as ->. apply Z.eqb_eq in Hc.
    destruct rest as [|x [|y rest]]; [done| |rewrite !zlen_cons in Hc; pose proof (zlen_nonneg rest); lia].
    apply bool_decide_eq_true in Hx as ->. by rewrite (Hm ip port eq_refl) in Ha. }
  cbn [non_null]. run_simpl.
  match goal with |- context [enc_tool_config ?c] =>
    destruct (ioctl_refused TOOL_IOC_SET_CONFIG (enc_tool_config c) s) as (s' & E & Hl) end;
    [reflexivity|].
  rewrite (bind_run _ _ _ _ _ E). by eexists _, s'.
Qed.

(** C35: the tool cannot read or change the module's configuration. Its
    [struct ull_config] is 28 bytes, the module's is 32, and the size is part of
    the ioctl number: [status], [enable], [disable] and [config], with any
    arguments but one form, exit with code 1 and change nothing but the error
    log. The exception is [config <ip> <port> udp multicast] with a valid
    address, which uses the missing argument after it. *)
Theorem tool_cannot_configure program command rest s :
  (command ∈ [str "status"; str "enable"; str "disable"] \/
   (command = str "config" /\
    forall ip port, rest = [ip; port; str "udp"; str "multicast"] -> inet_aton ip = None)) ->
  exists out s', tool_main inet_aton stack_config stack_stats (program :: command :: rest) s =
    Done ((1, out), s') /\ logged s s'.
Proof.
  intros H. unfold tool_main. cbn [lookup list_lookup non_null]. run_simpl.
  rewrite (proj2 (Z.ltb_ge _ _)) by (rewrite !zlen_cons; pose proof (zlen_nonneg rest); lia).
  rewrite (bind_run _ _ _ _ _ (open_run s)).
  destruct (capable_net_admin (world s)); [|by exists [], s].
  change (0 <? 0) with false. cbv iota. run_simpl.
  destruct H as [H|(-> & Hm)].
  - rewrite !elem_of_cons in H. destruct H as [-> |[-> |[-> |H]]]; [| | |by apply not_elem_of_nil in H].
    + destruct (get_config_fails (fun config =>
        '(ret, stats) ← ioctl TOOL_IOC_GET_STATS stack_stats;
        if ret <? 0 then mret (1, []) else
        a ← print_config config; b ← print_stats stats; mret (0, a ++ b)) s) as (s' & E & Hl).
      by exists [], s'.
    + destruct (get_config_fails (fun config =>
        '(ret, _) ← ioctl TOOL_IOC_SET_CONFIG (le_encode 4 1 ++ drop 4 config);
        if ret <? 0 then mret (1, []) else mret (0, line "Module enabled" [])) s) as (s' & E & Hl).
      by exists [], s'.
    + destruct (get_config_fails (fun config =>
        '(ret, _) ← ioctl TOOL_IOC_SET_CONFIG (le_encode 4 0 ++ drop 4 config);
        if ret <? 0 then mret (1, []) else mret (0, line "Module disabled" [])) s) as (s' & E & Hl).
      by exists [], s'.
  - by apply cmd_config_fails.
Qed.

(** C34: [stats] works: for a privileged user whose buffer can be written it
    prints exactly the module's statistics, as the module copied them to the
    tool's buffer, exits with code 0 and leaves the module's state alone. *)
Theorem tool_stats_correct program s :
  capable_net_admin (world s) = true -> stats_typed (global_stats s) ->
  fst (copy_to_user 0 (enc_stats (global_stats s)) (world s)) = 0 ->
  exists s', tool_main inet_aton stack_config stack_stats [program; str "stats"] s =
    Done ((0, line "Statistics:" [] ++ stats_text (global_stats s)), s') /\
    logged (set_user_writes ((0, enc_stats (global_stats s)) :: user_writes s) s) s'.
Proof.
  intros Hadm Hty Hcopy. unfold tool_main. cbn [lookup list_lookup non_null]. run_simpl.
  change (zlen [program; str "stats"] <? 2) with false. cbv iota.
  rewrite (bind_run _ _ _ _ _ (open_run s)), Hadm.
  change (0 <? 0) with false. cbv iota. run_simpl.
  change (streq (str "stats") (str "status")) with false.
  change (streq (str "stats") (str "enable")) with false.
  change (streq (str "stats") (str "disable")) with false.
  change (streq (str "stats") (str "config")) with false.
  change (streq (str "stats") (str "stats")) with true. cbv iota. unfold cmd_stats.
  destruct (ioctl_get_stats_run stack_stats s Hcopy) as (s' & E & Hl).
  rewrite (bind_run _ _ _ _ _ E). exists s'. split; [|done]. cbn [Z.ltb Z.compare].
  by rewrite (bind_run _ _ _ _ _ (print_stats_run _ _ s' Hty)).
Qed.
End Tool.

(** C36: the documented multicast invocation [config <ip> <port> udp multicast
    <group>] does not select multicast: the group is ignored and the
    configuration is built without it. The invocation with five words that the
    code accepts instead reads a missing argument. *)
Theorem tool_multicast_ignored inet_aton program ip port group addr :
  inet_aton ip = Some addr ->
  (exists c, build_config inet_aton 7
     (fun i => [program; str "config"; ip; port; str "udp"; str "multicast"; group] !! i) =
     Some (inl c) /\ tc_multicast c = 0 /\ tc_multicast_group c = 0) /\
  build_config inet_aton 6
     (fun i => [program; str "config"; ip; port; str "udp"; str "multicast"] !! i) = None.
Proof.
  intros Ha. unfold build_config. cbn [lookup list_lookup mbind option_bind]. rewrite Ha.
  split; [|reflexivity]. eexists. split; [reflexivity|]. split; reflexivity.
Qed.

(** ** Runs *)

(** An [inet_aton] that knows one address. *)
Definition one_address (s : list Z) : option Z :=
  if streq s (str "192.168.1.100") then Some (le_decode [192; 168; 1; 100]) else None.

(** The documented multicast invocation. *)
Lemma tool_cannot_configure_witness :
  exists out s', tool_main one_address (replicate 28 0xAA) (replicate 80 0xAA)
      [str "nanonet_control"; str "config"; str "192.168.1.100"; str "8080"; str "udp";
       str "multicast"; str "239.1.1.1"] sim_loaded =
    Done ((1, out), s') /\ logged sim_loaded s'.
Proof.
  apply tool_cannot_configure. right. split; [reflexivity|]. intros ip port H. discriminate H.
Defined.

(** The statistics of a module with one connection. *)
Lemma tool_stats_correct_witness :
  exists s', tool_main one_address (replicate 28 0xAA) (replicate 80 0xAA)
      [str "nanonet_control"; str "stats"] one_connection =
    Done ((0, line "Statistics:" [] ++
              stats_text (map_connections_active (fun _ => 1) global_stats_init)), s').
Proof.
  assert (global_stats one_connection = map_connections_active (fun _ => 1) global_stats_init) as Hst
    by (vm_compute; reflexivity).
  destruct (tool_stats_correct one_address (replicate 28 0xAA) (replicate 80 0xAA)
    (str "nanonet_control") one_connection) as (s' & E & _).
  - vm_compute. reflexivity.
  - rewrite Hst. split; split; reflexivity || discriminate.
  - vm_compute. reflexivity.
  - exists s'. rewrite <- Hst. exact E.
Defined.

Lemma tool_multicast_ignored_witness :
  build_config one_address 6
    (fun i => [str "nanonet_control"; str "config"; str "192.168.1.100"; str "8080"; str "udp";
               str "multicast"] !! i) = None.
Proof.
  refine (proj2 (tool_multicast_ignored one_address _ _ _ [] (le_decode [192; 168; 1; 100]) _)).
  reflexivity.
Defined.
