(* ===== verification/PacketGenerator.v ===== *)
(** * tools/packet_generator.c: the test traffic generator

    [main] as a function of its arguments and of the answers of the socket
    layer: the exit code and the payloads handed to the socket. *)

From S2P Require Import Prelude Headers Kernel Sim Debug MicroStack Optimizations ResponseSender.
From S2P Require Import PacketProcessor ControlInterface ControlTool.

(** ** The code *)

(** Big-endian 64-bit value, as [htobe64] leaves it in memory. *)
Definition enc_be64 (x : Z) : list Z := be_encode 8 (u64 x).

(** The packet of iteration [i] at time [now] (in seconds): [price] and
    [quantity] are stored with [htonl], the timestamp with [htobe64]. *)
Definition packet (now i : Z) : list Z :=
  str "AAPL    " ++ le_encode 4 (htonl 9999) ++ le_encode 4 (htonl 1000) ++
  enc_be64 (u64 (now * 1000000000) + i * 1000000).

(** The socket layer: what [socket], [setsockopt], [connect], the [i]-th send
    and the [i]-th [time] return. *)
Record sockets := {
  sk_socket : Z;
  sk_join : Z;
  sk_connect : Z;
  sk_send : Z -> Z;
  sk_time : Z -> Z;
}.

(** The send loop from iteration [i], [n] to go. *)
Fixpoint send_loop (sk : sockets) (n : nat) (i : Z) : list (list Z) :=
  match n with
  | O => []
  | S n' =>
      let p := packet (sk_time sk i) i in
      if sk_send sk i <? 0 then [] else p :: send_loop sk n' (i + 1)
  end.

Section Generator.
Variable inet_aton : list Z -> option Z.

Definition generator_usage (program : list Z) : list Z :=
  line "Usage: " (program ++ str " <ip> <port> <protocol> [multicast <group>]") ++
  line "Example: " (program ++ str " 192.168.1.100 8080 udp multicast 239.1.1.1").

(** The result: exit code, output, destination address and port (network
    order), payloads sent. [None] is the use of a NULL argument. *)
Definition generator_main (sk : sockets) (args : list (list Z)) :
    option (Z * list Z * option (Z * Z) * list (list Z)) :=
  let argc := zlen args in
  program ← args !! 0%nat;
  if argc <? 4 then Some (1, generator_usage program, None, []) else
  ip ← args !! 1%nat; port ← args !! 2%nat; proto ← args !! 3%nat;
  if streq proto (str "multicast") && negb (argc =? 5) then
    Some (1, generator_usage program, None, [])
  else if negb (streq proto (str "tcp") || streq proto (str "udp")) then
    Some (1, line "Invalid protocol: " proto, None, [])
  else if sk_socket sk <? 0 then Some (1, [], None, [])
  else
  let sin_port := htons (u16 (atoi port)) in
  match inet_aton ip with
  | None => Some (1, line "Invalid IP address: " ip, None, [])
  | Some sin_addr =>
      let finish (addr : Z) :=
        if streq proto (str "tcp") && (sk_connect sk <? 0) then Some (1, [], None, [])
        else Some (0, [], Some (addr, sin_port), send_loop sk 1000 0) in
      if (argc =? 5) && streq proto (str "udp") &&
         match args !! 4%nat with Some a => streq a (str "multicast") | None => false end
      then
        group_arg ← args !! 5%nat;
        match inet_aton group_arg with
        | None => Some (1, line "Invalid multicast group: " group_arg, None, [])
        | Some group => if sk_join sk <? 0 then Some (1, [], None, []) else finish group
        end
      else finish sin_addr
  end.
End Generator.

(** ** Properties *)

Lemma packet_length now i : zlen (packet now i) = 24.
Proof. unfold packet, enc_be64, be_encode. rewrite !zlen_app. unfold zlen. by rewrite length_reverse. Qed.

(** The price as the module reads it: the bytes of [htonl(9999)] in host
    order. *)
Lemma packet_price now i : load32 (packet now i) 8 = Some (htonl 9999).
Proof.
  unfold packet. change 8 with (zlen (str "AAPL    ") + 0).
  rewrite load_app_r by lia. rewrite load_app_l by (vm_compute; discriminate). reflexivity.
Qed.

Lemma send_loop_packets sk n i p :
  p ∈ send_loop sk n i -> exists now j, p = packet now j.
Proof.
  revert i. induction n as [|n IH]; intros i; simpl; [by intros ?%not_elem_of_nil|].
  destruct (_ <? 0); [by intros ?%not_elem_of_nil|]. intros [->|H]%elem_of_cons; [eauto|]. by eapply IH.
Qed.

Lemma send_loop_length sk n i :
  (forall j, 0 <= sk_send sk j) -> length (send_loop sk n i) = n.
Proof.
  intros H. revert i. induction n as [|n IH]; intros i; simpl; [done|].
  rewrite (proj2 (Z.ltb_ge _ _)) by apply H. simpl. by rewrite IH.
Qed.

(** C37: every payload the generator sends, in any invocation, is a well-formed
    24-byte market-data message that does not trigger an order: the price is
    written in network order and read in host order, where 9999 becomes
    254214144, far above the threshold of 10000. The application logic returns 0
    and leaves the state unchanged. *)
Theorem generator_triggers_no_order {W B} `{!KernelEnv W, !SkbOps B} inet_aton sk args
    code out dst payloads p (s : kstate W B) :
  generator_main inet_aton sk args = Some (code, out, dst, payloads) -> p ∈ payloads ->
  cfg_application_logic_type (global_config s) = 0 ->
  zlen p = 24 /\ nanonet_process_application_logic (Some p) 24 s = Done (0, s).
Proof.
  intros Hm Hp Ht.
  assert (exists now i, p = packet now i) as (now & i & ->).
  { unfold generator_main in Hm. cbv zeta in Hm.
    pose proof (send_loop_packets sk 1000 0 p) as Hloop.
    set (sent_list := send_loop sk 1000 0) in *. clearbody sent_list.
    repeat (lazymatch type of Hm with
    | Some _ = Some _ => injection Hm as <- <- <- <-
    | None = Some _ => discriminate Hm
    | (mbind _ ?o) = Some _ => destruct o; cbn [mbind option_bind] in Hm
    | (if ?b then _ else _) = Some _ => destruct b
    | match ?o with Some _ => _ | None => _ end = Some _ => destruct o
    end); try (by apply not_elem_of_nil in Hp); auto. }
  split; [apply packet_length|].
  apply (high_price_run s _ 24 (htonl 9999)); [done|lia|apply packet_price|by vm_compute].
Qed.

(** ** Runs *)

Definition good_sockets : sockets :=
  Build_sockets 3 0 0 (fun _ => 24) (fun i => 1700000000 + i / 1000).

(** The documented multicast invocation has six words; the group is ignored
    and the packets go to the unicast address. *)
Lemma generator_run :
  exists payloads, generator_main one_address good_sockets
    [str "packet_generator"; str "192.168.1.100"; str "8080"; str "udp"; str "multicast";
     str "239.1.1.1"] =
    Some (0, [], Some (le_decode [192; 168; 1; 100], htons 8080), payloads) /\
    length payloads = 1000%nat /\ packet 1700000000 0 ∈ payloads.
Proof.
  exists (send_loop good_sockets 1000 0). split; [reflexivity|].
  split; [by apply send_loop_length|]. apply elem_of_cons. by left.
Qed.

Lemma generator_triggers_no_order_witness :
  nanonet_process_application_logic (Some (packet 1700000000 0)) 24 sim_loaded = Done (0, sim_loaded).
Proof.
  destruct generator_run as (payloads & E & _ & Hin).
  refine (proj2 (generator_triggers_no_order one_address good_sockets _ _ _ _ payloads
    (packet 1700000000 0) sim_loaded E Hin _)).
  reflexivity.
Defined.
